(** * The parallel transaction engine of moeingevm (package [ebp], engine.go)

    A shallow embedding of the engine: the frontier, the account preloader,
    the reorderer, the gas-fee deductor, the standby queue, the round
    executor and the conflict resolver, followed by the properties proved
    about them.

    Conventions.
    - A Go [uint64] is a [Z] kept in [0, 2^64) by [u64]; a [uint256.Int] is a
      [Z] kept in [0, 2^256) by [u256].
    - A Go pointer that may be nil is an [option]; dereferencing nil is the
      fault [Panic].
    - A Go map is a [gmap]; a nil map is [None] (reads answer the zero
      value, writes fault).
    - Goroutines of a fork-join section work on disjoint data; the section
      is run slot by slot, and where the distribution of work is decided by
      the race on the shared counter it is a parameter of the model. *)

From Stdlib Require Import ZArith Lia.
From stdpp Require Import gmap strings list fin_maps.

#[local] Set Warnings "-clear-no-such-hyp".
Local Open Scope Z_scope.

(** ** Machine integers *)

Definition u64 (x : Z) : Z := x mod 2 ^ 64.
Definition u256 (x : Z) : Z := x mod 2 ^ 256.

(** big.Int.IsInt64, and the conversions int64(x) and int(x) of a uint64
    (int is 64 bits wide): values from 2^63 on read as negative. *)
Definition IsInt64 (x : Z) : bool := (- 2 ^ 63 <=? x) && (x <? 2 ^ 63).
Definition toInt64 (x : Z) : Z := if x <? 2 ^ 63 then x else x - 2 ^ 64.

Abbreviation Address := Z (only parsing).
Abbreviation Hash32 := Z (only parsing).
Abbreviation Bytes := (list Z) (only parsing).

(** ** Faults *)

Inductive GoResult (A : Type) : Type :=
| Ok (a : A)
| Panic (msg : string).
Arguments Ok {A} a.
Arguments Panic {A} msg.

Definition bindR {A B} (r : GoResult A) (k : A -> GoResult B) : GoResult B :=
  match r with
  | Ok a => k a
  | Panic m => Panic m
  end.

Notation "'try!' x ':=' r 'in' k" := (bindR r (fun x => k))
  (at level 10, x name, r at level 100, k at level 200).
Notation "'try!' ' p ':=' r 'in' k" :=
  (bindR r (fun x => match x with p => k end))
  (at level 10, p pattern, r at level 100, k at level 200).

(** [l[i]] and [l[i] = x] on a slice; out of range faults. *)
Definition index {A} (l : list A) (i : nat) : GoResult A :=
  match l !! i with
  | Some a => Ok a
  | None => Panic "index out of range"
  end.

Definition setIndex {A} (l : list A) (i : nat) (x : A) : GoResult (list A) :=
  if decide (i < length l)%nat
  then Ok (<[i := x]> l)
  else Panic "index out of range".

(** [for idx, a := range l] from index [i], with a body that may fault. *)
Fixpoint forRange {A St} (body : nat -> A -> St -> GoResult St) (i : nat)
         (l : list A) (s : St) : GoResult St :=
  match l with
  | [] => Ok s
  | a :: rest => try! s' := body i a s in forRange body (S i) rest s'
  end.

(** [*p] for a pointer [p]. *)
Definition deref {A} (p : option A) : GoResult A :=
  match p with
  | Some a => Ok a
  | None => Panic "invalid memory address or nil pointer dereference"
  end.

(** [m[k]] with the comma-ok form; a nil map reads as empty. *)
Definition mapGet {V} (zero : V) (m : option (gmap Z V)) (k : Z) : V * bool :=
  match m with
  | Some g => match g !! k with
              | Some v => (v, true)
              | None => (zero, false)
              end
  | None => (zero, false)
  end.

(** [m[k] = v]; assignment to an entry of a nil map faults. *)
Definition mapSet {V} (m : option (gmap Z V)) (k : Z) (v : V)
  : GoResult (option (gmap Z V)) :=
  match m with
  | Some g => Ok (Some (<[k := v]> g))
  | None => Panic "assignment to entry in nil map"
  end.

(** ** Frontier (engine.go, lines 78-154) *)

Module Frontier.

Record frontier : Type := mkFrontier {
  addr2nonce : option (gmap Z Z);
  addr2Balance : option (gmap Z (option Z));
  addr2Gas : option (gmap Z Z)
}.

Definition GetLatestNonce (nm : option frontier) (addr : Address)
  : GoResult (Z * bool) :=
  match nm with
  | None => Ok (0, false)
  | Some _ =>
      try! f := deref nm in
      Ok (mapGet 0 (addr2nonce f) addr)
  end.

Definition SetLatestNonce (nm : option frontier) (addr : Address) (newNonce : Z)
  : GoResult (option frontier) :=
  match nm with
  | None => Ok nm
  | Some _ =>
      try! f := deref nm in
      try! m := mapSet (addr2nonce f) addr newNonce in
      Ok (Some (mkFrontier m (addr2Balance f) (addr2Gas f)))
  end.

Definition GetLatestBalance (nm : option frontier) (addr : Address)
  : GoResult (option Z * bool) :=
  match nm with
  | None => Ok (None, false)
  | Some _ =>
      try! f := deref nm in
      Ok (mapGet None (addr2Balance f) addr)
  end.

Definition SetLatestBalance (nm : option frontier) (addr : Address)
           (balance : option Z) : GoResult (option frontier) :=
  match nm with
  | None => Ok nm
  | Some _ =>
      try! f := deref nm in
      try! m := mapSet (addr2Balance f) addr balance in
      Ok (Some (mkFrontier (addr2nonce f) m (addr2Gas f)))
  end.

Definition GetLatestTotalGas (nm : option frontier) (addr : Address)
  : GoResult (Z * bool) :=
  match nm with
  | None => Ok (0, false)
  | Some _ =>
      try! f := deref nm in
      Ok (mapGet 0 (addr2Gas f) addr)
  end.

Definition SetLatestTotalGas (nm : option frontier) (addr : Address) (gasLimit : Z)
  : GoResult (option frontier) :=
  match nm with
  | None => Ok nm
  | Some _ =>
      try! f := deref nm in
      try! m := mapSet (addr2Gas f) addr gasLimit in
      Ok (Some (mkFrontier (addr2nonce f) (addr2Balance f) m))
  end.

Definition GetEmptyFrontier : option frontier :=
  Some (mkFrontier (Some ∅) (Some ∅) (Some ∅)).

End Frontier.

(** ** Data model *)

(** Modelled from the spec: the terminal statuses of a runner are constants
    of package [types], which is not under src/; the spec (section 3) gives
    the closed domain, every other EVM terminal being OTHER_EVM_FAILURE with
    its code. A freshly made runner has the zero status, which is SUCCESS. *)
Inductive TxStatus : Type :=
| SUCCESS
| REVERTED
| ACCOUNT_NOT_EXIST
| TX_NONCE_TOO_SMALL
| TX_NONCE_TOO_LARGE
| FAILED_TO_COMMIT
| OTHER_EVM_FAILURE (code : Z).

Global Instance TxStatus_eq_dec : EqDecision TxStatus.
Proof. solve_decision. Defined.

(** gethtypes.ReceiptStatusFailed and gethtypes.ReceiptStatusSuccessful. *)
Definition ReceiptStatusFailed : Z := 0.
Definition ReceiptStatusSuccessful : Z := 1.

Definition DefaultTxGasLimit : Z := 10000000.
Definition Sep206Address : Address := 0x2711.
(** The last six bytes are the ASCII of "system", the last nine of
    "blackhole". *)
Definition systemContractAddress : Address := 0x73797374656d.
Definition blackHoleContractAddress : Address := 0x626c61636b686f6c65.

Module TxToRun.
(** types.TxToRun: [Value] and [GasPrice] are the 32-byte big-endian
    fields read as numbers. *)
Record t : Type := mk {
  HashID : Hash32;
  From : Address;
  To : Address;
  Nonce : Z;
  Value : Z;
  GasPrice : Z;
  Gas : Z;
  Data : Bytes;
  Height : Z
}.
End TxToRun.

Definition zeroTxToRun : TxToRun.t := TxToRun.mk 0 0 0 0 0 0 0 [] 0.

Module BlockInfo.
Record t : Type := mk {
  Hash : Hash32;
  Number : Z
}.
End BlockInfo.

Module Transaction.
(** types.Transaction, the committed-tx record; the log fields, which no
    decision of the engine reads, are left out. *)
Record t : Type := mk {
  Hash : Hash32;
  TransactionIndex : Z;
  Nonce : Z;
  BlockHash : Hash32;
  BlockNumber : Z;
  From : Address;
  To : Address;
  Value : Z;
  GasPrice : Z;
  Gas : Z;
  Input : Bytes;
  CumulativeGasUsed : Z;
  GasUsed : Z;
  ContractAddress : Address;
  OutData : Bytes;
  Status : Z;
  StatusStr : string
}.
End Transaction.

(** A signed transaction as CollectTx receives it (gethtypes.Transaction):
    the gas price is a big integer, not yet bounded. *)
Record GethTx : Type := mkGethTx {
  gtx_hash : Hash32;
  gtx_to : Address;
  gtx_nonce : Z;
  gtx_value : Z;
  gtx_gasPrice : Z;
  gtx_gas : Z;
  gtx_data : Bytes;
  gtx_sig : Z
}.

(** types.AccountInfo with its Nonce() and Balance(). *)
Record AccountInfo : Type := mkAccount {
  acc_nonce : Z;
  acc_balance : Z
}.

Definition ZeroAccountInfo : AccountInfo := mkAccount 0 0.

(** The trunk store, by key family: the accounts of the world state, the
    control key StandbyTxQueueKey (16 bytes, start then end, big-endian) and
    the slots GetStandbyTxKey(i), kept under their index i, so that distinct
    indexes are distinct keys and no slot key is the control key. *)
Record Trunk : Type := mkTrunk {
  worldAccounts : gmap Z AccountInfo;
  standbyCtl : option Bytes;
  standbySlots : gmap Z Bytes
}.

(** A copy-on-write context (types.Context over a rabbit store): the
    buffered account writes, and the short keys of all cached entries with
    their dirty flag, as ScanAllShortKeys visits them. Reads that miss the
    buffer go to the trunk the context was copied from. *)
Record Context : Type := mkContext {
  cache : gmap Z AccountInfo;
  shortKeys : list (Bytes * bool)
}.

Definition WithRbtCopy : Context := mkContext ∅ [].

Definition GetAccount (trunk : Trunk) (ctx : Context) (addr : Address)
  : option AccountInfo :=
  match cache ctx !! addr with
  | Some acc => Some acc
  | None => worldAccounts trunk !! addr
  end.

Definition SetAccount (ctx : Context) (addr : Address) (acc : AccountInfo)
  : Context :=
  mkContext (<[addr := acc]> (cache ctx)) (shortKeys ctx).

(** ctx.Close(dirty) and Rbt.CloseAndWriteBack(dirty): the buffered writes
    reach the trunk only when [dirty] is set. *)
Definition Close (trunk : Trunk) (ctx : Context) (dirty : bool) : Trunk :=
  if dirty
  then mkTrunk (cache ctx ∪ worldAccounts trunk) (standbyCtl trunk) (standbySlots trunk)
  else trunk.

Definition CachedEntryCount (ctx : Context) : Z := Z.of_nat (length (shortKeys ctx)).

Module TxRunner.
Record t : Type := mk {
  Ctx : Context;
  Tx : TxToRun.t;
  Status : TxStatus;
  GasUsed : Z;
  FeeRefund : Z;
  CreatedContractAddress : Address;
  OutData : Bytes
}.

Definition withStatus (r : t) (s : TxStatus) : t :=
  mk (Ctx r) (Tx r) s (GasUsed r) (FeeRefund r) (CreatedContractAddress r) (OutData r).
End TxRunner.

Record TxRange : Type := mkTxRange {
  start : Z;
  end_ : Z
}.

(** ** encoding/binary *)

Definition byte (x : Z) : Z := x mod 256.

(** binary.BigEndian.PutUint64 on an 8-byte slice. *)
Definition PutUint64 (v : Z) : Bytes :=
  [byte (v / 2 ^ 56); byte (v / 2 ^ 48); byte (v / 2 ^ 40); byte (v / 2 ^ 32);
   byte (v / 2 ^ 24); byte (v / 2 ^ 16); byte (v / 2 ^ 8); byte v].

(** binary.BigEndian.Uint64: the first 8 bytes of a slice, which faults
    when the slice is shorter. *)
Definition BigEndian_Uint64 (b : Bytes) : GoResult Z :=
  if decide (length b < 8)%nat
  then Panic "index out of range"
  else Ok (fold_left (fun acc x => acc * 256 + x) (take 8 b) 0).

(** binary.LittleEndian.Uint64 on a short key: rabbit.KeySize is 8, so the
    64-bit prefix is the whole short key. *)
Definition LittleEndian_Uint64 (key : Bytes) : Z :=
  fold_right (fun x acc => x + 256 * acc) 0 (take 8 key).

(** ** Collaborators *)

(** What runTx writes back into its runner. *)
Record RunOutcome : Type := mkOutcome {
  out_Ctx : Context;
  out_Status : TxStatus;
  out_GasUsed : Z;
  out_FeeRefund : Z;
  out_CreatedContractAddress : Address;
  out_OutData : Bytes
}.

(** The parts of the package and of its imports that are not under src/,
    taken as parameters: the EVM runner [runTx] (it reads the runner's
    context and transaction against the trunk and the block, and writes the
    outcome back), the serialisation of [TxToRun], the runner's GetGasFee,
    and the two status helpers. *)
Class Collaborators : Type := {
  runTx : Trunk -> Context -> TxToRun.t -> option BlockInfo.t -> RunOutcome;
  ToBytes : TxToRun.t -> Bytes;
  FromBytes : Bytes -> TxToRun.t;
  GetGasFee : TxRunner.t -> Z;
  StatusToStr : TxStatus -> string;
  StatusIsFailure : TxStatus -> bool
}.

(** The generator of package mt19937 (New, Seed, Int63), taken as a
    parameter; Int63 answers a non-negative 63-bit value. *)
Class RandSource : Type := {
  rand_state : Type;
  rand_Seed : Z -> rand_state;
  rand_Int63 : rand_state -> Z * rand_state;
  rand_Int63_range : forall g, 0 <= (rand_Int63 g).1 < 2 ^ 63
}.

(** ** The engine *)

Record txEngine : Type := mkEngine {
  roundNum : Z;
  runnerNumber : Z;
  parallelNum : Z;
  (** the clean context has no cache of its own: it is the trunk it views,
      nil until SetContext *)
  cleanCtx : option Trunk;
  txList : list GethTx;
  committedTxs : list Transaction.t;
  (** signer.Sender: the address, and whether it came with an error *)
  signer : GethTx -> Address * bool;
  currentBlock : option BlockInfo.t;
  cumulativeGasUsed : Z;
  cumulativeFeeRefund : option Z;
  cumulativeGasFee : option Z
}.

(** The engine with the package-level slot array [Runners], and two ghost
    logs for stating properties: the trunk after each of its updates, and
    the slots runTx was invoked for, both oldest first. *)
Record Machine : Type := mkMachine {
  exec : txEngine;
  Runners : list (option TxRunner.t);
  updates : list Trunk;
  runs : list nat
}.

Definition setTrunk (e : txEngine) (t : Trunk) : txEngine :=
  mkEngine (roundNum e) (runnerNumber e) (parallelNum e) (Some t) (txList e)
    (committedTxs e) (signer e) (currentBlock e) (cumulativeGasUsed e)
    (cumulativeFeeRefund e) (cumulativeGasFee e).

Definition setCommittedTxs (e : txEngine) (l : list Transaction.t) : txEngine :=
  mkEngine (roundNum e) (runnerNumber e) (parallelNum e) (cleanCtx e) (txList e)
    l (signer e) (currentBlock e) (cumulativeGasUsed e)
    (cumulativeFeeRefund e) (cumulativeGasFee e).

Definition setTxList (e : txEngine) (l : list GethTx) : txEngine :=
  mkEngine (roundNum e) (runnerNumber e) (parallelNum e) (cleanCtx e) l
    (committedTxs e) (signer e) (currentBlock e) (cumulativeGasUsed e)
    (cumulativeFeeRefund e) (cumulativeGasFee e).

Definition setCumulative (e : txEngine) (gasUsed : Z) (feeRefund gasFee : option Z)
  : txEngine :=
  mkEngine (roundNum e) (runnerNumber e) (parallelNum e) (cleanCtx e) (txList e)
    (committedTxs e) (signer e) (currentBlock e) gasUsed feeRefund gasFee.

Definition setCurrentBlock (e : txEngine) (b : option BlockInfo.t) : txEngine :=
  mkEngine (roundNum e) (runnerNumber e) (parallelNum e) (cleanCtx e) (txList e)
    (committedTxs e) (signer e) b (cumulativeGasUsed e)
    (cumulativeFeeRefund e) (cumulativeGasFee e).

(** trunk.Update(fn): the store [t] that [fn] built becomes the trunk, as
    one update. *)
Definition commitUpdate (m : Machine) (t : Trunk) : Machine :=
  mkMachine (setTrunk (exec m) t) (Runners m) (updates m ++ [t]) (runs m).

Definition setExec (m : Machine) (e : txEngine) : Machine :=
  mkMachine e (Runners m) (updates m) (runs m).

Definition setRunners (m : Machine) (rs : list (option TxRunner.t)) : Machine :=
  mkMachine (exec m) rs (updates m) (runs m).

Definition logRun (m : Machine) (idx : nat) : Machine :=
  mkMachine (exec m) (Runners m) (updates m) (runs m ++ [idx]).

(** [Runners[idx]] dereferenced. *)
Definition getRunner (rs : list (option TxRunner.t)) (idx : nat)
  : GoResult TxRunner.t :=
  try! p := index rs idx in deref p.

Definition NewEbpTxExec (exeRoundCount runnerNumber parallelNum defaultTxListCap : Z)
           (s : GethTx -> Address * bool) : GoResult Machine :=
  if (runnerNumber <? 0) || (defaultTxListCap <? 0)
  then Panic "makeslice: len out of range"
  else Ok (mkMachine
             (mkEngine exeRoundCount runnerNumber parallelNum None [] [] s None 0 None None)
             (replicate (Z.to_nat runnerNumber) None) [] []).

Definition SetContext (m : Machine) (ctx : Trunk) : Machine :=
  setExec m (setTrunk (exec m) ctx).

Definition CollectTx (m : Machine) (tx : GethTx) : Machine :=
  setExec m (setTxList (exec m) (txList (exec m) ++ [tx])).

Definition CommittedTxs (m : Machine) : list Transaction.t := committedTxs (exec m).

Definition getCurrHeight (e : txEngine) : Z :=
  match currentBlock e with
  | Some b => u64 (BlockInfo.Number b)
  | None => 0
  end.

(** GasUsedInfo returns the three counters by value. *)
Definition GasUsedInfo (e : txEngine) : GoResult (Z * Z * Z) :=
  match cumulativeGasFee e with
  | None =>
      try! feeRefund := deref (cumulativeFeeRefund e) in
      Ok (cumulativeGasUsed e, feeRefund, 0)
  | Some _ =>
      try! feeRefund := deref (cumulativeFeeRefund e) in
      try! gasFee := deref (cumulativeGasFee e) in
      Ok (cumulativeGasUsed e, feeRefund, gasFee)
  end.

(** ** Standby queue (engine.go, lines 457-477) *)

Definition setStandbyCtl (t : Trunk) (v : Bytes) : Trunk :=
  mkTrunk (worldAccounts t) (Some v) (standbySlots t).

(** store.Set and store.Delete on a slot key, inside an update. *)
Definition slotSet (t : Trunk) (i : Z) (v : Bytes) : Trunk :=
  mkTrunk (worldAccounts t) (standbyCtl t) (<[i := v]> (standbySlots t)).

Definition slotDelete (t : Trunk) (i : Z) : Trunk :=
  mkTrunk (worldAccounts t) (standbyCtl t) (delete i (standbySlots t)).

(** store.Get on a slot key: nil when the slot is empty. *)
Definition slotGet (t : Trunk) (i : Z) : Bytes :=
  default [] (standbySlots t !! i).

(** The decoding of the control value, nil standing for (0, 0). *)
Definition decodeRange (startEnd : option Bytes) : GoResult (Z * Z) :=
  match startEnd with
  | None => Ok (0, 0)
  | Some startEnd =>
      try! s := BigEndian_Uint64 (take 8 startEnd) in
      try! e := BigEndian_Uint64 (drop 8 startEnd) in
      Ok (s, e)
  end.

Definition getStandbyQueueRange (e : txEngine) : GoResult (Z * Z) :=
  try! trunk := deref (cleanCtx e) in
  decodeRange (standbyCtl trunk).

Definition setStandbyQueueRange (m : Machine) (start end_ : Z) : GoResult Machine :=
  let startEnd := PutUint64 start ++ PutUint64 end_ in
  try! trunk := deref (cleanCtx (exec m)) in
  Ok (commitUpdate m (setStandbyCtl trunk startEnd)).

(** StandbyQLen (lines 725-728): int(e - s), the 64-bit difference read as
    a signed integer. *)
Definition StandbyQLen (e : txEngine) : GoResult Z :=
  try! '(s, e) := getStandbyQueueRange e in
  Ok (toInt64 (u64 (e - s))).

(** rabbit's ScanAllShortKeys: the callback sees every cached short key
    with its dirty flag until it answers stop. *)
Fixpoint scanKeys {St} (keys : list (Bytes * bool))
         (fn : Bytes -> bool -> St -> St * bool) (s : St) : St :=
  match keys with
  | [] => s
  | (key, dirty) :: rest =>
      let '(s', stop) := fn key dirty s in
      if stop then s' else scanKeys rest fn s'
  end.

Definition ScanAllShortKeys {St} (ctx : Context)
           (fn : Bytes -> bool -> St -> St * bool) (s : St) : St :=
  scanKeys (shortKeys ctx) fn s.

Section RoundExecutor.
Context `{Collaborators}.

(** *** loadStandbyTxs (lines 487-502) *)
Definition loadStandbyTxs (e : txEngine) (txRange : TxRange)
  : GoResult (list TxToRun.t) :=
  try! trunk := deref (cleanCtx e) in
  let lim := u64 (start txRange + u64 (runnerNumber e)) in
  let end' := if lim <? end_ txRange then lim else end_ txRange in
  Ok (if start txRange <=? end'
      then map (fun i => FromBytes (slotGet trunk i))
               (seqZ (start txRange) (end' - start txRange))
      else replicate (Z.to_nat (u64 (end' - start txRange))) zeroTxToRun).

(** *** runTxInParallel (lines 506-533)

    One claimed slot. The warm-up calls PrepareForDeletion and
    PrepareForUpdate only load entries into the cache of the base store
    and are left out. *)
Definition runSlot (trunk : Trunk) (txBundle : list TxToRun.t)
           (currBlock : option BlockInfo.t) (myIdx : nat) (tx : TxToRun.t)
           (st : Machine * Z) : GoResult (Machine * Z) :=
  let '(m, kvCount) := st in
  try! rs := setIndex (Runners m) myIdx
               (Some (TxRunner.mk WithRbtCopy tx SUCCESS 0 0 0 [])) in
  try! sameFrom :=
    match myIdx with
    | O => Ok false
    | S p =>
        try! prev := index txBundle p in
        Ok (bool_decide (TxToRun.From prev = TxToRun.From tx))
    end in
  try! r := getRunner rs myIdx in
  if sameFrom
  then
    try! rs' := setIndex rs myIdx (Some (TxRunner.withStatus r TX_NONCE_TOO_LARGE)) in
    Ok (setRunners m rs', kvCount)
  else
    let o := runTx trunk (TxRunner.Ctx r) (TxRunner.Tx r) currBlock in
    let r' := TxRunner.mk (out_Ctx o) (TxRunner.Tx r) (out_Status o) (out_GasUsed o)
                (out_FeeRefund o) (out_CreatedContractAddress o) (out_OutData o) in
    try! rs' := setIndex rs myIdx (Some r') in
    Ok (logRun (setRunners m rs') myIdx, kvCount + CachedEntryCount (TxRunner.Ctx r')).

(** dt.ParallelRun(parallelNum, fn) starts parallelNum goroutines and
    joins them; each claims slots from the shared counter until the
    bundle is exhausted. A slot's work reads the bundle and writes its own
    runner only, so the slots are run in index order. *)
Definition runTxInParallel (m : Machine) (txRange : TxRange)
           (txBundle : list TxToRun.t) (currBlock : option BlockInfo.t)
  : GoResult (Machine * Z) :=
  try! trunk := deref (cleanCtx (exec m)) in
  if parallelNum (exec m) <? 0 then Panic "sync: negative WaitGroup counter"
  else if parallelNum (exec m) =? 0 then Ok (m, 0)
  else forRange (runSlot trunk txBundle currBlock) 0 txBundle (m, 0).

(** *** checkTxDepsAndUptStandbyQ (lines 542-603) *)

(** The first scan of a slot: stop at the first short key whose prefix is
    in the touched set, clearing canCommit and marking the runner. *)
Definition scanConflict (touchedSet : gset Z) (key : Bytes) (dirty : bool)
           (s : bool * TxRunner.t) : (bool * TxRunner.t) * bool :=
  let k := LittleEndian_Uint64 key in
  if bool_decide (k ∈ touchedSet)
  then ((false, TxRunner.withStatus (snd s) FAILED_TO_COMMIT), true)
  else (s, false).

(** The second scan: record the dirty keys. *)
Definition scanDirty (key : Bytes) (dirty : bool) (touchedSet : gset Z)
  : gset Z * bool :=
  if dirty
  then ({[ LittleEndian_Uint64 key ]} ∪ touchedSet, false)
  else (touchedSet, false).

(** One slot of the resolving loop, with the write-back that the
    committing goroutine does for it. The goroutine receives the slots in
    order and touches nothing the loop reads, so its work is done in
    place. *)
Definition resolveSlot (idx : nat) (tx : TxToRun.t) (st : Machine * gset Z)
  : GoResult (Machine * gset Z) :=
  let '(m, touchedSet) := st in
  try! r := getRunner (Runners m) idx in
  let '(canCommit, r') :=
    ScanAllShortKeys (TxRunner.Ctx r) (scanConflict touchedSet) (true, r) in
  try! rs := setIndex (Runners m) idx (Some r') in
  let touchedSet' :=
    if canCommit
    then ScanAllShortKeys (TxRunner.Ctx r') scanDirty touchedSet
    else touchedSet in
  try! trunk := deref (cleanCtx (exec m)) in
  let m' := setRunners m rs in
  Ok (if canCommit
      then commitUpdate m' (Close trunk (TxRunner.Ctx r') true)
      else m',
      touchedSet').

(** One slot of the queue update: the body of the loop inside
    trunk.Update, working on the store [t] under update. *)
Definition requeueSlot (idx : nat) (tx : TxToRun.t)
           (st : Machine * TxRange * Trunk) : GoResult (Machine * TxRange * Trunk) :=
  let '(m, txRange, t) := st in
  try! r := getRunner (Runners m) idx in
  let status := TxRunner.Status r in
  let k := start txRange in
  let txRange := mkTxRange (u64 (start txRange + 1)) (end_ txRange) in
  let t := slotDelete t k in
  if bool_decide (status = FAILED_TO_COMMIT) || bool_decide (status = TX_NONCE_TOO_LARGE)
  then
    let newK := end_ txRange in
    let txRange := mkTxRange (start txRange) (u64 (end_ txRange + 1)) in
    let t := slotSet t newK (ToBytes tx) in
    try! rs := setIndex (Runners m) idx None in
    Ok (setRunners m rs, txRange, t)
  else if bool_decide (status = ACCOUNT_NOT_EXIST) || bool_decide (status = TX_NONCE_TOO_SMALL)
  then
    try! r1 := getRunner (Runners m) idx in
    let gasUsed := u64 (cumulativeGasUsed (exec m) + TxToRun.Gas (TxRunner.Tx r1)) in
    try! r2 := getRunner (Runners m) idx in
    try! fee := deref (cumulativeGasFee (exec m)) in
    let gasFee := u256 (fee + GetGasFee r2) in
    try! rs := setIndex (Runners m) idx None in
    Ok (setRunners
          (setExec m (setCumulative (exec m) gasUsed
                        (cumulativeFeeRefund (exec m)) (Some gasFee)))
          rs,
        txRange, t)
  else Ok (m, txRange, t).

Definition checkTxDepsAndUptStandbyQ (m : Machine) (txRange : TxRange)
           (txBundle : list TxToRun.t) (kvCount : Z)
  : GoResult (Machine * TxRange) :=
  try! '(m1, _) := forRange resolveSlot 0 txBundle (m, ∅) in
  try! trunk := deref (cleanCtx (exec m1)) in
  try! '(m2, txRange', t) := forRange requeueSlot 0 txBundle (m1, txRange, trunk) in
  Ok (commitUpdate m2 t, txRange').

(** *** executeOneRound (lines 480-485) *)
Definition executeOneRound (m : Machine) (txRange : TxRange)
           (currBlock : option BlockInfo.t) : GoResult (Machine * TxRange * nat) :=
  try! txBundle := loadStandbyTxs (exec m) txRange in
  try! '(m1, kvCount) := runTxInParallel m txRange txBundle currBlock in
  try! '(m2, txRange') := checkTxDepsAndUptStandbyQ m1 txRange txBundle kvCount in
  Ok (m2, txRange', length txBundle).

(** *** collectCommittableTxs (lines 606-658), without the logs *)
Definition collectOne (idx : nat) (runner : TxRunner.t) (m : Machine)
  : GoResult Machine :=
  let e := exec m in
  let gasUsed := u64 (cumulativeGasUsed e + TxRunner.GasUsed runner) in
  try! refund := deref (cumulativeFeeRefund e) in
  try! fee := deref (cumulativeGasFee e) in
  try! blk := deref (currentBlock e) in
  let tx := Transaction.mk
              (TxToRun.HashID (TxRunner.Tx runner))
              (Z.of_nat idx)
              (TxToRun.Nonce (TxRunner.Tx runner))
              (BlockInfo.Hash blk)
              (BlockInfo.Number blk)
              (TxToRun.From (TxRunner.Tx runner))
              (TxToRun.To (TxRunner.Tx runner))
              (TxToRun.Value (TxRunner.Tx runner))
              (TxToRun.GasPrice (TxRunner.Tx runner))
              (TxToRun.Gas (TxRunner.Tx runner))
              (TxToRun.Data (TxRunner.Tx runner))
              gasUsed
              (TxRunner.GasUsed runner)
              (TxRunner.CreatedContractAddress runner)
              (TxRunner.OutData runner)
              (if StatusIsFailure (TxRunner.Status runner)
               then ReceiptStatusFailed else ReceiptStatusSuccessful)
              (StatusToStr (TxRunner.Status runner)) in
  let e1 := setCumulative e gasUsed
              (Some (u256 (refund + TxRunner.FeeRefund runner)))
              (Some (u256 (fee + GetGasFee runner))) in
  Ok (setExec m (setCommittedTxs e1 (committedTxs e1 ++ [tx]))).

Definition collectCommittableTxs (m : Machine)
           (committableRunnerList : list TxRunner.t) : GoResult Machine :=
  forRange collectOne 0 committableRunnerList m.

(** *** Execute (lines 422-455) *)

(** The loop after a round: the runners still in their slot are
    committable; they are moved to the list and the slots cleared. *)
Fixpoint harvest (i : nat) (numTx : nat) (m : Machine)
         (committable : list TxRunner.t) : GoResult (Machine * list TxRunner.t) :=
  match numTx with
  | O => Ok (m, committable)
  | S n =>
      try! p := index (Runners m) i in
      match p with
      | None => harvest (S i) n m committable
      | Some r =>
          try! rs := setIndex (Runners m) i None in
          harvest (S i) n (setRunners m rs) (committable ++ [r])
      end
  end.

Fixpoint rounds (n : nat) (m : Machine) (txRange : TxRange)
         (committable : list TxRunner.t)
  : GoResult (Machine * TxRange * list TxRunner.t) :=
  match n with
  | O => Ok (m, txRange, committable)
  | S n' =>
      if start txRange =? end_ txRange
      then Ok (m, txRange, committable)
      else
        try! '(m1, txRange1, numTx) :=
          executeOneRound m txRange (currentBlock (exec m)) in
        try! '(m2, committable2) := harvest 0 numTx m1 committable in
        rounds n' m2 txRange1 committable2
  end.

Definition Execute (m : Machine) (currBlock : option BlockInfo.t)
  : GoResult Machine :=
  let e := setCurrentBlock
             (setCumulative (setCommittedTxs (exec m) []) 0 (Some 0) (Some 0))
             currBlock in
  let m := setExec m e in
  try! '(startKey, endKey) := getStandbyQueueRange (exec m) in
  if startKey =? endKey
  then Ok m
  else
    try! '(m1, txRange, committable) :=
      rounds (Z.to_nat (roundNum (exec m))) m (mkTxRange startKey endKey) [] in
    try! m2 := setStandbyQueueRange m1 (start txRange) (end_ txRange) in
    collectCommittableTxs m2 committable.

End RoundExecutor.

(** ** Prepare: the data of its workers *)

Record preparedInfo : Type := mkInfo {
  tx : TxToRun.t;
  txBytes : Bytes;
  errorStr : string
}.

Record ctxAndAccounts : Type := mkCtxAA {
  ctx : Context;
  accounts : list Address;
  changed : bool;
  totalGasFee : Z;
  addr2nonce : gmap Z Z;
  addr2Balance : gmap Z Z
}.

Definition setErrorStr (info : preparedInfo) (e : string) : preparedInfo :=
  mkInfo (tx info) (txBytes info) e.

Definition setTxBytes (info : preparedInfo) (b : Bytes) : preparedInfo :=
  mkInfo (tx info) b (errorStr info).

Definition setCtx (entry : ctxAndAccounts) (c : Context) : ctxAndAccounts :=
  mkCtxAA c (accounts entry) (changed entry) (totalGasFee entry)
    (addr2nonce entry) (addr2Balance entry).

Definition setChanged (entry : ctxAndAccounts) (b : bool) : ctxAndAccounts :=
  mkCtxAA (ctx entry) (accounts entry) b (totalGasFee entry)
    (addr2nonce entry) (addr2Balance entry).

Definition setTotalGasFee (entry : ctxAndAccounts) (f : Z) : ctxAndAccounts :=
  mkCtxAA (ctx entry) (accounts entry) (changed entry) f
    (addr2nonce entry) (addr2Balance entry).

Definition setNonce (entry : ctxAndAccounts) (a : Address) (n : Z) : ctxAndAccounts :=
  mkCtxAA (ctx entry) (accounts entry) (changed entry) (totalGasFee entry)
    (<[a := n]> (addr2nonce entry)) (addr2Balance entry).

Definition setBalance (entry : ctxAndAccounts) (a : Address) (b : Z) : ctxAndAccounts :=
  mkCtxAA (ctx entry) (accounts entry) (changed entry) (totalGasFee entry)
    (addr2nonce entry) (<[a := b]> (addr2Balance entry)).

(** Modelled from the spec: TxToRun.FromGethTx is a method of package
    [types], which is not under src/; by section 3 of the spec it fills the
    parsed form from the signed transaction, the recovered sender and the
    block height, value and gas price as 256-bit fields. *)
Definition FromGethTx (gtx : GethTx) (sender : Address) (height : Z) : TxToRun.t :=
  TxToRun.mk (gtx_hash gtx) sender (gtx_to gtx) (gtx_nonce gtx)
    (u256 (gtx_value gtx)) (u256 (gtx_gasPrice gtx)) (gtx_gas gtx) (gtx_data gtx)
    height.

(** ** Balance helpers (lines 740-791) *)

Definition updateBalance (trunk : Trunk) (c : Context) (address : Address)
           (amount : Z) (isAdd : bool) : Context * bool :=
  let acc := default ZeroAccountInfo (GetAccount trunk c address) in
  let s := acc_balance acc in
  if isAdd
  then (SetAccount c address (mkAccount (acc_nonce acc) (u256 (s + amount))), false)
  else if s <? amount
       then (c, true)
       else (SetAccount c address (mkAccount (acc_nonce acc) (u256 (s - amount))), false).

Definition SubSenderAccBalance (trunk : Trunk) (c : Context) (sender : Address)
           (amount : Z) : Context * bool :=
  updateBalance trunk c sender amount false.

Definition AddSystemAccBalance (trunk : Trunk) (c : Context) (amount : Z)
  : Context * bool :=
  updateBalance trunk c systemContractAddress amount true.

Definition GetBalanceAfterBchTransfer (trunk : Trunk) (c : Context)
           (address : Address) (value : Z) : Z :=
  match GetAccount trunk c address with
  | None => 0
  | Some acc =>
      let out := acc_balance acc in
      if out <? value then 0 else u256 (out - value)
  end.

(** ** The reorderer (lines 353-376) *)

(** addrList[r0], addrList[r1] = addrList[r1], addrList[r0] *)
Definition swap {A} (l : list A) (r0 r1 : nat) : list A :=
  match l !! r0, l !! r1 with
  | Some a0, Some a1 => <[r1 := a0]> (<[r0 := a1]> l)
  | _, _ => l
  end.

Section Reorderer.
Context `{RandSource}.
Context {Info : Type} (from : Info -> Address).

(** The first loop: group the infos by sender, and list the senders in
    the order they are first met. *)
Fixpoint groupInfos (infoList : list Info) (addr2Infos : gmap Z (list Info))
         (addrList : list Address) : gmap Z (list Info) * list Address :=
  match infoList with
  | [] => (addr2Infos, addrList)
  | info :: rest =>
      match addr2Infos !! from info with
      | Some l =>
          groupInfos rest (<[from info := l ++ [info]]> addr2Infos) addrList
      | None =>
          groupInfos rest (<[from info := [info]]> addr2Infos)
                     (addrList ++ [from info])
      end
  end.

(** The second loop, [n] iterations left. *)
Fixpoint shuffle (n : nat) (rand : rand_state) (addrList : list Address)
  : list Address :=
  match n with
  | O => addrList
  | S n' =>
      let '(v0, rand) := rand_Int63 rand in
      let r0 := Z.rem v0 (Z.of_nat (length addrList)) in
      let '(v1, rand) := rand_Int63 rand in
      let r1 := Z.rem v1 (Z.of_nat (length addrList)) in
      shuffle n' rand (swap addrList (Z.to_nat r0) (Z.to_nat r1))
  end.

(** [Info] stands for the pointer *preparedInfo and [from] for
    info.tx.From. *)
Definition reorderInfoList (infoList : list Info) (reorderSeed : Z)
  : list Info * gmap Z (list Info) :=
  let '(addr2Infos, addrList) := groupInfos infoList ∅ [] in
  let rand := rand_Seed reorderSeed in
  let addrList := shuffle (length addrList) rand addrList in
  (flat_map (fun addr => default [] (addr2Infos !! addr)) addrList, addr2Infos).

End Reorderer.

(** ** Prepare (lines 175-351, 379-419) *)

Definition newCtxAA : ctxAndAccounts := mkCtxAA WithRbtCopy [] false 0 ∅ ∅.

Section Prepare.
Context `{Collaborators} `{RandSource}.

(** *** parallelReadAccounts (lines 296-351): one claimed transaction,
    handled by the worker that owns [entry]. *)
Definition readAccount (e : txEngine) (trunk : Trunk)
           (minGasPrice maxTxGasLimit : Z) (gtx : GethTx)
           (entry : ctxAndAccounts) : preparedInfo * ctxAndAccounts :=
  let '(sender, err) := signer e gtx in
  let txToRun := FromGethTx gtx sender (getCurrHeight e) in
  let info := mkInfo txToRun [] "" in
  if err
  then (setErrorStr info "invalid signature", entry)
  else if negb (IsInt64 (gtx_gasPrice gtx))
          || (gtx_gasPrice gtx <? toInt64 minGasPrice)
  then (setErrorStr info "invalid gas price", entry)
  else if maxTxGasLimit <? gtx_gas gtx
  then (setErrorStr info "invalid gas limit", entry)
  else
    match GetAccount trunk (ctx entry) sender with
    | None => (setErrorStr info "non-existent account", entry)
    | Some acc =>
        match addr2nonce entry !! sender with
        | Some _ => (info, entry)
        | None =>
            (info,
             mkCtxAA (ctx entry) (accounts entry ++ [sender]) (changed entry)
               (totalGasFee entry)
               (<[sender := acc_nonce acc]> (addr2nonce entry))
               (<[sender := acc_balance acc]> (addr2Balance entry)))
        end
    end.

(** The workers claim the indexes of txList from a shared counter, each
    taking the next index when it is done with its last. Which worker gets
    which index is decided by the race and is the parameter [claim]
    (reduced modulo the number of workers); a worker meets its indexes in
    increasing order and works on its own entry only, so the transactions
    are taken in index order. *)
Fixpoint readAccounts (claim : nat -> nat) (e : txEngine) (trunk : Trunk)
         (minGasPrice maxTxGasLimit : Z) (myIdx : nat) (txs : list GethTx)
         (ctxAA : list ctxAndAccounts)
  : list preparedInfo * list ctxAndAccounts :=
  match txs with
  | [] => ([], ctxAA)
  | gtx :: rest =>
      let workerId := (claim myIdx `mod` length ctxAA)%nat in
      let entry := default newCtxAA (ctxAA !! workerId) in
      let '(info, entry') :=
        readAccount e trunk minGasPrice maxTxGasLimit gtx entry in
      let '(infos, ctxAA') :=
        readAccounts claim e trunk minGasPrice maxTxGasLimit (S myIdx) rest
                     (<[workerId := entry']> ctxAA) in
      (info :: infos, ctxAA')
  end.

Definition parallelReadAccounts (claim : nat -> nat) (e : txEngine) (trunk : Trunk)
           (minGasPrice maxTxGasLimit : Z)
  : list preparedInfo * list ctxAndAccounts :=
  readAccounts claim e trunk minGasPrice maxTxGasLimit 0 (txList e)
               (replicate (Z.to_nat (parallelNum e)) newCtxAA).

(** *** deductGasFeeAndUpdateFrontier (lines 253-286); the result tells
    whether an error was returned. *)
Definition deductGasFeeAndUpdateFrontier (trunk : Trunk) (sender : Address)
           (info : preparedInfo) (entry : ctxAndAccounts)
  : preparedInfo * ctxAndAccounts * bool :=
  let gasFee := u256 (u64 (TxToRun.Gas (tx info)) * TxToRun.GasPrice (tx info)) in
  let '(c, err) := SubSenderAccBalance trunk (ctx entry) sender gasFee in
  let entry := setCtx entry c in
  if err
  then
    (setErrorStr info "not enough balance to pay gasfee",
     setBalance entry sender 0, true)
  else
    let entry :=
      if bool_decide (TxToRun.To (tx info) = Sep206Address)
      then setBalance entry sender 0
      else
        match addr2Balance entry !! sender with
        | None =>
            setBalance entry sender
              (GetBalanceAfterBchTransfer trunk (ctx entry) sender
                 (TxToRun.Value (tx info)))
        | Some balance =>
            if balance <? gasFee
            then setBalance entry sender 0
            else
              let balance := u256 (balance - gasFee) in
              let txValue := TxToRun.Value (tx info) in
              if balance <? txValue
              then setBalance entry sender 0
              else setBalance entry sender (u256 (balance - txValue))
        end in
    (info, setTotalGasFee entry (u256 (totalGasFee entry + gasFee)), false).

(** The body of the innermost loop of Prepare's second parallel section
    (lines 214-229), on one info of the worker's sender. *)
Definition deductOne (trunk : Trunk) (info : preparedInfo)
           (entry : ctxAndAccounts) : preparedInfo * ctxAndAccounts :=
  if negb (String.length (errorStr info) =? 0)%nat
  then (info, entry)
  else
    let sender := TxToRun.From (tx info) in
    if negb (default 0 (addr2nonce entry !! sender) =? TxToRun.Nonce (tx info))
    then (setErrorStr info "incorrect nonce", entry)
    else
      let entry :=
        setNonce entry sender (u64 (default 0 (addr2nonce entry !! sender) + 1)) in
      let '(info, entry, err) :=
        deductGasFeeAndUpdateFrontier trunk sender info entry in
      if err
      then (info, entry)
      else (setTxBytes info (ToBytes (tx info)), setChanged entry true).

(** The infos are reached through pointers shared by infoList, the
    reordered list and addr2Infos: a pointer is the index of the info in
    [infos], and a write through it updates that cell. *)
Definition deductAt (trunk : Trunk) (st : list preparedInfo * ctxAndAccounts)
           (p : nat) : list preparedInfo * ctxAndAccounts :=
  let '(infos, entry) := st in
  match infos !! p with
  | None => st
  | Some info =>
      let '(info', entry') := deductOne trunk info entry in
      (<[p := info']> infos, entry')
  end.

(** The work of worker [idx] in the second parallel section: the senders
    of its own list that were mapped to it. *)
Definition deductWorker (trunk : Trunk) (addr2idx : gmap Z nat)
           (addr2Infos : gmap Z (list nat)) (idx : nat)
           (st : list preparedInfo * ctxAndAccounts)
  : list preparedInfo * ctxAndAccounts :=
  fold_left
    (fun st addr =>
       if negb (default 0%nat (addr2idx !! addr) =? idx)%nat
       then st
       else fold_left (deductAt trunk) (default [] (addr2Infos !! addr)) st)
    (accounts (snd st)) st.

(** The section as a whole. The workers own disjoint senders, infos and
    entries, so they are run one after the other. *)
Fixpoint deductWorkers (trunk : Trunk) (addr2idx : gmap Z nat)
         (addr2Infos : gmap Z (list nat)) (idx : nat)
         (todo : list ctxAndAccounts) (infos : list preparedInfo)
  : list preparedInfo * list ctxAndAccounts :=
  match todo with
  | [] => (infos, [])
  | entry :: rest =>
      let '(infos1, entry') :=
        deductWorker trunk addr2idx addr2Infos idx (infos, entry) in
      let '(infos2, rest') :=
        deductWorkers trunk addr2idx addr2Infos (S idx) rest infos1 in
      (infos2, entry' :: rest')
  end.

(** The map from a sender to the first worker that lists it
    (lines 182-190). *)
Definition mapAccounts (idx : nat) (accs : list Address) (addr2idx : gmap Z nat)
  : gmap Z nat :=
  fold_left
    (fun m addr =>
       match m !! addr with
       | Some _ => m
       | None => <[addr := idx]> m
       end)
    accs addr2idx.

Fixpoint mapWorkers (idx : nat) (ctxAA : list ctxAndAccounts)
         (addr2idx : gmap Z nat) : gmap Z nat :=
  match ctxAA with
  | [] => addr2idx
  | entry :: rest => mapWorkers (S idx) rest (mapAccounts idx (accounts entry) addr2idx)
  end.

(** *** recordInvalidTx (lines 398-419) *)
Definition recordInvalidTx (e : txEngine) (info : preparedInfo) : txEngine :=
  let t := Transaction.mk
             (TxToRun.HashID (tx info))
             (Z.of_nat (length (committedTxs e)))
             (TxToRun.Nonce (tx info))
             (match currentBlock e with
              | Some b => BlockInfo.Hash b
              | None => 0
              end)
             (toInt64 (getCurrHeight e))
             (TxToRun.From (tx info))
             (TxToRun.To (tx info))
             (TxToRun.Value (tx info))
             (TxToRun.GasPrice (tx info))
             (TxToRun.Gas (tx info))
             (TxToRun.Data (tx info))
             (cumulativeGasUsed e)
             0
             0
             []
             ReceiptStatusFailed
             (errorStr info) in
  setCommittedTxs e (committedTxs e ++ [t]).

(** *** insertToStandbyTxQ (lines 379-396): the loop inside trunk.Update,
    on the store [t] under update. *)
Definition insertOne (st : txEngine * Trunk * Z) (info : preparedInfo)
  : txEngine * Trunk * Z :=
  let '(e, t, end_) := st in
  if negb (String.length (errorStr info) =? 0)%nat
  then (recordInvalidTx e info, t, end_)
  else (e, slotSet t end_ (txBytes info), u64 (end_ + 1)).

Definition insertToStandbyTxQ (e : txEngine) (trunk : Trunk)
           (infoList : list preparedInfo) (startEnd : Bytes) (end_ : Z)
  : txEngine :=
  let '(e, t, end_) := fold_left insertOne infoList (e, trunk, end_) in
  let startEnd := take 8 startEnd ++ PutUint64 end_ ++ drop 16 startEnd in
  setTrunk e (setStandbyCtl t startEnd).

(** *** NewFrontierWithCtxAA (lines 84-101) *)
Definition NewFrontierWithCtxAA (ctxAA : list ctxAndAccounts)
           (addr2idx : gmap Z nat) : option Frontier.frontier :=
  let known addr idx :=
    entry ← ctxAA !! idx;
    nonce ← addr2nonce entry !! addr;
    Some (nonce, default 0 (addr2Balance entry !! addr)) in
  Some (Frontier.mkFrontier
          (Some (map_imap (fun addr idx => fst <$> known addr idx) addr2idx))
          (Some (map_imap (fun addr idx => (Some ∘ snd) <$> known addr idx) addr2idx))
          (Some ∅)).

(** *** Prepare (lines 175-251), by stages. The warm-up of the standby
    slots only loads cache entries and is left out. *)

(** info.tx.From through the pointer [p]. *)
Definition senderOf (infos : list preparedInfo) (p : nat) : Address :=
  TxToRun.From (tx (default (mkInfo zeroTxToRun [] "") (infos !! p))).

(** Lines 181-191 and 202-232: the preload, the map from senders to
    workers, the reordering and the second parallel section. The result is
    the infos by pointer, the entries of the workers, the reordered
    pointers and the map. *)
Definition deductPhase (claim : nat -> nat) (e : txEngine) (trunk : Trunk)
           (reorderSeed : Z) (minGasPrice maxTxGasLimit : Z)
  : list preparedInfo * list ctxAndAccounts * list nat * gmap Z nat :=
  let '(infos, ctxAA) :=
    parallelReadAccounts claim e trunk minGasPrice maxTxGasLimit in
  let addr2idx := mapWorkers 0 ctxAA ∅ in
  let '(reorderedList, addr2Infos) :=
    reorderInfoList (senderOf infos) (seq 0 (length infos)) reorderSeed in
  let '(infos, ctxAA) := deductWorkers trunk addr2idx addr2Infos 0 ctxAA infos in
  (infos, ctxAA, reorderedList, addr2idx).

(** Lines 233-245: the contexts of the workers are closed, written back
    when changed, and the fees of all workers are credited to the system
    account through a fresh context. *)
Definition settleFees (trunk : Trunk) (ctxAA : list ctxAndAccounts) : Trunk :=
  let trunk := fold_left (fun t entry => Close t (ctx entry) (changed entry)) ctxAA trunk in
  let totalGasFee :=
    fold_left (fun acc entry => u256 (acc + totalGasFee entry)) ctxAA 0 in
  let '(c, _) := AddSystemAccBalance trunk WithRbtCopy totalGasFee in
  Close trunk c true.

(** Lines 193-199: the end of the queue, and the control value to write
    back. *)
Definition readQueueEnd (trunk : Trunk) : GoResult (Bytes * Z) :=
  match standbyCtl trunk with
  | Some bz =>
      if decide (8 <= length bz)%nat
      then try! q := BigEndian_Uint64 (drop 8 bz) in Ok (bz, q)
      else Ok (replicate 16 0, 0)
  | None => Ok (replicate 16 0, 0)
  end.

Definition Prepare (claim : nat -> nat) (e : txEngine)
           (reorderSeed : Z) (minGasPrice maxTxGasLimit : Z)
  : GoResult (txEngine * option Frontier.frontier) :=
  try! trunk := deref (cleanCtx e) in
  if (length (txList e) =? 0)%nat
  then Ok (e, Frontier.GetEmptyFrontier)
  else if parallelNum e =? 0 then Panic "integer divide by zero"
  else if parallelNum e <? 0 then Panic "makeslice: len out of range"
  else
    try! '(startEndBz, queueEnd) := readQueueEnd trunk in
    let '(infos, ctxAA, reorderedList, addr2idx) :=
      deductPhase claim e trunk reorderSeed minGasPrice maxTxGasLimit in
    let trunk := settleFees trunk ctxAA in
    let e := insertToStandbyTxQ e trunk
               (omap (fun p => infos !! p) reorderedList) startEndBz queueEnd in
    let e := setTxList e [] in
    Ok (e, NewFrontierWithCtxAA ctxAA addr2idx).

End Prepare.

(** ** The reorderer as the specification words it

    These definitions follow the text of the specification (section 4.3),
    not the code; the reorderer of the code is compared with them. *)

(** The senders in order of first appearance. *)
Fixpoint firstAppearance (seen : list Address) (l : list Address) : list Address :=
  match l with
  | [] => []
  | a :: rest =>
      if bool_decide (a ∈ seen)
      then firstAppearance seen rest
      else a :: firstAppearance (a :: seen) rest
  end.

(** The list with the elements at positions [i] and [j] exchanged. *)
Definition exchanged {A} (l : list A) (i j : nat) : list A :=
  imap (fun k x =>
          if bool_decide (k = i) then default x (l !! j)
          else if bool_decide (k = j) then default x (l !! i)
          else x) l.

Section ReordererSpec.
Context `{RandSource}.
Context {Info : Type} (from : Info -> Address).

(** The infos of one sender, in their original order. *)
Definition groupOf (infoList : list Info) (a : Address) : list Info :=
  filter (fun info => from info = a) infoList.

(** One iteration of the shuffle: two draws, each reduced modulo the
    length, and the exchange of the two positions. *)
Definition drawAndSwap (st : rand_state * list Address) : rand_state * list Address :=
  let n := Z.of_nat (length (snd st)) in
  let d0 := rand_Int63 (fst st) in
  let d1 := rand_Int63 (snd d0) in
  (snd d1, exchanged (snd st) (Z.to_nat (fst d0 mod n)) (Z.to_nat (fst d1 mod n))).

Definition shuffled (seed : Z) (addrList : list Address) : list Address :=
  snd (Nat.iter (length addrList) drawAndSwap (rand_Seed seed, addrList)).

Definition reorderedSpec (infoList : list Info) (seed : Z) : list Info :=
  flat_map (groupOf infoList) (shuffled seed (firstAppearance [] (map from infoList))).

End ReordererSpec.

(** What the grouping loop of the reorderer has built after a prefix
    [done_] of the list. *)
Definition grouped {Info : Type} (from : Info -> Address) (done_ : list Info)
           (addr2Infos : gmap Z (list Info)) (addrList : list Address) : Prop :=
  (forall a, addr2Infos !! a =
             match groupOf from done_ a with
             | [] => None
             | g => Some g
             end) /\
  addrList = firstAppearance [] (map from done_).

(** ** A generator to run the reorderer with

    The 64-bit Mersenne Twister after the reference mt19937-64.c, which
    package mt19937 ports: 312 words of state, seeded by the linear
    recurrence, tempered on output, Int63 being the upper 63 bits. It
    instantiates [RandSource] in the examples; the properties of the
    reorderer are proved for any generator. *)
Module MT19937.

Definition n : nat := 312.
Definition m : nat := 156.
Definition hiMask : Z := 0xffffffff80000000.
Definition loMask : Z := 0x7fffffff.
Definition matrixA : Z := 0xB5026F5AA96619E9.

Record t : Type := mk {
  state : list Z;
  index : nat
}.

Fixpoint seedFrom (k : nat) (i : Z) (prev : Z) : list Z :=
  match k with
  | O => []
  | S k' =>
      let x := u64 (6364136223846793005 * Z.lxor prev (Z.shiftr prev 62) + i) in
      x :: seedFrom k' (i + 1) x
  end.

Definition Seed (seed : Z) : t :=
  mk (u64 seed :: seedFrom (n - 1) 1 (u64 seed)) n.

Definition word (x : list Z) (i : nat) : Z := default 0 (x !! i).

(** x[i] = x[j] ^ (y >> 1) ^ ((y & 1) * matrixA) with
    y = (x[i] & hiMask) | (x[i1] & loMask) *)
Definition twistAt (x : list Z) (i i1 j : nat) : list Z :=
  let y := Z.lor (Z.land (word x i) hiMask) (Z.land (word x i1) loMask) in
  <[i := u64 (Z.lxor (Z.lxor (word x j) (Z.shiftr y 1)) (Z.land y 1 * matrixA))]> x.

Definition twist (x : list Z) : list Z :=
  let x := fold_left (fun x i => twistAt x i (i + 1) (i + m)) (seq 0 (n - m)) x in
  let x := fold_left (fun x i => twistAt x i (i + 1) (i + m - n)) (seq (n - m) (m - 1)) x in
  twistAt x (n - 1) 0 (m - 1).

Definition temper (y : Z) : Z :=
  let y := Z.lxor y (Z.land (Z.shiftr y 29) 0x5555555555555555) in
  let y := Z.lxor y (Z.land (u64 (Z.shiftl y 17)) 0x71D67FFFEDA60000) in
  let y := Z.lxor y (Z.land (u64 (Z.shiftl y 37)) 0xFFF7EEE000000000) in
  Z.lxor y (Z.shiftr y 43).

Definition Uint64 (g : t) : Z * t :=
  let g := if (n <=? index g)%nat then mk (twist (state g)) 0 else g in
  (u64 (temper (word (state g) (index g))), mk (state g) (S (index g))).

Definition Int63 (g : t) : Z * t :=
  let '(x, g) := Uint64 g in (Z.shiftr x 1, g).

End MT19937.

#[export] Instance MT19937_RandSource : RandSource.
Proof.
  refine {| rand_state := MT19937.t;
            rand_Seed := MT19937.Seed;
            rand_Int63 := MT19937.Int63 |}.
  intros g. unfold MT19937.Int63.
  destruct (MT19937.Uint64 g) as [x g'] eqn:E. cbn [fst].
  assert (Hx : 0 <= x < 2 ^ 64).
  { unfold MT19937.Uint64 in E. injection E as <- _. unfold u64.
    apply Z.mod_pos_bound. lia. }
  rewrite Z.shiftr_div_pow2 by lia.
  change (2 ^ 1) with 2. split.
  - apply Z.div_pos; lia.
  - apply Z.div_lt_upper_bound; lia.
Defined.

(** ** Vocabulary of the properties *)






(** The slot's transaction has the sender of the slot before it. *)
Definition sameFromAsPrev (txBundle : list TxToRun.t) (idx : nat) (t : TxToRun.t)
  : bool :=
  match idx with
  | O => false
  | S p =>
      match txBundle !! p with
      | Some prev => bool_decide (TxToRun.From prev = TxToRun.From t)
      | None => false
      end
  end.

(** The runner of a slot as runTx leaves it. *)
Definition ranRunner `{Collaborators} (trunk : Trunk) (t : TxToRun.t)
           (currBlock : option BlockInfo.t) : TxRunner.t :=
  let o := runTx trunk WithRbtCopy t currBlock in
  TxRunner.mk (out_Ctx o) t (out_Status o) (out_GasUsed o) (out_FeeRefund o)
    (out_CreatedContractAddress o) (out_OutData o).

(** The runner of a slot that was not run. *)
Definition skippedRunner (t : TxToRun.t) : TxRunner.t :=
  TxRunner.mk WithRbtCopy t TX_NONCE_TOO_LARGE 0 0 0 [].

(** The statuses after which a transaction is queued again, and those
    after which it is dropped and charged in full. *)
Definition retried (s : TxStatus) : bool :=
  bool_decide (s = FAILED_TO_COMMIT) || bool_decide (s = TX_NONCE_TOO_LARGE).

Definition dropped (s : TxStatus) : bool :=
  bool_decide (s = ACCOUNT_NOT_EXIST) || bool_decide (s = TX_NONCE_TOO_SMALL).

(** The slots of the store are exactly those of the range. *)
Definition queueIs (txRange : TxRange) (t : Trunk) : Prop :=
  0 <= start txRange <= end_ txRange /\ end_ txRange < 2 ^ 64 /\
  forall j, is_Some (standbySlots t !! j) <-> start txRange <= j < end_ txRange.

(** The persisted queue is consistent: the control key decodes to a range
    with start <= end, and exactly the slots of that range are populated. *)
Definition persistedQueueOk (t : Trunk) : Prop :=
  exists s e, decodeRange (standbyCtl t) = Ok (s, e) /\
              queueIs (mkTxRange s e) t.

(** The second store has the queue of the first: control key and slots. *)
Definition sameQueue (t t' : Trunk) : Prop :=
  standbyCtl t' = standbyCtl t /\ standbySlots t' = standbySlots t.

(** The slots [i, i + n) of the array hold runners. *)
Definition slotsFilled (rs : list (option TxRunner.t)) (i n : nat) : Prop :=
  forall k, (i <= k < i + n)%nat -> exists r, rs !! k = Some (Some r).

(** The second engine has the configuration and the block of the first,
    and its counters are still allocated. *)
Definition sameSetup (e e' : txEngine) : Prop :=
  roundNum e' = roundNum e /\ runnerNumber e' = runnerNumber e /\
  parallelNum e' = parallelNum e /\ currentBlock e' = currentBlock e /\
  (is_Some (cumulativeFeeRefund e) -> is_Some (cumulativeFeeRefund e')) /\
  (is_Some (cumulativeGasFee e) -> is_Some (cumulativeGasFee e')).

(** The cached balance after a successful debit as the claim C4 words it:
    the fee is subtracted from the cached balance, and then either the
    value is subtracted, or the balance is forced to zero when the
    remainder is below the value. The claim names no wrap-around: the
    subtractions are those of the integers. *)
Definition claimedCachedBalance (cached fee value : Z) : Z :=
  let remainder := cached - fee in
  if remainder <? value then 0 else remainder - value.

(** The gas fee of a transaction, 256 bits wide. *)
Definition feeOf (t : TxToRun.t) : Z :=
  u256 (u64 (TxToRun.Gas t) * TxToRun.GasPrice t).

(** The balance of an account as a worker context reads it, an absent
    account reading as the zero account. *)
Definition liveAccount (trunk : Trunk) (c : Context) (a : Address) : AccountInfo :=
  default ZeroAccountInfo (GetAccount trunk c a).

(** A signer for the examples: the signature field names the sender, and
    the zero signature is invalid. *)
Definition demoSigner (gtx : GethTx) : Address * bool :=
  (gtx_sig gtx, bool_decide (gtx_sig gtx = 0)).

(** ** Collaborators to run the engine with

    A small stand-in for the EVM and for the serialisation, used by the
    examples only: a transaction is a plain transfer that costs 21000 gas,
    reads and writes the accounts of its sender and its receiver, and is
    told apart by nonce as the statuses say. The properties are proved for
    any collaborators. *)
Module Demo.

Definition shortKeyOf (a : Address) : Bytes := rev (PutUint64 (u64 a)).

Definition failed (a : Address) (s : TxStatus) : RunOutcome :=
  mkOutcome (mkContext ∅ [(shortKeyOf a, false)]) s 0 0 0 [].

Definition runTx (trunk : Trunk) (c : Context) (t : TxToRun.t)
           (blk : option BlockInfo.t) : RunOutcome :=
  let sender := TxToRun.From t in
  match GetAccount trunk c sender with
  | None => failed sender ACCOUNT_NOT_EXIST
  | Some acc =>
      if TxToRun.Nonce t <? acc_nonce acc then failed sender TX_NONCE_TOO_SMALL
      else if acc_nonce acc <? TxToRun.Nonce t then failed sender TX_NONCE_TOO_LARGE
      else if acc_balance acc <? TxToRun.Value t
      then
        mkOutcome
          (mkContext {[ sender := mkAccount (acc_nonce acc + 1) (acc_balance acc) ]}
                     [(shortKeyOf sender, true)])
          REVERTED 21000 0 0 []
      else
        let c1 := SetAccount c sender
                    (mkAccount (acc_nonce acc + 1) (acc_balance acc - TxToRun.Value t)) in
        let rcv := default ZeroAccountInfo (GetAccount trunk c1 (TxToRun.To t)) in
        let c2 := SetAccount c1 (TxToRun.To t)
                    (mkAccount (acc_nonce rcv) (acc_balance rcv + TxToRun.Value t)) in
        mkOutcome
          (mkContext (cache c2)
                     [(shortKeyOf sender, true); (shortKeyOf (TxToRun.To t), true)])
          SUCCESS 21000 0 0 []
  end.

Definition ToBytes (t : TxToRun.t) : Bytes :=
  [TxToRun.HashID t; TxToRun.From t; TxToRun.To t; TxToRun.Nonce t;
   TxToRun.Value t; TxToRun.GasPrice t; TxToRun.Gas t; TxToRun.Height t]
    ++ TxToRun.Data t.

Definition FromBytes (b : Bytes) : TxToRun.t :=
  match b with
  | h :: f :: t :: n :: v :: p :: g :: ht :: d => TxToRun.mk h f t n v p g d ht
  | _ => zeroTxToRun
  end.

Definition GetGasFee (r : TxRunner.t) : Z :=
  u256 (TxRunner.GasUsed r * TxToRun.GasPrice (TxRunner.Tx r)).

Definition StatusToStr (s : TxStatus) : string :=
  match s with
  | SUCCESS => "success"
  | REVERTED => "revert"
  | ACCOUNT_NOT_EXIST => "account-not-exist"
  | TX_NONCE_TOO_SMALL => "tx-nonce-too-small"
  | TX_NONCE_TOO_LARGE => "tx-nonce-too-large"
  | FAILED_TO_COMMIT => "failed-to-commit"
  | OTHER_EVM_FAILURE _ => "failure"
  end.

Definition StatusIsFailure (s : TxStatus) : bool :=
  match s with
  | SUCCESS => false
  | _ => true
  end.

End Demo.

#[export] Instance DemoCollaborators : Collaborators :=
  {| runTx := Demo.runTx;
     ToBytes := Demo.ToBytes;
     FromBytes := Demo.FromBytes;
     GetGasFee := Demo.GetGasFee;
     StatusToStr := Demo.StatusToStr;
     StatusIsFailure := Demo.StatusIsFailure |}.

(** ** A block to run the examples on

    Two accounts, A with 1000000 and B with 500, and a standby queue of two
    transfers of A to B with the nonces 0 and 1, on an engine of two rounds,
    four runners and two workers. *)
Definition demoA : Address := 0xA1.
Definition demoB : Address := 0xB2.

Definition demoTx (h : Z) (sender receiver : Address) (nonce value : Z) : TxToRun.t :=
  TxToRun.mk h sender receiver nonce value 1 21000 [] 0.

Definition demoAccounts : gmap Z AccountInfo :=
  {[ demoA := mkAccount 0 1000000; demoB := mkAccount 0 500 ]}.

Definition demoTrunk : Trunk :=
  mkTrunk demoAccounts
    (Some (PutUint64 0 ++ PutUint64 2))
    {[ 0 := Demo.ToBytes (demoTx 1 demoA demoB 0 100);
       1 := Demo.ToBytes (demoTx 2 demoA demoB 1 50) ]}.

Definition demoEngine (trunk : Trunk) : txEngine :=
  mkEngine 2 4 2 (Some trunk) [] [] demoSigner None 0 (Some 0) (Some 0).

Definition demoMachine : Machine :=
  mkMachine (demoEngine demoTrunk) (replicate 4 None) [] [].

Definition demoBlock : BlockInfo.t := BlockInfo.mk 0xB10C 1.


(** The info bears no error tag. *)
Definition untagged (info : preparedInfo) : bool :=
  (String.length (errorStr info) =? 0)%nat.

Definition sumZ (l : list Z) : Z := foldr Z.add 0 l.

(** The fee of the info behind a pointer when it is accepted, else zero. *)
Definition feePaid (infos : list preparedInfo) (p : nat) : Z :=
  match infos !! p with
  | Some info => if untagged info then feeOf (tx info) else 0
  | None => 0
  end.

(** The fees of the accepted infos among the pointers [ps]: of one sender,
    and of all. *)
Definition paid (infos : list preparedInfo) (ps : list nat) (a : Address) : Z :=
  sumZ (map (feePaid infos) (filter (fun p => senderOf infos p = a) ps)).

Definition paidAll (infos : list preparedInfo) (ps : list nat) : Z :=
  sumZ (map (feePaid infos) ps).

Definition liveBal (trunk : Trunk) (c : Context) (a : Address) : Z :=
  acc_balance (liveAccount trunk c a).

(** The balance of an address in a world state, absent reading as zero,
    and the sum of the balances of all accounts. *)
Definition balanceOf (m : gmap Z AccountInfo) (a : Address) : Z :=
  acc_balance (default ZeroAccountInfo (m !! a)).

Definition sumBalances (m : gmap Z AccountInfo) : Z :=
  map_fold (fun _ acc s => acc_balance acc + s) 0 m.

(** An account debited by [d]. *)
Definition debited (d : Z) (acc : AccountInfo) : AccountInfo :=
  mkAccount (acc_nonce acc) (acc_balance acc - d).

(** The world state after the contexts of the workers are closed. *)
Definition closeAll (trunk : Trunk) (ctxAA : list ctxAndAccounts) : Trunk :=
  fold_left (fun t entry => Close t (ctx entry) (changed entry)) ctxAA trunk.

(** The sum of [d] over the addresses that have an account. *)
Definition sumOver (d : Address -> Z) (m : gmap Z AccountInfo) : Z :=
  map_fold (fun a _ s => d a + s) 0 m.

(** Every balance is a 256-bit value. *)
Definition balancesInRange (m : gmap Z AccountInfo) : Prop :=
  forall a acc, m !! a = Some acc -> 0 <= acc_balance acc < 2 ^ 256.

(** The slots after the byte strings [l] are appended from [end_] on. *)
Definition appendSlots (slots : gmap Z Bytes) (end_ : Z) (l : list Bytes)
  : gmap Z Bytes * Z :=
  fold_left (fun st b => (<[st.2 := b]> st.1, u64 (st.2 + 1))) l (slots, end_).

(** The pointers worker [idx] works on: the infos of the senders of its
    list that are mapped to it. *)
Definition pointersOf (addr2idx : gmap Z nat) (addr2Infos : gmap Z (list nat))
           (idx : nat) (accs : list Address) : list nat :=
  flat_map (fun a => if (default 0%nat (addr2idx !! a) =? idx)%nat
                     then default [] (addr2Infos !! a) else []) accs.

(** The entry of a worker after the preload: nothing written yet, and the
    senders of its list are distinct, cached and present in the trunk. *)
Definition preloaded (trunk : Trunk) (entry : ctxAndAccounts) : Prop :=
  ctx entry = WithRbtCopy /\ changed entry = false /\ totalGasFee entry = 0 /\
  NoDup (accounts entry) /\
  (forall a, a ∈ accounts entry <-> is_Some (addr2nonce entry !! a)) /\
  (forall a, a ∈ accounts entry -> is_Some (worldAccounts trunk !! a)).

(** Some worker lists the address. *)
Definition listed (ctxAA : list ctxAndAccounts) (a : Address) : Prop :=
  exists w entry, ctxAA !! w = Some entry /\ a ∈ accounts entry.

(** The static checks a transaction has passed when its info is untagged. *)
Definition checksPassed (e : txEngine) (minGasPrice maxTxGasLimit : Z)
           (gtx : GethTx) : Prop :=
  (signer e gtx).2 = false /\
  - 2 ^ 63 <= gtx_gasPrice gtx < 2 ^ 63 /\
  toInt64 minGasPrice <= gtx_gasPrice gtx /\
  gtx_gas gtx <= maxTxGasLimit.

(** The pointers of the workers from [idx] on, worker after worker. *)
Fixpoint workersPointers (addr2idx : gmap Z nat) (addr2Infos : gmap Z (list nat))
         (idx : nat) (todo : list ctxAndAccounts) : list nat :=
  match todo with
  | [] => []
  | entry :: rest =>
      pointersOf addr2idx addr2Infos idx (accounts entry)
        ++ workersPointers addr2idx addr2Infos (S idx) rest
  end.

(** What a worker has done to its entry by the pointers [ps], in terms of
    the infos [F] as Prepare leaves them. *)
Definition workerFacts (trunk : Trunk) (F : list preparedInfo) (ps : list nat)
           (entry entry' : ctxAndAccounts) : Prop :=
  accounts entry' = accounts entry /\
  (forall a, 0 <= paid F ps a <= liveBal trunk (ctx entry) a) /\
  (forall a,
      (cache (ctx entry') !! a = cache (ctx entry) !! a /\ paid F ps a = 0) \/
      (cache (ctx entry') !! a =
         Some (mkAccount (acc_nonce (liveAccount trunk (ctx entry) a))
                         (liveBal trunk (ctx entry) a - paid F ps a)) /\
       exists p info, p ∈ ps /\ F !! p = Some info /\
                      TxToRun.From (tx info) = a /\ untagged info = true)) /\
  totalGasFee entry' = u256 (totalGasFee entry + paidAll F ps) /\
  (changed entry' = true \/ (ctx entry' = ctx entry /\ changed entry' = changed entry)).

(** What Prepare works with between its stages: the infos behind the
    pointers and the entries of the workers after the second parallel
    section, and the infos in the reordered order, as insertToStandbyTxQ
    receives them. *)
Section PrepareStages.
Context `{Collaborators} `{RandSource}.
Variables (claim : nat -> nat) (e : txEngine) (trunk : Trunk).
Variables (reorderSeed minGasPrice maxTxGasLimit : Z).

Definition preparedInfos : list preparedInfo :=
  (deductPhase claim e trunk reorderSeed minGasPrice maxTxGasLimit).1.1.1.

Definition workerEntries : list ctxAndAccounts :=
  (deductPhase claim e trunk reorderSeed minGasPrice maxTxGasLimit).1.1.2.

Definition reorderedInfos : list preparedInfo :=
  omap (fun p => preparedInfos !! p)
       (deductPhase claim e trunk reorderSeed minGasPrice maxTxGasLimit).1.2.

End PrepareStages.

(** The fee of an info when it is accepted, as the claim C7 words it. *)
Definition acceptedFee (info : preparedInfo) : Z :=
  if untagged info
  then TxToRun.Gas (tx info) * TxToRun.GasPrice (tx info)
  else 0.

(** The record stands for the rejected info. *)
Definition rejectionRecord (info : preparedInfo) (t : Transaction.t) : Prop :=
  Transaction.Hash t = TxToRun.HashID (tx info) /\
  Transaction.Status t = ReceiptStatusFailed /\
  Transaction.GasUsed t = 0 /\
  Transaction.StatusStr t = errorStr info.

(** The gas-fee examples: an account with 100, preloaded by a worker, and
    two transactions of it, the first moving 80 for a fee of 10, the second
    moving nothing for a fee of 20. *)
Definition feeTrunk : Trunk :=
  mkTrunk {[ demoA := mkAccount 0 100 ]} None ∅.

Definition feeEntry : ctxAndAccounts :=
  mkCtxAA WithRbtCopy [demoA] false 0 {[ demoA := 0 ]} {[ demoA := 100 ]}.

Definition feeInfo1 : preparedInfo :=
  mkInfo (TxToRun.mk 1 demoA demoB 0 80 1 10 [] 0) [] "".

Definition feeInfo2 : preparedInfo :=
  mkInfo (TxToRun.mk 2 demoA demoB 1 0 1 20 [] 0) [] "".

(** A block for Prepare: the account A with 1000000 and B with 500, no
    queue yet, and three transactions signed for A, A and nobody: a transfer
    with the right nonce 0, one with the nonce 4, and one whose signature is
    invalid. *)
Definition prepTrunk : Trunk := mkTrunk demoAccounts None ∅.

Definition prepTxs : list GethTx :=
  [mkGethTx 1 demoB 0 100 1 21000 [] demoA;
   mkGethTx 2 demoB 4 7 1 21000 [] demoA;
   mkGethTx 3 demoB 0 5 1 21000 [] 0].

Definition prepEngine : txEngine := setTxList (demoEngine prepTrunk) prepTxs.

(** ** The rest of the public surface

    The balance helpers that the engine itself does not call (lines
    748-759 and 793-806), and the two counting accessors (lines 675-681
    and 714-716). *)

Definition SubSystemAccBalance (trunk : Trunk) (c : Context) (amount : Z)
  : Context * bool :=
  updateBalance trunk c systemContractAddress amount false.

Definition TransferFromSenderAccToBlackHoleAcc (trunk : Trunk) (c : Context)
           (sender : Address) (amount : Z) : Context * bool :=
  let '(c1, err) := updateBalance trunk c sender amount false in
  if err
  then (c1, true)
  else updateBalance trunk c1 blackHoleContractAddress amount true.

Definition GetSystemBalance (trunk : Trunk) (c : Context) : Z :=
  acc_balance (default ZeroAccountInfo (GetAccount trunk c systemContractAddress)).

Definition GetBlackHoleBalance (trunk : Trunk) (c : Context) : Z :=
  acc_balance (default ZeroAccountInfo (GetAccount trunk c blackHoleContractAddress)).

Definition CommittedTxIds (m : Machine) : list Hash32 :=
  map Transaction.Hash (committedTxs (exec m)).

Definition CollectedTxsCount (m : Machine) : Z :=
  Z.of_nat (length (txList (exec m))).

(** The second engine has the configuration, the block and the counters
    of the first. *)
Definition sameConfig (e e' : txEngine) : Prop :=
  roundNum e' = roundNum e /\ runnerNumber e' = runnerNumber e /\
  parallelNum e' = parallelNum e /\ signer e' = signer e /\
  currentBlock e' = currentBlock e /\
  cumulativeGasUsed e' = cumulativeGasUsed e /\
  cumulativeFeeRefund e' = cumulativeFeeRefund e /\
  cumulativeGasFee e' = cumulativeGasFee e.

(** The control value can be read by Prepare: it is absent, shorter than 8
    bytes (and then replaced), or at least 16 bytes long. *)
Definition controlReadable (trunk : Trunk) : Prop :=
  forall bz, standbyCtl trunk = Some bz -> (length bz < 8 \/ 16 <= length bz)%nat.

(** What the rounds of Execute keep of the engine: the configuration, the
    signer, the block, the collected and the committed transactions and
    the refund counter; the fee counter stays allocated. *)
Definition roundKeeps (e e' : txEngine) : Prop :=
  roundNum e' = roundNum e /\ runnerNumber e' = runnerNumber e /\
  parallelNum e' = parallelNum e /\ signer e' = signer e /\
  currentBlock e' = currentBlock e /\ txList e' = txList e /\
  committedTxs e' = committedTxs e /\
  cumulativeFeeRefund e' = cumulativeFeeRefund e /\
  (is_Some (cumulativeGasFee e) -> is_Some (cumulativeGasFee e')).

(** The engine as Execute sets it up before it reads the queue. *)
Definition executeSetup (e : txEngine) (currBlock : option BlockInfo.t) : txEngine :=
  setCurrentBlock (setCumulative (setCommittedTxs e []) 0 (Some 0) (Some 0)) currBlock.

(** The cumulative gas of the record before position [k], or [start] for
    the first record. *)
Definition gasBefore (start : Z) (records : list Transaction.t) (k : nat) : Z :=
  match k with
  | O => start
  | S j => default 0 (Transaction.CumulativeGasUsed <$> records !! j)
  end.

(** The info parallelReadAccounts makes for a transaction when the
    worker's context has no cache yet, as it is throughout the preload. *)
Definition classify `{Collaborators} `{RandSource} (e : txEngine) (trunk : Trunk)
           (minGasPrice maxTxGasLimit : Z) (gtx : GethTx) : preparedInfo :=
  (readAccount e trunk minGasPrice maxTxGasLimit gtx newCtxAA).1.

(** What a worker holds of one sender: the cached nonce, the cached
    balance, and the account its context has buffered. *)
Definition senderView (entry : ctxAndAccounts) (a : Address)
  : option Z * option Z * option AccountInfo :=
  (addr2nonce entry !! a, addr2Balance entry !! a, cache (ctx entry) !! a).

(** The entry of a worker that has preloaded the one sender [a] and
    nothing else. *)
Definition soloEntry (trunk : Trunk) (a : Address) : ctxAndAccounts :=
  let acc := default ZeroAccountInfo (worldAccounts trunk !! a) in
  mkCtxAA WithRbtCopy [a] false 0
          {[ a := acc_nonce acc ]} {[ a := acc_balance acc ]}.

(** The deductor run over infos one after the other, by one worker. *)
Fixpoint runGroup `{Collaborators} (trunk : Trunk) (l : list preparedInfo)
         (entry : ctxAndAccounts) : list preparedInfo * ctxAndAccounts :=
  match l with
  | [] => ([], entry)
  | info :: rest =>
      let '(info', entry') := deductOne trunk info entry in
      let '(out, entry'') := runGroup trunk rest entry' in
      (info' :: out, entry'')
  end.

(** The fee an info is charged: its fee when it is accepted. *)
Definition chargedFee (info : preparedInfo) : Z :=
  if untagged info then feeOf (tx info) else 0.

(** The cached balance after a successful debit (lines 262-283). *)
Definition cachedAfter (trunk : Trunk) (c : Context) (info : preparedInfo)
           (cached : option Z) : Z :=
  let sender := TxToRun.From (tx info) in
  let fee := feeOf (tx info) in
  let value := TxToRun.Value (tx info) in
  if bool_decide (TxToRun.To (tx info) = Sep206Address) then 0
  else match cached with
       | None => GetBalanceAfterBchTransfer trunk c sender value
       | Some balance =>
           if balance <? fee then 0
           else if u256 (balance - fee) <? value then 0
                else u256 (u256 (balance - fee) - value)
       end.

(** The entry caches, of every sender it lists, the nonce and the balance
    of the sender's account in the trunk, and has buffered nothing. *)
Definition loadedFrom (trunk : Trunk) (entry : ctxAndAccounts) : Prop :=
  forall a, a ∈ accounts entry ->
            senderView entry a = senderView (soloEntry trunk a) a.

(** The infos are [n] in number and the pointer [p] leads to an info of the
    sender [sender p]. *)
Definition sendersAre (sender : nat -> Address) (n : nat)
           (infos : list preparedInfo) : Prop :=
  length infos = n /\
  forall p info, infos !! p = Some info -> TxToRun.From (tx info) = sender p.

(** The infos of the sender [a] after the deductor has run over them alone,
    from a worker that has preloaded [a] and nothing else. *)
Definition soloRun `{Collaborators} (trunk : Trunk) (sender : nat -> Address)
           (n : nat) (infos : list preparedInfo) (a : Address)
  : list preparedInfo * ctxAndAccounts :=
  runGroup trunk (omap (fun p => infos !! p) (groupOf sender (seq 0 n) a))
           (soloEntry trunk a).

(** The engine configured with another number of workers for Prepare. *)
Definition setParallelNum (e : txEngine) (n : Z) : txEngine :=
  mkEngine (roundNum e) (runnerNumber e) n (cleanCtx e) (txList e)
    (committedTxs e) (signer e) (currentBlock e) (cumulativeGasUsed e)
    (cumulativeFeeRefund e) (cumulativeGasFee e).

(** The info has passed the nonce check of the deductor (line 216): it is
    accepted, or rejected only because the balance does not cover the fee. *)
Definition passedNonce (info : preparedInfo) : bool :=
  untagged info
  || String.eqb (errorStr info) "not enough balance to pay gasfee".

(** The infos of the sender [a], in list order. *)
Definition infosOf (a : Address) (infos : list preparedInfo)
  : list preparedInfo :=
  filter (fun info => TxToRun.From (tx info) = a) infos.

(** The cached nonce after [k] increments (line 220), 64 bits wide. *)
Definition bumped (k : nat) (n : Z) : Z := Nat.iter k (fun n => u64 (n + 1)) n.

(* ================================================================== *)
(** * Properties *)
(* ================================================================== *)

(** ** Frontier *)

(** A frontier whose maps were never made reads as empty but faults on a
    write: the nil guard of the setters is what keeps a nil frontier safe. *)
Example zero_frontier_write_faults :
  exists msg, Frontier.SetLatestNonce
                (Some (Frontier.mkFrontier None None None)) 7 1 = Panic msg.
Proof. eexists. reflexivity. Qed.

(** C9. On a nil frontier every getter (GetLatestNonce, GetLatestBalance,
    GetLatestTotalGas) answers not-present, with the zero nonce, the nil
    balance and the zero gas, and every setter (SetLatestNonce,
    SetLatestBalance, SetLatestTotalGas) returns without a fault and leaves
    the frontier nil, whatever the address and the value. *)
Theorem nil_frontier_getters_absent_setters_noop :
  forall (addr : Address) (n g : Z) (b : option Z),
    Frontier.GetLatestNonce None addr = Ok (0, false) /\
    Frontier.GetLatestBalance None addr = Ok (None, false) /\
    Frontier.GetLatestTotalGas None addr = Ok (0, false) /\
    Frontier.SetLatestNonce None addr n = Ok None /\
    Frontier.SetLatestBalance None addr b = Ok None /\
    Frontier.SetLatestTotalGas None addr g = Ok None.
Proof. intros addr n g b. repeat split. Qed.

(** ** The reorderer *)

Lemma firstAppearance_snoc seen l x :
  firstAppearance seen (l ++ [x]) =
  firstAppearance seen l ++ (if bool_decide (x ∈ seen ++ l) then [] else [x]).
Proof.
  revert seen. induction l as [|a l IH]; intros seen; simpl.
  - rewrite app_nil_r. destruct (bool_decide (x ∈ seen)); reflexivity.
  - destruct (bool_decide (a ∈ seen)) eqn:Ha.
    + rewrite IH. f_equal.
      apply bool_decide_eq_true in Ha.
      rewrite (bool_decide_ext _ (x ∈ seen ++ a :: l)); [done|]. set_solver.
    + rewrite IH. simpl. f_equal. f_equal.
      rewrite (bool_decide_ext _ (x ∈ seen ++ a :: l)); [done|]. set_solver.
Qed.

Lemma elem_of_firstAppearance seen l x :
  x ∈ firstAppearance seen l <-> x ∈ l /\ x ∉ seen.
Proof.
  revert seen. induction l as [|a l IH]; intros seen; simpl.
  - set_solver.
  - destruct (bool_decide (a ∈ seen)) eqn:Ha.
    + apply bool_decide_eq_true in Ha. rewrite IH. set_solver.
    + apply bool_decide_eq_false in Ha. rewrite elem_of_cons, IH.
      destruct (decide (x = a)); set_solver.
Qed.

Lemma NoDup_firstAppearance seen l : NoDup (firstAppearance seen l).
Proof.
  revert seen. induction l as [|a l IH]; intros seen; simpl.
  - constructor.
  - destruct (bool_decide (a ∈ seen)); [apply IH|].
    constructor; [|apply IH].
    rewrite elem_of_firstAppearance. set_solver.
Qed.

Lemma insert_cons_Permutation {A} (l : list A) (j : nat) (x a : A) :
  l !! j = Some a -> a :: <[j := x]> l ≡ₚ x :: l.
Proof.
  revert j. induction l as [|y l IH]; intros [|j] Hj; simplify_eq/=.
  - apply perm_swap.
  - rewrite perm_swap, (IH _ Hj). apply perm_swap.
Qed.

Lemma swap_Permutation {A} (l : list A) (i j : nat) : swap l i j ≡ₚ l.
Proof.
  unfold swap.
  destruct (l !! i) as [a0|] eqn:Hi; [|reflexivity].
  destruct (l !! j) as [a1|] eqn:Hj; [|reflexivity].
  revert i j Hi Hj. induction l as [|y l IH]; intros [|i] [|j] Hi Hj; simplify_eq/=.
  - reflexivity.
  - by apply insert_cons_Permutation.
  - rewrite (insert_cons_Permutation _ _ _ _ Hi). reflexivity.
  - by rewrite IH.
Qed.

Lemma swap_length {A} (l : list A) (i j : nat) : length (swap l i j) = length l.
Proof. apply Permutation_length, swap_Permutation. Qed.

Lemma swap_exchanged {A} (l : list A) (i j : nat) :
  (i < length l)%nat -> (j < length l)%nat -> swap l i j = exchanged l i j.
Proof.
  intros Hi Hj. unfold swap, exchanged.
  destruct (lookup_lt_is_Some_2 l i Hi) as [a0 Ha0].
  destruct (lookup_lt_is_Some_2 l j Hj) as [a1 Ha1].
  rewrite Ha0, Ha1. apply list_eq. intros k.
  rewrite list_lookup_imap.
  destruct (decide (k = j)) as [->|Hkj].
  - rewrite list_lookup_insert_eq by (rewrite length_insert; lia).
    rewrite Ha1. simpl.
    case_bool_decide; [subst; simpl; congruence|].
    rewrite bool_decide_eq_true_2 by done. reflexivity.
  - rewrite list_lookup_insert_ne by done.
    rewrite (bool_decide_eq_false_2 (k = j)) by done.
    destruct (decide (k = i)) as [->|Hki].
    + rewrite list_lookup_insert_eq by lia.
      rewrite Ha0. simpl.
      rewrite bool_decide_eq_true_2 by done. reflexivity.
    + rewrite list_lookup_insert_ne by done.
      rewrite (bool_decide_eq_false_2 (k = i)) by done.
      destruct (l !! k); reflexivity.
Qed.

Section ReordererFacts.
Context `{RandSource}.
Context {Info : Type} (from : Info -> Address).

(** A draw reduced by [%] is an index of the list. *)
Lemma draw_in_range g (n : nat) :
  (0 < n)%nat ->
  Z.rem (rand_Int63 g).1 (Z.of_nat n) = (rand_Int63 g).1 mod Z.of_nat n /\
  (Z.to_nat (Z.rem (rand_Int63 g).1 (Z.of_nat n)) < n)%nat.
Proof.
  intros Hn. pose proof (rand_Int63_range g) as [Hlo _].
  rewrite Z.rem_mod_nonneg by lia. split; [reflexivity|].
  pose proof (Z.mod_pos_bound (rand_Int63 g).1 (Z.of_nat n)). lia.
Qed.

Lemma shuffle_Permutation n g l : shuffle n g l ≡ₚ l.
Proof.
  revert g l. induction n as [|n IH]; intros g l; simpl; [reflexivity|].
  destruct (rand_Int63 g) as [v0 g1]. destruct (rand_Int63 g1) as [v1 g2].
  rewrite IH. apply swap_Permutation.
Qed.

Lemma shuffle_iter n g l :
  shuffle n g l = snd (Nat.iter n drawAndSwap (g, l)).
Proof.
  revert g l. induction n as [|n IH]; intros g l; [reflexivity|].
  rewrite Nat.iter_succ_r. cbn [shuffle].
  destruct (rand_Int63 g) as [v0 g1] eqn:E0.
  destruct (rand_Int63 g1) as [v1 g2] eqn:E1.
  rewrite IH. f_equal. f_equal.
  unfold drawAndSwap. cbn [fst snd]. rewrite E0. cbn [fst snd]. rewrite E1.
  cbn [fst snd].
  destruct l as [|a l].
  { reflexivity. }
  assert (Hn : (0 < length (a :: l))%nat) by (simpl; lia).
  pose proof (draw_in_range g _ Hn) as [R0 B0].
  pose proof (draw_in_range g1 _ Hn) as [R1 B1].
  rewrite E0 in R0, B0. rewrite E1 in R1, B1. cbn [fst] in *.
  rewrite swap_exchanged by assumption.
  rewrite R0, R1. reflexivity.
Qed.

Lemma groupOf_snoc l x a :
  groupOf from (l ++ [x]) a =
  groupOf from l a ++ (if decide (from x = a) then [x] else []).
Proof.
  unfold groupOf. rewrite filter_app. f_equal.
Qed.

Lemma groupOf_nil_iff l a : groupOf from l a = [] <-> a ∉ map from l.
Proof.
  unfold groupOf. induction l as [|x l IH]; simpl.
  - set_solver.
  - rewrite filter_cons. destruct (decide (from x = a)) as [<-|Hne].
    + split; [discriminate|]. set_solver.
    + rewrite IH. set_solver.
Qed.

Lemma groupInfos_grouped rest done_ m l :
  grouped from done_ m l ->
  grouped from (done_ ++ rest) (groupInfos from rest m l).1 (groupInfos from rest m l).2.
Proof.
  revert done_ m l. induction rest as [|x rest IH]; intros done_ m l [Hm Hl]; simpl.
  - rewrite app_nil_r. split; assumption.
  - replace (done_ ++ x :: rest) with ((done_ ++ [x]) ++ rest)
      by (rewrite <- app_assoc; reflexivity).
    pose proof (Hm (from x)) as Hx.
    destruct (m !! from x) as [g|] eqn:Eg.
    + apply IH. split.
      * intros a. rewrite groupOf_snoc.
        destruct (decide (from x = a)) as [<-|Hne].
        -- rewrite lookup_insert_eq.
           destruct (groupOf from done_ (from x)) as [|y ys]; [discriminate|].
           simplify_eq. reflexivity.
        -- rewrite lookup_insert_ne by done. rewrite app_nil_r. apply Hm.
      * rewrite map_app. simpl. rewrite firstAppearance_snoc, <- Hl. simpl.
        rewrite bool_decide_eq_true_2; [by rewrite app_nil_r|].
        destruct (decide (from x ∈ map from done_)) as [Hin|Hnin]; [done|].
        apply groupOf_nil_iff in Hnin. rewrite Hnin in Hx. discriminate.
    + apply IH. split.
      * intros a. rewrite groupOf_snoc.
        destruct (decide (from x = a)) as [<-|Hne].
        -- rewrite lookup_insert_eq.
           destruct (groupOf from done_ (from x)) as [|y ys]; [reflexivity|discriminate].
        -- rewrite lookup_insert_ne by done. rewrite app_nil_r. apply Hm.
      * rewrite map_app. simpl. rewrite firstAppearance_snoc, <- Hl. simpl.
        rewrite bool_decide_eq_false_2; [reflexivity|].
        apply groupOf_nil_iff.
        destruct (groupOf from done_ (from x)); [reflexivity|discriminate].
Qed.

Lemma groupInfos_spec infoList :
  grouped from infoList (groupInfos from infoList ∅ []).1 (groupInfos from infoList ∅ []).2.
Proof.
  apply (groupInfos_grouped infoList [] ∅ []). split; [|reflexivity].
  intros a. rewrite lookup_empty. reflexivity.
Qed.

Lemma filter_groupOf infoList a b :
  filter (fun info => from info = a) (groupOf from infoList b) =
  if decide (a = b) then groupOf from infoList a else [].
Proof.
  unfold groupOf. induction infoList as [|x l IH]; simpl.
  - destruct (decide (a = b)); reflexivity.
  - rewrite !filter_cons.
    destruct (decide (from x = b)) as [Hb|Hb].
    + rewrite filter_cons. destruct (decide (from x = a)) as [Ha|Ha].
      * rewrite IH. destruct (decide (a = b)); [reflexivity|congruence].
      * rewrite IH. destruct (decide (a = b)); [congruence|reflexivity].
    + rewrite IH. destruct (decide (a = b)) as [->|Hab]; [|reflexivity].
      rewrite decide_False by done. reflexivity.
Qed.

Lemma filter_flat_map_groupOf infoList addrs a :
  NoDup addrs ->
  filter (fun info => from info = a) (flat_map (groupOf from infoList) addrs) =
  if decide (a ∈ addrs) then groupOf from infoList a else [].
Proof.
  induction 1 as [|b addrs Hb Hnd IH]; simpl.
  - reflexivity.
  - rewrite filter_app, IH, filter_groupOf.
    destruct (decide (a = b)) as [->|Hab].
    + rewrite decide_False by done. rewrite decide_True by set_solver.
      apply app_nil_r.
    + destruct (decide (a ∈ addrs)).
      * rewrite decide_True by set_solver. reflexivity.
      * rewrite decide_False by set_solver. reflexivity.
Qed.

Lemma filter_from_cons (l : list Info) (b : Address) (addrs : list Address) :
  b ∉ addrs ->
  filter (fun info => from info = b) l ++ filter (fun info => from info ∈ addrs) l
  ≡ₚ filter (fun info => from info ∈ b :: addrs) l.
Proof.
  intros Hb. induction l as [|x l IH]; [reflexivity|].
  rewrite !filter_cons.
  destruct (decide (from x = b)) as [Hx|Hx].
  - rewrite decide_False by (rewrite Hx; exact Hb).
    rewrite decide_True by (rewrite Hx; left). simpl. by rewrite IH.
  - destruct (decide (from x ∈ addrs)) as [Hin|Hnin].
    + rewrite decide_True by (by right).
      rewrite <- Permutation_middle. by rewrite IH.
    + rewrite decide_False by (intros [?|?]%elem_of_cons; done). exact IH.
Qed.

Lemma flat_map_groupOf_Permutation (l : list Info) (addrs : list Address) :
  NoDup addrs ->
  flat_map (groupOf from l) addrs ≡ₚ filter (fun info => from info ∈ addrs) l.
Proof.
  induction 1 as [|b addrs Hb Hnd IH]; simpl.
  - induction l as [|x l IHl]; [reflexivity|].
    rewrite filter_cons. rewrite decide_False by (by intros ?%elem_of_nil). exact IHl.
  - rewrite IH. by apply filter_from_cons.
Qed.

Lemma filter_all (P : Info -> Prop) `{forall x, Decision (P x)} (l : list Info) :
  (forall x, x ∈ l -> P x) -> filter P l = l.
Proof.
  induction l as [|x l IH]; intros Hall; [reflexivity|].
  rewrite filter_cons. rewrite decide_True by (apply Hall; left).
  f_equal. apply IH. intros y Hy. apply Hall. by right.
Qed.

Lemma reorderInfoList_out infoList seed :
  (reorderInfoList from infoList seed).1 =
  flat_map (groupOf from infoList)
           (shuffle (length (firstAppearance [] (map from infoList)))
                    (rand_Seed seed) (firstAppearance [] (map from infoList))).
Proof.
  unfold reorderInfoList.
  pose proof (groupInfos_spec infoList) as [Hm Hl].
  destruct (groupInfos from infoList ∅ []) as [m l]. cbn [fst snd] in *.
  subst l. apply flat_map_ext. intros a.
  rewrite Hm. destruct (groupOf from infoList a); reflexivity.
Qed.

(** The reordered list holds the same infos, each as often. *)
Lemma reorderInfoList_Permutation infoList seed :
  (reorderInfoList from infoList seed).1 ≡ₚ infoList.
Proof.
  rewrite reorderInfoList_out.
  set (L := firstAppearance [] (map from infoList)).
  rewrite flat_map_groupOf_Permutation
    by (rewrite shuffle_Permutation; apply NoDup_firstAppearance).
  rewrite filter_all; [reflexivity|].
  intros x Hx. rewrite shuffle_Permutation. apply elem_of_firstAppearance.
  split; [|by intros ?%elem_of_nil]. apply list_elem_of_fmap. eauto.
Qed.

(** The groups of the map returned with the list. *)
Lemma reorderInfoList_groups infoList seed a :
  default [] ((reorderInfoList from infoList seed).2 !! a) = groupOf from infoList a.
Proof.
  unfold reorderInfoList.
  pose proof (groupInfos_spec infoList) as [Hm _].
  destruct (groupInfos from infoList ∅ []) as [m l]. cbn [fst snd] in *.
  rewrite Hm. destruct (groupOf from infoList a); reflexivity.
Qed.

End ReordererFacts.

(** The first output of the generator seeded with 5489, the default seed of
    the reference implementation. *)
Example MT19937_first_output :
  (MT19937.Uint64 (MT19937.Seed 5489)).1 = 14514284786278117030.
Proof. vm_compute. reflexivity. Qed.

(** A block of five transactions by three senders, reordered with seed 42:
    the senders are moved as a whole and each keeps its own order. *)
Example reorder_five :
  (reorderInfoList (fun p : nat => default 0 ([7; 8; 7; 9; 8] !! p))
                   [0; 1; 2; 3; 4]%nat 42).1 = [3; 1; 4; 0; 2]%nat.
Proof. vm_compute. reflexivity. Qed.

(** C3. The reordered list is a function of the info list and the seed
    alone: it is the list the specification describes, namely the senders
    in order of first appearance, shuffled by exactly as many iterations as
    there are senders, each drawing two values of the generator seeded with
    the seed, reducing them modulo the number of senders and exchanging the
    two positions, and then the per-sender groups concatenated in that
    order. The infos of any one sender keep their original relative order. *)
Theorem reorderInfoList_is_the_specified_shuffle
        `{RandSource} {Info : Type} (from : Info -> Address) :
  forall (infoList : list Info) (reorderSeed : Z),
    (reorderInfoList from infoList reorderSeed).1 =
      reorderedSpec from infoList reorderSeed /\
    (forall a : Address,
        filter (fun info => from info = a) (reorderInfoList from infoList reorderSeed).1 =
        filter (fun info => from info = a) infoList).
Proof.
  intros infoList seed. rewrite reorderInfoList_out. split.
  - unfold reorderedSpec, shuffled. rewrite shuffle_iter. reflexivity.
  - intros a.
    set (L := firstAppearance [] (map from infoList)).
    rewrite filter_flat_map_groupOf.
    + destruct (decide (a ∈ shuffle (length L) (rand_Seed seed) L)) as [Hin|Hnin];
        [reflexivity|].
      symmetry. apply groupOf_nil_iff. intros Ha. apply Hnin.
      rewrite shuffle_Permutation. apply elem_of_firstAppearance.
      split; [assumption|set_solver].
    + rewrite shuffle_Permutation. apply NoDup_firstAppearance.
Qed.

(** ** GasUsedInfo *)

(** C10. On an engine made by NewEbpTxExec on which Execute has not run,
    GasUsedInfo does not return the three zero counters: its guard tests
    cumulativeGasFee only, and the branch taken dereferences
    cumulativeFeeRefund, which is nil as well, so the call faults. *)
Theorem GasUsedInfo_on_fresh_engine_faults :
  forall (exeRoundCount runnerNumber parallelNum defaultTxListCap : Z)
         (s : GethTx -> Address * bool) (m : Machine),
    NewEbpTxExec exeRoundCount runnerNumber parallelNum defaultTxListCap s = Ok m ->
    GasUsedInfo (exec m) =
      Panic "invalid memory address or nil pointer dereference".
Proof.
  intros r n p c s m Hnew. unfold NewEbpTxExec in Hnew.
  destruct ((n <? 0) || (c <? 0)); [discriminate|].
  injection Hnew as <-. reflexivity.
Qed.

Lemma GasUsedInfo_on_fresh_engine_faults_witness :
  exists m, NewEbpTxExec 2 4 2 16 demoSigner = Ok m /\
            GasUsedInfo (exec m) =
              Panic "invalid memory address or nil pointer dereference".
Proof.
  eexists. split; [reflexivity|].
  apply (GasUsedInfo_on_fresh_engine_faults 2 4 2 16 demoSigner). reflexivity.
Defined.

(** ** The conflict resolver *)

Section Resolver.
Context `{Collaborators}.






End Resolver.

Section ResolverClaim.
Context `{Collaborators}.


End ResolverClaim.


(** ** The round executor *)

Section RunInParallel.
Context `{Collaborators}.

Lemma runSlot_ok trunk txBundle currBlock myIdx t m kvCount :
  (myIdx < length (Runners m))%nat ->
  txBundle !! myIdx = Some t ->
  exists kvCount',
    runSlot trunk txBundle currBlock myIdx t (m, kvCount) =
    Ok (mkMachine (exec m)
          (<[myIdx := Some (if sameFromAsPrev txBundle myIdx t
                            then skippedRunner t
                            else ranRunner trunk t currBlock)]> (Runners m))
          (updates m)
          (runs m ++ if sameFromAsPrev txBundle myIdx t then [] else [myIdx]),
        kvCount').
Proof.
  intros Hlt Ht. unfold runSlot, setIndex.
  rewrite decide_True by done. cbn [bindR].
  assert (Hsame : match myIdx with
                  | O => Ok false
                  | S p => try! prev := index txBundle p in
                           Ok (bool_decide (TxToRun.From prev = TxToRun.From t))
                  end = Ok (sameFromAsPrev txBundle myIdx t)).
  { destruct myIdx as [|p]; [reflexivity|]. unfold index, sameFromAsPrev.
    destruct (txBundle !! p) as [prev|] eqn:Hp; [reflexivity|].
    apply lookup_ge_None in Hp. apply lookup_lt_Some in Ht. lia. }
  rewrite Hsame. cbn [bindR].
  unfold getRunner, index. rewrite list_lookup_insert_eq by done.
  cbn [bindR deref].
  destruct (sameFromAsPrev txBundle myIdx t);
    rewrite length_insert; rewrite decide_True by done; cbn [bindR];
    rewrite list_insert_insert_eq.
  - eexists. unfold setRunners. cbn [exec Runners updates runs].
    rewrite app_nil_r. reflexivity.
  - eexists. reflexivity.
Qed.

Lemma forRange_runSlot trunk txBundle currBlock rest :
  forall i m kvCount,
    (i + length rest <= length (Runners m))%nat ->
    (forall k t, rest !! k = Some t -> txBundle !! (i + k)%nat = Some t) ->
    exists m' kvCount',
      forRange (runSlot trunk txBundle currBlock) i rest (m, kvCount) = Ok (m', kvCount') /\
      exec m' = exec m /\
      updates m' = updates m /\
      length (Runners m') = length (Runners m) /\
      (forall k t, rest !! k = Some t ->
                   Runners m' !! (i + k)%nat =
                   Some (Some (if sameFromAsPrev txBundle (i + k) t
                               then skippedRunner t
                               else ranRunner trunk t currBlock))) /\
      (forall j, (j < i \/ i + length rest <= j)%nat ->
                 Runners m' !! j = Runners m !! j) /\
      runs m' = runs m ++
                filter (fun j => sameFromAsPrev txBundle j
                                   (default zeroTxToRun (txBundle !! j)) = false)
                       (seq i (length rest)).
Proof.
  induction rest as [|t rest IH]; intros i m kvCount Hlen Hrest.
  - exists m, kvCount. simpl. rewrite app_nil_r.
    repeat split; try reflexivity. intros k t Hk. discriminate.
  - cbn [forRange]. simpl in Hlen.
    assert (Ht : txBundle !! i = Some t).
    { specialize (Hrest 0%nat t eq_refl). by rewrite Nat.add_0_r in Hrest. }
    destruct (runSlot_ok trunk txBundle currBlock i t m kvCount) as [kv1 Hstep];
      [lia|exact Ht|].
    rewrite Hstep. cbn [bindR].
    match type of Hstep with
    | _ = Ok (?m1, _) =>
        destruct (IH (S i) m1 kv1)
          as (m' & kv' & Hrun & He & Hu & Hl & Hslots & Hout & Hruns)
    end.
    { cbn [Runners]. rewrite length_insert. lia. }
    { intros k t' Hk. specialize (Hrest (S k) t' Hk).
      by rewrite Nat.add_succ_r in Hrest. }
    exists m', kv'. split; [exact Hrun|]. cbn [exec updates Runners runs] in *.
    rewrite length_insert in Hl.
    split; [exact He|]. split; [exact Hu|]. split; [exact Hl|]. split; [|split].
    + intros [|k] t' Hk.
      * simpl in Hk. injection Hk as <-. rewrite Nat.add_0_r.
        rewrite Hout by lia. rewrite list_lookup_insert_eq by lia. reflexivity.
      * specialize (Hslots k t' Hk). by rewrite Nat.add_succ_r.
    + intros j Hj. simpl in Hj. rewrite Hout by lia.
      apply list_lookup_insert_ne. lia.
    + rewrite Hruns, <- app_assoc. f_equal. cbn [length seq].
      rewrite filter_cons. rewrite Ht.
      change (default zeroTxToRun (Some t)) with t.
      destruct (sameFromAsPrev txBundle i t); reflexivity.
Qed.

(** C8. In the parallel section of a round, with at least one worker and
    the bundle fitting the slot array: a slot after the first whose
    transaction has the sender of the slot just before it gets a runner
    whose status is TX_NONCE_TOO_LARGE, and runTx is not invoked for it;
    every other slot of the bundle has runTx invoked for it, once, and holds
    the runner as runTx left it. *)
Theorem runTxInParallel_skips_same_sender_slots :
  forall (m : Machine) (txRange : TxRange) (txBundle : list TxToRun.t)
         (currBlock : option BlockInfo.t) (trunk : Trunk),
    cleanCtx (exec m) = Some trunk ->
    0 < parallelNum (exec m) ->
    (length txBundle <= length (Runners m))%nat ->
    exists m' kvCount ran,
      runTxInParallel m txRange txBundle currBlock = Ok (m', kvCount) /\
      runs m' = runs m ++ ran /\
      NoDup ran /\
      forall idx t,
        txBundle !! idx = Some t ->
        (sameFromAsPrev txBundle idx t = true ->
           getRunner (Runners m') idx = Ok (skippedRunner t) /\
           TxRunner.Status (skippedRunner t) = TX_NONCE_TOO_LARGE /\
           idx ∉ ran) /\
        (sameFromAsPrev txBundle idx t = false ->
           getRunner (Runners m') idx = Ok (ranRunner trunk t currBlock) /\
           idx ∈ ran).
Proof.
  intros m txRange txBundle currBlock trunk Htrunk Hpar Hlen.
  unfold runTxInParallel. rewrite Htrunk. cbn [deref bindR].
  destruct (parallelNum (exec m) <? 0) eqn:E1; [lia|].
  destruct (parallelNum (exec m) =? 0) eqn:E2; [lia|].
  destruct (forRange_runSlot trunk txBundle currBlock txBundle 0%nat m 0)
    as (m' & kv & Hrun & _ & _ & _ & Hslots & _ & Hruns);
    [simpl; lia|intros k t Hk; exact Hk|].
  exists m', kv, (filter (fun j => sameFromAsPrev txBundle j
                                     (default zeroTxToRun (txBundle !! j)) = false)
                         (seq 0 (length txBundle))).
  split; [exact Hrun|]. split; [exact Hruns|].
  split; [apply NoDup_filter, NoDup_seq|].
  intros idx t Ht. specialize (Hslots idx t Ht). simpl in Hslots.
  unfold getRunner, index. rewrite Hslots. cbn [bindR deref].
  split; intros Hsame; rewrite Hsame.
  - split; [reflexivity|]. split; [reflexivity|].
    rewrite list_elem_of_filter, Ht.
    change (default zeroTxToRun (Some t)) with t. rewrite Hsame.
    intros [? _]. discriminate.
  - split; [reflexivity|].
    rewrite list_elem_of_filter, Ht.
    change (default zeroTxToRun (Some t)) with t. split; [exact Hsame|].
    apply elem_of_seq. apply lookup_lt_Some in Ht. lia.
Qed.

End RunInParallel.

Section QueueUpdate.
Context `{Collaborators}.

Lemma getRunner_clear rs idx (r : TxRunner.t) :
  getRunner rs idx = Ok r -> setIndex rs idx None = Ok (<[idx := None]> rs).
Proof.
  unfold getRunner, index, setIndex. intros Hr.
  destruct (rs !! idx) as [p|] eqn:Hp; [|discriminate].
  apply lookup_lt_Some in Hp. by rewrite decide_True.
Qed.

Lemma requeueSlot_cases (m : Machine) (idx : nat) (t : TxToRun.t)
      (txRange : TxRange) (store : Trunk) (r : TxRunner.t) (fee : Z) :
  getRunner (Runners m) idx = Ok r ->
  cumulativeGasFee (exec m) = Some fee ->
  requeueSlot idx t (m, txRange, store) =
  Ok (if retried (TxRunner.Status r)
      then (setRunners m (<[idx := None]> (Runners m)),
            mkTxRange (u64 (start txRange + 1)) (u64 (end_ txRange + 1)),
            slotSet (slotDelete store (start txRange)) (end_ txRange) (ToBytes t))
      else if dropped (TxRunner.Status r)
      then (setRunners
              (setExec m
                 (setCumulative (exec m)
                    (u64 (cumulativeGasUsed (exec m) + TxToRun.Gas (TxRunner.Tx r)))
                    (cumulativeFeeRefund (exec m))
                    (Some (u256 (fee + GetGasFee r)))))
              (<[idx := None]> (Runners m)),
            mkTxRange (u64 (start txRange + 1)) (end_ txRange),
            slotDelete store (start txRange))
      else (m, mkTxRange (u64 (start txRange + 1)) (end_ txRange),
            slotDelete store (start txRange))).
Proof.
  intros Hr Hfee. unfold requeueSlot. rewrite Hr. cbn [bindR].
  cbn [start end_]. fold (retried (TxRunner.Status r)).
  fold (dropped (TxRunner.Status r)).
  destruct (retried (TxRunner.Status r)).
  - rewrite (getRunner_clear _ _ _ Hr). reflexivity.
  - destruct (dropped (TxRunner.Status r)); [|reflexivity].
    rewrite Hfee. cbn [deref bindR].
    rewrite (getRunner_clear _ _ _ Hr). reflexivity.
Qed.

Lemma harvest_result (n : nat) :
  forall (i : nat) (m : Machine) (committable : list TxRunner.t),
    (i + n <= length (Runners m))%nat ->
    harvest i n m committable =
    Ok (setRunners m (take i (Runners m) ++ replicate n None ++ drop (i + n) (Runners m)),
        committable ++ omap id (take n (drop i (Runners m)))).
Proof.
  induction n as [|n IH]; intros i m committable Hlen.
  - cbn [harvest replicate]. rewrite Nat.add_0_r. cbn [app].
    rewrite take_drop, take_0. cbn [omap]. rewrite app_nil_r.
    destruct m; reflexivity.
  - cbn [harvest]. unfold index.
    destruct (Runners m !! i) as [p|] eqn:Hp;
      [|apply lookup_ge_None in Hp; lia].
    cbn [bindR].
    assert (Hdrop : drop i (Runners m) = p :: drop (S i) (Runners m))
      by (by apply drop_S).
    assert (Htail : take i (Runners m) ++ replicate (S n) None
                      ++ drop (i + S n) (Runners m)
                    = take (S i) (<[i := None]> (Runners m))
                        ++ replicate n None ++ drop (S i + n) (<[i := None]> (Runners m))).
    { rewrite (take_S_r _ i None)
        by (apply list_lookup_insert_eq; apply lookup_lt_Some in Hp; done).
      rewrite take_insert_ge by lia.
      rewrite drop_insert_lt by lia. rewrite <- app_assoc. cbn [replicate app].
      replace (i + S n)%nat with (S i + n)%nat by lia. reflexivity. }
    destruct p as [r|].
    + unfold setIndex. rewrite decide_True by lia. cbn [bindR].
      rewrite IH by (cbn [setRunners Runners]; rewrite length_insert; lia).
      cbn [setRunners Runners exec updates runs].
      rewrite Hdrop, Htail. cbn [take omap id]. cbn.
      rewrite !drop_insert_lt by lia. unfold setRunners.
      cbn [exec Runners updates runs]. rewrite <- app_assoc. reflexivity.
    + rewrite IH by lia. rewrite Htail, (list_insert_id _ _ _ Hp), Hdrop.
      reflexivity.
Qed.

End QueueUpdate.

Lemma runTxInParallel_skips_same_sender_slots_witness :
  exists m' kvCount ran,
    runTxInParallel demoMachine (mkTxRange 0 2)
      [demoTx 1 demoA demoB 0 100; demoTx 2 demoA demoB 1 50] (Some demoBlock) =
      Ok (m', kvCount) /\
    runs m' = runs demoMachine ++ ran /\
    NoDup ran /\
    forall idx t,
      [demoTx 1 demoA demoB 0 100; demoTx 2 demoA demoB 1 50] !! idx = Some t ->
      (sameFromAsPrev [demoTx 1 demoA demoB 0 100; demoTx 2 demoA demoB 1 50] idx t = true ->
         getRunner (Runners m') idx = Ok (skippedRunner t) /\
         TxRunner.Status (skippedRunner t) = TX_NONCE_TOO_LARGE /\
         idx ∉ ran) /\
      (sameFromAsPrev [demoTx 1 demoA demoB 0 100; demoTx 2 demoA demoB 1 50] idx t = false ->
         getRunner (Runners m') idx = Ok (ranRunner demoTrunk t (Some demoBlock)) /\
         idx ∈ ran).
Proof.
  apply (runTxInParallel_skips_same_sender_slots demoMachine (mkTxRange 0 2)
           [demoTx 1 demoA demoB 0 100; demoTx 2 demoA demoB 1 50]
           (Some demoBlock) demoTrunk).
  - reflexivity.
  - reflexivity.
  - simpl. lia.
Defined.

(** The two slots of the example: the first is run, the second is not. *)
Example demo_parallel_section :
  (fun r => (TxRunner.Status <$> (Runners r.1 !! 0%nat ≫= id),
             TxRunner.Status <$> (Runners r.1 !! 1%nat ≫= id),
             runs r.1))
    <$> (match runTxInParallel demoMachine (mkTxRange 0 2)
                 [demoTx 1 demoA demoB 0 100; demoTx 2 demoA demoB 1 50]
                 (Some demoBlock) with
         | Ok r => Some r
         | Panic _ => None
         end)
  = Some (Some SUCCESS, Some TX_NONCE_TOO_LARGE, [0%nat]).
Proof. vm_compute. reflexivity. Qed.

Section QueueUpdateClaim.
Context `{Collaborators}.


End QueueUpdateClaim.


(** ** Execute and the standby queue *)

Lemma u64_small x : 0 <= x < 2 ^ 64 -> u64 x = x.
Proof. intros Hx. unfold u64. apply Z.mod_small. exact Hx. Qed.

(** A value that fits an int64 survives the way through uint64 and back. *)
Lemma toInt64_u64 x : - 2 ^ 63 <= x < 2 ^ 63 -> toInt64 (u64 x) = x.
Proof.
  intros Hx. unfold toInt64, u64.
  destruct (Z.lt_ge_cases x 0) as [Hneg|Hpos].
  - rewrite <- (Z.mod_add x 1 (2 ^ 64)) by lia.
    rewrite Z.mod_small by lia.
    assert ((x + 1 * 2 ^ 64 <? 2 ^ 63) = false) as -> by (apply Z.ltb_ge; lia).
    lia.
  - rewrite Z.mod_small by lia.
    assert ((x <? 2 ^ 63) = true) as -> by (apply Z.ltb_lt; lia).
    reflexivity.
Qed.

Lemma sameSetup_refl e : sameSetup e e.
Proof. unfold sameSetup. tauto. Qed.

Lemma sameSetup_trans e1 e2 e3 : sameSetup e1 e2 -> sameSetup e2 e3 -> sameSetup e1 e3.
Proof.
  unfold sameSetup.
  intros (A1 & A2 & A3 & A4 & A5 & A6) (B1 & B2 & B3 & B4 & B5 & B6).
  repeat split; try congruence; auto.
Qed.

Lemma sameQueue_refl t : sameQueue t t.
Proof. split; reflexivity. Qed.

Lemma sameQueue_trans t1 t2 t3 : sameQueue t1 t2 -> sameQueue t2 t3 -> sameQueue t1 t3.
Proof. intros [A B] [C D]. split; congruence. Qed.

Lemma sameQueue_Close t c dirty : sameQueue t (Close t c dirty).
Proof. destruct dirty; split; reflexivity. Qed.

Lemma queueIs_sameQueue txRange t t' :
  sameQueue t t' -> queueIs txRange t -> queueIs txRange t'.
Proof.
  intros [_ Hs] (A & B & C). split; [exact A|]. split; [exact B|].
  intros j. rewrite Hs. apply C.
Qed.

Section ExecuteFacts.
Context `{Collaborators}.

Lemma loadStandbyTxs_length e txRange trunk :
  cleanCtx e = Some trunk ->
  0 <= start txRange <= end_ txRange ->
  0 <= runnerNumber e ->
  end_ txRange + runnerNumber e < 2 ^ 64 ->
  exists txBundle,
    loadStandbyTxs e txRange = Ok txBundle /\
    Z.of_nat (length txBundle) = Z.min (end_ txRange - start txRange) (runnerNumber e).
Proof.
  intros Htrunk Hse Hr Hov. unfold loadStandbyTxs. rewrite Htrunk. cbn [deref bindR].
  rewrite (u64_small (runnerNumber e)) by lia.
  rewrite (u64_small (start txRange + runnerNumber e)) by lia.
  eexists. split; [reflexivity|].
  destruct (start txRange + runnerNumber e <? end_ txRange) eqn:E.
  - apply Z.ltb_lt in E. rewrite (proj2 (Z.leb_le _ _)) by lia.
    rewrite length_map, length_seqZ. lia.
  - apply Z.ltb_ge in E. rewrite (proj2 (Z.leb_le _ _)) by lia.
    rewrite length_map, length_seqZ. lia.
Qed.

Lemma resolveSlot_ok idx t m T trunk r :
  cleanCtx (exec m) = Some trunk ->
  Runners m !! idx = Some (Some r) ->
  exists m' T' trunk' r',
    resolveSlot idx t (m, T) = Ok (m', T') /\
    exec m' = setTrunk (exec m) trunk' /\
    sameQueue trunk trunk' /\
    Runners m' = <[idx := Some r']> (Runners m) /\
    runs m' = runs m /\
    exists news, updates m' = updates m ++ news /\ Forall (sameQueue trunk) news.
Proof.
  intros Htrunk Hr. unfold resolveSlot.
  assert (Hget : getRunner (Runners m) idx = Ok r)
    by (unfold getRunner, index; rewrite Hr; reflexivity).
  rewrite Hget. cbn [bindR].
  destruct (ScanAllShortKeys (TxRunner.Ctx r) (scanConflict T) (true, r))
    as [canCommit r'].
  unfold setIndex. rewrite decide_True by (by apply lookup_lt_Some in Hr).
  cbn [bindR]. rewrite Htrunk. cbn [deref bindR].
  destruct canCommit.
  - eexists _, _, (Close trunk (TxRunner.Ctx r') true), r'.
    split; [reflexivity|]. split; [reflexivity|].
    split; [apply sameQueue_Close|]. split; [reflexivity|]. split; [reflexivity|].
    eexists. split; [reflexivity|].
    constructor; [apply sameQueue_Close|constructor].
  - eexists _, _, trunk, r'. split; [reflexivity|].
    split; [destruct m as [e ? ? ?]; destruct e; simpl in *; by subst|].
    split; [apply sameQueue_refl|]. split; [reflexivity|]. split; [reflexivity|].
    exists []. split; [by rewrite app_nil_r|constructor].
Qed.

Lemma forRange_resolveSlot rest :
  forall i m T trunk,
    cleanCtx (exec m) = Some trunk ->
    slotsFilled (Runners m) i (length rest) ->
    exists m' T' trunk',
      forRange resolveSlot i rest (m, T) = Ok (m', T') /\
      exec m' = setTrunk (exec m) trunk' /\
      sameQueue trunk trunk' /\
      length (Runners m') = length (Runners m) /\
      (forall k, (exists r, Runners m !! k = Some (Some r)) ->
                 exists r', Runners m' !! k = Some (Some r')) /\
      runs m' = runs m /\
      exists news, updates m' = updates m ++ news /\ Forall (sameQueue trunk) news.
Proof.
  induction rest as [|t rest IH]; intros i m T trunk Htrunk Hfilled.
  - exists m, T, trunk. split; [reflexivity|].
    split; [destruct m as [e ? ? ?]; destruct e; simpl in *; by subst|].
    split; [apply sameQueue_refl|]. split; [reflexivity|].
    split; [auto|]. split; [reflexivity|].
    exists []. split; [by rewrite app_nil_r|constructor].
  - cbn [forRange].
    destruct (Hfilled i) as [r Hr]; [simpl; lia|].
    destruct (resolveSlot_ok i t m T trunk r Htrunk Hr)
      as (m1 & T1 & trunk1 & r' & Hstep & He1 & Hq1 & Hrs1 & Hruns1 & news1 & Hu1 & Hn1).
    rewrite Hstep. cbn [bindR].
    destruct (IH (S i) m1 T1 trunk1) as
      (m' & T' & trunk' & Hrun & He & Hq & Hlen & Hkeep & Hruns & news & Hu & Hn).
    { rewrite He1. reflexivity. }
    { intros k Hk. rewrite Hrs1. rewrite list_lookup_insert_ne by lia.
      apply Hfilled. simpl. lia. }
    exists m', T', trunk'. split; [exact Hrun|].
    split; [rewrite He, He1; reflexivity|].
    split; [eapply sameQueue_trans; eassumption|].
    split; [rewrite Hlen, Hrs1; apply length_insert|].
    split.
    { intros k [r0 Hk]. apply Hkeep. rewrite Hrs1.
      destruct (decide (k = i)) as [->|Hne].
      - exists r'. apply list_lookup_insert_eq. by apply lookup_lt_Some in Hk.
      - exists r0. by rewrite list_lookup_insert_ne. }
    split; [congruence|].
    exists (news1 ++ news). split; [rewrite Hu, Hu1; by rewrite app_assoc|].
    apply Forall_app. split; [exact Hn1|].
    eapply Forall_impl; [exact Hn|]. intros t0 Ht0.
    eapply sameQueue_trans; eassumption.
Qed.

Lemma queueIs_step_delete txRange store :
  queueIs txRange store ->
  start txRange < end_ txRange ->
  queueIs (mkTxRange (u64 (start txRange + 1)) (end_ txRange))
          (slotDelete store (start txRange)).
Proof.
  intros (Hse & Hov & Hdom) Hlt. unfold queueIs. cbn [start end_].
  rewrite u64_small by lia. split; [lia|]. split; [lia|].
  intros j. cbn [slotDelete standbySlots].
  destruct (decide (j = start txRange)) as [->|Hne].
  - rewrite lookup_delete_eq. split; [intros [? ?]; discriminate|lia].
  - rewrite lookup_delete_ne by done. rewrite Hdom. lia.
Qed.

Lemma queueIs_step_append txRange store bytes :
  queueIs txRange store ->
  end_ txRange + 1 < 2 ^ 64 ->
  queueIs (mkTxRange (start txRange) (u64 (end_ txRange + 1)))
          (slotSet store (end_ txRange) bytes).
Proof.
  intros (Hse & Hov & Hdom) Hlt. unfold queueIs. cbn [start end_].
  rewrite u64_small by lia. split; [lia|]. split; [lia|].
  intros j. cbn [slotSet standbySlots].
  destruct (decide (j = end_ txRange)) as [->|Hne].
  - rewrite lookup_insert_eq. split; [lia|eauto].
  - rewrite lookup_insert_ne by done. rewrite Hdom. lia.
Qed.

Lemma forRange_requeueSlot rest :
  forall i m txRange store,
    queueIs txRange store ->
    start txRange + Z.of_nat (length rest) <= end_ txRange ->
    end_ txRange + Z.of_nat (length rest) < 2 ^ 64 ->
    slotsFilled (Runners m) i (length rest) ->
    is_Some (cumulativeGasFee (exec m)) ->
    exists m' txRange' store',
      forRange requeueSlot i rest (m, txRange, store) = Ok (m', txRange', store') /\
      queueIs txRange' store' /\
      start txRange' = start txRange + Z.of_nat (length rest) /\
      end_ txRange <= end_ txRange' <= end_ txRange + Z.of_nat (length rest) /\
      standbyCtl store' = standbyCtl store /\
      worldAccounts store' = worldAccounts store /\
      cleanCtx (exec m') = cleanCtx (exec m) /\
      sameSetup (exec m) (exec m') /\
      length (Runners m') = length (Runners m) /\
      updates m' = updates m /\
      runs m' = runs m.
Proof.
  induction rest as [|t rest IH]; intros i m txRange store Hq Hn Hov Hfilled Hfee.
  - exists m, txRange, store. cbn [forRange length]. split; [reflexivity|].
    split; [exact Hq|]. split; [simpl; lia|]. split; [simpl; lia|].
    repeat split; try reflexivity; auto.
  - cbn [forRange]. cbn [length] in Hn, Hov.
    destruct (Hfilled i) as [r Hr]; [simpl; lia|].
    destruct Hfee as [fee Hfee].
    assert (Hget : getRunner (Runners m) i = Ok r)
      by (unfold getRunner, index; rewrite Hr; reflexivity).
    rewrite (requeueSlot_cases _ _ _ _ _ _ _ Hget Hfee). cbn [bindR].
    pose proof (queueIs_step_delete _ _ Hq ltac:(lia)) as Hq1.
    assert (Hstart1 : u64 (start txRange + 1) = start txRange + 1).
    { destruct Hq as (? & ? & _). apply u64_small. lia. }
    assert (Hfilled' : forall rs', rs' = <[i := None]> (Runners m) \/ rs' = Runners m ->
                                   slotsFilled rs' (S i) (length rest)).
    { intros rs' Hrs' k Hk.
      destruct Hrs' as [-> | ->].
      - rewrite list_lookup_insert_ne by lia. apply Hfilled. simpl. lia.
      - apply Hfilled. simpl. lia. }
    destruct (retried (TxRunner.Status r)); [|destruct (dropped (TxRunner.Status r))].
    + pose proof (queueIs_step_append _ _ (ToBytes t) Hq1 ltac:(simpl; lia)) as Hq2.
      cbn [start end_] in Hq2.
      edestruct (IH (S i) (setRunners m (<[i := None]> (Runners m)))
                    (mkTxRange (u64 (start txRange + 1)) (u64 (end_ txRange + 1))))
        as (m' & txRange' & store' & Hrun & Hq' & Hs' & He' & Hctl & Hacc & Htr
            & Hsetup & Hlen & Hu & Hruns); [exact Hq2| | | | |].
      { cbn [start end_]. destruct Hq as (? & ? & _).
        rewrite Hstart1, u64_small by lia. lia. }
      { cbn [start end_]. destruct Hq as (? & ? & _). rewrite u64_small by lia. lia. }
      { apply Hfilled'. left. reflexivity. }
      { cbn [setRunners exec]. eauto. }
      cbn [start end_] in *.
      assert (Hend1 : u64 (end_ txRange + 1) = end_ txRange + 1).
      { destruct Hq as (? & ? & _). apply u64_small. lia. }
      rewrite Hstart1 in Hs'. rewrite Hend1 in He'.
      exists m', txRange', store'. split; [exact Hrun|]. split; [exact Hq'|].
      split; [cbn [length]; lia|]. split; [cbn [length]; lia|].
      unfold setRunners, setExec in *; cbn [exec Runners updates runs] in *.
      rewrite length_insert in Hlen.
      repeat split; try assumption; try apply Hsetup.
    + edestruct (IH (S i)
                    (setRunners
                       (setExec m
                          (setCumulative (exec m)
                             (u64 (cumulativeGasUsed (exec m) + TxToRun.Gas (TxRunner.Tx r)))
                             (cumulativeFeeRefund (exec m))
                             (Some (u256 (fee + GetGasFee r)))))
                       (<[i := None]> (Runners m)))
                    (mkTxRange (u64 (start txRange + 1)) (end_ txRange)))
        as (m' & txRange' & store' & Hrun & Hq' & Hs' & He' & Hctl & Hacc & Htr
            & Hsetup & Hlen & Hu & Hruns); [exact Hq1| | | | |].
      { cbn [start end_]. rewrite Hstart1. lia. }
      { cbn [start end_]. lia. }
      { apply Hfilled'. left. reflexivity. }
      { cbn [setRunners setExec exec setCumulative cumulativeGasFee]. eauto. }
      cbn [start end_] in *. rewrite Hstart1 in Hs'.
      exists m', txRange', store'. split; [exact Hrun|]. split; [exact Hq'|].
      split; [cbn [length]; lia|]. split; [cbn [length]; lia|].
      unfold setRunners, setExec in *; cbn [exec Runners updates runs] in *.
      rewrite length_insert in Hlen.
      split; [exact Hctl|]. split; [exact Hacc|]. split; [exact Htr|].
      split.
      { eapply sameSetup_trans; [|exact Hsetup].
        unfold sameSetup, setCumulative; cbn. repeat split; eauto. }
      repeat split; assumption.
    + edestruct (IH (S i) m (mkTxRange (u64 (start txRange + 1)) (end_ txRange)))
        as (m' & txRange' & store' & Hrun & Hq' & Hs' & He' & Hctl & Hacc & Htr
            & Hsetup & Hlen & Hu & Hruns); [exact Hq1| | | | |].
      { cbn [start end_]. rewrite Hstart1. lia. }
      { cbn [start end_]. lia. }
      { apply Hfilled'. right. reflexivity. }
      { eauto. }
      cbn [start end_] in *. rewrite Hstart1 in Hs'.
      exists m', txRange', store'. split; [exact Hrun|]. split; [exact Hq'|].
      split; [cbn [length]; lia|]. split; [cbn [length]; lia|].
      repeat split; try assumption; try apply Hsetup.
Qed.

Lemma sameSetup_setTrunk e t : sameSetup e (setTrunk e t).
Proof. unfold sameSetup, setTrunk. cbn. tauto. Qed.

Lemma executeOneRound_ok m txRange currBlock trunk :
  cleanCtx (exec m) = Some trunk ->
  queueIs txRange trunk ->
  0 < parallelNum (exec m) ->
  0 <= runnerNumber (exec m) ->
  length (Runners m) = Z.to_nat (runnerNumber (exec m)) ->
  end_ txRange + runnerNumber (exec m) < 2 ^ 64 ->
  is_Some (cumulativeGasFee (exec m)) ->
  exists m' txRange' numTx trunk',
    executeOneRound m txRange currBlock = Ok (m', txRange', numTx) /\
    cleanCtx (exec m') = Some trunk' /\
    queueIs txRange' trunk' /\
    standbyCtl trunk' = standbyCtl trunk /\
    end_ txRange <= end_ txRange' <= end_ txRange + runnerNumber (exec m) /\
    sameSetup (exec m) (exec m') /\
    length (Runners m') = length (Runners m) /\
    (numTx <= length (Runners m'))%nat /\
    exists news, updates m' = updates m ++ news /\
                 Forall (fun t => standbyCtl t = standbyCtl trunk) news.
Proof.
  intros Htrunk Hq Hpar Hr Hlen Hov Hfee.
  pose proof Hq as (Hse & Hend & _).
  unfold executeOneRound.
  destruct (loadStandbyTxs_length (exec m) txRange trunk Htrunk Hse Hr Hov)
    as (txBundle & Hload & Hn).
  rewrite Hload. cbn [bindR].
  unfold runTxInParallel. rewrite Htrunk. cbn [deref bindR].
  destruct (parallelNum (exec m) <? 0) eqn:E1; [lia|].
  destruct (parallelNum (exec m) =? 0) eqn:E2; [lia|].
  destruct (forRange_runSlot trunk txBundle currBlock txBundle 0%nat m 0)
    as (m1 & kv & Hrun & He1 & Hu1 & Hl1 & Hslots & _ & _);
    [simpl; lia|intros k t Hk; exact Hk|].
  rewrite Hrun. cbn [bindR].
  unfold checkTxDepsAndUptStandbyQ.
  destruct (forRange_resolveSlot txBundle 0%nat m1 ∅ trunk)
    as (m2 & T2 & trunk2 & Hres & He2 & Hq2 & Hl2 & Hkeep & _ & news & Hu2 & Hnews).
  { rewrite He1. exact Htrunk. }
  { intros k Hk. destruct (lookup_lt_is_Some_2 txBundle k) as [t Ht]; [lia|].
    specialize (Hslots k t Ht). simpl in Hslots. eauto. }
  rewrite Hres. cbn [bindR].
  assert (Htrunk2 : cleanCtx (exec m2) = Some trunk2) by (rewrite He2; reflexivity).
  rewrite Htrunk2. cbn [deref bindR].
  destruct (forRange_requeueSlot txBundle 0%nat m2 txRange trunk2)
    as (m3 & txRange' & store' & Hreq & Hq3 & Hs3 & He3 & Hctl3 & _ & Htr3 & Hsetup3
        & Hl3 & Hu3 & _).
  { eapply queueIs_sameQueue; eassumption. }
  { lia. }
  { lia. }
  { intros k Hk. apply Hkeep.
    destruct (lookup_lt_is_Some_2 txBundle k) as [t Ht]; [lia|].
    specialize (Hslots k t Ht). simpl in Hslots. eauto. }
  { rewrite He2, He1. exact Hfee. }
  rewrite Hreq. cbn [bindR].
  eexists _, _, _, store'. split; [reflexivity|].
  cbn [commitUpdate exec Runners updates cleanCtx setTrunk].
  split; [reflexivity|]. split; [exact Hq3|].
  split; [rewrite Hctl3; apply Hq2|]. split; [lia|].
  split.
  { eapply sameSetup_trans; [|apply sameSetup_setTrunk].
    eapply sameSetup_trans; [|exact Hsetup3].
    rewrite He2, He1. apply sameSetup_setTrunk. }
  split; [congruence|]. split; [rewrite Hl3, Hl2, Hl1; lia|].
  exists (news ++ [store']). split.
  { rewrite Hu3, Hu2, Hu1. by rewrite app_assoc. }
  apply Forall_app. split.
  - eapply Forall_impl; [exact Hnews|]. intros t [Hc _]. exact Hc.
  - constructor; [|constructor]. rewrite Hctl3. apply Hq2.
Qed.

Lemma rounds_ok n :
  forall m txRange committable trunk,
    cleanCtx (exec m) = Some trunk ->
    queueIs txRange trunk ->
    0 < parallelNum (exec m) ->
    0 <= runnerNumber (exec m) ->
    length (Runners m) = Z.to_nat (runnerNumber (exec m)) ->
    end_ txRange + Z.of_nat n * runnerNumber (exec m) < 2 ^ 64 ->
    is_Some (cumulativeGasFee (exec m)) ->
    exists m' txRange' committable' trunk',
      rounds n m txRange committable = Ok (m', txRange', committable') /\
      cleanCtx (exec m') = Some trunk' /\
      queueIs txRange' trunk' /\
      standbyCtl trunk' = standbyCtl trunk /\
      sameSetup (exec m) (exec m') /\
      exists news, updates m' = updates m ++ news /\
                   Forall (fun t => standbyCtl t = standbyCtl trunk) news.
Proof.
  induction n as [|n IH]; intros m txRange committable trunk
                                 Htrunk Hq Hpar Hr Hlen Hov Hfee.
  - exists m, txRange, committable, trunk. split; [reflexivity|].
    split; [exact Htrunk|]. split; [exact Hq|]. split; [reflexivity|].
    split; [apply sameSetup_refl|]. exists []. split; [by rewrite app_nil_r|constructor].
  - cbn [rounds]. destruct (start txRange =? end_ txRange).
    { exists m, txRange, committable, trunk. split; [reflexivity|].
      split; [exact Htrunk|]. split; [exact Hq|]. split; [reflexivity|].
      split; [apply sameSetup_refl|]. exists []. split; [by rewrite app_nil_r|constructor]. }
    destruct (executeOneRound_ok m txRange (currentBlock (exec m)) trunk)
      as (m1 & txRange1 & numTx & trunk1 & Hround & Htrunk1 & Hq1 & Hctl1 & Hend1
          & Hsetup1 & Hlen1 & Hnum & news1 & Hu1 & Hnews1); try assumption.
    { nia. }
    rewrite Hround. cbn [bindR].
    rewrite harvest_result by (simpl; lia). cbn [bindR].
    pose proof Hsetup1 as (_ & HR & HP & _ & _ & HF).
    destruct (IH (setRunners m1 (take 0 (Runners m1) ++ replicate numTx None
                                   ++ drop (0 + numTx) (Runners m1)))
                 txRange1 (committable ++ omap id (take numTx (drop 0 (Runners m1))))
                 trunk1)
      as (m' & txRange' & committable' & trunk' & Hrest & Htrunk' & Hq' & Hctl'
          & Hsetup' & news & Hu & Hnews).
    { exact Htrunk1. }
    { exact Hq1. }
    { cbn [setRunners exec]. lia. }
    { cbn [setRunners exec]. lia. }
    { cbn [setRunners exec Runners]. rewrite take_0. cbn [app].
      rewrite length_app, length_replicate, length_drop. lia. }
    { cbn [setRunners exec]. rewrite HR. nia. }
    { cbn [setRunners exec]. auto. }
    exists m', txRange', committable', trunk'. split; [exact Hrest|].
    split; [exact Htrunk'|]. split; [exact Hq'|]. split; [congruence|].
    split; [eapply sameSetup_trans; [exact Hsetup1|exact Hsetup']|].
    exists (news1 ++ news). split.
    { rewrite Hu. cbn [setRunners updates]. rewrite Hu1. by rewrite app_assoc. }
    apply Forall_app. split; [exact Hnews1|].
    eapply Forall_impl; [exact Hnews|]. intros t Ht. congruence.
Qed.

Lemma collectCommittableTxs_ok l :
  forall i m,
    is_Some (cumulativeFeeRefund (exec m)) ->
    is_Some (cumulativeGasFee (exec m)) ->
    is_Some (currentBlock (exec m)) ->
    exists m', forRange collectOne i l m = Ok m' /\
               cleanCtx (exec m') = cleanCtx (exec m) /\
               updates m' = updates m.
Proof.
  induction l as [|r l IH]; intros i m Hrf Hfee Hblk.
  - exists m. repeat split.
  - cbn [forRange]. unfold collectOne at 1.
    destruct Hrf as [rf Hrf]. destruct Hfee as [fee Hfee]. destruct Hblk as [blk Hblk].
    rewrite Hrf, Hfee, Hblk. cbn [deref bindR].
    match goal with
    | |- context [forRange collectOne (S i) l ?m1] =>
        destruct (IH (S i) m1) as (m' & Hrun & Hc & Hu); [cbn; eauto ..|]
    end.
    exists m'. split; [exact Hrun|]. split; [rewrite Hc|rewrite Hu]; reflexivity.
Qed.

End ExecuteFacts.

Lemma BigEndian_PutUint64 v rest :
  0 <= v < 2 ^ 64 ->
  BigEndian_Uint64 (take 8 (PutUint64 v ++ rest)) = Ok v /\
  drop 8 (PutUint64 v ++ rest) = rest.
Proof.
  intros Hv. split; [|reflexivity].
  unfold BigEndian_Uint64, PutUint64. cbn [app take length fold_left].
  rewrite decide_False by (simpl; lia). f_equal. unfold byte.
  change (2 ^ 56) with 72057594037927936. change (2 ^ 48) with 281474976710656.
  change (2 ^ 40) with 1099511627776. change (2 ^ 32) with 4294967296.
  change (2 ^ 24) with 16777216. change (2 ^ 16) with 65536. change (2 ^ 8) with 256.
  change (2 ^ 64) with 18446744073709551616 in Hv.
  rewrite !take_0. cbn [fold_left].
  Z.div_mod_to_equations. lia.
Qed.

Lemma decodeRange_PutUint64 s e :
  0 <= s < 2 ^ 64 -> 0 <= e < 2 ^ 64 ->
  decodeRange (Some (PutUint64 s ++ PutUint64 e)) = Ok (s, e).
Proof.
  intros Hs He. unfold decodeRange.
  destruct (BigEndian_PutUint64 s (PutUint64 e) Hs) as [-> ->]. cbn [bindR].
  replace (PutUint64 e) with (take 8 (PutUint64 e ++ [])) by reflexivity.
  destruct (BigEndian_PutUint64 e [] He) as [-> _]. reflexivity.
Qed.

(** The queue of the example block, as Execute leaves the trunk after each
    of its updates: the control key, and the populated slots. The write-back
    of the two runners and the queue update of the first round, the
    write-back and the queue update of the second, and the update of the
    control key. *)
Example demo_Execute_updates :
  (fun m => map (fun t => (decodeRange (standbyCtl t),
                           (map fst (map_to_list (standbySlots t)))))
                (updates m))
    <$> (match Execute demoMachine (Some demoBlock) with
         | Ok m => Some m
         | Panic _ => None
         end)
  = Some [(Ok (0, 2), [1; 0]); (Ok (0, 2), [1; 0]); (Ok (0, 2), [2]);
          (Ok (0, 2), [2]); (Ok (0, 2), []); (Ok (3, 3), [])].
Proof. vm_compute. reflexivity. Qed.

(** The claim C1 as it is written fails: in the example block the queue
    update of the first round deletes the slots 0 and 1 and writes the slot
    2, while the persisted control key still reads (0, 2). *)
Lemma Execute_round_update_leaves_control_key_stale :
  exists m' t,
    Execute demoMachine (Some demoBlock) = Ok m' /\
    t ∈ updates m' /\
    ~ persistedQueueOk t.
Proof.
  eexists _, _. split; [vm_compute; reflexivity|]. split.
  - apply list_elem_of_lookup. exists 2%nat. vm_compute. reflexivity.
  - intros (s & e & Hdec & _ & _ & Hdom).
    vm_compute in Hdec. injection Hdec as <- <-.
    destruct (proj2 (Hdom 0)) as [b Hb]; [cbn; lia|].
    vm_compute in Hb. discriminate.
Qed.

Section ExecuteClaim.
Context `{Collaborators}.

(** C1, amended. During Execute the trunk updates of the rounds (the
    write-back of a committable runner, and the one update per round that
    deletes and writes the slots) leave the persisted control key as it was
    before Execute; the control key is written by the last update alone,
    that of setStandbyQueueRange after the rounds. When the persisted queue
    is consistent before Execute (start <= end, exactly the slots of
    [start, end) populated) and end cannot overflow, Execute returns and the
    trunk it leaves is consistent again; with an empty queue it updates
    nothing. *)
Theorem Execute_writes_control_key_after_the_rounds :
  forall (m : Machine) (blk : BlockInfo.t) (trunk : Trunk) (s e : Z),
    cleanCtx (exec m) = Some trunk ->
    decodeRange (standbyCtl trunk) = Ok (s, e) ->
    queueIs (mkTxRange s e) trunk ->
    0 < parallelNum (exec m) ->
    0 <= runnerNumber (exec m) ->
    length (Runners m) = Z.to_nat (runnerNumber (exec m)) ->
    e + Z.max 0 (roundNum (exec m)) * runnerNumber (exec m) < 2 ^ 64 ->
    exists m' mids final,
      Execute m (Some blk) = Ok m' /\
      cleanCtx (exec m') = Some final /\
      persistedQueueOk final /\
      Forall (fun t => standbyCtl t = standbyCtl trunk) mids /\
      (s = e -> updates m' = updates m /\ final = trunk) /\
      (s <> e -> updates m' = updates m ++ mids ++ [final]).
Proof.
  intros m blk trunk s e Htrunk Hdec Hq Hpar Hr Hlen Hov.
  unfold Execute. unfold getStandbyQueueRange.
  cbn [setExec exec setCurrentBlock setCumulative setCommittedTxs cleanCtx].
  rewrite Htrunk. cbn [deref bindR]. rewrite Hdec. cbn [bindR].
  destruct (s =? e) eqn:Ese.
  - apply Z.eqb_eq in Ese. exists (setExec m
             (setCurrentBlock
                (setCumulative (setCommittedTxs (exec m) []) 0 (Some 0) (Some 0))
                (Some blk))), [], trunk.
    split; [reflexivity|]. split; [exact Htrunk|].
    split; [exists s, e; split; assumption|]. split; [constructor|].
    split; [intros _; split; reflexivity|intros Hne; contradiction].
  - apply Z.eqb_neq in Ese.
    cbn [roundNum setExec exec].
    match goal with
    | |- context [rounds ?n ?m0 ?r ?c] =>
        destruct (rounds_ok n m0 r c trunk)
          as (m1 & txRange1 & committable & trunk1 & Hrounds & Htrunk1 & Hq1 & Hctl1
              & Hsetup & mids & Hu & Hmids)
    end; try assumption.
    { cbn [end_ setExec exec runnerNumber roundNum setCurrentBlock setCumulative
           setCommittedTxs].
      replace (Z.of_nat (Z.to_nat (roundNum (exec m))))
        with (Z.max 0 (roundNum (exec m))) by lia.
      exact Hov. }
    { cbn. eauto. }
    rewrite Hrounds. cbn [bindR].
    unfold setStandbyQueueRange. rewrite Htrunk1. cbn [deref bindR].
    destruct Hsetup as (_ & _ & _ & Hblk & Hrf & Hfee).
    match goal with
    | |- context [collectCommittableTxs ?m2 committable] =>
        destruct (collectCommittableTxs_ok committable 0%nat m2)
          as (m' & Hcollect & Hc & Hu')
    end.
    { apply Hrf. cbn. eauto. }
    { apply Hfee. cbn. eauto. }
    { cbn [commitUpdate exec setTrunk currentBlock]. rewrite Hblk. cbn. eauto. }
    unfold collectCommittableTxs.
    exists m', mids, (setStandbyCtl trunk1 (PutUint64 (start txRange1) ++ PutUint64 (end_ txRange1))).
    split; [exact Hcollect|]. split; [rewrite Hc; reflexivity|].
    split.
    { destruct Hq1 as (Hse & Hend & Hdom).
      exists (start txRange1), (end_ txRange1). split.
      - cbn [setStandbyCtl standbyCtl]. apply decodeRange_PutUint64; lia.
      - split; [exact Hse|]. split; [exact Hend|]. exact Hdom. }
    split; [exact Hmids|].
    split; [intros Hse; contradiction|]. intros _.
    rewrite Hu'. cbn [commitUpdate updates]. rewrite Hu.
    cbn [setExec updates]. by rewrite app_assoc.
Qed.

End ExecuteClaim.

Lemma Execute_writes_control_key_after_the_rounds_witness :
  exists m' mids final,
    Execute demoMachine (Some demoBlock) = Ok m' /\
    cleanCtx (exec m') = Some final /\
    persistedQueueOk final /\
    Forall (fun t => standbyCtl t = standbyCtl demoTrunk) mids /\
    (0 = 2 -> updates m' = updates demoMachine /\ final = demoTrunk) /\
    (0 <> 2 -> updates m' = updates demoMachine ++ mids ++ [final]).
Proof.
  apply (Execute_writes_control_key_after_the_rounds
           demoMachine demoBlock demoTrunk 0 2).
  - reflexivity.
  - vm_compute. reflexivity.
  - split; [cbn; lia|]. split; [cbn; lia|].
    intros j. cbn [demoTrunk standbySlots start end_].
    destruct (decide (j = 0)) as [->|H0].
    { split; [lia|]. intros _. eexists. reflexivity. }
    destruct (decide (j = 1)) as [->|H1].
    { split; [lia|]. intros _. eexists. reflexivity. }
    rewrite lookup_insert_ne by done. rewrite lookup_singleton_ne by done.
    split; [intros [? ?]; discriminate|lia].
  - reflexivity.
  - cbn. lia.
  - reflexivity.
  - vm_compute. reflexivity.
Defined.

(** ** The gas-fee deductor *)

(** The cached balance can be below the fee while the account covers it:
    after the first transaction the worker caches the balance 10 while the
    account still holds 90; the fee 20 of the second is debited from the
    account, and the cached balance, being below the fee, is set to zero by
    the guard of line 270, which is what the claimed subtraction gives for
    a remainder below the value. *)
Example deductOne_zeroes_cached_balance_below_fee :
  let step1 := deductOne feeTrunk feeInfo1 feeEntry in
  let step2 := deductOne feeTrunk feeInfo2 step1.2 in
  errorStr step1.1 = "" /\
  addr2Balance step1.2 !! demoA = Some 10 /\
  errorStr step2.1 = "" /\
  acc_balance (liveAccount feeTrunk (ctx step2.2) demoA) = 70 /\
  addr2Balance step2.2 !! demoA = Some 0 /\
  addr2Balance step2.2 !! demoA = Some (claimedCachedBalance 10 20 0).
Proof.
  vm_compute. repeat split; reflexivity.
Qed.

(** On 256-bit values the code's three-way computation of the cached
    balance (lines 268-281) is the claimed subtraction. *)
Lemma cached_balance_as_claimed (b fee value : Z) :
  0 <= b < 2 ^ 256 -> 0 <= fee -> 0 <= value < 2 ^ 256 ->
  (if b <? fee then 0
   else if u256 (b - fee) <? value then 0
        else u256 (u256 (b - fee) - value)) =
  claimedCachedBalance b fee value.
Proof.
  intros Hb Hfee Hvalue. unfold claimedCachedBalance. cbn zeta.
  destruct (b <? fee) eqn:Ebf.
  - apply Z.ltb_lt in Ebf.
    assert ((b - fee <? value) = true) as -> by (apply Z.ltb_lt; lia).
    reflexivity.
  - apply Z.ltb_ge in Ebf.
    assert (u256 (b - fee) = b - fee) as ->
      by (unfold u256; apply Z.mod_small; lia).
    destruct (b - fee <? value) eqn:Ebv; [reflexivity|].
    apply Z.ltb_ge in Ebv. unfold u256. apply Z.mod_small. lia.
Qed.

Section DeductorClaim.
Context `{Collaborators}.

(** C4. For an info with no error tag, [nonce] being the nonce the worker
    caches for the sender, [live] the balance of the sender in the worker
    context and [fee] = gas * gasPrice in 256 bits: when [nonce] differs
    from tx.nonce the info is tagged incorrect nonce and the entry, the
    cached nonce with it, is left as it is. Otherwise the cached nonce is
    incremented; when [live] is below [fee] the cached balance is set to
    zero, the info is tagged for its balance and nothing is debited; else
    [fee] is debited from the account in the worker context and added to
    totalGasFee, the bytes of the transaction are set, the worker is marked
    changed, and the cached balance becomes zero when tx.to is SEP206, and,
    when tx.to is not SEP206 and a balance [b] is cached ([b] and tx.value
    being 256-bit values, as their types have it): [fee] is subtracted from
    [b], and then tx.value is subtracted, or the cached balance is forced to
    zero when the remainder is below tx.value. *)
Theorem deductOne_by_cases :
  forall (trunk : Trunk) (info : preparedInfo) (entry : ctxAndAccounts),
    errorStr info = "" ->
    let sender := TxToRun.From (tx info) in
    let nonce := default 0 (addr2nonce entry !! sender) in
    let acc := liveAccount trunk (ctx entry) sender in
    let fee := feeOf (tx info) in
    let result := deductOne trunk info entry in
    (nonce <> TxToRun.Nonce (tx info) ->
       result = (setErrorStr info "incorrect nonce", entry)) /\
    (nonce = TxToRun.Nonce (tx info) ->
       addr2nonce result.2 !! sender = Some (u64 (nonce + 1)) /\
       (acc_balance acc < fee ->
          errorStr result.1 = "not enough balance to pay gasfee" /\
          addr2Balance result.2 !! sender = Some 0 /\
          ctx result.2 = ctx entry /\
          totalGasFee result.2 = totalGasFee entry) /\
       (fee <= acc_balance acc ->
          errorStr result.1 = "" /\
          txBytes result.1 = ToBytes (tx info) /\
          GetAccount trunk (ctx result.2) sender =
            Some (mkAccount (acc_nonce acc) (u256 (acc_balance acc - fee))) /\
          totalGasFee result.2 = u256 (totalGasFee entry + fee) /\
          changed result.2 = true /\
          (TxToRun.To (tx info) = Sep206Address ->
             addr2Balance result.2 !! sender = Some 0) /\
          (TxToRun.To (tx info) <> Sep206Address ->
           forall b, addr2Balance entry !! sender = Some b ->
             0 <= b < 2 ^ 256 -> 0 <= TxToRun.Value (tx info) < 2 ^ 256 ->
             addr2Balance result.2 !! sender =
             Some (claimedCachedBalance b fee (TxToRun.Value (tx info)))))).
Proof.
  intros trunk info entry Herr sender nonce acc fee result.
  assert (0 <= fee) as Hfee
    by (unfold fee, feeOf, u256; apply Z.mod_pos_bound; lia).
  subst result. unfold deductOne. rewrite Herr. cbn [String.length Nat.eqb negb].
  fold sender. fold nonce. split.
  - intros Hne. rewrite (proj2 (Z.eqb_neq _ _) Hne). reflexivity.
  - intros Heq. rewrite (proj2 (Z.eqb_eq _ _) Heq). cbn [negb].
    unfold deductGasFeeAndUpdateFrontier, SubSenderAccBalance, updateBalance.
    cbn [setNonce ctx]. fold (liveAccount trunk (ctx entry) sender). fold acc.
    fold (feeOf (tx info)). fold fee.
    destruct (acc_balance acc <? fee) eqn:Elive.
    + apply Z.ltb_lt in Elive. cbn.
      split; [apply lookup_insert_eq|].
      split; [intros _; split; [reflexivity|]; split; [apply lookup_insert_eq|];
              split; reflexivity|].
      intros Hge. lia.
    + apply Z.ltb_ge in Elive.
      split.
      { destruct (bool_decide (TxToRun.To (tx info) = Sep206Address));
          [cbn; apply lookup_insert_eq|].
        cbn [setCtx setNonce addr2Balance].
        destruct (addr2Balance entry !! sender) as [b|];
          [|cbn; apply lookup_insert_eq].
        destruct (b <? fee); [cbn; apply lookup_insert_eq|].
        destruct (u256 (b - fee) <? TxToRun.Value (tx info));
          cbn; apply lookup_insert_eq. }
      split; [intros Hlt; lia|]. intros _.
      assert (Hacc : GetAccount trunk
                       (SetAccount (ctx entry) sender
                          (mkAccount (acc_nonce acc) (u256 (acc_balance acc - fee))))
                       sender =
                     Some (mkAccount (acc_nonce acc) (u256 (acc_balance acc - fee)))).
      { unfold GetAccount, SetAccount. cbn [cache].
        by rewrite lookup_insert_eq. }
      destruct (bool_decide (TxToRun.To (tx info) = Sep206Address)) eqn:Eto.
      * apply bool_decide_eq_true in Eto. cbn.
        split; [exact Herr|]. split; [reflexivity|].
        split; [exact Hacc|]. split; [reflexivity|].
        split; [reflexivity|]. split; [intros _; apply lookup_insert_eq|].
        intros Hne. contradiction.
      * apply bool_decide_eq_false in Eto. cbn [setCtx setNonce addr2Balance ctx].
        destruct (addr2Balance entry !! sender) as [b|] eqn:Eb.
        -- destruct (b <? fee) eqn:Ebf;
             [|destruct (u256 (b - fee) <? TxToRun.Value (tx info)) eqn:Ebv];
             cbn;
             (split; [exact Herr|]); (split; [reflexivity|]);
             (split; [exact Hacc|]); (split; [reflexivity|]);
             (split; [reflexivity|]); (split; [intros ?; contradiction|]);
             intros _ b' Hb' Hrange Hvalue; injection Hb' as <-;
             rewrite <- (cached_balance_as_claimed b fee _ Hrange Hfee Hvalue);
             rewrite ?Ebf, ?Ebv; apply lookup_insert_eq.
        -- cbn.
           split; [exact Herr|]. split; [reflexivity|].
           split; [exact Hacc|]. split; [reflexivity|].
           split; [reflexivity|]. split; [intros ?; contradiction|].
           intros _ b' Hb'. discriminate.
Qed.

End DeductorClaim.

Lemma deductOne_by_cases_witness :
  errorStr (deductOne feeTrunk feeInfo1 feeEntry).1 = "" /\
  addr2nonce (deductOne feeTrunk feeInfo1 feeEntry).2 !! demoA = Some 1 /\
  totalGasFee (deductOne feeTrunk feeInfo1 feeEntry).2 = 10 /\
  addr2Balance (deductOne feeTrunk feeInfo1 feeEntry).2 !! demoA = Some 10.
Proof.
  destruct (deductOne_by_cases feeTrunk feeInfo1 feeEntry eq_refl) as [_ Hok].
  destruct (Hok eq_refl) as (Hnonce & _ & Hpaid).
  destruct Hpaid as (Herr & _ & _ & Htotal & _ & _ & Hcached).
  { vm_compute. discriminate. }
  split; [exact Herr|]. split; [exact Hnonce|]. split; [exact Htotal|].
  apply (Hcached ltac:(vm_compute; discriminate) 100 eq_refl); vm_compute;
    split; congruence.
Defined.

(** ** Prepare *)

Lemma u256_small x : 0 <= x < 2 ^ 256 -> u256 x = x.
Proof. intros Hx. unfold u256. apply Z.mod_small. exact Hx. Qed.

Lemma u256_range x : 0 <= u256 x < 2 ^ 256.
Proof. unfold u256. apply Z.mod_pos_bound. lia. Qed.

Lemma u256_add_l x y : u256 (u256 x + y) = u256 (x + y).
Proof. unfold u256. apply Zplus_mod_idemp_l. Qed.

Lemma feeOf_nonneg t : 0 <= feeOf t.
Proof. apply u256_range. Qed.

Section DeductFacts.
Context `{Collaborators}.

Lemma deductOne_effect trunk info entry :
  let r := deductOne trunk info entry in
  let s := TxToRun.From (tx info) in
  let live := liveAccount trunk (ctx entry) s in
  tx r.1 = tx info /\
  accounts r.2 = accounts entry /\
  (untagged r.1 = true -> untagged info = true) /\
  (untagged info = false -> r = (info, entry)) /\
  (untagged r.1 = true ->
     feeOf (tx info) <= acc_balance live /\
     ctx r.2 = SetAccount (ctx entry) s
                 (mkAccount (acc_nonce live) (u256 (acc_balance live - feeOf (tx info)))) /\
     totalGasFee r.2 = u256 (totalGasFee entry + feeOf (tx info)) /\
     changed r.2 = true) /\
  (untagged r.1 = false ->
     ctx r.2 = ctx entry /\
     totalGasFee r.2 = totalGasFee entry /\
     changed r.2 = changed entry).
Proof.
  cbn zeta. unfold deductOne. fold (untagged info).
  destruct (untagged info) eqn:Hu; cbn [negb].
  2:{ cbn [fst snd]. rewrite Hu. repeat split; try reflexivity; try discriminate. }
  destruct (default 0 (addr2nonce entry !! TxToRun.From (tx info))
            =? TxToRun.Nonce (tx info)); cbn [negb].
  2:{ cbn [fst snd]. repeat split; try reflexivity; try discriminate. }
  unfold deductGasFeeAndUpdateFrontier, SubSenderAccBalance, updateBalance.
  cbn [setNonce ctx].
  fold (liveAccount trunk (ctx entry) (TxToRun.From (tx info))).
  fold (feeOf (tx info)).
  set (live := liveAccount trunk (ctx entry) (TxToRun.From (tx info))).
  destruct (acc_balance live <? feeOf (tx info)) eqn:Elive.
  - cbn. repeat split; try reflexivity; try discriminate.
  - apply Z.ltb_ge in Elive.
    destruct (bool_decide (TxToRun.To (tx info) = Sep206Address)).
    { cbn. unfold untagged. cbn. fold (untagged info). rewrite Hu.
      repeat split; try reflexivity; try discriminate; assumption. }
    cbn [setCtx setNonce addr2Balance ctx].
    destruct (addr2Balance entry !! TxToRun.From (tx info)) as [b|];
      [destruct (b <? feeOf (tx info));
         [|destruct (u256 (b - feeOf (tx info)) <? TxToRun.Value (tx info))]|];
      cbn; unfold untagged; cbn; fold (untagged info); rewrite Hu;
      repeat split; try reflexivity; try discriminate; assumption.
Qed.

Lemma paid_cons F p ps a :
  paid F (p :: ps) a =
  (if decide (senderOf F p = a) then feePaid F p else 0) + paid F ps a.
Proof.
  unfold paid. rewrite filter_cons.
  destruct (decide (senderOf F p = a)); simpl; lia.
Qed.

Lemma paidAll_cons F p ps : paidAll F (p :: ps) = feePaid F p + paidAll F ps.
Proof. reflexivity. Qed.

Lemma feePaid_nonneg F p : 0 <= feePaid F p.
Proof.
  unfold feePaid. destruct (F !! p) as [info|]; [|lia].
  destruct (untagged info); [apply feeOf_nonneg|lia].
Qed.

Lemma paid_ext F F' ps a :
  (forall p, p ∈ ps -> F !! p = F' !! p) -> paid F ps a = paid F' ps a.
Proof.
  induction ps as [|p ps IH]; intros Heq; [reflexivity|].
  rewrite !paid_cons. unfold senderOf, feePaid.
  rewrite (Heq p) by (by left).
  rewrite IH; [reflexivity|]. intros q Hq. apply Heq. by right.
Qed.

Lemma paidAll_ext F F' ps :
  (forall p, p ∈ ps -> F !! p = F' !! p) -> paidAll F ps = paidAll F' ps.
Proof.
  induction ps as [|p ps IH]; intros Heq; [reflexivity|].
  rewrite !paidAll_cons. unfold feePaid.
  rewrite (Heq p) by (by left).
  rewrite IH; [reflexivity|]. intros q Hq. apply Heq. by right.
Qed.

Lemma liveAccount_SetAccount trunk c s acc a :
  liveAccount trunk (SetAccount c s acc) a =
  if decide (a = s) then acc else liveAccount trunk c a.
Proof.
  unfold liveAccount, GetAccount, SetAccount. cbn [cache].
  destruct (decide (a = s)) as [->|Hne].
  - by rewrite lookup_insert_eq.
  - by rewrite lookup_insert_ne.
Qed.

(** The half of [workerFacts] that a first pointer adds to the facts of
    the pointers after it. *)
Lemma workerFacts_cons trunk F p ps entry entry1 entry' s :
  (forall a, 0 <= liveBal trunk (ctx entry) a < 2 ^ 256) ->
  0 <= totalGasFee entry < 2 ^ 256 ->
  accounts entry1 = accounts entry ->
  (feePaid F p <> 0 -> senderOf F p = s) ->
  ((ctx entry1 = ctx entry /\ feePaid F p = 0 /\
    totalGasFee entry1 = totalGasFee entry /\ changed entry1 = changed entry) \/
   (ctx entry1 = SetAccount (ctx entry) s
                   (mkAccount (acc_nonce (liveAccount trunk (ctx entry) s))
                              (liveBal trunk (ctx entry) s - feePaid F p)) /\
    feePaid F p <= liveBal trunk (ctx entry) s /\
    totalGasFee entry1 = u256 (totalGasFee entry + feePaid F p) /\
    changed entry1 = true /\
    senderOf F p = s /\
    exists info, F !! p = Some info /\ TxToRun.From (tx info) = s /\
                 untagged info = true)) ->
  workerFacts trunk F ps entry1 entry' ->
  workerFacts trunk F (p :: ps) entry entry'.
Proof.
  intros Hrange Htot Hacc Hsender Hstep (Ha & Hb & Hc & Hd & He).
  pose proof (feePaid_nonneg F p) as Hfee.
  assert (Hlive : forall a,
             (liveAccount trunk (ctx entry1) a =
              if decide (senderOf F p = a)
              then mkAccount (acc_nonce (liveAccount trunk (ctx entry) a))
                             (liveBal trunk (ctx entry) a - feePaid F p)
              else liveAccount trunk (ctx entry) a)
             \/ (feePaid F p = 0 /\
                 liveAccount trunk (ctx entry1) a =
                 liveAccount trunk (ctx entry) a)).
  { intros a. destruct Hstep as [(Hctx & Hz & _) | (Hctx & _ & _ & _ & Hs & _)].
    - right. split; [exact Hz|]. by rewrite Hctx.
    - left. rewrite Hctx, liveAccount_SetAccount. subst s.
      destruct (decide (a = senderOf F p)) as [->|Hne].
      + rewrite decide_True by done. reflexivity.
      + rewrite decide_False by done. reflexivity. }
  assert (Hbal : forall a, liveBal trunk (ctx entry1) a =
                           liveBal trunk (ctx entry) a -
                           (if decide (senderOf F p = a) then feePaid F p else 0)).
  { intros a. unfold liveBal at 1.
    destruct (Hlive a) as [-> | [Hz ->]].
    - destruct (decide (senderOf F p = a)); cbn; unfold liveBal; lia.
    - rewrite Hz. unfold liveBal. destruct (decide (senderOf F p = a)); lia. }
  assert (Hnonce : forall a, acc_nonce (liveAccount trunk (ctx entry1) a) =
                             acc_nonce (liveAccount trunk (ctx entry) a)).
  { intros a. destruct (Hlive a) as [-> | [_ ->]]; [|reflexivity].
    destruct (decide (senderOf F p = a)); reflexivity. }
  assert (Hle : forall a, (if decide (senderOf F p = a) then feePaid F p else 0)
                          <= liveBal trunk (ctx entry) a).
  { intros a. destruct (decide (senderOf F p = a)) as [Hs|]; [|apply Hrange].
    destruct Hstep as [(_ & Hz & _) | (_ & Hfle & _ & _ & Hs' & _)].
    - rewrite Hz. apply Hrange.
    - subst a. rewrite Hs'. exact Hfle. }
  split; [congruence|]. split; [|split; [|split]].
  - intros a. rewrite paid_cons. specialize (Hb a). rewrite Hbal in Hb.
    destruct (decide (senderOf F p = a)); lia.
  - intros a. rewrite paid_cons.
    destruct (Hc a) as [[Hcache Hz] | [Hcache (q & info & Hq & Hinfo & Hfrom & Hunt)]].
    + destruct Hstep as [(Hctx & Hz0 & _) | (Hctx & _ & _ & _ & Hs & info & Hinfo & Hfrom & Hunt)].
      * left. rewrite Hcache, Hctx, Hz, Hz0.
        split; [reflexivity|]. destruct (decide (senderOf F p = a)); lia.
      * destruct (decide (senderOf F p = a)) as [Hsa|Hsa].
        -- right. split.
           ++ rewrite Hcache, Hctx. unfold SetAccount. cbn [cache].
              rewrite Hs in *. subst a. rewrite lookup_insert_eq.
              rewrite Hz. do 2 f_equal. lia.
           ++ exists p, info. split; [by left|]. repeat split; congruence.
        -- left. split; [|lia]. rewrite Hcache, Hctx. unfold SetAccount. cbn [cache].
           rewrite lookup_insert_ne by congruence. reflexivity.
    + right. split.
      * rewrite Hcache, Hnonce, Hbal. do 2 f_equal. lia.
      * exists q, info. split; [by right|]. tauto.
  - rewrite Hd, paidAll_cons.
    destruct Hstep as [(_ & Hz & -> & _) | (_ & _ & -> & _)].
    + rewrite Hz. reflexivity.
    + rewrite u256_add_l. f_equal. lia.
  - destruct He as [?|[Hctx Hch]]; [by left|].
    destruct Hstep as [(Hctx1 & _ & _ & Hch1) | (_ & _ & _ & Hch1 & _)].
    + right. split; congruence.
    + left. congruence.
Qed.

Lemma workerFacts_nil trunk F entry :
  (forall a, 0 <= liveBal trunk (ctx entry) a < 2 ^ 256) ->
  0 <= totalGasFee entry < 2 ^ 256 ->
  workerFacts trunk F [] entry entry.
Proof.
  intros Hrange Htot. split; [reflexivity|]. split; [|split; [|split]].
  - intros a. specialize (Hrange a). cbn. lia.
  - intros a. left. split; reflexivity.
  - cbn. rewrite Z.add_0_r. symmetry. by apply u256_small.
  - right. split; reflexivity.
Qed.

Lemma deductAt_None trunk infos entry p :
  infos !! p = None -> deductAt trunk (infos, entry) p = (infos, entry).
Proof. intros Hp. unfold deductAt. by rewrite Hp. Qed.

Lemma deductAt_Some trunk infos entry p info :
  infos !! p = Some info ->
  deductAt trunk (infos, entry) p =
  (<[p := (deductOne trunk info entry).1]> infos, (deductOne trunk info entry).2).
Proof.
  intros Hp. unfold deductAt. rewrite Hp.
  by destruct (deductOne trunk info entry).
Qed.

Lemma fold_deductAt trunk ps :
  NoDup ps ->
  forall infos entry,
    (forall a, 0 <= liveBal trunk (ctx entry) a < 2 ^ 256) ->
    0 <= totalGasFee entry < 2 ^ 256 ->
    let r := fold_left (deductAt trunk) ps (infos, entry) in
    length r.1 = length infos /\
    (forall q, tx <$> r.1 !! q = tx <$> infos !! q) /\
    (forall q, q ∉ ps -> r.1 !! q = infos !! q) /\
    (forall q i', r.1 !! q = Some i' -> untagged i' = true ->
                  exists i, infos !! q = Some i /\ untagged i = true) /\
    workerFacts trunk r.1 ps entry r.2.
Proof.
  induction 1 as [|p ps Hp Hnd IH]; intros infos entry Hrange Htot; cbn zeta.
  - cbn [fold_left fst snd]. split; [reflexivity|]. split; [reflexivity|].
    split; [reflexivity|]. split; [eauto|]. by apply workerFacts_nil.
  - cbn [fold_left].
    destruct (infos !! p) as [info|] eqn:Hinfo.
    2:{ rewrite (deductAt_None _ _ _ _ Hinfo).
        destruct (IH infos entry Hrange Htot) as (Hlen & Htx & Hout & Hunt & Hfacts).
        split; [exact Hlen|]. split; [exact Htx|].
        split; [intros q Hq; apply Hout; set_solver|]. split; [exact Hunt|].
        set (F := (fold_left (deductAt trunk) ps (infos, entry)).1) in *.
        assert (HFp : F !! p = None) by (rewrite (Hout p Hp); exact Hinfo).
        eapply (workerFacts_cons trunk F p ps entry entry _ 0);
          [exact Hrange|exact Htot|reflexivity| | |exact Hfacts].
        - unfold feePaid. rewrite HFp. congruence.
        - left. unfold feePaid. rewrite HFp. repeat split. }
    rewrite (deductAt_Some _ _ _ _ _ Hinfo).
    pose proof (deductOne_effect trunk info entry) as Heff. cbn zeta in Heff.
    destruct (deductOne trunk info entry) as [info' entry1] eqn:Hone.
    cbn [fst snd] in Heff |- *.
    destruct Heff as (Htx1 & Hacc1 & Hunt1 & _ & Hyes & Hno).
    set (s := TxToRun.From (tx info)) in *.
    assert (Hlt : (p < length infos)%nat) by (by apply lookup_lt_Some in Hinfo).
    assert (Hrange1 : forall a, 0 <= liveBal trunk (ctx entry1) a < 2 ^ 256).
    { intros a. destruct (untagged info') eqn:Hu'.
      - destruct (Hyes eq_refl) as (_ & Hctx & _). unfold liveBal.
        rewrite Hctx, liveAccount_SetAccount.
        destruct (decide (a = s)); [cbn; apply u256_range|apply Hrange].
      - destruct (Hno eq_refl) as (Hctx & _). rewrite Hctx. apply Hrange. }
    assert (Htot1 : 0 <= totalGasFee entry1 < 2 ^ 256).
    { destruct (untagged info') eqn:Hu'.
      - destruct (Hyes eq_refl) as (_ & _ & -> & _). apply u256_range.
      - destruct (Hno eq_refl) as (_ & -> & _). exact Htot. }
    destruct (IH (<[p := info']> infos) entry1 Hrange1 Htot1)
      as (Hlen & Htx & Hout & Hunt & Hfacts).
    set (F := (fold_left (deductAt trunk) ps (<[p := info']> infos, entry1)).1) in *.
    assert (HFp : F !! p = Some info').
    { rewrite (Hout p Hp). by apply list_lookup_insert_eq. }
    split; [rewrite Hlen; apply length_insert|].
    split.
    { intros q. rewrite Htx. destruct (decide (q = p)) as [->|Hne].
      - rewrite list_lookup_insert_eq by done. rewrite Hinfo. cbn. by rewrite Htx1.
      - by rewrite list_lookup_insert_ne. }
    split.
    { intros q Hq. rewrite Hout by set_solver.
      apply list_lookup_insert_ne. set_solver. }
    split.
    { intros q i' Hq Hu. destruct (Hunt q i' Hq Hu) as (i & Hi & Hiu).
      destruct (decide (q = p)) as [->|Hne].
      - rewrite list_lookup_insert_eq in Hi by done. injection Hi as <-.
        exists info. split; [exact Hinfo|]. by apply Hunt1.
      - rewrite list_lookup_insert_ne in Hi by done. eauto. }
    assert (Hsender : senderOf F p = s).
    { unfold senderOf. rewrite HFp. cbn. by rewrite Htx1. }
    assert (Hfee : feePaid F p = if untagged info' then feeOf (tx info) else 0).
    { unfold feePaid. rewrite HFp, Htx1. reflexivity. }
    eapply (workerFacts_cons trunk F p ps entry entry1 _ s);
      [exact Hrange|exact Htot|exact Hacc1|intros _; exact Hsender| |exact Hfacts].
    rewrite Hfee. destruct (untagged info') eqn:Hu'.
    + right. destruct (Hyes eq_refl) as (Hle & Hctx & Htotal & Hch).
      fold (liveBal trunk (ctx entry) s) in Hle, Hctx.
      pose proof (feeOf_nonneg (tx info)). pose proof (Hrange s).
      rewrite u256_small in Hctx by lia.
      split; [exact Hctx|]. split; [exact Hle|]. split; [exact Htotal|].
      split; [exact Hch|]. split; [exact Hsender|].
      exists info'. split; [exact HFp|]. split; [by rewrite Htx1|exact Hu'].
    + left. destruct (Hno eq_refl) as (Hctx & Htotal & Hch). repeat split; assumption.
Qed.

Lemma deductWorker_eq trunk addr2idx addr2Infos idx infos entry :
  deductWorker trunk addr2idx addr2Infos idx (infos, entry) =
  fold_left (deductAt trunk)
            (pointersOf addr2idx addr2Infos idx (accounts entry)) (infos, entry).
Proof.
  unfold deductWorker, pointersOf. cbn [snd].
  generalize (infos, entry) as st. generalize (accounts entry) as accs.
  induction accs as [|a accs IH]; intros st; [reflexivity|].
  cbn [fold_left flat_map]. rewrite fold_left_app, IH.
  destruct (default 0%nat (addr2idx !! a) =? idx)%nat; reflexivity.
Qed.

Lemma workerFacts_ext trunk F F' ps entry entry' :
  (forall p, p ∈ ps -> F !! p = F' !! p) ->
  workerFacts trunk F ps entry entry' ->
  workerFacts trunk F' ps entry entry'.
Proof.
  intros Heq (Ha & Hb & Hc & Hd & He).
  split; [exact Ha|]. split; [|split; [|split]].
  - intros a. rewrite <- (paid_ext F F' ps a Heq). apply Hb.
  - intros a. rewrite <- (paid_ext F F' ps a Heq).
    destruct (Hc a) as [?|[Hcache (p & info & Hp & Hinfo & Hrest)]]; [by left|].
    right. split; [exact Hcache|]. exists p, info. split; [exact Hp|].
    split; [|exact Hrest]. rewrite <- (Heq p Hp). exact Hinfo.
  - rewrite <- (paidAll_ext F F' ps Heq). exact Hd.
  - exact He.
Qed.

Lemma deductWorkers_spec trunk addr2idx addr2Infos todo :
  forall idx infos,
    NoDup (workersPointers addr2idx addr2Infos idx todo) ->
    Forall (fun entry => (forall a, 0 <= liveBal trunk (ctx entry) a < 2 ^ 256) /\
                         0 <= totalGasFee entry < 2 ^ 256) todo ->
    let r := deductWorkers trunk addr2idx addr2Infos idx todo infos in
    length r.2 = length todo /\
    length r.1 = length infos /\
    (forall q, tx <$> r.1 !! q = tx <$> infos !! q) /\
    (forall q, q ∉ workersPointers addr2idx addr2Infos idx todo ->
               r.1 !! q = infos !! q) /\
    (forall q i', r.1 !! q = Some i' -> untagged i' = true ->
                  exists i, infos !! q = Some i /\ untagged i = true) /\
    (forall k entry, todo !! k = Some entry ->
       exists entry', r.2 !! k = Some entry' /\
         workerFacts trunk r.1
           (pointersOf addr2idx addr2Infos (idx + k) (accounts entry)) entry entry').
Proof.
  induction todo as [|entry rest IH]; intros idx infos Hnd Hall; cbn zeta.
  - cbn. repeat split; eauto. intros k entry Hk. discriminate.
  - cbn [deductWorkers workersPointers] in *.
    apply NoDup_app in Hnd as (Hnd0 & Hdisj & Hndr).
    apply Forall_cons in Hall as ((Hrange & Htot) & Hall).
    rewrite deductWorker_eq.
    pose proof (fold_deductAt trunk _ Hnd0 infos entry Hrange Htot) as Hw.
    cbn zeta in Hw.
    destruct (fold_left (deductAt trunk)
                (pointersOf addr2idx addr2Infos idx (accounts entry)) (infos, entry))
      as [infos1 entry'].
    cbn [fst snd] in Hw. destruct Hw as (Hlen1 & Htx1 & Hout1 & Hunt1 & Hfacts1).
    pose proof (IH (S idx) infos1 Hndr Hall) as Hr. cbn zeta in Hr.
    destruct (deductWorkers trunk addr2idx addr2Infos (S idx) rest infos1)
      as [infos2 rest'].
    cbn [fst snd] in Hr |- *.
    destruct Hr as (Hlenr & Hlen2 & Htx2 & Hout2 & Hunt2 & Hfacts2).
    split; [cbn; lia|]. split; [lia|].
    split; [intros q; by rewrite Htx2, Htx1|].
    split.
    { intros q Hq. rewrite Hout2 by set_solver. apply Hout1. set_solver. }
    split.
    { intros q i' Hq Hu. destruct (Hunt2 q i' Hq Hu) as (i1 & Hi1 & Hu1). eauto. }
    intros [|k] entry0 Hk.
    + cbn in Hk. injection Hk as <-. exists entry'. split; [reflexivity|].
      rewrite Nat.add_0_r.
      eapply workerFacts_ext; [|exact Hfacts1].
      intros p Hp. symmetry. apply Hout2. intros Hin. by apply (Hdisj p).
    + cbn in Hk. destruct (Hfacts2 k entry0 Hk) as (entry0' & Hk' & Hf).
      exists entry0'. split; [exact Hk'|].
      by replace (idx + S k)%nat with (S idx + k)%nat by lia.
Qed.

End DeductFacts.

Section PreloadFacts.
Context `{Collaborators} `{RandSource}.

Lemma preloaded_new trunk : preloaded trunk newCtxAA.
Proof.
  unfold preloaded, newCtxAA. cbn. repeat split; try constructor.
  - intros Ha. by apply elem_of_nil in Ha.
  - intros [x Hx]. by rewrite lookup_empty in Hx.
  - intros a Ha. by apply elem_of_nil in Ha.
Qed.

Lemma readAccount_spec e trunk minGasPrice maxTxGasLimit gtx entry :
  preloaded trunk entry ->
  let r := readAccount e trunk minGasPrice maxTxGasLimit gtx entry in
  preloaded trunk r.2 /\
  (forall a, a ∈ accounts entry -> a ∈ accounts r.2) /\
  tx r.1 = FromGethTx gtx (signer e gtx).1 (getCurrHeight e) /\
  (untagged r.1 = true ->
     TxToRun.From (tx r.1) ∈ accounts r.2 /\
     checksPassed e minGasPrice maxTxGasLimit gtx).
Proof.
  intros (Hctx & Hch & Htot & Hnd & Hdom & Hex). cbn zeta.
  unfold readAccount, checksPassed.
  destruct (signer e gtx) as [sender err]. cbn [fst snd].
  assert (Hkeep : preloaded trunk entry) by (repeat split; try assumption; apply Hdom).
  destruct err; [cbn; repeat split; try assumption; try apply Hdom; try discriminate; auto|].
  destruct (negb (IsInt64 (gtx_gasPrice gtx))
            || (gtx_gasPrice gtx <? toInt64 minGasPrice)) eqn:Eprice;
    [cbn; repeat split; try assumption; try apply Hdom; try discriminate; auto|].
  destruct (maxTxGasLimit <? gtx_gas gtx) eqn:Egas;
    [cbn; repeat split; try assumption; try apply Hdom; try discriminate; auto|].
  apply orb_false_elim in Eprice as [Eint Emin].
  apply negb_false_iff in Eint. unfold IsInt64 in Eint.
  apply andb_true_iff in Eint as [E1 E2].
  apply Z.leb_le in E1. apply Z.ltb_lt in E2.
  apply Z.ltb_ge in Emin. apply Z.ltb_ge in Egas.
  destruct (GetAccount trunk (ctx entry) sender) as [acc|] eqn:Eacc;
    [|cbn; repeat split; try assumption; try apply Hdom; try discriminate; auto].
  assert (Htrunk : is_Some (worldAccounts trunk !! sender)).
  { unfold GetAccount in Eacc. rewrite Hctx in Eacc. cbn in Eacc.
    rewrite lookup_empty in Eacc. eauto. }
  destruct (addr2nonce entry !! sender) as [n|] eqn:En.
  - cbn. split; [exact Hkeep|]. split; [auto|]. split; [reflexivity|].
    intros _. split; [apply Hdom; eauto|]. repeat split; assumption.
  - cbn. split.
    { unfold preloaded. cbn [ctx changed totalGasFee accounts addr2nonce].
      split; [exact Hctx|]. split; [exact Hch|]. split; [exact Htot|].
      split.
      { apply NoDup_app. split; [exact Hnd|]. split; [|apply NoDup_singleton].
        intros a Ha ->%list_elem_of_singleton.
        apply Hdom in Ha. rewrite En in Ha. by destruct Ha. }
      split.
      { intros a. split.
        - intros Ha. apply elem_of_app in Ha as [Ha| ->%list_elem_of_singleton].
          + destruct (decide (a = sender)) as [->|Hne];
              [rewrite lookup_insert_eq; eauto|].
            rewrite lookup_insert_ne by done. by apply Hdom.
          + rewrite lookup_insert_eq; eauto.
        - intros Ha. apply elem_of_app.
          destruct (decide (a = sender)) as [->|Hne];
            [right; by apply list_elem_of_singleton|].
          left. apply Hdom. by rewrite lookup_insert_ne in Ha. }
      intros a Ha. apply elem_of_app in Ha as [Ha| ->%list_elem_of_singleton];
        [by apply Hex|exact Htrunk]. }
    split; [intros a Ha; apply elem_of_app; by left|]. split; [reflexivity|].
    intros _. split; [apply elem_of_app; right; by apply list_elem_of_singleton|].
    repeat split; assumption.
Qed.

Lemma listed_insert ctxAA w entry entry' a :
  ctxAA !! w = Some entry ->
  (forall b, b ∈ accounts entry -> b ∈ accounts entry') ->
  listed ctxAA a -> listed (<[w := entry']> ctxAA) a.
Proof.
  intros Hw Hmono (k & ek & Hk & Ha).
  destruct (decide (k = w)) as [->|Hne].
  - exists w, entry'. split.
    + apply list_lookup_insert_eq. by apply lookup_lt_Some in Hw.
    + apply Hmono. congruence.
  - exists k, ek. split; [|exact Ha]. by rewrite list_lookup_insert_ne.
Qed.

Lemma readAccounts_spec claim e trunk minGasPrice maxTxGasLimit txs :
  forall myIdx ctxAA,
    (0 < length ctxAA)%nat ->
    Forall (preloaded trunk) ctxAA ->
    let r := readAccounts claim e trunk minGasPrice maxTxGasLimit myIdx txs ctxAA in
    length r.1 = length txs /\
    length r.2 = length ctxAA /\
    Forall (preloaded trunk) r.2 /\
    (forall a, listed ctxAA a -> listed r.2 a) /\
    (forall k gtx, txs !! k = Some gtx ->
       exists info, r.1 !! k = Some info /\
         tx info = FromGethTx gtx (signer e gtx).1 (getCurrHeight e) /\
         (untagged info = true ->
            listed r.2 (TxToRun.From (tx info)) /\
            checksPassed e minGasPrice maxTxGasLimit gtx)).
Proof.
  induction txs as [|gtx txs IH]; intros myIdx ctxAA Hpos Hall; cbn zeta.
  - cbn. repeat split; auto. intros k gtx Hk. discriminate.
  - cbn [readAccounts].
    set (w := (claim myIdx `mod` length ctxAA)%nat).
    assert (Hw : (w < length ctxAA)%nat) by (apply Nat.mod_upper_bound; lia).
    destruct (lookup_lt_is_Some_2 ctxAA w Hw) as [entry Hentry].
    rewrite Hentry. cbn [default from_option id].
    assert (Hpre : preloaded trunk entry)
      by (eapply Forall_lookup_1; eassumption).
    pose proof (readAccount_spec e trunk minGasPrice maxTxGasLimit gtx entry Hpre) as Hr.
    cbn zeta in Hr.
    destruct (readAccount e trunk minGasPrice maxTxGasLimit gtx entry)
      as [info entry'].
    cbn [fst snd] in Hr. destruct Hr as (Hpre' & Hmono & Htx & Hunt).
    pose proof (IH (S myIdx) (<[w := entry']> ctxAA)) as Hrest. cbn zeta in Hrest.
    destruct (readAccounts claim e trunk minGasPrice maxTxGasLimit (S myIdx) txs
                (<[w := entry']> ctxAA)) as [infos ctxAA'].
    cbn [fst snd] in Hrest |- *.
    destruct Hrest as (Hlen & Hlen' & Hall' & Hlisted & Hinfos).
    { by rewrite length_insert. }
    { by apply Forall_insert. }
    rewrite length_insert in Hlen'.
    split; [cbn; lia|]. split; [exact Hlen'|]. split; [exact Hall'|].
    split.
    { intros a Ha. apply Hlisted. eapply listed_insert; eassumption. }
    intros [|k] gtx0 Hk.
    + cbn in Hk. injection Hk as <-. exists info. split; [reflexivity|].
      split; [exact Htx|]. intros Hu. destruct (Hunt Hu) as [Hin Hchk].
      split; [|exact Hchk]. apply Hlisted. exists w, entry'. split; [|exact Hin].
      by apply list_lookup_insert_eq.
    + cbn in Hk. apply (Hinfos k gtx0 Hk).
Qed.

Lemma mapAccounts_spec idx accs :
  forall M : gmap Z nat,
    let M' := mapAccounts idx accs M in
    (forall a w, M' !! a = Some w ->
                 M !! a = Some w \/ (w = idx /\ a ∈ accs)) /\
    (forall a, is_Some (M !! a) \/ a ∈ accs -> is_Some (M' !! a)).
Proof.
  unfold mapAccounts.
  induction accs as [|b accs IH]; intros M; cbn zeta; cbn [fold_left].
  - split; [auto|]. intros a [Ha|Ha]; [exact Ha|by apply elem_of_nil in Ha].
  - destruct (M !! b) as [wb|] eqn:Hb.
    + destruct (IH M) as [H1 H2]. split.
      * intros a w Ha. destruct (H1 a w Ha) as [?|[? ?]]; [by left|].
        right. split; [assumption|by right].
      * intros a [Ha|Ha]; [apply H2; by left|].
        apply elem_of_cons in Ha as [->|Ha]; apply H2; [left; eauto|by right].
    + destruct (IH (<[b := idx]> M)) as [H1 H2]. split.
      * intros a w Ha. destruct (H1 a w Ha) as [Hins|[? ?]].
        -- destruct (decide (a = b)) as [->|Hne].
           ++ rewrite lookup_insert_eq in Hins. injection Hins as <-.
              right. split; [reflexivity|by left].
           ++ rewrite lookup_insert_ne in Hins by done. by left.
        -- right. split; [assumption|by right].
      * intros a [Ha|Ha].
        -- apply H2. left. destruct (decide (a = b)) as [->|Hne];
             [rewrite lookup_insert_eq; eauto|by rewrite lookup_insert_ne].
        -- apply elem_of_cons in Ha as [->|Ha]; apply H2;
             [left; rewrite lookup_insert_eq; eauto|by right].
Qed.

Lemma mapWorkers_spec ctxAA :
  forall idx (M : gmap Z nat),
    let M' := mapWorkers idx ctxAA M in
    (forall a w, M' !! a = Some w ->
                 M !! a = Some w \/
                 exists k entry, ctxAA !! k = Some entry /\ w = (idx + k)%nat /\
                                 a ∈ accounts entry) /\
    (forall a, is_Some (M !! a) \/ listed ctxAA a -> is_Some (M' !! a)).
Proof.
  induction ctxAA as [|entry rest IH]; intros idx M; cbn zeta; cbn [mapWorkers].
  - split; [auto|]. intros a [Ha|(k & ek & Hk & _)]; [exact Ha|discriminate].
  - destruct (IH (S idx) (mapAccounts idx (accounts entry) M)) as [H1 H2].
    destruct (mapAccounts_spec idx (accounts entry) M) as [A1 A2].
    split.
    + intros a w Ha. destruct (H1 a w Ha) as [Hm|(k & ek & Hk & -> & Hin)].
      * destruct (A1 a w Hm) as [?|[-> Hin]]; [by left|].
        right. exists 0%nat, entry. split; [reflexivity|]. split; [lia|exact Hin].
      * right. exists (S k), ek. split; [exact Hk|]. split; [lia|exact Hin].
    + intros a [Ha|(k & ek & Hk & Hin)].
      * apply H2. left. apply A2. by left.
      * destruct k as [|k].
        -- cbn in Hk. injection Hk as <-. apply H2. left. apply A2. by right.
        -- apply H2. right. exists k, ek. split; [exact Hk|exact Hin].
Qed.

End PreloadFacts.

Section PointerFacts.
Variable sender : nat -> Address.
Variable n : nat.
Variable addr2idx : gmap Z nat.
Variable addr2Infos : gmap Z (list nat).
Hypothesis groups :
  forall a, default [] (addr2Infos !! a) = groupOf sender (seq 0 n) a.

Lemma pointersOf_groups idx accs :
  pointersOf addr2idx addr2Infos idx accs =
  flat_map (groupOf sender (seq 0 n))
           (filter (fun a => default 0%nat (addr2idx !! a) = idx) accs).
Proof.
  unfold pointersOf. induction accs as [|a accs IH]; [reflexivity|].
  cbn [flat_map]. rewrite filter_cons, IH.
  destruct (decide (default 0%nat (addr2idx !! a) = idx)) as [Heq|Hne].
  - rewrite (proj2 (Nat.eqb_eq _ _) Heq). cbn [flat_map]. by rewrite groups.
  - rewrite (proj2 (Nat.eqb_neq _ _) Hne). reflexivity.
Qed.

Lemma elem_of_pointersOf idx accs p :
  NoDup accs ->
  p ∈ pointersOf addr2idx addr2Infos idx accs <->
  (p < n)%nat /\ sender p ∈ accs /\ default 0%nat (addr2idx !! sender p) = idx.
Proof.
  intros Hnd. rewrite pointersOf_groups.
  rewrite (flat_map_groupOf_Permutation sender) by (by apply NoDup_filter).
  rewrite list_elem_of_filter, list_elem_of_filter, elem_of_seq. 
  split; [intros [[? ?] ?]|intros (? & ? & ?)]; repeat split; try assumption; lia.
Qed.

Lemma NoDup_pointersOf idx accs :
  NoDup accs -> NoDup (pointersOf addr2idx addr2Infos idx accs).
Proof.
  intros Hnd. rewrite pointersOf_groups.
  rewrite (flat_map_groupOf_Permutation sender) by (by apply NoDup_filter).
  apply NoDup_filter, NoDup_seq.
Qed.

Lemma filter_pointersOf idx accs a :
  NoDup accs ->
  filter (fun p => sender p = a) (pointersOf addr2idx addr2Infos idx accs) =
  if decide (a ∈ accs /\ default 0%nat (addr2idx !! a) = idx)
  then groupOf sender (seq 0 n) a else [].
Proof.
  intros Hnd. rewrite pointersOf_groups.
  rewrite (filter_flat_map_groupOf sender) by (by apply NoDup_filter).
  destruct (decide (a ∈ filter _ accs)) as [Hin|Hnin].
  - apply list_elem_of_filter in Hin. by rewrite decide_True by tauto.
  - rewrite decide_False; [reflexivity|].
    intros [? ?]. apply Hnin. by apply list_elem_of_filter.
Qed.

Lemma elem_of_workersPointers todo :
  Forall (fun entry => NoDup (accounts entry)) todo ->
  forall idx p,
    p ∈ workersPointers addr2idx addr2Infos idx todo <->
    (p < n)%nat /\
    exists k entry, todo !! k = Some entry /\ sender p ∈ accounts entry /\
                    default 0%nat (addr2idx !! sender p) = (idx + k)%nat.
Proof.
  induction 1 as [|entry rest Hnd Hall IH]; intros idx p; cbn [workersPointers].
  - split; [by intros ?%elem_of_nil|]. intros (_ & k & e & Hk & _). discriminate.
  - rewrite elem_of_app, (elem_of_pointersOf _ _ _ Hnd), IH. split.
    + intros [(Hp & Hin & Hidx)|(Hp & k & e & Hk & Hin & Hidx)].
      * split; [exact Hp|]. exists 0%nat, entry.
        split; [reflexivity|]. split; [exact Hin|lia].
      * split; [exact Hp|]. exists (S k), e.
        split; [exact Hk|]. split; [exact Hin|lia].
    + intros (Hp & [|k] & e & Hk & Hin & Hidx).
      * cbn in Hk. injection Hk as <-. left.
        split; [exact Hp|]. split; [exact Hin|lia].
      * right. split; [exact Hp|]. exists k, e.
        split; [exact Hk|]. split; [exact Hin|lia].
Qed.

Lemma NoDup_workersPointers todo :
  Forall (fun entry => NoDup (accounts entry)) todo ->
  forall idx, NoDup (workersPointers addr2idx addr2Infos idx todo).
Proof.
  induction 1 as [|entry rest Hnd Hall IH]; intros idx; cbn [workersPointers].
  - constructor.
  - apply NoDup_app. split; [by apply NoDup_pointersOf|]. split; [|apply IH].
    intros p Hp Hq.
    apply (elem_of_pointersOf _ _ _ Hnd) in Hp as (_ & _ & Hidx).
    apply (elem_of_workersPointers _ Hall) in Hq as (_ & k & e & _ & _ & Hidx').
    lia.
Qed.

End PointerFacts.

Section SumFacts.

Lemma sumZ_app l1 l2 : sumZ (l1 ++ l2) = sumZ l1 + sumZ l2.
Proof. unfold sumZ. induction l1 as [|x l1 IH]; simpl; lia. Qed.

Lemma sumZ_Permutation l1 l2 : l1 ≡ₚ l2 -> sumZ l1 = sumZ l2.
Proof. unfold sumZ. induction 1; simpl; lia. Qed.

Lemma sumZ_map_zero {A} (f : A -> Z) (l : list A) :
  (forall x, x ∈ l -> f x = 0) -> sumZ (map f l) = 0.
Proof.
  unfold sumZ. induction l as [|x l IH]; intros Hz; [reflexivity|].
  cbn [map foldr]. rewrite (Hz x) by (by left). rewrite IH; [reflexivity|].
  intros y Hy. apply Hz. by right.
Qed.

Lemma sumZ_map_subset (f : nat -> Z) (l1 l2 : list nat) :
  NoDup l1 -> NoDup l2 ->
  (forall p, p ∈ l1 -> p ∈ l2) ->
  (forall p, p ∈ l2 -> p ∉ l1 -> f p = 0) ->
  sumZ (map f l1) = sumZ (map f l2).
Proof.
  intros Hnd1 Hnd2 Hsub Hzero.
  rewrite <- (sumZ_Permutation _ _
                (Permutation_map f (filter_app_complement (fun p => p ∈ l1) l2))).
  rewrite map_app, sumZ_app.
  rewrite (sumZ_map_zero f (filter (fun x => x ∉ l1) l2)), Z.add_0_r.
  - apply sumZ_Permutation, Permutation_map, NoDup_Permutation;
      [exact Hnd1|by apply NoDup_filter|].
    intros p. rewrite list_elem_of_filter. split; [auto|tauto].
  - intros p [Hp1 Hp2]%list_elem_of_filter. by apply Hzero.
Qed.

Lemma paidAll_app F l1 l2 : paidAll F (l1 ++ l2) = paidAll F l1 + paidAll F l2.
Proof. unfold paidAll. by rewrite map_app, sumZ_app. Qed.

Lemma sumBalances_insert (m : gmap Z AccountInfo) i x :
  m !! i = None -> sumBalances (<[i := x]> m) = acc_balance x + sumBalances m.
Proof.
  intros Hi. unfold sumBalances. rewrite map_fold_insert_L; [reflexivity| |exact Hi].
  intros. lia.
Qed.

Lemma sumBalances_delete (m : gmap Z AccountInfo) i :
  sumBalances m = balanceOf m i + sumBalances (delete i m).
Proof.
  unfold balanceOf. destruct (m !! i) as [x|] eqn:Hi.
  - unfold sumBalances. rewrite (map_fold_delete_L _ _ i x m); [reflexivity| |exact Hi].
    intros. lia.
  - rewrite delete_id by done. cbn. lia.
Qed.

Lemma sumBalances_insert_any (m : gmap Z AccountInfo) i x :
  sumBalances (<[i := x]> m) = acc_balance x + sumBalances m - balanceOf m i.
Proof.
  rewrite <- (insert_delete_eq m i x).
  rewrite sumBalances_insert by apply lookup_delete_eq.
  rewrite (sumBalances_delete m i). lia.
Qed.

Lemma sumOver_insert d (m : gmap Z AccountInfo) i x :
  m !! i = None -> sumOver d (<[i := x]> m) = d i + sumOver d m.
Proof.
  intros Hi. unfold sumOver. rewrite map_fold_insert_L; [reflexivity| |exact Hi].
  intros. lia.
Qed.

Lemma sumOver_ext f g (m : gmap Z AccountInfo) :
  (forall a, f a = g a) -> sumOver f m = sumOver g m.
Proof.
  intros Hfg. induction m as [|i x m Hi IH] using map_ind; [reflexivity|].
  rewrite !sumOver_insert by done. by rewrite IH, Hfg.
Qed.

Lemma sumOver_add f g (m : gmap Z AccountInfo) :
  sumOver (fun a => f a + g a) m = sumOver f m + sumOver g m.
Proof.
  induction m as [|i x m Hi IH] using map_ind; [reflexivity|].
  rewrite !sumOver_insert by done. lia.
Qed.

Lemma sumOver_indicator s c (m : gmap Z AccountInfo) :
  sumOver (fun a => if decide (s = a) then c else 0) m =
  if decide (is_Some (m !! s)) then c else 0.
Proof.
  induction m as [|i x m Hi IH] using map_ind.
  - rewrite decide_False by (rewrite lookup_empty; by intros [? ?]). reflexivity.
  - rewrite sumOver_insert by done. rewrite IH.
    destruct (decide (s = i)) as [->|Hne].
    + rewrite decide_False by (rewrite Hi; by intros [? ?]).
      rewrite decide_True by (rewrite lookup_insert_eq; eauto). lia.
    + rewrite lookup_insert_ne by done. lia.
Qed.

Lemma sumOver_nonneg d (m : gmap Z AccountInfo) :
  (forall a, 0 <= d a) -> 0 <= sumOver d m.
Proof.
  intros Hd. induction m as [|i x m Hi IH] using map_ind; [reflexivity|].
  rewrite sumOver_insert by done. specialize (Hd i). lia.
Qed.

Lemma sumOver_le_balances d (m : gmap Z AccountInfo) :
  (forall a, is_Some (m !! a) -> d a <= balanceOf m a) ->
  sumOver d m <= sumBalances m.
Proof.
  induction m as [|i x m Hi IH] using map_ind; intros Hd; [reflexivity|].
  rewrite sumOver_insert, sumBalances_insert by done.
  pose proof (Hd i) as Hdi. unfold balanceOf in Hdi.
  rewrite lookup_insert_eq in Hdi. cbn in Hdi. specialize (Hdi ltac:(eauto)).
  assert (sumOver d m <= sumBalances m); [|lia].
  apply IH. intros a Ha. 
  assert (a <> i) by (intros ->; rewrite Hi in Ha; by destruct Ha).
  specialize (Hd a). unfold balanceOf in *.
  rewrite lookup_insert_ne in Hd by done. auto.
Qed.

(** A world state whose balances are debited address by address. *)
Lemma sumBalances_debit d (m : gmap Z AccountInfo) :
  forall m' : gmap Z AccountInfo,
    (forall a, m' !! a =
               (fun acc => mkAccount (acc_nonce acc) (acc_balance acc - d a)) <$> m !! a) ->
    sumBalances m' = sumBalances m - sumOver d m.
Proof.
  induction m as [|i x m Hi IH] using map_ind; intros m' Hm'.
  - assert (m' = ∅) as ->; [|reflexivity].
    apply map_eq. intros a. rewrite Hm', !lookup_empty. reflexivity.
  - assert (Hi' : m' !! i = Some (mkAccount (acc_nonce x) (acc_balance x - d i))).
    { rewrite Hm', lookup_insert_eq. reflexivity. }
    rewrite <- (insert_delete_id m' i _ Hi').
    rewrite sumBalances_insert by apply lookup_delete_eq.
    rewrite sumOver_insert, sumBalances_insert by done.
    rewrite (IH (delete i m')); [cbn; lia|].
    intros a. destruct (decide (a = i)) as [->|Hne].
    + rewrite lookup_delete_eq, Hi. reflexivity.
    + rewrite lookup_delete_ne by done. rewrite Hm'.
      by rewrite lookup_insert_ne.
Qed.

(** The fees summed sender by sender are the fees of all. *)
Lemma sumOver_paid F ps (m : gmap Z AccountInfo) :
  (forall p, p ∈ ps -> feePaid F p <> 0 -> is_Some (m !! senderOf F p)) ->
  sumOver (paid F ps) m = paidAll F ps.
Proof.
  induction ps as [|p ps IH]; intros Hdom.
  - unfold paid, paidAll. cbn. clear Hdom.
    induction m as [|i x m Hi IHm] using map_ind; [reflexivity|].
    rewrite sumOver_insert by done. rewrite IHm. reflexivity.
  - transitivity (sumOver (fun a => (if decide (senderOf F p = a) then feePaid F p else 0)
                                    + paid F ps a) m).
    { apply sumOver_ext. intros a. apply paid_cons. }
    rewrite sumOver_add, sumOver_indicator, paidAll_cons.
    rewrite IH by (intros q Hq; apply Hdom; by right).
    destruct (decide (is_Some (m !! senderOf F p))) as [Hs|Hs]; [reflexivity|].
    destruct (decide (feePaid F p = 0)) as [->|Hne]; [reflexivity|].
    exfalso. apply Hs. apply Hdom; [by left|exact Hne].
Qed.

End SumFacts.

Lemma senderOf_ext F infos p :
  (forall q, tx <$> F !! q = tx <$> infos !! q) -> senderOf F p = senderOf infos p.
Proof.
  intros Htx. unfold senderOf. specialize (Htx p).
  destruct (F !! p), (infos !! p); cbn in *; congruence.
Qed.

Lemma closeAll_lookup ctxAA :
  forall trunk a,
    Forall (fun entry => changed entry = true \/ cache (ctx entry) = ∅) ctxAA ->
    worldAccounts (closeAll trunk ctxAA) !! a =
    fold_left (fun o entry => match cache (ctx entry) !! a with
                              | Some v => Some v
                              | None => o
                              end) ctxAA (worldAccounts trunk !! a).
Proof.
  unfold closeAll. induction ctxAA as [|entry rest IH]; intros trunk a Hall;
    [reflexivity|].
  apply Forall_cons in Hall as [Hentry Hall].
  cbn [fold_left]. rewrite IH by exact Hall. f_equal.
  unfold Close. destruct Hentry as [-> | Hempty].
  - cbn [worldAccounts]. rewrite lookup_union.
    destruct (cache (ctx entry) !! a), (worldAccounts trunk !! a); reflexivity.
  - rewrite Hempty, lookup_empty.
    destruct (changed entry); [|reflexivity].
    cbn [worldAccounts]. rewrite (left_id_L ∅ (∪)). reflexivity.
Qed.

Lemma closeAll_queue ctxAA :
  forall trunk, sameQueue trunk (closeAll trunk ctxAA).
Proof.
  unfold closeAll. induction ctxAA as [|entry rest IH]; intros trunk;
    [apply sameQueue_refl|].
  cbn [fold_left]. eapply sameQueue_trans; [apply sameQueue_Close|apply IH].
Qed.

Lemma fold_pick_none {A} (f : A -> option AccountInfo) (l : list A) o :
  (forall x, x ∈ l -> f x = None) ->
  fold_left (fun o x => match f x with Some v => Some v | None => o end) l o = o.
Proof.
  revert o. induction l as [|x l IH]; intros o Hnone; [reflexivity|].
  cbn [fold_left]. rewrite (Hnone x) by (by left).
  apply IH. intros y Hy. apply Hnone. by right.
Qed.

Lemma fold_pick_one {A} (f : A -> option AccountInfo) (l : list A) o w x :
  l !! w = Some x ->
  (forall k y, l !! k = Some y -> k <> w -> f y = None) ->
  fold_left (fun o x => match f x with Some v => Some v | None => o end) l o =
  match f x with Some v => Some v | None => o end.
Proof.
  revert o w. induction l as [|y l IH]; intros o w Hw Hother; [discriminate|].
  cbn [fold_left]. destruct w as [|w].
  - cbn in Hw. injection Hw as ->. apply fold_pick_none.
    intros z Hz. apply list_elem_of_lookup in Hz as [k Hk].
    apply (Hother (S k) z Hk). lia.
  - cbn in Hw. rewrite (Hother 0%nat y eq_refl) by lia.
    apply (IH o w Hw). intros k z Hk Hne. apply (Hother (S k) z Hk). lia.
Qed.

(** ** The two parallel sections of Prepare, end to end *)

Section PhaseFacts.
Context `{Collaborators} `{RandSource}.
Variables (claim : nat -> nat) (e : txEngine) (trunk : Trunk).
Variables (seed minGasPrice maxTxGasLimit : Z).
Hypothesis workers : 0 < parallelNum e.
Hypothesis inRange : balancesInRange (worldAccounts trunk).

#[local] Abbreviation infos0 :=
  (parallelReadAccounts claim e trunk minGasPrice maxTxGasLimit).1.
#[local] Abbreviation ctxAA0 :=
  (parallelReadAccounts claim e trunk minGasPrice maxTxGasLimit).2.
#[local] Abbreviation a2i := (mapWorkers 0 ctxAA0 ∅).
#[local] Abbreviation a2p :=
  (reorderInfoList (senderOf infos0) (seq 0 (length infos0)) seed).2.
#[local] Abbreviation done :=
  (deductWorkers trunk a2i a2p 0 ctxAA0 infos0).
#[local] Abbreviation all := (seq 0 (length infos0)).

Lemma deductPhase_eq :
  deductPhase claim e trunk seed minGasPrice maxTxGasLimit =
  (done.1, done.2,
   (reorderInfoList (senderOf infos0) (seq 0 (length infos0)) seed).1, a2i).
Proof.
  unfold deductPhase.
  destruct (parallelReadAccounts claim e trunk minGasPrice maxTxGasLimit)
    as [i0 c0]. cbn [fst snd].
  destruct (reorderInfoList (senderOf i0) (seq 0 (length i0)) seed) as [r g].
  cbn [fst snd].
  destruct (deductWorkers trunk (mapWorkers 0 c0 ∅) g 0 c0 i0) as [F c1].
  reflexivity.
Qed.

Lemma phase_preload :
  length infos0 = length (txList e) /\
  Forall (preloaded trunk) ctxAA0 /\
  (forall k gtx, txList e !! k = Some gtx ->
     exists info, infos0 !! k = Some info /\
       tx info = FromGethTx gtx (signer e gtx).1 (getCurrHeight e) /\
       (untagged info = true ->
          listed ctxAA0 (TxToRun.From (tx info)) /\
          checksPassed e minGasPrice maxTxGasLimit gtx)).
Proof.
  unfold parallelReadAccounts.
  pose proof (readAccounts_spec claim e trunk minGasPrice maxTxGasLimit
                (txList e) 0 (replicate (Z.to_nat (parallelNum e)) newCtxAA))
    as Hspec.
  cbn zeta in Hspec.
  destruct Hspec as (Hlen & _ & Hpre & _ & Hinfo).
  - rewrite length_replicate. lia.
  - apply Forall_replicate, preloaded_new.
  - auto.
Qed.

Lemma phase_map :
  (forall a w, a2i !! a = Some w ->
     exists entry, ctxAA0 !! w = Some entry /\ a ∈ accounts entry) /\
  (forall a, listed ctxAA0 a -> is_Some (a2i !! a)).
Proof.
  pose proof (mapWorkers_spec ctxAA0 0 ∅) as [Hfrom Hto]. split.
  - intros a w Hw. destruct (Hfrom a w Hw) as [Hempty | (k & entry & Hk & -> & Ha)].
    + rewrite lookup_empty in Hempty. discriminate.
    + eauto.
  - intros a Ha. apply Hto. by right.
Qed.

Lemma phase_groups a :
  default [] (a2p !! a) = groupOf (senderOf infos0) all a.
Proof. apply reorderInfoList_groups. Qed.

Lemma phase_NoDup_accounts :
  Forall (fun entry => NoDup (accounts entry)) ctxAA0.
Proof.
  destruct phase_preload as (_ & Hpre & _).
  eapply Forall_impl; [exact Hpre|]. intros entry Hentry. apply Hentry.
Qed.

Lemma preloaded_liveBal entry a :
  preloaded trunk entry ->
  liveAccount trunk (ctx entry) a = default ZeroAccountInfo (worldAccounts trunk !! a).
Proof.
  intros (-> & _). unfold liveAccount, GetAccount, WithRbtCopy.
  cbn [cache]. rewrite lookup_empty. reflexivity.
Qed.

Lemma balanceOf_range a : 0 <= balanceOf (worldAccounts trunk) a < 2 ^ 256.
Proof.
  unfold balanceOf. destruct (worldAccounts trunk !! a) as [acc|] eqn:Hacc.
  - exact (inRange a acc Hacc).
  - cbn. lia.
Qed.

Lemma phase_workers :
  length done.2 = length ctxAA0 /\
  length done.1 = length infos0 /\
  (forall q, tx <$> done.1 !! q = tx <$> infos0 !! q) /\
  (forall q, q ∉ workersPointers a2i a2p 0 ctxAA0 -> done.1 !! q = infos0 !! q) /\
  (forall q i', done.1 !! q = Some i' -> untagged i' = true ->
                exists i, infos0 !! q = Some i /\ untagged i = true) /\
  (forall k entry, ctxAA0 !! k = Some entry ->
     exists entry', done.2 !! k = Some entry' /\
       workerFacts trunk done.1 (pointersOf a2i a2p k (accounts entry)) entry entry').
Proof.
  apply (deductWorkers_spec trunk a2i a2p ctxAA0 0 infos0).
  - apply (NoDup_workersPointers (senderOf infos0) (length infos0) a2i a2p
             phase_groups), phase_NoDup_accounts.
  - destruct phase_preload as (_ & Hpre & _).
    eapply Forall_impl; [exact Hpre|]. intros entry Hentry. split.
    + intros a. unfold liveBal. rewrite (preloaded_liveBal entry a Hentry).
      apply balanceOf_range.
    + destruct Hentry as (_ & _ & -> & _). lia.
Qed.

Lemma phase_sender p : senderOf done.1 p = senderOf infos0 p.
Proof. apply senderOf_ext. apply phase_workers. Qed.

Lemma phase_accepted p info :
  done.1 !! p = Some info -> untagged info = true ->
  (p < length infos0)%nat /\
  senderOf infos0 p = TxToRun.From (tx info) /\
  listed ctxAA0 (TxToRun.From (tx info)) /\
  exists gtx, txList e !! p = Some gtx /\
              tx info = FromGethTx gtx (signer e gtx).1 (getCurrHeight e) /\
              checksPassed e minGasPrice maxTxGasLimit gtx.
Proof.
  intros Hp Hu.
  destruct phase_workers as (_ & _ & Htx & _ & Hmono & _).
  destruct phase_preload as (Hlen & _ & Hinfo).
  destruct (Hmono p info Hp Hu) as (i0 & Hi0 & Hu0).
  assert (tx info = tx i0) as Heq.
  { specialize (Htx p). rewrite Hp, Hi0 in Htx. cbn in Htx. congruence. }
  assert (p < length infos0)%nat as Hlt by (eapply lookup_lt_Some; eauto).
  destruct (lookup_lt_is_Some_2 (txList e) p) as [gtx Hgtx]; [lia|].
  destruct (Hinfo p gtx Hgtx) as (i1 & Hi1 & Htx1 & Hok).
  assert (i1 = i0) as -> by congruence.
  destruct (Hok Hu0) as [Hlisted Hchecks].
  split; [exact Hlt|]. split.
  { unfold senderOf. rewrite Hi0. cbn. congruence. }
  split; [rewrite Heq; exact Hlisted|].
  exists gtx. rewrite Heq. auto.
Qed.

Lemma phase_owner a :
  listed ctxAA0 a ->
  exists entry, ctxAA0 !! default 0%nat (a2i !! a) = Some entry /\ a ∈ accounts entry.
Proof.
  intros Ha. destruct phase_map as [Hfrom Hto].
  destruct (Hto a Ha) as [w Hw]. rewrite Hw. cbn. apply (Hfrom a w Hw).
Qed.

Lemma phase_present k entry a :
  ctxAA0 !! k = Some entry -> a ∈ accounts entry ->
  is_Some (worldAccounts trunk !! a).
Proof.
  intros Hk Ha. destruct phase_preload as (_ & Hpre & _).
  rewrite Forall_lookup in Hpre. apply (Hpre k entry Hk), Ha.
Qed.

Lemma phase_in_pointers p info :
  done.1 !! p = Some info -> untagged info = true ->
  p ∈ workersPointers a2i a2p 0 ctxAA0.
Proof.
  intros Hp Hu. destruct (phase_accepted p info Hp Hu) as (Hlt & Hs & Hl & _).
  apply (elem_of_workersPointers (senderOf infos0) (length infos0) a2i a2p
           phase_groups ctxAA0 phase_NoDup_accounts).
  split; [exact Hlt|]. rewrite Hs.
  destruct (phase_owner _ Hl) as (entry & Hentry & Ha).
  exists (default 0%nat (a2i !! TxToRun.From (tx info))), entry. auto.
Qed.

Lemma paid_all a :
  paid done.1 all a =
  sumZ (map (feePaid done.1) (groupOf (senderOf infos0) all a)).
Proof.
  unfold paid, groupOf. f_equal. f_equal.
  apply list_filter_iff. intros p. rewrite phase_sender. reflexivity.
Qed.

Lemma phase_paid_worker k entry a :
  ctxAA0 !! k = Some entry ->
  paid done.1 (pointersOf a2i a2p k (accounts entry)) a =
  if decide (a ∈ accounts entry /\ default 0%nat (a2i !! a) = k)
  then paid done.1 all a else 0.
Proof.
  intros Hk. rewrite paid_all. unfold paid.
  rewrite (list_filter_iff _ (fun p => senderOf infos0 p = a))
    by (intros p; rewrite phase_sender; reflexivity).
  rewrite (filter_pointersOf (senderOf infos0) (length infos0) a2i a2p phase_groups).
  2:{ pose proof phase_NoDup_accounts as Hnd. rewrite Forall_lookup in Hnd.
      apply (Hnd k entry Hk). }
  destruct (decide _); reflexivity.
Qed.

(** A sender that no worker owns has paid nothing. *)
Lemma phase_paid_unowned a :
  (forall entry, ctxAA0 !! default 0%nat (a2i !! a) = Some entry ->
                 a ∉ accounts entry) ->
  paid done.1 all a = 0.
Proof.
  intros Hnone. unfold paid. apply sumZ_map_zero. intros p Hp.
  apply list_elem_of_filter in Hp as [Hs _].
  unfold feePaid. destruct (done.1 !! p) as [info|] eqn:Hinfo; [|reflexivity].
  destruct (untagged info) eqn:Hu; [|reflexivity]. exfalso.
  destruct (phase_accepted p info Hinfo Hu) as (_ & Hs' & Hl & _).
  rewrite phase_sender in Hs. rewrite Hs' in Hs. subst a.
  destruct (phase_owner _ Hl) as (entry & Hentry & Ha).
  exact (Hnone entry Hentry Ha).
Qed.

(** Only the owner of a sender writes its account. *)
Lemma phase_cache_other k entry entry' a :
  ctxAA0 !! k = Some entry -> done.2 !! k = Some entry' ->
  k <> default 0%nat (a2i !! a) ->
  cache (ctx entry') !! a = None.
Proof.
  intros Hk Hk' Hne.
  destruct phase_workers as (_ & _ & _ & _ & _ & Hfacts).
  destruct (Hfacts k entry Hk) as (entry'' & Hk'' & _ & _ & Hcache & _).
  assert (entry'' = entry') as -> by congruence.
  destruct phase_preload as (_ & Hpre & _). rewrite Forall_lookup in Hpre.
  pose proof (Hpre k entry Hk) as Hentry.
  destruct (Hcache a) as [[-> _] | [_ (p & info & Hp & Hinfo & Hfrom & Hu)]].
  - destruct Hentry as (-> & _). apply lookup_empty.
  - exfalso.
    apply (elem_of_pointersOf (senderOf infos0) (length infos0) a2i a2p
             phase_groups) in Hp as (_ & _ & Hidx); [|apply Hentry].
    destruct (phase_accepted p info Hinfo Hu) as (_ & Hs & _).
    rewrite Hs, Hfrom in Hidx. congruence.
Qed.

Lemma debited_zero (o : option AccountInfo) : debited 0 <$> o = o.
Proof.
  destruct o as [[nonce balance]|]; [|reflexivity].
  cbn. unfold debited. cbn. do 2 f_equal. lia.
Qed.

Lemma phase_entry_after k entry' :
  done.2 !! k = Some entry' ->
  exists entry, ctxAA0 !! k = Some entry /\
    workerFacts trunk done.1 (pointersOf a2i a2p k (accounts entry)) entry entry'.
Proof.
  intros Hk'. destruct phase_workers as (Hlen & _ & _ & _ & _ & Hfacts).
  destruct (lookup_lt_is_Some_2 ctxAA0 k) as [entry Hk].
  { rewrite <- Hlen. eapply lookup_lt_Some; eauto. }
  destruct (Hfacts k entry Hk) as (entry'' & Hk'' & Hw).
  exists entry. split; [exact Hk|]. congruence.
Qed.

Lemma phase_preloaded k entry : ctxAA0 !! k = Some entry -> preloaded trunk entry.
Proof.
  intros Hk. destruct phase_preload as (_ & Hpre & _).
  rewrite Forall_lookup in Hpre. exact (Hpre k entry Hk).
Qed.

(** The accounts after the contexts of the workers are written back: each
    is debited by the fees of the accepted transactions it has sent. *)
Lemma phase_accounts a :
  worldAccounts (closeAll trunk done.2) !! a =
  debited (paid done.1 all a) <$> worldAccounts trunk !! a.
Proof.
  rewrite closeAll_lookup.
  2:{ apply Forall_lookup. intros k entry' Hk'.
      destruct (phase_entry_after k entry' Hk') as (entry & Hk & Hw).
      destruct Hw as (_ & _ & _ & _ & [Hch | [Hctx _]]); [by left|right].
      rewrite Hctx. destruct (phase_preloaded k entry Hk) as (-> & _).
      reflexivity. }
  set (w := default 0%nat (a2i !! a)).
  destruct (ctxAA0 !! w) as [entry|] eqn:Hw.
  - destruct phase_workers as (_ & _ & _ & _ & _ & Hfacts).
    destruct (Hfacts w entry Hw) as (entry' & Hw' & _ & _ & Hcache & _).
    rewrite (fold_pick_one _ _ _ w entry' Hw').
    2:{ intros k y Hk' Hne.
        destruct (phase_entry_after k y Hk') as (x & Hk & _).
        exact (phase_cache_other k x y a Hk Hk' Hne). }
    pose proof (phase_preloaded w entry Hw) as Hentry.
    pose proof (phase_paid_worker w entry a Hw) as Hpaid.
    destruct (Hcache a) as [[Hsame Hzero] | [Hnew (p & info & Hp & Hinfo & Hfrom & Hu)]].
    + rewrite Hsame. destruct Hentry as (-> & _).
      cbn [cache WithRbtCopy]. rewrite lookup_empty.
      assert (paid done.1 all a = 0) as ->; [|by rewrite debited_zero].
      destruct (decide (a ∈ accounts entry)) as [Hin | Hout].
      * rewrite decide_True in Hpaid by (split; [exact Hin|reflexivity]).
        congruence.
      * apply phase_paid_unowned. intros entry0 Hentry0.
        fold w in Hentry0. congruence.
    + rewrite Hnew.
      apply (elem_of_pointersOf (senderOf infos0) (length infos0) a2i a2p
               phase_groups) in Hp as (_ & Hin & _); [|apply Hentry].
      destruct (phase_accepted p info Hinfo Hu) as (_ & Hs & _).
      rewrite Hs, Hfrom in Hin.
      rewrite decide_True in Hpaid by (split; [exact Hin|reflexivity]).
      rewrite Hpaid. unfold liveBal.
      rewrite (preloaded_liveBal entry a Hentry).
      destruct (phase_present w entry a Hw Hin) as [acc ->]. reflexivity.
  - rewrite fold_pick_none.
    2:{ intros y Hy. apply list_elem_of_lookup in Hy as [k Hk'].
        destruct (phase_entry_after k y Hk') as (x & Hk & _).
        apply (phase_cache_other k x y a Hk Hk'). fold w. congruence. }
    rewrite phase_paid_unowned, debited_zero; [reflexivity|].
    intros entry0 Hentry0. fold w in Hentry0. congruence.
Qed.

Lemma phase_bounds a :
  0 <= paid done.1 all a <= balanceOf (worldAccounts trunk) a.
Proof.
  set (w := default 0%nat (a2i !! a)).
  assert (paid done.1 all a = 0 -> 0 <= paid done.1 all a <=
                                    balanceOf (worldAccounts trunk) a) as Hzero.
  { intros ->. pose proof (balanceOf_range a). lia. }
  destruct (ctxAA0 !! w) as [entry|] eqn:Hw.
  - destruct (decide (a ∈ accounts entry)) as [Hin | Hout].
    + destruct phase_workers as (_ & _ & _ & _ & _ & Hfacts).
      destruct (Hfacts w entry Hw) as (entry' & _ & _ & Hle & _).
      specialize (Hle a).
      rewrite (phase_paid_worker w entry a Hw) in Hle.
      rewrite decide_True in Hle by (split; [exact Hin|reflexivity]).
      unfold liveBal in Hle.
      rewrite (preloaded_liveBal entry a (phase_preloaded w entry Hw)) in Hle.
      exact Hle.
    + apply Hzero, phase_paid_unowned. intros entry0 Hentry0.
      fold w in Hentry0. congruence.
  - apply Hzero, phase_paid_unowned. intros entry0 Hentry0.
    fold w in Hentry0. congruence.
Qed.

Lemma phase_all_pointers :
  paidAll done.1 (workersPointers a2i a2p 0 ctxAA0) = paidAll done.1 all.
Proof.
  unfold paidAll. apply sumZ_map_subset.
  - apply (NoDup_workersPointers (senderOf infos0) (length infos0) a2i a2p
             phase_groups), phase_NoDup_accounts.
  - apply NoDup_seq.
  - intros p Hp.
    apply (elem_of_workersPointers (senderOf infos0) (length infos0) a2i a2p
             phase_groups ctxAA0 phase_NoDup_accounts) in Hp as [Hlt _].
    apply elem_of_seq. lia.
  - intros p _ Hout. unfold feePaid.
    destruct (done.1 !! p) as [info|] eqn:Hinfo; [|reflexivity].
    destruct (untagged info) eqn:Hu; [|reflexivity].
    destruct Hout. exact (phase_in_pointers p info Hinfo Hu).
Qed.

(** The fees are paid out of accounts that exist, so they sum to no more
    than the balances. *)
Lemma phase_paid_sum :
  sumOver (paid done.1 all) (worldAccounts trunk) = paidAll done.1 all.
Proof.
  apply sumOver_paid. intros p _ Hfee. unfold feePaid in Hfee.
  destruct (done.1 !! p) as [info|] eqn:Hinfo; [|done].
  destruct (untagged info) eqn:Hu; [|done].
  destruct (phase_accepted p info Hinfo Hu) as (_ & Hs & Hl & _).
  rewrite phase_sender, Hs.
  destruct (phase_owner _ Hl) as (entry & Hentry & Ha).
  exact (phase_present _ entry _ Hentry Ha).
Qed.

Lemma phase_paid_le : 0 <= paidAll done.1 all <= sumBalances (worldAccounts trunk).
Proof.
  rewrite <- phase_paid_sum. split.
  - apply sumOver_nonneg. intros a. apply phase_bounds.
  - apply sumOver_le_balances. intros a _. apply phase_bounds.
Qed.

Lemma paidAll_nonneg F ps : 0 <= paidAll F ps.
Proof.
  unfold paidAll, sumZ. induction ps as [|p ps IH]; cbn; [lia|].
  pose proof (feePaid_nonneg F p). lia.
Qed.

(** The counters of the workers add up to the fees behind all their
    pointers, as long as that sum is a 256-bit value. *)
Lemma totals_sum F (m : gmap Z nat) (g : gmap Z (list nat)) todo :
  forall todo' idx,
    length todo' = length todo ->
    (forall k entry, todo !! k = Some entry ->
       exists entry', todo' !! k = Some entry' /\
         totalGasFee entry' =
         u256 (paidAll F (pointersOf m g (idx + k) (accounts entry)))) ->
    paidAll F (workersPointers m g idx todo) < 2 ^ 256 ->
    sumZ (map totalGasFee todo') = paidAll F (workersPointers m g idx todo) /\
    fold_left (fun acc entry => u256 (acc + totalGasFee entry)) todo' 0 =
    paidAll F (workersPointers m g idx todo).
Proof.
  assert (forall todo' idx acc,
    length todo' = length todo ->
    (forall k entry, todo !! k = Some entry ->
       exists entry', todo' !! k = Some entry' /\
         totalGasFee entry' =
         u256 (paidAll F (pointersOf m g (idx + k) (accounts entry)))) ->
    0 <= acc -> acc + paidAll F (workersPointers m g idx todo) < 2 ^ 256 ->
    sumZ (map totalGasFee todo') = paidAll F (workersPointers m g idx todo) /\
    fold_left (fun acc entry => u256 (acc + totalGasFee entry)) todo' acc =
    acc + paidAll F (workersPointers m g idx todo)) as Hgen.
  { induction todo as [|entry rest IH]; intros todo' idx acc Hlen Hk Hacc Hsmall.
    - destruct todo'; [|discriminate]. cbn. unfold paidAll, sumZ. cbn.
      split; [reflexivity|lia].
    - destruct todo' as [|entry' rest']; [discriminate|].
      cbn [workersPointers] in *. rewrite paidAll_app in *.
      pose proof (paidAll_nonneg F (pointersOf m g idx (accounts entry))) as Hx.
      pose proof (paidAll_nonneg F (workersPointers m g (S idx) rest)) as Hr.
      destruct (Hk 0%nat entry eq_refl) as (entry0 & Hentry0 & Htotal).
      cbn in Hentry0. injection Hentry0 as <-.
      rewrite Nat.add_0_r in Htotal. rewrite u256_small in Htotal by lia.
      destruct (IH rest' (S idx)
                  (acc + paidAll F (pointersOf m g idx (accounts entry))))
        as [IHsum IHfold].
      + cbn in Hlen. lia.
      + intros k x Hx'. destruct (Hk (S k) x Hx') as (x' & Hx'' & Ht).
        exists x'. split; [exact Hx''|].
        replace (S idx + k)%nat with (idx + S k)%nat by lia. exact Ht.
      + lia.
      + lia.
      + split.
        * unfold sumZ in *. cbn [map foldr]. rewrite IHsum, Htotal. reflexivity.
        * cbn [fold_left]. rewrite Htotal, u256_small by lia.
          rewrite IHfold. lia. }
  intros todo' idx Hlen Hk Hsmall.
  destruct (Hgen todo' idx 0 Hlen Hk) as [Hsum Hfold]; [lia|lia|].
  split; [exact Hsum|]. rewrite Hfold. lia.
Qed.

Lemma phase_totals :
  sumBalances (worldAccounts trunk) < 2 ^ 256 ->
  sumZ (map totalGasFee done.2) = paidAll done.1 all /\
  fold_left (fun acc entry => u256 (acc + totalGasFee entry)) done.2 0 =
  paidAll done.1 all.
Proof.
  intros Hsmall. rewrite <- phase_all_pointers.
  destruct phase_workers as (Hlen & _ & _ & _ & _ & Hfacts).
  apply totals_sum.
  - exact Hlen.
  - intros k entry Hk.
    destruct (Hfacts k entry Hk) as (entry' & Hk' & _ & _ & _ & Htotal & _).
    exists entry'. split; [exact Hk'|].
    destruct (phase_preloaded k entry Hk) as (_ & _ & Hzero & _).
    rewrite Htotal, Hzero. reflexivity.
  - rewrite phase_all_pointers. pose proof phase_paid_le. lia.
Qed.

End PhaseFacts.

(** ** Settling the fees and filling the queue *)

Lemma sumBalances_nonneg (m : gmap Z AccountInfo) :
  (forall a acc, m !! a = Some acc -> 0 <= acc_balance acc) -> 0 <= sumBalances m.
Proof.
  unfold sumBalances. induction m as [|i x m Hi Hfold IH] using map_first_key_ind.
  - intros _. rewrite map_fold_empty. lia.
  - intros Hpos. rewrite map_fold_insert_first_key by assumption.
    pose proof (Hpos i x (lookup_insert_eq m i x)).
    assert (0 <= map_fold (fun _ acc s => acc_balance acc + s) 0 m); [|lia].
    apply IH. intros a acc Ha. apply (Hpos a acc).
    rewrite lookup_insert_ne; [exact Ha|]. intros ->. congruence.
Qed.

Lemma settleFees_accounts trunk ctxAA :
  let m1 := worldAccounts (closeAll trunk ctxAA) in
  let T := fold_left (fun acc entry => u256 (acc + totalGasFee entry)) ctxAA 0 in
  worldAccounts (settleFees trunk ctxAA) =
  <[systemContractAddress :=
      mkAccount (acc_nonce (default ZeroAccountInfo (m1 !! systemContractAddress)))
                (u256 (balanceOf m1 systemContractAddress + T))]> m1 /\
  sameQueue trunk (settleFees trunk ctxAA).
Proof.
  cbn zeta. unfold settleFees, AddSystemAccBalance, updateBalance.
  fold (closeAll trunk ctxAA).
  unfold Close, SetAccount, GetAccount, WithRbtCopy, balanceOf.
  cbn [cache worldAccounts fst snd shortKeys].
  rewrite lookup_empty. split.
  - rewrite insert_empty, <- insert_union_singleton_l. reflexivity.
  - destruct (closeAll_queue ctxAA trunk) as [Hctl Hslots].
    split; cbn; assumption.
Qed.

Lemma insertOne_fold l :
  forall e t q,
    fold_left insertOne l (e, t, q) =
    (fold_left recordInvalidTx (filter (fun i => untagged i = false) l) e,
     mkTrunk (worldAccounts t) (standbyCtl t)
       (appendSlots (standbySlots t) q
          (map txBytes (filter (fun i => untagged i = true) l))).1,
     (appendSlots (standbySlots t) q
        (map txBytes (filter (fun i => untagged i = true) l))).2).
Proof.
  unfold appendSlots.
  induction l as [|info l IH]; intros e t q.
  - destruct t. reflexivity.
  - cbn [fold_left]. unfold insertOne at 2. fold (untagged info).
    destruct (untagged info) eqn:Hu; cbn [negb].
    + rewrite IH. rewrite filter_cons_False by congruence.
      rewrite filter_cons_True by exact Hu. reflexivity.
    + rewrite IH. rewrite filter_cons_True by exact Hu.
      rewrite filter_cons_False by congruence. reflexivity.
Qed.

Lemma recordInvalidTx_fold l :
  forall e,
    let e' := fold_left recordInvalidTx l e in
    cleanCtx e' = cleanCtx e /\ txList e' = txList e /\
    exists records,
      committedTxs e' = committedTxs e ++ records /\
      Forall2 rejectionRecord l records.
Proof.
  induction l as [|info l IH]; intros e; cbn zeta.
  - repeat split. exists []. rewrite app_nil_r. split; [reflexivity|constructor].
  - cbn [fold_left].
    destruct (IH (recordInvalidTx e info)) as (Hctx & Htxs & records & Hrec & Hall).
    split; [exact Hctx|]. split; [exact Htxs|].
    eexists (_ :: records). split.
    + rewrite Hrec. unfold recordInvalidTx. cbn [committedTxs setCommittedTxs].
      rewrite <- app_assoc. reflexivity.
    + constructor; [|exact Hall]. repeat split.
Qed.

Lemma insertToStandbyTxQ_spec e trunk l bz q :
  let e' := insertToStandbyTxQ e trunk l bz q in
  let slots := appendSlots (standbySlots trunk) q
                 (map txBytes (filter (fun i => untagged i = true) l)) in
  cleanCtx e' =
    Some (mkTrunk (worldAccounts trunk)
            (Some (take 8 bz ++ PutUint64 slots.2 ++ drop 16 bz)) slots.1) /\
  exists records,
    committedTxs e' = committedTxs e ++ records /\
    Forall2 rejectionRecord (filter (fun i => untagged i = false) l) records.
Proof.
  cbn zeta. unfold insertToStandbyTxQ. rewrite insertOne_fold.
  destruct (recordInvalidTx_fold (filter (fun i => untagged i = false) l) e)
    as (_ & _ & records & Hrec & Hall).
  split; [reflexivity|].
  exists records. split; [exact Hrec|exact Hall].
Qed.

Section PrepareFacts.
Context `{Collaborators} `{RandSource}.
Variables (claim : nat -> nat) (e : txEngine) (trunk : Trunk).
Variables (seed minGasPrice maxTxGasLimit : Z).

Lemma Prepare_run bz q :
  cleanCtx e = Some trunk -> txList e <> [] -> 0 < parallelNum e ->
  readQueueEnd trunk = Ok (bz, q) ->
  Prepare claim e seed minGasPrice maxTxGasLimit =
  Ok (setTxList
        (insertToStandbyTxQ e
           (settleFees trunk (workerEntries claim e trunk seed minGasPrice maxTxGasLimit))
           (reorderedInfos claim e trunk seed minGasPrice maxTxGasLimit) bz q) [],
      NewFrontierWithCtxAA
        (workerEntries claim e trunk seed minGasPrice maxTxGasLimit)
        (deductPhase claim e trunk seed minGasPrice maxTxGasLimit).2).
Proof.
  intros Hctx Htxs Hpar Hq. unfold Prepare. rewrite Hctx. cbn [deref bindR].
  destruct (txList e) as [|gtx rest] eqn:Hlist; [done|]. cbn [length Nat.eqb].
  destruct (parallelNum e =? 0) eqn:Hzero; [lia|].
  destruct (parallelNum e <? 0) eqn:Hneg; [lia|].
  rewrite Hq. cbn [bindR].
  unfold workerEntries, reorderedInfos, preparedInfos.
  destruct (deductPhase claim e trunk seed minGasPrice maxTxGasLimit)
    as [[[F c] r] a].
  reflexivity.
Qed.

End PrepareFacts.

Lemma paidAll_seq F :
  paidAll F (seq 0 (length F)) =
  sumZ (map (fun info => if untagged info then feeOf (tx info) else 0) F).
Proof.
  unfold paidAll. f_equal.
  assert (forall G k, (forall i, G !! i = F !! (k + i)%nat) ->
            map (feePaid F) (seq k (length G)) =
            map (fun info => if untagged info then feeOf (tx info) else 0) G)
    as Hgen.
  { induction G as [|info G IH]; intros k HG; [reflexivity|].
    cbn [length seq map]. f_equal.
    - unfold feePaid. specialize (HG 0%nat). rewrite Nat.add_0_r in HG.
      rewrite <- HG. reflexivity.
    - apply IH. intros i. specialize (HG (S i)). cbn [lookup list_lookup] in HG.
      etrans; [exact HG|]. f_equal. lia. }
  apply Hgen. reflexivity.
Qed.

Lemma sumZ_map_ext_lookup {A} (f g : A -> Z) (l : list A) :
  (forall i x, l !! i = Some x -> f x = g x) -> sumZ (map f l) = sumZ (map g l).
Proof.
  unfold sumZ. induction l as [|x l IH]; intros Hfg; [reflexivity|].
  cbn [map foldr]. rewrite (Hfg 0%nat x eq_refl), IH; [reflexivity|].
  intros i y Hy. exact (Hfg (S i) y Hy).
Qed.

(** The arithmetic of the settlement: the accounts debited by [d], then
    the sum [T] of the debits credited to the system account. *)
Lemma settle_arith (m m1 : gmap Z AccountInfo) (d : Address -> Z) (T : Z) :
  (forall a, m1 !! a = debited (d a) <$> m !! a) ->
  (forall a, 0 <= d a <= balanceOf m a) ->
  sumOver d m = T -> d systemContractAddress = 0 ->
  sumBalances m < 2 ^ 256 ->
  let m' := <[systemContractAddress :=
                mkAccount
                  (acc_nonce (default ZeroAccountInfo (m1 !! systemContractAddress)))
                  (u256 (balanceOf m1 systemContractAddress + T))]> m1 in
  balanceOf m' systemContractAddress = balanceOf m systemContractAddress + T /\
  (forall a, a <> systemContractAddress -> balanceOf m' a = balanceOf m a - d a) /\
  sumBalances (delete systemContractAddress m') =
    sumBalances (delete systemContractAddress m) - T /\
  sumBalances m' = sumBalances m.
Proof.
  intros Hm1 Hd HT Hsys Hsmall.
  assert (forall a, balanceOf m1 a = balanceOf m a - d a) as Hbal.
  { intros a. pose proof (Hd a) as Hda. unfold balanceOf in *. rewrite Hm1.
    destruct (m !! a) as [acc|]; cbn in *; lia. }
  assert (sumBalances m1 = sumBalances m - T) as Hsum1.
  { rewrite <- HT. apply sumBalances_debit. exact Hm1. }
  assert (0 <= T) as HT0.
  { rewrite <- HT. apply sumOver_nonneg. intros a. apply Hd. }
  assert (0 <= sumBalances (delete systemContractAddress m1)) as Hrest.
  { apply sumBalances_nonneg. intros a acc Ha.
    apply lookup_delete_Some in Ha as [_ Ha].
    pose proof (Hbal a) as Hba. pose proof (Hd a).
    unfold balanceOf at 1 in Hba. rewrite Ha in Hba. cbn in Hba. lia. }
  pose proof (sumBalances_delete m1 systemContractAddress) as Hdel1.
  pose proof (Hbal systemContractAddress) as Hb1. rewrite Hsys in Hb1.
  pose proof (Hd systemContractAddress) as Hd1.
  cbn zeta.
  set (new := mkAccount _ _).
  assert (acc_balance new = balanceOf m systemContractAddress + T) as Hnew.
  { subst new. cbn [acc_balance]. rewrite u256_small; lia. }
  assert (balanceOf (<[systemContractAddress := new]> m1) systemContractAddress =
          balanceOf m systemContractAddress + T) as Hcredit.
  { unfold balanceOf at 1. rewrite lookup_insert_eq. exact Hnew. }
  assert (sumBalances (<[systemContractAddress := new]> m1) = sumBalances m) as Hall.
  { rewrite sumBalances_insert_any. lia. }
  split; [exact Hcredit|]. split.
  - intros a Ha. unfold balanceOf at 1. rewrite lookup_insert_ne by congruence.
    apply Hbal.
  - split; [|exact Hall].
    pose proof (sumBalances_delete (<[systemContractAddress := new]> m1)
                  systemContractAddress).
    pose proof (sumBalances_delete m systemContractAddress). lia.
Qed.

(** The facts of the two parallel sections, in terms of the stages of
    Prepare. *)
Section StageFacts.
Context `{Collaborators} `{RandSource}.
Variables (claim : nat -> nat) (e : txEngine) (trunk : Trunk).
Variables (seed minGasPrice maxTxGasLimit : Z).
Hypothesis workers : 0 < parallelNum e.
Hypothesis inRange : balancesInRange (worldAccounts trunk).

#[local] Abbreviation F := (preparedInfos claim e trunk seed minGasPrice maxTxGasLimit).
#[local] Abbreviation W := (workerEntries claim e trunk seed minGasPrice maxTxGasLimit).

Lemma stage_length : length F = length (txList e).
Proof.
  unfold preparedInfos. rewrite deductPhase_eq. cbn [fst snd].
  destruct (phase_workers claim e trunk seed minGasPrice maxTxGasLimit
              workers inRange) as (_ & -> & _).
  apply phase_preload. exact workers.
Qed.

Lemma stage_accepted p info :
  F !! p = Some info -> untagged info = true ->
  senderOf F p = TxToRun.From (tx info) /\
  exists gtx, txList e !! p = Some gtx /\
              tx info = FromGethTx gtx (signer e gtx).1 (getCurrHeight e) /\
              checksPassed e minGasPrice maxTxGasLimit gtx.
Proof.
  unfold preparedInfos. rewrite deductPhase_eq. cbn [fst snd]. intros Hp Hu.
  destruct (phase_accepted claim e trunk seed minGasPrice maxTxGasLimit
              workers inRange p info Hp Hu) as (_ & _ & _ & Hgtx).
  split; [|exact Hgtx]. unfold senderOf at 1. rewrite Hp. reflexivity.
Qed.

Lemma stage_all :
  seq 0 (length F) =
  seq 0 (length (parallelReadAccounts claim e trunk minGasPrice maxTxGasLimit).1).
Proof.
  rewrite stage_length. f_equal. symmetry. apply phase_preload. exact workers.
Qed.

Lemma stage_accounts a :
  worldAccounts (closeAll trunk W) !! a =
  debited (paid F (seq 0 (length F)) a) <$> worldAccounts trunk !! a.
Proof.
  rewrite stage_all. unfold preparedInfos, workerEntries.
  rewrite deductPhase_eq. cbn [fst snd].
  apply phase_accounts; assumption.
Qed.

Lemma stage_bounds a :
  0 <= paid F (seq 0 (length F)) a <= balanceOf (worldAccounts trunk) a.
Proof.
  rewrite stage_all. unfold preparedInfos.
  rewrite deductPhase_eq. cbn [fst snd].
  apply phase_bounds; assumption.
Qed.

Lemma stage_paid_sum :
  sumOver (paid F (seq 0 (length F))) (worldAccounts trunk) =
  paidAll F (seq 0 (length F)).
Proof.
  rewrite stage_all. unfold preparedInfos.
  rewrite deductPhase_eq. cbn [fst snd].
  apply phase_paid_sum; assumption.
Qed.

Lemma stage_totals :
  sumBalances (worldAccounts trunk) < 2 ^ 256 ->
  sumZ (map totalGasFee W) = paidAll F (seq 0 (length F)) /\
  fold_left (fun acc entry => u256 (acc + totalGasFee entry)) W 0 =
  paidAll F (seq 0 (length F)).
Proof.
  rewrite stage_all. unfold preparedInfos, workerEntries.
  rewrite deductPhase_eq. cbn [fst snd].
  apply phase_totals; assumption.
Qed.

(** Within the bounds of its types the fee is the plain product. *)
Lemma stage_fee_exact p info :
  0 <= minGasPrice < 2 ^ 63 ->
  Forall (fun gtx => 0 <= gtx_gas gtx < 2 ^ 64) (txList e) ->
  F !! p = Some info -> untagged info = true ->
  feeOf (tx info) = TxToRun.Gas (tx info) * TxToRun.GasPrice (tx info).
Proof.
  intros Hmin Hgas Hp Hu.
  destruct (stage_accepted p info Hp Hu) as (_ & gtx & Hgtx & -> & Hok).
  rewrite Forall_lookup in Hgas. pose proof (Hgas p gtx Hgtx) as Hg.
  destruct Hok as (_ & Hprice & Hfloor & _).
  unfold toInt64 in Hfloor.
  destruct (minGasPrice <? 2 ^ 63) eqn:Hlt; [|lia].
  unfold feeOf, FromGethTx. cbn [TxToRun.Gas TxToRun.GasPrice].
  assert (2 ^ 63 < 2 ^ 256) by (apply Z.pow_lt_mono_r; lia).
  rewrite (u256_small (gtx_gasPrice gtx)) by lia.
  unfold u64. rewrite Z.mod_small by lia.
  apply u256_small. split; [apply Z.mul_nonneg_nonneg; lia|].
  assert (gtx_gas gtx * gtx_gasPrice gtx < 2 ^ 64 * 2 ^ 63).
  { apply Z.mul_lt_mono_nonneg; lia. }
  assert (2 ^ 64 * 2 ^ 63 < 2 ^ 256); [|lia].
  rewrite <- Z.pow_add_r by lia. apply Z.pow_lt_mono_r; lia.
Qed.

End StageFacts.

(** ** The fees of a block (C7) *)

(** On the example block one transaction is accepted and pays 21000; the
    system account did not exist and is created with that balance. *)
Example prep_block_accounts :
  exists e' fr trunk',
    Prepare (fun i => i) prepEngine 42 1 DefaultTxGasLimit = Ok (e', fr) /\
    cleanCtx e' = Some trunk' /\
    map_to_list (worldAccounts trunk') =
    map_to_list ({[ demoA := mkAccount 0 979000; demoB := mkAccount 0 500;
                    systemContractAddress := mkAccount 0 21000 ]}
                 : gmap Z AccountInfo).
Proof. eexists _, _, _. vm_compute. repeat split. Qed.

(** On the example block the workers collect 21000: the accounts other
    than the system account hold 1000500 before Prepare and 979500 after
    it, and the system account, which receives the fees, 0 and 21000. *)
Example prep_block_balances :
  exists e' fr trunk',
    Prepare (fun i => i) prepEngine 42 1 DefaultTxGasLimit = Ok (e', fr) /\
    cleanCtx e' = Some trunk' /\
    sumZ (map totalGasFee
            (workerEntries (fun i => i) prepEngine prepTrunk 42 1
                           DefaultTxGasLimit)) = 21000 /\
    sumBalances (delete systemContractAddress (worldAccounts prepTrunk)) = 1000500 /\
    sumBalances (delete systemContractAddress (worldAccounts trunk')) = 979500 /\
    balanceOf (worldAccounts prepTrunk) systemContractAddress = 0 /\
    balanceOf (worldAccounts trunk') systemContractAddress = 21000.
Proof.
  eexists _, _, _. split; [vm_compute; reflexivity|].
  split; [vm_compute; reflexivity|].
  split; [vm_compute; reflexivity|].
  split; [vm_compute; reflexivity|].
  split; [vm_compute; reflexivity|].
  split; vm_compute; reflexivity.
Qed.

Section FeeClaim.
Context `{Collaborators} `{RandSource}.

(** C7. Prepare on a non-empty block, with the balances of the world state
    256-bit values whose sum is one too, the minimum gas price below 2^63,
    the gas limits 64-bit values (as their types have them) and no
    transaction signed by the system account, which is a contract address:
    Prepare returns; the counters totalGasFee of the workers sum to the sum
    of tx.gas * tx.gasPrice over the accepted (untagged) transactions; the
    balance of the system account grows by exactly that sum; the same total
    is debited from the senders, every account other than the system
    account by the fees of its own accepted transactions, so that the
    balances of the accounts the fees are taken from, all accounts but the
    system account, sum to exactly that amount less. The system account
    holding what the others have paid, the balances with it included sum
    to what they did before. *)
Theorem Prepare_moves_accepted_fees_to_the_system_account :
  forall (claim : nat -> nat) (e : txEngine) (trunk : Trunk)
         (seed minGasPrice maxTxGasLimit : Z),
    cleanCtx e = Some trunk -> txList e <> [] -> 0 < parallelNum e ->
    (exists v, readQueueEnd trunk = Ok v) ->
    balancesInRange (worldAccounts trunk) ->
    sumBalances (worldAccounts trunk) < 2 ^ 256 ->
    0 <= minGasPrice < 2 ^ 63 ->
    Forall (fun gtx => 0 <= gtx_gas gtx < 2 ^ 64 /\
                       (signer e gtx).1 <> systemContractAddress) (txList e) ->
    let F := preparedInfos claim e trunk seed minGasPrice maxTxGasLimit in
    let T := sumZ (map totalGasFee
                     (workerEntries claim e trunk seed minGasPrice maxTxGasLimit)) in
    let m := worldAccounts trunk in
    exists e' fr trunk',
      Prepare claim e seed minGasPrice maxTxGasLimit = Ok (e', fr) /\
      cleanCtx e' = Some trunk' /\
      T = sumZ (map acceptedFee F) /\
      sumOver (paid F (seq 0 (length F))) m = T /\
      balanceOf (worldAccounts trunk') systemContractAddress =
        balanceOf m systemContractAddress + T /\
      (forall a, a <> systemContractAddress ->
         balanceOf (worldAccounts trunk') a =
         balanceOf m a - paid F (seq 0 (length F)) a) /\
      sumBalances (delete systemContractAddress (worldAccounts trunk')) =
        sumBalances (delete systemContractAddress m) - T /\
      sumBalances (worldAccounts trunk') = sumBalances m.
Proof.
  intros claim e trunk seed minGasPrice maxTxGasLimit
         Hctx Htxs Hpar [[bz q] Hq] Hrange Hsmall Hmin Hall F T m.
  rewrite (Prepare_run claim e trunk seed minGasPrice maxTxGasLimit bz q
             Hctx Htxs Hpar Hq).
  destruct (insertToStandbyTxQ_spec e
              (settleFees trunk
                 (workerEntries claim e trunk seed minGasPrice maxTxGasLimit))
              (reorderedInfos claim e trunk seed minGasPrice maxTxGasLimit) bz q)
    as [Hclean _].
  eexists _, _, _. split; [reflexivity|].
  split; [cbn [cleanCtx setTxList]; exact Hclean|].
  cbn [worldAccounts].
  destruct (settleFees_accounts trunk
              (workerEntries claim e trunk seed minGasPrice maxTxGasLimit))
    as [-> _].
  destruct (stage_totals claim e trunk seed minGasPrice maxTxGasLimit
              Hpar Hrange Hsmall) as [Hsum Hfold].
  rewrite Hfold. fold F in Hsum, Hfold |- *. fold T in Hsum. rewrite <- Hsum.
  assert (T = sumZ (map acceptedFee F)) as Hfees.
  { rewrite Hsum, paidAll_seq. apply sumZ_map_ext_lookup. intros p info Hp.
    unfold acceptedFee. destruct (untagged info) eqn:Hu; [|reflexivity].
    apply (stage_fee_exact claim e trunk seed minGasPrice maxTxGasLimit
             Hpar Hrange p info Hmin); [|exact Hp|exact Hu].
    eapply Forall_impl; [exact Hall|]. intros gtx Hgtx. apply Hgtx. }
  pose proof (stage_paid_sum claim e trunk seed minGasPrice maxTxGasLimit
                Hpar Hrange) as Hpaid.
  fold F in Hpaid. rewrite <- Hsum in Hpaid.
  split; [exact Hfees|]. split; [exact Hpaid|].
  apply settle_arith.
  - apply stage_accounts; assumption.
  - apply stage_bounds; assumption.
  - exact Hpaid.
  - unfold paid. apply sumZ_map_zero. intros p Hp.
    apply list_elem_of_filter in Hp as [Hsender _].
    unfold feePaid. destruct (F !! p) as [info|] eqn:Hinfo; [|reflexivity].
    destruct (untagged info) eqn:Hu; [|reflexivity]. exfalso.
    destruct (stage_accepted claim e trunk seed minGasPrice maxTxGasLimit
                Hpar Hrange p info Hinfo Hu) as (Hs & gtx & Hgtx & Htx & _).
    rewrite Forall_lookup in Hall. destruct (Hall p gtx Hgtx) as [_ Hnot].
    apply Hnot. fold F in Hs. rewrite Hs, Htx in Hsender. exact Hsender.
  - exact Hsmall.
Qed.

End FeeClaim.

Lemma Prepare_moves_accepted_fees_to_the_system_account_witness :
  exists e' fr trunk',
    Prepare (fun i => i) prepEngine 42 1 DefaultTxGasLimit = Ok (e', fr) /\
    cleanCtx e' = Some trunk' /\
    balanceOf (worldAccounts trunk') systemContractAddress =
      balanceOf (worldAccounts prepTrunk) systemContractAddress +
      sumZ (map totalGasFee
              (workerEntries (fun i => i) prepEngine prepTrunk 42 1
                             DefaultTxGasLimit)) /\
    sumBalances (worldAccounts trunk') = sumBalances (worldAccounts prepTrunk).
Proof.
  destruct (Prepare_moves_accepted_fees_to_the_system_account
              (fun i => i) prepEngine prepTrunk 42 1 DefaultTxGasLimit)
    as (e' & fr & trunk' & Hrun & Hclean & _ & _ & Hsys & _ & _ & Hsum).
  - reflexivity.
  - vm_compute. discriminate.
  - vm_compute. reflexivity.
  - eexists. vm_compute. reflexivity.
  - apply (bool_decide_unpack
             (map_Forall (fun _ acc => 0 <= acc_balance acc < 2 ^ 256)
                         (worldAccounts prepTrunk))).
    vm_compute. exact I.
  - vm_compute. reflexivity.
  - lia.
  - apply (bool_decide_unpack _). vm_compute. exact I.
  - exists e', fr, trunk'. auto.
Defined.

(** ** The rejected transactions (C2) *)

Section RejectionFacts.
Context `{Collaborators} `{RandSource}.

Lemma deductAt_txs trunk st p : tx <$> (deductAt trunk st p).1 = tx <$> st.1.
Proof.
  destruct st as [infos entry]. cbn [fst].
  destruct (infos !! p) as [info|] eqn:Hp.
  - rewrite (deductAt_Some trunk infos entry p info Hp). cbn [fst].
    rewrite list_fmap_insert.
    destruct (deductOne_effect trunk info entry) as (-> & _).
    apply list_insert_id. rewrite list_lookup_fmap, Hp. reflexivity.
  - rewrite (deductAt_None trunk infos entry p Hp). reflexivity.
Qed.

Lemma fold_deductAt_txs trunk ps :
  forall st, tx <$> (fold_left (deductAt trunk) ps st).1 = tx <$> st.1.
Proof.
  induction ps as [|p ps IH]; intros st; [reflexivity|].
  cbn [fold_left]. rewrite IH. apply deductAt_txs.
Qed.

Lemma deductWorker_txs trunk addr2idx addr2Infos idx st :
  tx <$> (deductWorker trunk addr2idx addr2Infos idx st).1 = tx <$> st.1.
Proof.
  unfold deductWorker. generalize (accounts st.2). intros accs.
  revert st. induction accs as [|a accs IH]; intros st; [reflexivity|].
  cbn [fold_left]. rewrite IH.
  destruct (negb _); [reflexivity|]. apply fold_deductAt_txs.
Qed.

Lemma deductWorkers_txs trunk addr2idx addr2Infos todo :
  forall idx infos,
    tx <$> (deductWorkers trunk addr2idx addr2Infos idx todo infos).1 = tx <$> infos.
Proof.
  induction todo as [|entry rest IH]; intros idx infos; [reflexivity|].
  cbn [deductWorkers].
  pose proof (deductWorker_txs trunk addr2idx addr2Infos idx (infos, entry)) as Hw.
  destruct (deductWorker trunk addr2idx addr2Infos idx (infos, entry))
    as [infos1 entry'].
  specialize (IH (S idx) infos1).
  destruct (deductWorkers trunk addr2idx addr2Infos (S idx) rest infos1)
    as [infos2 rest'].
  cbn [fst snd] in *. congruence.
Qed.

Lemma omap_lookup_seq {A} (l : list A) :
  omap (fun p => l !! p) (seq 0 (length l)) = l.
Proof.
  assert (forall G k, (forall i, G !! i = l !! (k + i)%nat) ->
            omap (fun p => l !! p) (seq k (length G)) = G) as Hgen.
  { induction G as [|x G IH]; intros k HG; [reflexivity|].
    cbn [length seq omap list_omap].
    pose proof (HG 0%nat) as Hhead. rewrite Nat.add_0_r in Hhead. cbn in Hhead.
    rewrite <- Hhead. f_equal. apply IH. intros i.
    etrans; [exact (HG (S i))|]. f_equal. lia. }
  apply Hgen. reflexivity.
Qed.

Variables (claim : nat -> nat) (e : txEngine) (trunk : Trunk).
Variables (seed minGasPrice maxTxGasLimit : Z).
Hypothesis workers : 0 < parallelNum e.

(** The infos stand for the transactions of the block, in their order. *)
Lemma preparedInfos_txs :
  tx <$> preparedInfos claim e trunk seed minGasPrice maxTxGasLimit =
  (fun gtx => FromGethTx gtx (signer e gtx).1 (getCurrHeight e)) <$> txList e.
Proof.
  unfold preparedInfos. rewrite deductPhase_eq. cbn [fst snd].
  rewrite deductWorkers_txs.
  destruct (phase_preload claim e trunk minGasPrice maxTxGasLimit workers)
    as (Hlen & _ & Hinfo).
  apply list_eq. intros k. rewrite !list_lookup_fmap.
  destruct (txList e !! k) as [gtx|] eqn:Hk.
  - destruct (Hinfo k gtx Hk) as (info & Hi & Htx & _).
    rewrite Hi. cbn. rewrite Htx. reflexivity.
  - rewrite (lookup_ge_None_2 _ k); [reflexivity|].
    rewrite Hlen. apply lookup_ge_None_1, Hk.
Qed.

(** The reordered list holds every info once. *)
Lemma reorderedInfos_Permutation :
  reorderedInfos claim e trunk seed minGasPrice maxTxGasLimit ≡ₚ
  preparedInfos claim e trunk seed minGasPrice maxTxGasLimit.
Proof.
  unfold reorderedInfos.
  set (F := preparedInfos claim e trunk seed minGasPrice maxTxGasLimit).
  assert (length F =
          length (parallelReadAccounts claim e trunk minGasPrice maxTxGasLimit).1)
    as Hlen.
  { rewrite <- (length_fmap tx F). subst F. unfold preparedInfos.
    rewrite deductPhase_eq. cbn [fst snd].
    rewrite deductWorkers_txs, length_fmap. reflexivity. }
  rewrite deductPhase_eq. cbn [fst snd].
  rewrite reorderInfoList_Permutation, <- Hlen.
  rewrite omap_lookup_seq. reflexivity.
Qed.

End RejectionFacts.

(** Execute starts from an empty committed-tx list whatever the list held. *)
Lemma Execute_forgets_committedTxs `{Collaborators} (m : Machine)
      (l : list Transaction.t) (blk : option BlockInfo.t) :
  Execute (setExec m (setCommittedTxs (exec m) l)) blk = Execute m blk.
Proof. reflexivity. Qed.

(** The claim C2 as it is written fails: on the example block Prepare
    records the transaction with the invalid signature and the one with the
    wrong nonce, and after Execute the committed-tx list holds the record of
    the executed transfer alone. *)
Lemma Execute_discards_the_rejection_records :
  exists e' fr m',
    Prepare (fun i => i) prepEngine 42 1 DefaultTxGasLimit = Ok (e', fr) /\
    map (fun t => (Transaction.Hash t, Transaction.StatusStr t)) (committedTxs e') =
      [(3, "invalid signature"); (2, "incorrect nonce")] /\
    Execute (mkMachine e' (replicate 4 None) [] []) (Some demoBlock) = Ok m' /\
    map (fun t => (Transaction.Hash t, Transaction.StatusStr t))
        (committedTxs (exec m')) = [(1, "success")].
Proof.
  eexists _, _, _. split; [vm_compute; reflexivity|].
  split; [vm_compute; reflexivity|].
  split; vm_compute; reflexivity.
Qed.

Section RejectionClaim.
Context `{Collaborators} `{RandSource}.

(** C2, amended. Prepare on a non-empty block returns, and with the infos
    of the transactions of the block taken in the reordered order: for
    every info tagged with a rejection, and in that order, one record is
    appended to the committed-tx list, with the hash of the transaction,
    the status ReceiptStatusFailed, gasUsed 0 and the tag in statusStr; the
    slots written to the standby queue, from its end on, are the bytes of
    the untagged infos and nothing else, and the control key gets the new
    end. The records are in the committed-tx list after Prepare only:
    Execute empties the list first, so what Execute leaves is what it leaves
    on the engine without the records. *)
Theorem Prepare_records_rejections_until_Execute :
  forall (claim : nat -> nat) (e : txEngine) (trunk : Trunk)
         (seed minGasPrice maxTxGasLimit : Z) (bz : Bytes) (q : Z),
    cleanCtx e = Some trunk -> txList e <> [] -> 0 < parallelNum e ->
    readQueueEnd trunk = Ok (bz, q) ->
    let F := preparedInfos claim e trunk seed minGasPrice maxTxGasLimit in
    let L := reorderedInfos claim e trunk seed minGasPrice maxTxGasLimit in
    let slots := appendSlots (standbySlots trunk) q
                   (map txBytes (filter (fun i => untagged i = true) L)) in
    exists e' fr trunk' records,
      Prepare claim e seed minGasPrice maxTxGasLimit = Ok (e', fr) /\
      cleanCtx e' = Some trunk' /\
      tx <$> F =
        (fun gtx => FromGethTx gtx (signer e gtx).1 (getCurrHeight e)) <$> txList e /\
      L ≡ₚ F /\
      committedTxs e' = committedTxs e ++ records /\
      Forall2 rejectionRecord (filter (fun i => untagged i = false) L) records /\
      standbySlots trunk' = slots.1 /\
      standbyCtl trunk' = Some (take 8 bz ++ PutUint64 slots.2 ++ drop 16 bz) /\
      (forall (m : Machine) (blk : option BlockInfo.t),
         exec m = e' ->
         Execute m blk = Execute (setExec m (setCommittedTxs e' [])) blk).
Proof.
  intros claim e trunk seed minGasPrice maxTxGasLimit bz q
         Hctx Htxs Hpar Hq F L slots.
  rewrite (Prepare_run claim e trunk seed minGasPrice maxTxGasLimit bz q
             Hctx Htxs Hpar Hq).
  destruct (insertToStandbyTxQ_spec e
              (settleFees trunk
                 (workerEntries claim e trunk seed minGasPrice maxTxGasLimit))
              (reorderedInfos claim e trunk seed minGasPrice maxTxGasLimit) bz q)
    as (Hclean & records & Hrec & Hall).
  destruct (settleFees_accounts trunk
              (workerEntries claim e trunk seed minGasPrice maxTxGasLimit))
    as [_ [_ Hslots]].
  rewrite Hslots in Hclean.
  eexists _, _, _, records. split; [reflexivity|].
  split; [cbn [cleanCtx setTxList]; exact Hclean|].
  split; [apply preparedInfos_txs; exact Hpar|].
  split; [apply reorderedInfos_Permutation|].
  split; [exact Hrec|]. split; [exact Hall|].
  split; [reflexivity|]. split; [reflexivity|].
  intros m blk <-. symmetry. apply Execute_forgets_committedTxs.
Qed.

End RejectionClaim.

Lemma Prepare_records_rejections_until_Execute_witness :
  exists e' fr trunk' records,
    Prepare (fun i => i) prepEngine 42 1 DefaultTxGasLimit = Ok (e', fr) /\
    cleanCtx e' = Some trunk' /\
    committedTxs e' = committedTxs prepEngine ++ records /\
    Forall2 rejectionRecord
      (filter (fun i => untagged i = false)
              (reorderedInfos (fun i => i) prepEngine prepTrunk 42 1
                              DefaultTxGasLimit))
      records /\
    Execute (mkMachine e' (replicate 4 None) [] []) (Some demoBlock) =
    Execute (mkMachine (setCommittedTxs e' []) (replicate 4 None) [] [])
            (Some demoBlock).
Proof.
  destruct (Prepare_records_rejections_until_Execute
              (fun i => i) prepEngine prepTrunk 42 1 DefaultTxGasLimit
              (replicate 16 0) 0)
    as (e' & fr & trunk' & records & Hrun & Hclean & _ & _ & Hrec & Hall & _ & _ & Hexec).
  - reflexivity.
  - vm_compute. discriminate.
  - vm_compute. reflexivity.
  - vm_compute. reflexivity.
  - exists e', fr, trunk', records.
    split; [exact Hrun|]. split; [exact Hclean|]. split; [exact Hrec|].
    split; [exact Hall|].
    apply (Hexec (mkMachine e' (replicate 4 None) [] []) (Some demoBlock) eq_refl).
Defined.

(* ================================================================== *)
(** * Further properties of the engine *)
(* ================================================================== *)

(** ** Balance helpers *)

Lemma GetAccount_SetAccount trunk c a acc b :
  GetAccount trunk (SetAccount c a acc) b =
  if decide (b = a) then Some acc else GetAccount trunk c b.
Proof.
  unfold GetAccount, SetAccount. cbn [cache].
  destruct (decide (b = a)) as [->|Hne].
  - rewrite lookup_insert_eq. reflexivity.
  - rewrite lookup_insert_ne by congruence. reflexivity.
Qed.

Lemma updateBalance_sub trunk c a amount :
  updateBalance trunk c a amount false =
  if liveBal trunk c a <? amount
  then (c, true)
  else (SetAccount c a (mkAccount (acc_nonce (liveAccount trunk c a))
                                  (u256 (liveBal trunk c a - amount))), false).
Proof. reflexivity. Qed.

Lemma updateBalance_add trunk c a amount :
  updateBalance trunk c a amount true =
  (SetAccount c a (mkAccount (acc_nonce (liveAccount trunk c a))
                             (u256 (liveBal trunk c a + amount))), false).
Proof. reflexivity. Qed.

Lemma liveAccount_SetAccount_eq trunk c a acc :
  liveAccount trunk (SetAccount c a acc) a = acc.
Proof.
  unfold liveAccount. rewrite GetAccount_SetAccount, decide_True by reflexivity.
  reflexivity.
Qed.

Lemma liveAccount_SetAccount_ne trunk c a acc b :
  b <> a -> liveAccount trunk (SetAccount c a acc) b = liveAccount trunk c b.
Proof.
  intros Hne. unfold liveAccount.
  rewrite GetAccount_SetAccount, decide_False by exact Hne. reflexivity.
Qed.

(** X1. TransferFromSenderAccToBlackHoleAcc, for a sender other than the
    black-hole account: it returns an error exactly when the sender's
    balance is below the amount, and then leaves the context as it was,
    the black-hole account not credited; otherwise the sender's balance is
    lowered by the amount and the black-hole balance raised by it (256-bit
    arithmetic), the nonces of both are kept, and no other account is
    touched. *)
Theorem TransferFromSenderAccToBlackHoleAcc_moves_or_fails :
  forall (trunk : Trunk) (c : Context) (sender : Address) (amount : Z),
    sender <> blackHoleContractAddress ->
    let r := TransferFromSenderAccToBlackHoleAcc trunk c sender amount in
    (r.2 = true <-> liveBal trunk c sender < amount) /\
    (r.2 = true -> r.1 = c) /\
    (r.2 = false ->
       liveBal trunk r.1 sender = u256 (liveBal trunk c sender - amount) /\
       liveBal trunk r.1 blackHoleContractAddress =
         u256 (liveBal trunk c blackHoleContractAddress + amount) /\
       acc_nonce (liveAccount trunk r.1 sender) =
         acc_nonce (liveAccount trunk c sender) /\
       acc_nonce (liveAccount trunk r.1 blackHoleContractAddress) =
         acc_nonce (liveAccount trunk c blackHoleContractAddress) /\
       forall a, a <> sender -> a <> blackHoleContractAddress ->
                 GetAccount trunk r.1 a = GetAccount trunk c a).
Proof.
  intros trunk c sender amount Hne. cbn zeta.
  unfold TransferFromSenderAccToBlackHoleAcc.
  rewrite updateBalance_sub.
  destruct (liveBal trunk c sender <? amount) eqn:Hlt.
  - cbn [fst snd]. split; [split; [lia|reflexivity]|].
    split; [reflexivity|discriminate].
  - rewrite updateBalance_add. cbn [fst snd].
    split; [split; [discriminate|lia]|]. split; [discriminate|]. intros _.
    unfold liveBal.
    rewrite liveAccount_SetAccount_eq.
    rewrite !(liveAccount_SetAccount_ne _ _ blackHoleContractAddress _ sender)
      by exact Hne.
    rewrite !(liveAccount_SetAccount_ne _ _ sender _ blackHoleContractAddress)
      by congruence.
    rewrite liveAccount_SetAccount_eq. cbn [acc_balance acc_nonce].
    repeat split.
    intros a Ha Hb. rewrite !GetAccount_SetAccount.
    rewrite !decide_False by assumption. reflexivity.
Qed.

Lemma TransferFromSenderAccToBlackHoleAcc_moves_or_fails_witness :
  (TransferFromSenderAccToBlackHoleAcc feeTrunk WithRbtCopy demoA 30).2 = false /\
  liveBal feeTrunk
    (TransferFromSenderAccToBlackHoleAcc feeTrunk WithRbtCopy demoA 30).1 demoA = 70 /\
  GetBlackHoleBalance feeTrunk
    (TransferFromSenderAccToBlackHoleAcc feeTrunk WithRbtCopy demoA 30).1 = 30.
Proof.
  destruct (TransferFromSenderAccToBlackHoleAcc_moves_or_fails
              feeTrunk WithRbtCopy demoA 30) as (_ & _ & Hok).
  - vm_compute. discriminate.
  - split; [reflexivity|].
    destruct (Hok eq_refl) as (Hs & Hb & _).
    split; [rewrite Hs; reflexivity|].
    unfold GetBlackHoleBalance. fold (liveAccount feeTrunk
      (TransferFromSenderAccToBlackHoleAcc feeTrunk WithRbtCopy demoA 30).1
      blackHoleContractAddress).
    fold (liveBal feeTrunk
      (TransferFromSenderAccToBlackHoleAcc feeTrunk WithRbtCopy demoA 30).1
      blackHoleContractAddress).
    rewrite Hb. reflexivity.
Defined.

(** X2. AddSystemAccBalance never returns an error, and creates the
    system account when there is none. When the credited balance stays a
    256-bit value, GetSystemBalance reads the old balance plus the amount,
    and SubSystemAccBalance of the same amount succeeds and restores the
    old balance, the nonce unchanged throughout. *)
Theorem AddSystemAccBalance_then_SubSystemAccBalance :
  forall (trunk : Trunk) (c : Context) (amount : Z),
    0 <= amount -> 0 <= GetSystemBalance trunk c ->
    GetSystemBalance trunk c + amount < 2 ^ 256 ->
    let added := AddSystemAccBalance trunk c amount in
    let back := SubSystemAccBalance trunk added.1 amount in
    added.2 = false /\
    is_Some (GetAccount trunk added.1 systemContractAddress) /\
    GetSystemBalance trunk added.1 = GetSystemBalance trunk c + amount /\
    back.2 = false /\
    GetSystemBalance trunk back.1 = GetSystemBalance trunk c /\
    acc_nonce (liveAccount trunk back.1 systemContractAddress) =
    acc_nonce (liveAccount trunk c systemContractAddress).
Proof.
  intros trunk c amount Hamount Hbal Hsmall. cbn zeta.
  assert (forall c', GetSystemBalance trunk c' =
                     liveBal trunk c' systemContractAddress) as Hsys
    by reflexivity.
  rewrite !Hsys in *.
  unfold AddSystemAccBalance, SubSystemAccBalance.
  rewrite updateBalance_add. cbn [fst snd].
  set (s := liveBal trunk c systemContractAddress) in *.
  set (n := acc_nonce (liveAccount trunk c systemContractAddress)).
  rewrite (u256_small (s + amount)) by lia.
  set (c1 := SetAccount c systemContractAddress (mkAccount n (s + amount))).
  assert (liveAccount trunk c1 systemContractAddress = mkAccount n (s + amount))
    as Hlive1 by apply liveAccount_SetAccount_eq.
  assert (liveBal trunk c1 systemContractAddress = s + amount) as Hbal1
    by (unfold liveBal; rewrite Hlive1; reflexivity).
  rewrite updateBalance_sub, Hbal1, Hlive1. cbn [acc_nonce].
  destruct (s + amount <? amount) eqn:Hlt; [lia|]. cbn [fst snd].
  split; [reflexivity|]. split.
  { subst c1. rewrite GetAccount_SetAccount, decide_True by reflexivity. eauto. }
  split; [reflexivity|]. split; [reflexivity|].
  unfold liveBal. rewrite liveAccount_SetAccount_eq. cbn [acc_balance acc_nonce].
  split; [|reflexivity]. rewrite u256_small by lia. lia.
Qed.

Lemma AddSystemAccBalance_then_SubSystemAccBalance_witness :
  GetSystemBalance feeTrunk (AddSystemAccBalance feeTrunk WithRbtCopy 21000).1 = 21000 /\
  GetSystemBalance feeTrunk
    (SubSystemAccBalance feeTrunk
       (AddSystemAccBalance feeTrunk WithRbtCopy 21000).1 21000).1 = 0.
Proof.
  destruct (AddSystemAccBalance_then_SubSystemAccBalance feeTrunk WithRbtCopy 21000)
    as (_ & _ & Hadd & _ & Hback & _).
  - lia.
  - vm_compute. discriminate.
  - vm_compute. reflexivity.
  - split; [exact Hadd|exact Hback].
Defined.

(** ** Frontier *)

(** X3. On a frontier whose maps are allocated, as GetEmptyFrontier and
    NewFrontierWithCtxAA make it, every setter succeeds and the getter of
    the same map then answers the stored value with exist = true for that
    address; the answers for every other address, and those of the two
    other maps, are as before. The empty frontier answers not-present to
    every getter. *)
Theorem frontier_set_then_get :
  forall (nonces : gmap Z Z) (balances : gmap Z (option Z)) (gas : gmap Z Z)
         (a : Address) (n g : Z) (b : option Z),
    let nm := Some (Frontier.mkFrontier (Some nonces) (Some balances) (Some gas)) in
    (exists nm',
        Frontier.SetLatestNonce nm a n = Ok nm' /\
        Frontier.GetLatestNonce nm' a = Ok (n, true) /\
        (forall a', a' <> a ->
                    Frontier.GetLatestNonce nm' a' = Frontier.GetLatestNonce nm a') /\
        (forall a', Frontier.GetLatestBalance nm' a' = Frontier.GetLatestBalance nm a') /\
        (forall a', Frontier.GetLatestTotalGas nm' a' = Frontier.GetLatestTotalGas nm a')) /\
    (exists nm',
        Frontier.SetLatestBalance nm a b = Ok nm' /\
        Frontier.GetLatestBalance nm' a = Ok (b, true) /\
        (forall a', a' <> a ->
                    Frontier.GetLatestBalance nm' a' = Frontier.GetLatestBalance nm a') /\
        (forall a', Frontier.GetLatestNonce nm' a' = Frontier.GetLatestNonce nm a') /\
        (forall a', Frontier.GetLatestTotalGas nm' a' = Frontier.GetLatestTotalGas nm a')) /\
    (exists nm',
        Frontier.SetLatestTotalGas nm a g = Ok nm' /\
        Frontier.GetLatestTotalGas nm' a = Ok (g, true) /\
        (forall a', a' <> a ->
                    Frontier.GetLatestTotalGas nm' a' = Frontier.GetLatestTotalGas nm a') /\
        (forall a', Frontier.GetLatestNonce nm' a' = Frontier.GetLatestNonce nm a') /\
        (forall a', Frontier.GetLatestBalance nm' a' = Frontier.GetLatestBalance nm a')) /\
    Frontier.GetLatestNonce Frontier.GetEmptyFrontier a = Ok (0, false) /\
    Frontier.GetLatestBalance Frontier.GetEmptyFrontier a = Ok (None, false) /\
    Frontier.GetLatestTotalGas Frontier.GetEmptyFrontier a = Ok (0, false).
Proof.
  intros nonces balances gas a n g b. cbn zeta.
  split; [|split; [|split]].
  - eexists. split; [reflexivity|]. cbn. rewrite lookup_insert_eq.
    split; [reflexivity|]. split; [|split; reflexivity].
    intros a' Ha. rewrite lookup_insert_ne by congruence. reflexivity.
  - eexists. split; [reflexivity|]. cbn. rewrite lookup_insert_eq.
    split; [reflexivity|]. split; [|split; reflexivity].
    intros a' Ha. rewrite lookup_insert_ne by congruence. reflexivity.
  - eexists. split; [reflexivity|]. cbn. rewrite lookup_insert_eq.
    split; [reflexivity|]. split; [|split; reflexivity].
    intros a' Ha. rewrite lookup_insert_ne by congruence. reflexivity.
  - cbn. rewrite !lookup_empty. repeat split.
Qed.

(** ** The control key of the standby queue *)

(** X4. setStandbyQueueRange followed by getStandbyQueueRange: with a
    context set and 64-bit positions, the setter returns after exactly one
    trunk update that leaves the accounts and the slots as they were, and
    the getter then reads the two positions back; StandbyQLen is their
    64-bit difference read as a signed integer: it is end - start whenever
    that difference fits an int64, negative when the end lies before the
    start. On a store that has no control key the getter reads (0, 0) and
    the length is zero. *)
Theorem setStandbyQueueRange_then_get :
  forall (m : Machine) (trunk : Trunk) (s e : Z),
    cleanCtx (exec m) = Some trunk ->
    0 <= s < 2 ^ 64 -> 0 <= e < 2 ^ 64 ->
    (exists m' trunk',
        setStandbyQueueRange m s e = Ok m' /\
        cleanCtx (exec m') = Some trunk' /\
        getStandbyQueueRange (exec m') = Ok (s, e) /\
        StandbyQLen (exec m') = Ok (toInt64 (u64 (e - s))) /\
        (- 2 ^ 63 <= e - s < 2 ^ 63 -> StandbyQLen (exec m') = Ok (e - s)) /\
        worldAccounts trunk' = worldAccounts trunk /\
        standbySlots trunk' = standbySlots trunk /\
        updates m' = updates m ++ [trunk'] /\
        Runners m' = Runners m) /\
    (standbyCtl trunk = None ->
     getStandbyQueueRange (exec m) = Ok (0, 0) /\ StandbyQLen (exec m) = Ok 0).
Proof.
  intros m trunk s e Hctx Hs He. split.
  - unfold setStandbyQueueRange. rewrite Hctx. cbn [deref bindR].
    eexists _, _. split; [reflexivity|]. split; [reflexivity|].
    assert (getStandbyQueueRange
              (exec (commitUpdate m (setStandbyCtl trunk (PutUint64 s ++ PutUint64 e))))
            = Ok (s, e)) as Hget.
    { unfold getStandbyQueueRange. cbn [exec commitUpdate cleanCtx setTrunk deref bindR].
      cbn [setStandbyCtl standbyCtl]. apply decodeRange_PutUint64; assumption. }
    split; [exact Hget|]. split.
    { unfold StandbyQLen. rewrite Hget. reflexivity. }
    split.
    { intros Hfit. unfold StandbyQLen. rewrite Hget. cbn [bindR].
      rewrite toInt64_u64 by exact Hfit. reflexivity. }
    repeat split.
  - intros Hnone. unfold StandbyQLen, getStandbyQueueRange.
    rewrite Hctx. cbn [deref bindR]. rewrite Hnone. split; reflexivity.
Qed.

Lemma setStandbyQueueRange_then_get_witness :
  exists m',
    setStandbyQueueRange demoMachine 7 3 = Ok m' /\
    getStandbyQueueRange (exec m') = Ok (7, 3) /\
    StandbyQLen (exec m') = Ok (- 4).
Proof.
  destruct (setStandbyQueueRange_then_get demoMachine demoTrunk 7 3)
    as [(m' & trunk' & Hset & _ & Hget & _ & Hlen & _) _].
  - reflexivity.
  - lia.
  - lia.
  - exists m'. split; [exact Hset|]. split; [exact Hget|]. apply Hlen. lia.
Defined.

(** ** Prepare as a whole *)

Lemma readQueueEnd_Ok trunk :
  controlReadable trunk <-> exists v, readQueueEnd trunk = Ok v.
Proof.
  unfold controlReadable, readQueueEnd.
  destruct (standbyCtl trunk) as [bz|]; [|split; [eauto|discriminate]].
  destruct (decide (8 <= length bz)%nat) as [Hge|Hlt].
  - unfold BigEndian_Uint64. rewrite length_drop.
    destruct (decide (length bz - 8 < 8)%nat) as [Hshort|Hlong]; cbn [bindR].
    + split.
      * intros Hok. destruct (Hok bz eq_refl); lia.
      * intros [v Hv]. discriminate.
    + split; [eauto|]. intros _ bz' [= <-]. lia.
  - split; [eauto|]. intros _ bz' [= <-]. lia.
Qed.

Lemma recordInvalidTx_fold_config l :
  forall e, sameConfig e (fold_left recordInvalidTx l e).
Proof.
  induction l as [|info l IH]; intros e; [repeat split|].
  cbn [fold_left]. destruct (IH (recordInvalidTx e info))
    as (H1 & H2 & H3 & H4 & H5 & H6 & H7 & H8).
  repeat split; assumption.
Qed.

Lemma insertToStandbyTxQ_config e trunk l bz q :
  sameConfig e (insertToStandbyTxQ e trunk l bz q) /\
  txList (insertToStandbyTxQ e trunk l bz q) = txList e.
Proof.
  unfold insertToStandbyTxQ. rewrite insertOne_fold.
  destruct (recordInvalidTx_fold (filter (fun i => untagged i = false) l) e)
    as (_ & Htxs & _).
  destruct (recordInvalidTx_fold_config (filter (fun i => untagged i = false) l) e)
    as (H1 & H2 & H3 & H4 & H5 & H6 & H7 & H8).
  split; [repeat split; assumption|exact Htxs].
Qed.

Section PrepareWhole.
Context `{Collaborators} `{RandSource}.

(** What Prepare returns, when it returns. *)
Lemma Prepare_Ok_inv claim e seed minGasPrice maxTxGasLimit e' fr :
  Prepare claim e seed minGasPrice maxTxGasLimit = Ok (e', fr) ->
  exists trunk, cleanCtx e = Some trunk /\
    ((txList e = [] /\ e' = e /\ fr = Frontier.GetEmptyFrontier) \/
     (txList e <> [] /\ 0 < parallelNum e /\
      exists bz q,
        readQueueEnd trunk = Ok (bz, q) /\
        e' = setTxList
               (insertToStandbyTxQ e
                  (settleFees trunk
                     (workerEntries claim e trunk seed minGasPrice maxTxGasLimit))
                  (reorderedInfos claim e trunk seed minGasPrice maxTxGasLimit)
                  bz q) [] /\
        fr = NewFrontierWithCtxAA
               (workerEntries claim e trunk seed minGasPrice maxTxGasLimit)
               (deductPhase claim e trunk seed minGasPrice maxTxGasLimit).2)).
Proof.
  intros Hrun.
  destruct (cleanCtx e) as [trunk|] eqn:Hctx.
  2:{ unfold Prepare in Hrun. rewrite Hctx in Hrun. discriminate. }
  exists trunk. split; [reflexivity|].
  destruct (txList e) as [|gtx rest] eqn:Hlist.
  { left. unfold Prepare in Hrun. rewrite Hctx, Hlist in Hrun.
    cbn in Hrun. injection Hrun as <- <-. auto. }
  right. split; [discriminate|].
  assert (0 < parallelNum e) as Hpar.
  { unfold Prepare in Hrun. rewrite Hctx, Hlist in Hrun.
    cbn [deref bindR length Nat.eqb] in Hrun.
    destruct (parallelNum e =? 0) eqn:Hzero; [discriminate|].
    destruct (parallelNum e <? 0) eqn:Hneg; [discriminate|]. lia. }
  split; [exact Hpar|].
  destruct (readQueueEnd trunk) as [[bz q]|msg] eqn:Hq.
  2:{ unfold Prepare in Hrun. rewrite Hctx, Hlist in Hrun.
      cbn [deref bindR length Nat.eqb] in Hrun.
      destruct (parallelNum e =? 0); [discriminate|].
      destruct (parallelNum e <? 0); [discriminate|].
      rewrite Hq in Hrun. discriminate. }
  exists bz, q. split; [reflexivity|].
  rewrite (Prepare_run claim e trunk seed minGasPrice maxTxGasLimit bz q) in Hrun;
    [|exact Hctx|rewrite Hlist; discriminate|exact Hpar|exact Hq].
  injection Hrun as <- <-. auto.
Qed.

(** X5. Prepare returns exactly when a context is set and either no
    transaction was collected, or the engine has at least one worker and
    the control value of the queue is absent, shorter than 8 bytes, or at
    least 16 bytes long; in every other case it faults: without a context
    even on an empty list, with no worker (a division by zero) or a
    negative number of them, and on a control value of 8 to 15 bytes. *)
Theorem Prepare_returns_iff :
  forall (claim : nat -> nat) (e : txEngine) (seed minGasPrice maxTxGasLimit : Z),
    (exists r, Prepare claim e seed minGasPrice maxTxGasLimit = Ok r) <->
    (exists trunk, cleanCtx e = Some trunk /\
                   (txList e = [] \/
                    (0 < parallelNum e /\ controlReadable trunk))).
Proof.
  intros claim e seed minGasPrice maxTxGasLimit. split.
  - intros [[e' fr] Hrun].
    destruct (Prepare_Ok_inv _ _ _ _ _ _ _ Hrun)
      as (trunk & Hctx & [(Hnil & _) | (_ & Hpar & bz & q & Hq & _)]).
    + exists trunk. auto.
    + exists trunk. split; [exact Hctx|]. right. split; [exact Hpar|].
      apply readQueueEnd_Ok. eauto.
  - intros (trunk & Hctx & [Hnil | [Hpar Hctl]]).
    + unfold Prepare. rewrite Hctx, Hnil. cbn. eauto.
    + destruct (txList e) as [|gtx rest] eqn:Hlist.
      { unfold Prepare. rewrite Hctx, Hlist. cbn. eauto. }
      apply readQueueEnd_Ok in Hctl as [[bz q] Hq].
      rewrite (Prepare_run claim e trunk seed minGasPrice maxTxGasLimit bz q);
        [eauto|exact Hctx|rewrite Hlist; discriminate|exact Hpar|exact Hq].
Qed.

(** X6. Whenever Prepare returns, the list of collected transactions is
    empty, the context is still set, the configuration, the signer, the
    current block and the three counters are as before, and the
    committed-tx list has only grown at its end. *)
Theorem Prepare_consumes_the_collected_list :
  forall (claim : nat -> nat) (e e' : txEngine) (fr : option Frontier.frontier)
         (seed minGasPrice maxTxGasLimit : Z),
    Prepare claim e seed minGasPrice maxTxGasLimit = Ok (e', fr) ->
    txList e' = [] /\
    is_Some (cleanCtx e') /\
    sameConfig e e' /\
    exists records, committedTxs e' = committedTxs e ++ records.
Proof.
  intros claim e e' fr seed minGasPrice maxTxGasLimit Hrun.
  destruct (Prepare_Ok_inv _ _ _ _ _ _ _ Hrun)
    as (trunk & Hctx & [(Hnil & -> & _) | (_ & _ & bz & q & _ & -> & _)]).
  - split; [exact Hnil|]. split; [rewrite Hctx; eauto|].
    split; [repeat split|]. exists []. rewrite app_nil_r. reflexivity.
  - split; [reflexivity|].
    destruct (insertToStandbyTxQ_spec e
                (settleFees trunk
                   (workerEntries claim e trunk seed minGasPrice maxTxGasLimit))
                (reorderedInfos claim e trunk seed minGasPrice maxTxGasLimit) bz q)
      as (Hclean & records & Hrec & _).
    destruct (insertToStandbyTxQ_config e
                (settleFees trunk
                   (workerEntries claim e trunk seed minGasPrice maxTxGasLimit))
                (reorderedInfos claim e trunk seed minGasPrice maxTxGasLimit) bz q)
      as [Hconfig _].
    split; [cbn [cleanCtx setTxList]; rewrite Hclean; eauto|].
    split; [exact Hconfig|]. exists records. exact Hrec.
Qed.

End PrepareWhole.

Lemma Prepare_consumes_the_collected_list_witness :
  exists e' fr,
    Prepare (fun i => i) prepEngine 42 1 DefaultTxGasLimit = Ok (e', fr) /\
    txList e' = [] /\ currentBlock e' = currentBlock prepEngine.
Proof.
  destruct (Prepare (fun i => i) prepEngine 42 1 DefaultTxGasLimit)
    as [[e' fr]|msg] eqn:Hrun; [|vm_compute in Hrun; discriminate].
  destruct (Prepare_consumes_the_collected_list _ _ _ _ _ _ _ Hrun)
    as (Htxs & _ & Hconfig & _).
  exists e', fr. split; [reflexivity|]. split; [exact Htxs|].
  apply Hconfig.
Defined.

Lemma recordInvalidTx_fold_stamp l :
  forall e i t,
    committedTxs (fold_left recordInvalidTx l e) !! i = Some t ->
    (length (committedTxs e) <= i)%nat ->
    Transaction.TransactionIndex t = Z.of_nat i /\
    Transaction.BlockNumber t = toInt64 (getCurrHeight e) /\
    Transaction.BlockHash t =
      match currentBlock e with Some b => BlockInfo.Hash b | None => 0 end /\
    Transaction.CumulativeGasUsed t = cumulativeGasUsed e.
Proof.
  induction l as [|info l IH]; intros e i t Hi Hge.
  - cbn [fold_left] in Hi. apply lookup_lt_Some in Hi. lia.
  - cbn [fold_left] in Hi.
    destruct (decide (i = length (committedTxs e))) as [->|Hne].
    + destruct (recordInvalidTx_fold l (recordInvalidTx e info))
        as (_ & _ & records & Hrec & _).
      rewrite Hrec in Hi. unfold recordInvalidTx in Hi at 1.
      cbn [committedTxs setCommittedTxs] in Hi.
      rewrite <- app_assoc in Hi. rewrite lookup_app_r in Hi by lia.
      rewrite Nat.sub_diag in Hi. cbn in Hi. injection Hi as <-.
      cbn. repeat split.
    + apply (IH (recordInvalidTx e info) i t Hi).
      unfold recordInvalidTx. cbn [committedTxs setCommittedTxs].
      rewrite length_app. cbn. lia.
Qed.

Section PrepareRecords.
Context `{Collaborators} `{RandSource}.

(** X7. The records Prepare appends for rejected transactions carry, as
    their transaction index, their own position in the committed-tx list
    (the rejections are numbered after what the list already held); their
    block number and block hash are those of the engine's current block,
    which is the block of the last Execute, or zero when there was none
    (the number goes through uint64 and back to int64, which gives back
    every int64); and their cumulative gas is the engine's counter, which
    Prepare does not advance. *)
Theorem Prepare_stamps_rejection_records :
  forall (claim : nat -> nat) (e e' : txEngine) (fr : option Frontier.frontier)
         (seed minGasPrice maxTxGasLimit : Z) (i : nat) (t : Transaction.t),
    Prepare claim e seed minGasPrice maxTxGasLimit = Ok (e', fr) ->
    committedTxs e' !! i = Some t ->
    (length (committedTxs e) <= i)%nat ->
    Transaction.TransactionIndex t = Z.of_nat i /\
    (forall b, currentBlock e = Some b ->
               - 2 ^ 63 <= BlockInfo.Number b < 2 ^ 63 ->
               Transaction.BlockNumber t = BlockInfo.Number b) /\
    (currentBlock e = None -> Transaction.BlockNumber t = 0) /\
    Transaction.BlockHash t =
      match currentBlock e with Some b => BlockInfo.Hash b | None => 0 end /\
    Transaction.CumulativeGasUsed t = cumulativeGasUsed e.
Proof.
  intros claim e e' fr seed minGasPrice maxTxGasLimit i t Hrun Hi Hge.
  destruct (Prepare_Ok_inv _ _ _ _ _ _ _ Hrun)
    as (trunk & Hctx & [(Hnil & -> & _) | (_ & _ & bz & q & _ & -> & _)]).
  - apply lookup_lt_Some in Hi. lia.
  - cbn [committedTxs setTxList] in Hi.
    unfold insertToStandbyTxQ in Hi. rewrite insertOne_fold in Hi.
    cbn [committedTxs setTrunk] in Hi.
    destruct (recordInvalidTx_fold_stamp _ e i t Hi Hge)
      as (Hidx & Hnum & Hhash & Hgas).
    split; [exact Hidx|]. split; [|split; [|split; assumption]].
    + intros b Hb Hfit. rewrite Hnum. unfold getCurrHeight. rewrite Hb.
      apply toInt64_u64, Hfit.
    + intros Hnone. rewrite Hnum. unfold getCurrHeight. rewrite Hnone.
      reflexivity.
Qed.

(** X8. In the frontier Prepare returns, a nonce and a balance are present
    for the same addresses, a present balance is never nil, and no total
    gas is present for any address. *)
Theorem Prepare_frontier_pairs_nonce_and_balance :
  forall (claim : nat -> nat) (e e' : txEngine) (fr : option Frontier.frontier)
         (seed minGasPrice maxTxGasLimit : Z) (a : Address),
    Prepare claim e seed minGasPrice maxTxGasLimit = Ok (e', fr) ->
    exists (n : Z) (b : option Z) (present : bool),
      Frontier.GetLatestNonce fr a = Ok (n, present) /\
      Frontier.GetLatestBalance fr a = Ok (b, present) /\
      (present = true -> is_Some b) /\
      Frontier.GetLatestTotalGas fr a = Ok (0, false).
Proof.
  intros claim e e' fr seed minGasPrice maxTxGasLimit a Hrun.
  destruct (Prepare_Ok_inv _ _ _ _ _ _ _ Hrun)
    as (trunk & Hctx & [(Hnil & _ & ->) | (_ & _ & bz & q & _ & _ & ->)]).
  - exists 0, None, false. cbn. rewrite !lookup_empty.
    repeat split. discriminate.
  - unfold NewFrontierWithCtxAA.
    cbn [Frontier.GetLatestNonce Frontier.GetLatestBalance
         Frontier.GetLatestTotalGas deref bindR Frontier.addr2nonce
         Frontier.addr2Balance Frontier.addr2Gas mapGet].
    rewrite !map_lookup_imap, lookup_empty.
    destruct ((deductPhase claim e trunk seed minGasPrice maxTxGasLimit).2 !! a)
      as [idx|]; cbn [mbind option_bind].
    2:{ exists 0, None, false. repeat split. discriminate. }
    destruct (workerEntries claim e trunk seed minGasPrice maxTxGasLimit !! idx)
      as [entry|]; cbn [mbind option_bind fmap option_fmap option_map].
    2:{ exists 0, None, false. repeat split. discriminate. }
    destruct (addr2nonce entry !! a) as [nonce|];
      cbn [mbind option_bind fmap option_fmap option_map fst snd compose].
    2:{ exists 0, None, false. repeat split. discriminate. }
    eexists _, _, true. repeat split. eauto.
Qed.

End PrepareRecords.

Lemma Prepare_stamps_rejection_records_witness :
  exists e' fr t,
    Prepare (fun i => i) prepEngine 42 1 DefaultTxGasLimit = Ok (e', fr) /\
    committedTxs e' !! 1%nat = Some t /\
    Transaction.TransactionIndex t = 1 /\ Transaction.BlockNumber t = 0.
Proof.
  destruct (Prepare (fun i => i) prepEngine 42 1 DefaultTxGasLimit)
    as [[e' fr]|msg] eqn:Hrun; [|vm_compute in Hrun; discriminate].
  destruct (committedTxs e' !! 1%nat) as [t|] eqn:Ht.
  2:{ vm_compute in Hrun. injection Hrun as <- _. vm_compute in Ht. discriminate. }
  destruct (Prepare_stamps_rejection_records
              (fun i => i) prepEngine e' fr 42 1 DefaultTxGasLimit 1 t Hrun Ht)
    as (Hidx & _ & Hnum & _).
  - cbn. lia.
  - exists e', fr, t. split; [reflexivity|]. split; [exact Ht|].
    split; [exact Hidx|exact (Hnum eq_refl)].
Defined.

Lemma Prepare_frontier_pairs_nonce_and_balance_witness :
  exists e' fr,
    Prepare (fun i => i) prepEngine 42 1 DefaultTxGasLimit = Ok (e', fr) /\
    Frontier.GetLatestTotalGas fr demoA = Ok (0, false).
Proof.
  destruct (Prepare (fun i => i) prepEngine 42 1 DefaultTxGasLimit)
    as [[e' fr]|msg] eqn:Hrun; [|vm_compute in Hrun; discriminate].
  destruct (Prepare_frontier_pairs_nonce_and_balance
              (fun i => i) prepEngine e' fr 42 1 DefaultTxGasLimit demoA Hrun)
    as (n & b & present & _ & _ & _ & Hgas).
  exists e', fr. split; [reflexivity|exact Hgas].
Defined.

(** ** Execute as a whole *)

Tactic Notation "bind_inv" hyp(H) "as" simple_intropattern(x) ident(E) :=
  match type of H with
  | bindR ?r _ = Ok _ =>
      destruct r as [x|] eqn:E; cbn [bindR] in H; [|discriminate H]
  end.

Lemma roundKeeps_refl e : roundKeeps e e.
Proof. repeat split; auto. Qed.

Lemma roundKeeps_trans e1 e2 e3 :
  roundKeeps e1 e2 -> roundKeeps e2 e3 -> roundKeeps e1 e3.
Proof.
  intros (A1 & A2 & A3 & A4 & A5 & A6 & A7 & A8 & A9)
         (B1 & B2 & B3 & B4 & B5 & B6 & B7 & B8 & B9).
  repeat split; try congruence. auto.
Qed.

Lemma roundKeeps_setTrunk e t : roundKeeps e (setTrunk e t).
Proof. repeat split; auto. Qed.

Lemma forRange_preserves {A St} (body : nat -> A -> St -> GoResult St)
      (R : St -> St -> Prop) :
  (forall s, R s s) ->
  (forall s1 s2 s3, R s1 s2 -> R s2 s3 -> R s1 s3) ->
  (forall i a s s', body i a s = Ok s' -> R s s') ->
  forall l i s s', forRange body i l s = Ok s' -> R s s'.
Proof.
  intros Hrefl Htrans Hbody. induction l as [|a l IH]; intros i s s' Hrun.
  - cbn in Hrun. injection Hrun as <-. apply Hrefl.
  - cbn [forRange] in Hrun. bind_inv Hrun as s1 Hs1.
    eapply Htrans; [eapply Hbody; eassumption|eapply IH; eassumption].
Qed.

Section ExecuteWhole.
Context `{Collaborators}.

Lemma runSlot_frame trunk txBundle currBlock idx t st st' :
  runSlot trunk txBundle currBlock idx t st = Ok st' ->
  exec st'.1 = exec st.1 /\ updates st'.1 = updates st.1.
Proof.
  destruct st as [m kv]. unfold runSlot. intros Hrun.
  bind_inv Hrun as rs Hrs. bind_inv Hrun as same Hsame.
  bind_inv Hrun as r Hr.
  destruct same.
  - bind_inv Hrun as rs' Hrs'. injection Hrun as <-. split; reflexivity.
  - bind_inv Hrun as rs' Hrs'. injection Hrun as <-. split; reflexivity.
Qed.

Lemma runTxInParallel_frame m txRange txBundle currBlock m' kv :
  runTxInParallel m txRange txBundle currBlock = Ok (m', kv) ->
  exec m' = exec m /\ updates m' = updates m.
Proof.
  unfold runTxInParallel. intros Hrun. bind_inv Hrun as trunk Htrunk.
  destruct (parallelNum (exec m) <? 0); [discriminate|].
  destruct (parallelNum (exec m) =? 0).
  { injection Hrun as <- <-. split; reflexivity. }
  apply (forRange_preserves _
           (fun s s' => exec s'.1 = exec s.1 /\ updates s'.1 = updates s.1))
    in Hrun; [exact Hrun|..].
  - intros s. split; reflexivity.
  - intros s1 s2 s3 [A1 A2] [B1 B2]. split; congruence.
  - intros i a s s'. apply runSlot_frame.
Qed.

Lemma resolveSlot_frame idx t st st' :
  resolveSlot idx t st = Ok st' ->
  roundKeeps (exec st.1) (exec st'.1) /\
  cumulativeGasUsed (exec st'.1) = cumulativeGasUsed (exec st.1) /\
  runs st'.1 = runs st.1.
Proof.
  destruct st as [m T]. unfold resolveSlot. intros Hrun.
  bind_inv Hrun as r Hr.
  destruct (ScanAllShortKeys (TxRunner.Ctx r) (scanConflict T) (true, r))
    as [canCommit r'].
  bind_inv Hrun as rs Hrs. bind_inv Hrun as trunk Htrunk. injection Hrun as <-.
  destruct canCommit; cbn [fst exec commitUpdate setRunners runs].
  - split; [apply roundKeeps_setTrunk|split; reflexivity].
  - split; [apply roundKeeps_refl|split; reflexivity].
Qed.

Lemma requeueSlot_frame idx t st st' :
  requeueSlot idx t st = Ok st' ->
  roundKeeps (exec st.1.1) (exec st'.1.1) /\ runs st'.1.1 = runs st.1.1.
Proof.
  destruct st as [[m txRange] store]. unfold requeueSlot. intros Hrun.
  bind_inv Hrun as r Hr.
  destruct (bool_decide (TxRunner.Status r = FAILED_TO_COMMIT)
            || bool_decide (TxRunner.Status r = TX_NONCE_TOO_LARGE)).
  { bind_inv Hrun as rs Hrs. injection Hrun as <-.
    split; [apply roundKeeps_refl|reflexivity]. }
  destruct (bool_decide (TxRunner.Status r = ACCOUNT_NOT_EXIST)
            || bool_decide (TxRunner.Status r = TX_NONCE_TOO_SMALL)).
  - bind_inv Hrun as fee Hfee. bind_inv Hrun as rs Hrs.
    injection Hrun as <-. cbn [fst exec setRunners setExec runs].
    split; [|reflexivity]. repeat split; eauto.
  - injection Hrun as <-. split; [apply roundKeeps_refl|reflexivity].
Qed.

Lemma executeOneRound_frame m txRange currBlock m' txRange' numTx :
  executeOneRound m txRange currBlock = Ok (m', txRange', numTx) ->
  roundKeeps (exec m) (exec m').
Proof.
  unfold executeOneRound. intros Hrun.
  bind_inv Hrun as txBundle Hload. bind_inv Hrun as [m1 kv] Hpar.
  bind_inv Hrun as [m2 r2] Hcheck. injection Hrun as <- <- <-.
  apply runTxInParallel_frame in Hpar as [Hexec _].
  unfold checkTxDepsAndUptStandbyQ in Hcheck.
  bind_inv Hcheck as [m3 T] Hresolve. bind_inv Hcheck as trunk Htrunk.
  bind_inv Hcheck as [[m4 r4] store] Hrequeue. injection Hcheck as <- <-.
  apply (forRange_preserves _
           (fun s s' => roundKeeps (exec s.1) (exec s'.1))) in Hresolve.
  2:{ intros s. apply roundKeeps_refl. }
  2:{ intros s1 s2 s3. apply roundKeeps_trans. }
  2:{ intros i x s s' Hs. apply (resolveSlot_frame _ _ _ _ Hs). }
  apply (forRange_preserves _
           (fun s s' => roundKeeps (exec s.1.1) (exec s'.1.1))) in Hrequeue.
  2:{ intros s. apply roundKeeps_refl. }
  2:{ intros s1 s2 s3. apply roundKeeps_trans. }
  2:{ intros i x s s' Hs. apply (requeueSlot_frame _ _ _ _ Hs). }
  cbn [fst] in Hresolve, Hrequeue. rewrite Hexec in Hresolve.
  eapply roundKeeps_trans; [exact Hresolve|].
  eapply roundKeeps_trans; [exact Hrequeue|]. apply roundKeeps_setTrunk.
Qed.

Lemma harvest_frame numTx :
  forall i m committable m' committable',
    harvest i numTx m committable = Ok (m', committable') ->
    exec m' = exec m /\ updates m' = updates m /\ runs m' = runs m.
Proof.
  induction numTx as [|n IH]; intros i m committable m' committable' Hrun.
  - cbn in Hrun. injection Hrun as <- <-. repeat split.
  - cbn [harvest] in Hrun. bind_inv Hrun as p Hp. destruct p as [r|].
    + bind_inv Hrun as rs Hrs. apply IH in Hrun. exact Hrun.
    + apply IH in Hrun. exact Hrun.
Qed.

Lemma rounds_frame n :
  forall m txRange committable m' txRange' committable',
    rounds n m txRange committable = Ok (m', txRange', committable') ->
    roundKeeps (exec m) (exec m').
Proof.
  induction n as [|n IH]; intros m txRange committable m' txRange' committable' Hrun.
  - cbn in Hrun. injection Hrun as <- <- <-. apply roundKeeps_refl.
  - cbn [rounds] in Hrun.
    destruct (start txRange =? end_ txRange).
    { injection Hrun as <- <- <-. apply roundKeeps_refl. }
    bind_inv Hrun as [[m1 r1] numTx] Hround.
    bind_inv Hrun as [m2 c2] Hharvest.
    apply executeOneRound_frame in Hround.
    apply harvest_frame in Hharvest as [Hexec _].
    apply IH in Hrun. rewrite Hexec in Hrun.
    eapply roundKeeps_trans; eassumption.
Qed.

(** The records collectCommittableTxs appends, from position [i] on. *)
Lemma collectOne_records l :
  forall i m m',
    forRange collectOne i l m = Ok m' ->
    roundNum (exec m') = roundNum (exec m) /\
    runnerNumber (exec m') = runnerNumber (exec m) /\
    parallelNum (exec m') = parallelNum (exec m) /\
    signer (exec m') = signer (exec m) /\
    currentBlock (exec m') = currentBlock (exec m) /\
    txList (exec m') = txList (exec m) /\
    cleanCtx (exec m') = cleanCtx (exec m) /\
    (is_Some (cumulativeFeeRefund (exec m)) ->
     is_Some (cumulativeFeeRefund (exec m'))) /\
    (is_Some (cumulativeGasFee (exec m)) -> is_Some (cumulativeGasFee (exec m'))) /\
    exists records,
      committedTxs (exec m') = committedTxs (exec m) ++ records /\
      length records = length l /\
      cumulativeGasUsed (exec m') =
        gasBefore (cumulativeGasUsed (exec m)) records (length records) /\
      forall k t, records !! k = Some t ->
        exists r b,
          l !! k = Some r /\ currentBlock (exec m) = Some b /\
          Transaction.TransactionIndex t = Z.of_nat (i + k) /\
          Transaction.BlockHash t = BlockInfo.Hash b /\
          Transaction.BlockNumber t = BlockInfo.Number b /\
          Transaction.Hash t = TxToRun.HashID (TxRunner.Tx r) /\
          Transaction.GasUsed t = TxRunner.GasUsed r /\
          Transaction.Status t =
            (if StatusIsFailure (TxRunner.Status r)
             then ReceiptStatusFailed else ReceiptStatusSuccessful) /\
          Transaction.StatusStr t = StatusToStr (TxRunner.Status r) /\
          Transaction.CumulativeGasUsed t =
            u64 (gasBefore (cumulativeGasUsed (exec m)) records k
                 + Transaction.GasUsed t).
Proof.
  induction l as [|r l IH]; intros i m m' Hrun.
  - cbn in Hrun. injection Hrun as <-.
    repeat (split; [auto; fail|]). exists [].
    rewrite app_nil_r. repeat split. intros k t Hk. discriminate.
  - cbn [forRange] in Hrun. bind_inv Hrun as m1 Hone.
    unfold collectOne in Hone. bind_inv Hone as refund Hrefund.
    bind_inv Hone as fee Hfee. bind_inv Hone as blk Hblk.
    injection Hone as <-.
    destruct (IH _ _ _ Hrun)
      as (G1 & G2 & G3 & G4 & G5 & G6 & G7 & G8 & G9 & records & Hrec & Hlen
          & Hgas & Hall).
    cbn [exec setExec setCommittedTxs setCumulative roundNum runnerNumber
         parallelNum signer currentBlock txList cleanCtx cumulativeFeeRefund
         cumulativeGasFee cumulativeGasUsed committedTxs] in *.
    repeat (split; [auto; fail|]).
    eexists (_ :: records). split; [rewrite Hrec, <- app_assoc; reflexivity|].
    split; [cbn; lia|]. split.
    { cbn [length gasBefore]. rewrite Hgas.
      destruct records as [|t0 records']; cbn; [reflexivity|].
      destruct (length records'); reflexivity. }
    intros k t Hk. destruct k as [|k].
    + cbn in Hk. injection Hk as <-.
      destruct (currentBlock (exec m)) as [b|] eqn:Hb; [|discriminate].
      cbn in Hblk. injection Hblk as <-.
      exists r, b. rewrite Nat.add_0_r. cbn. repeat split.
    + cbn in Hk. destruct (Hall k t Hk)
        as (r' & b & Hr' & Hb & Hidx & Hh & Hn & Hhash & Hused & Hst & Hstr & Hcum).
      exists r', b. split; [exact Hr'|]. split; [exact Hb|].
      split; [rewrite Hidx; f_equal; lia|].
      repeat (split; [assumption|]).
      rewrite Hcum. f_equal. f_equal.
      destruct k; reflexivity.
Qed.

(** What Execute has done, when it returns. *)
Lemma Execute_Ok_inv m currBlock m' :
  Execute m currBlock = Ok m' ->
  (m' = setExec m (executeSetup (exec m) currBlock)) \/
  (exists m2 committable,
      roundKeeps (executeSetup (exec m) currBlock) (exec m2) /\
      is_Some (cleanCtx (exec m2)) /\
      collectCommittableTxs m2 committable = Ok m').
Proof.
  unfold Execute. fold (executeSetup (exec m) currBlock). intros Hrun.
  bind_inv Hrun as [s e] Hrange.
  destruct (s =? e); [left; congruence|]. right.
  bind_inv Hrun as [[m1 r1] committable] Hrounds.
  bind_inv Hrun as m2 Hset. exists m2, committable.
  apply rounds_frame in Hrounds. cbn [exec setExec] in Hrounds.
  unfold setStandbyQueueRange in Hset. bind_inv Hset as trunk Htrunk.
  injection Hset as <-.
  split; [|split; [cbn; eauto|exact Hrun]].
  eapply roundKeeps_trans; [exact Hrounds|]. apply roundKeeps_setTrunk.
Qed.

End ExecuteWhole.

Section ExecuteRecords.
Context `{Collaborators}.

(** X9. Whenever Execute returns, the engine's current block is the block
    it was given, and the committed-tx list holds the records of this
    Execute alone: the record at position k has the transaction index k
    and the hash and number of that block (so a list that is not empty
    means the block was not nil); from the second record on, the
    cumulative gas of a record is that of the record before it plus its
    own gasUsed, as a 64-bit value; and the engine's cumulative gas counter
    is the cumulative gas of the last record. *)
Theorem Execute_stamps_the_committed_txs :
  forall (m m' : Machine) (currBlock : option BlockInfo.t),
    Execute m currBlock = Ok m' ->
    currentBlock (exec m') = currBlock /\
    (forall k t, committedTxs (exec m') !! k = Some t ->
       Transaction.TransactionIndex t = Z.of_nat k /\
       (exists b, currBlock = Some b /\
                  Transaction.BlockHash t = BlockInfo.Hash b /\
                  Transaction.BlockNumber t = BlockInfo.Number b) /\
       (forall j t0, k = S j -> committedTxs (exec m') !! j = Some t0 ->
          Transaction.CumulativeGasUsed t =
          u64 (Transaction.CumulativeGasUsed t0 + Transaction.GasUsed t))) /\
    (forall t, last (committedTxs (exec m')) = Some t ->
               cumulativeGasUsed (exec m') = Transaction.CumulativeGasUsed t).
Proof.
  intros m m' currBlock Hrun.
  destruct (Execute_Ok_inv _ _ _ Hrun)
    as [-> | (m2 & committable & Hkeep & _ & Hcollect)].
  - cbn. split; [reflexivity|]. split; [intros k t Hk|intros t Ht]; discriminate.
  - destruct Hkeep as (_ & _ & _ & _ & Hblk & _ & Hnone & _).
    cbn in Hblk, Hnone.
    destruct (collectOne_records _ _ _ _ Hcollect)
      as (_ & _ & _ & _ & Hblk' & _ & _ & _ & _ & records & Hrec & _ & Hgas & Hall).
    rewrite Hnone in Hrec. cbn [app] in Hrec. rewrite Hrec.
    split; [congruence|]. split.
    + intros k t Hk.
      destruct (Hall k t Hk)
        as (r & b & _ & Hb & Hidx & Hhash & Hnum & _ & _ & _ & _ & Hcum).
      split; [exact Hidx|]. split.
      * exists b. split; [congruence|]. split; assumption.
      * intros j t0 -> Hj. rewrite Hcum. cbn [gasBefore]. rewrite Hj.
        reflexivity.
    + intros t Ht. rewrite Hgas. rewrite last_lookup in Ht.
      destruct records as [|t1 records']; [discriminate|].
      cbn [length Nat.pred gasBefore] in *. rewrite Ht. reflexivity.
Qed.

(** X10. Whenever Execute returns, the two fee counters are allocated, so
    that GasUsedInfo returns the three counters without a fault; the
    configuration, the signer and the collected transactions are as before
    Execute, and the context is still set. *)
Theorem Execute_leaves_the_counters_allocated :
  forall (m m' : Machine) (currBlock : option BlockInfo.t),
    Execute m currBlock = Ok m' ->
    (exists refund fee,
        cumulativeFeeRefund (exec m') = Some refund /\
        cumulativeGasFee (exec m') = Some fee /\
        GasUsedInfo (exec m') = Ok (cumulativeGasUsed (exec m'), refund, fee)) /\
    roundNum (exec m') = roundNum (exec m) /\
    runnerNumber (exec m') = runnerNumber (exec m) /\
    parallelNum (exec m') = parallelNum (exec m) /\
    signer (exec m') = signer (exec m) /\
    txList (exec m') = txList (exec m) /\
    is_Some (cleanCtx (exec m')).
Proof.
  intros m m' currBlock Hrun.
  assert (forall e : txEngine,
            is_Some (cumulativeFeeRefund e) -> is_Some (cumulativeGasFee e) ->
            exists refund fee,
              cumulativeFeeRefund e = Some refund /\
              cumulativeGasFee e = Some fee /\
              GasUsedInfo e = Ok (cumulativeGasUsed e, refund, fee)) as Hinfo.
  { intros e [refund Hrefund] [fee Hfee]. exists refund, fee.
    unfold GasUsedInfo. rewrite Hrefund, Hfee. auto. }
  assert (is_Some (cleanCtx (exec m))) as Hctx.
  { unfold Execute, getStandbyQueueRange in Hrun. cbn [exec setExec] in Hrun.
    destruct (cleanCtx (exec m)) eqn:Hc; [eauto|].
    cbn in Hrun. rewrite Hc in Hrun. discriminate. }
  destruct (Execute_Ok_inv _ _ _ Hrun)
    as [-> | (m2 & committable & Hkeep & Hctx2 & Hcollect)].
  - split; [apply Hinfo; cbn; eauto|]. repeat split. exact Hctx.
  - destruct Hkeep as (K1 & K2 & K3 & K4 & _ & K6 & _ & K8 & K9).
    cbn in K1, K2, K3, K4, K6, K8, K9.
    destruct (collectOne_records _ _ _ _ Hcollect)
      as (G1 & G2 & G3 & G4 & _ & G6 & G7 & G8 & G9 & _).
    split.
    { apply Hinfo; [apply G8; rewrite K8; eauto|apply G9, K9; eauto]. }
    repeat (split; [congruence|]). rewrite G7. exact Hctx2.
Qed.

End ExecuteRecords.

Lemma Execute_stamps_the_committed_txs_witness :
  exists m',
    Execute demoMachine (Some demoBlock) = Ok m' /\
    currentBlock (exec m') = Some demoBlock /\
    map Transaction.TransactionIndex (committedTxs (exec m')) = [0; 1].
Proof.
  destruct (Execute demoMachine (Some demoBlock)) as [m'|msg] eqn:Hrun;
    [|vm_compute in Hrun; discriminate].
  destruct (Execute_stamps_the_committed_txs _ _ _ Hrun) as (Hblk & _ & _).
  exists m'. split; [reflexivity|]. split; [exact Hblk|].
  vm_compute in Hrun. injection Hrun as <-. reflexivity.
Defined.

Lemma Execute_leaves_the_counters_allocated_witness :
  exists m' g r f,
    Execute demoMachine (Some demoBlock) = Ok m' /\
    GasUsedInfo (exec m') = Ok (g, r, f).
Proof.
  destruct (Execute demoMachine (Some demoBlock)) as [m'|msg] eqn:Hrun;
    [|vm_compute in Hrun; discriminate].
  destruct (Execute_leaves_the_counters_allocated _ _ _ Hrun)
    as ((refund & fee & _ & _ & Hinfo) & _).
  exists m', (cumulativeGasUsed (exec m')), refund, fee.
  split; [reflexivity|exact Hinfo].
Defined.

(** ** The backlog over an Execute *)

Section Backlog.
Context `{Collaborators}.

Lemma requeueSlot_count_step idx t m txRange store m' txRange' store' :
  requeueSlot idx t (m, txRange, store) = Ok (m', txRange', store') ->
  is_Some (cumulativeGasFee (exec m)) ->
  exists r, Runners m !! idx = Some (Some r) /\
    start txRange' = u64 (start txRange + 1) /\
    is_Some (cumulativeGasFee (exec m')) /\
    ((Runners m' = <[idx := None]> (Runners m) /\
      (end_ txRange' = u64 (end_ txRange + 1) \/ end_ txRange' = end_ txRange)) \/
     (Runners m' = Runners m /\ end_ txRange' = end_ txRange)).
Proof.
  intros Hrun [fee Hfee].
  destruct (getRunner (Runners m) idx) as [r|msg] eqn:Hr.
  2:{ unfold requeueSlot in Hrun. rewrite Hr in Hrun. discriminate. }
  rewrite (requeueSlot_cases m idx t txRange store r fee Hr Hfee) in Hrun.
  exists r. split.
  { unfold getRunner, index in Hr.
    destruct (Runners m !! idx) as [[r0|]|]; cbn in Hr; congruence. }
  destruct (retried (TxRunner.Status r)).
  { injection Hrun as <- <- <-. cbn. split; [reflexivity|].
    split; [rewrite Hfee; eauto|]. left. split; [reflexivity|]. by left. }
  destruct (dropped (TxRunner.Status r)).
  { injection Hrun as <- <- <-. cbn. split; [reflexivity|].
    split; [eauto|]. left. split; [reflexivity|]. by right. }
  injection Hrun as <- <- <-. cbn. split; [reflexivity|].
  split; [rewrite Hfee; eauto|]. right. split; reflexivity.
Qed.

(** The slots of a bundle either go back to the queue, are dropped, or
    stay in the array to be harvested: what the end of the queue advances
    by and the runners left in the slots are at most the bundle. *)
Lemma forRange_requeueSlot_count rest :
  forall i m txRange store m' txRange' store',
    forRange requeueSlot i rest (m, txRange, store) = Ok (m', txRange', store') ->
    is_Some (cumulativeGasFee (exec m)) ->
    0 <= start txRange -> 0 <= end_ txRange ->
    start txRange + Z.of_nat (length rest) < 2 ^ 64 ->
    end_ txRange + Z.of_nat (length rest) < 2 ^ 64 ->
    start txRange' = start txRange + Z.of_nat (length rest) /\
    end_ txRange <= end_ txRange' /\
    length (Runners m') = length (Runners m) /\
    (forall k, (k < i)%nat -> Runners m' !! k = Runners m !! k) /\
    end_ txRange' - end_ txRange
      + Z.of_nat (length (omap id (take (length rest) (drop i (Runners m')))))
      <= Z.of_nat (length rest).
Proof.
  induction rest as [|t rest IH];
    intros i m txRange store m' txRange' store' Hrun Hfee Hs He Hso Heo.
  - cbn in Hrun. injection Hrun as <- <- <-. cbn [length].
    split; [lia|]. split; [lia|]. split; [reflexivity|].
    split; [reflexivity|]. rewrite take_0. cbn. lia.
  - cbn [forRange] in Hrun. bind_inv Hrun as [[m1 r1] store1] Hstep.
    cbn [length] in *.
    destruct (requeueSlot_count_step _ _ _ _ _ _ _ _ Hstep Hfee)
      as (r & Hslot & Hstart & Hfee1 & Hcase).
    rewrite u64_small in Hstart by lia.
    assert (length (Runners m1) = length (Runners m) /\
            (forall k, k <> i -> Runners m1 !! k = Runners m !! k) /\
            end_ txRange <= end_ r1 <= end_ txRange + 1 /\
            (Runners m1 !! i = Some None \/
             (Runners m1 !! i = Some (Some r) /\ end_ r1 = end_ txRange))) as Hone.
    { apply lookup_lt_Some in Hslot as Hlt.
      destruct Hcase as [[Hrs Hend] | [Hrs Hend]].
      - rewrite Hrs. rewrite length_insert.
        rewrite list_lookup_insert_eq by exact Hlt.
        split; [reflexivity|].
        split; [intros k Hk; apply list_lookup_insert_ne; congruence|].
        destruct Hend as [Hend | Hend]; rewrite Hend;
          [rewrite u64_small by lia|]; (split; [lia|]); auto.
      - rewrite Hrs, Hend. split; [reflexivity|].
        split; [auto|]. split; [lia|]. right. auto. }
    destruct Hone as (Hlen1 & Hother & Hend1 & Hslot1).
    destruct (IH (S i) m1 r1 store1 m' txRange' store' Hrun Hfee1)
      as (Hstart' & Hend' & Hlen' & Hbefore & Hcount); try lia.
    split; [lia|]. split; [lia|]. split; [congruence|]. split.
    { intros k Hk. rewrite Hbefore by lia. apply Hother. lia. }
    assert (Runners m' !! i = Runners m1 !! i) as Hi by (apply Hbefore; lia).
    destruct Hslot1 as [Hnone | [Hsome Heq]].
    + rewrite Hnone in Hi. rewrite (drop_S _ None i Hi).
      cbn [take omap list_omap id]. lia.
    + rewrite Hsome in Hi. rewrite (drop_S _ (Some r) i Hi).
      cbn [take omap list_omap id length]. lia.
Qed.

Lemma executeOneRound_count m txRange currBlock trunk m' txRange' numTx :
  executeOneRound m txRange currBlock = Ok (m', txRange', numTx) ->
  cleanCtx (exec m) = Some trunk ->
  0 <= start txRange <= end_ txRange ->
  0 <= runnerNumber (exec m) ->
  end_ txRange + runnerNumber (exec m) < 2 ^ 64 ->
  is_Some (cumulativeGasFee (exec m)) ->
  start txRange' = start txRange + Z.of_nat numTx /\
  end_ txRange' - end_ txRange
    + Z.of_nat (length (omap id (take numTx (drop 0 (Runners m')))))
    <= Z.of_nat numTx.
Proof.
  intros Hrun Htrunk Hse Hr Hov Hfee. unfold executeOneRound in Hrun.
  destruct (loadStandbyTxs_length (exec m) txRange trunk Htrunk Hse Hr Hov)
    as (txBundle & Hload & Hn).
  rewrite Hload in Hrun. cbn [bindR] in Hrun.
  bind_inv Hrun as [m1 kv] Hpar. bind_inv Hrun as [m2 r2] Hcheck.
  injection Hrun as <- <- <-.
  apply runTxInParallel_frame in Hpar as [Hexec _].
  unfold checkTxDepsAndUptStandbyQ in Hcheck.
  bind_inv Hcheck as [m3 T] Hresolve. bind_inv Hcheck as trunk3 Htrunk3.
  bind_inv Hcheck as [[m4 r4] store] Hrequeue. injection Hcheck as <- <-.
  apply (forRange_preserves _
           (fun s s' => roundKeeps (exec s.1) (exec s'.1))) in Hresolve.
  2:{ intros s. apply roundKeeps_refl. }
  2:{ intros s1 s2 s3. apply roundKeeps_trans. }
  2:{ intros i x s s' Hs. apply (resolveSlot_frame _ _ _ _ Hs). }
  cbn [fst] in Hresolve. destruct Hresolve as (_ & _ & _ & _ & _ & _ & _ & _ & Hfee3).
  rewrite Hexec in Hfee3.
  destruct (forRange_requeueSlot_count _ _ _ _ _ _ _ _ Hrequeue (Hfee3 Hfee))
    as (Hstart & _ & _ & _ & Hcount); try lia.
  cbn [commitUpdate Runners]. split; [exact Hstart|exact Hcount].
Qed.

Lemma rounds_count n :
  forall m txRange committable trunk,
    cleanCtx (exec m) = Some trunk ->
    queueIs txRange trunk ->
    0 < parallelNum (exec m) ->
    0 <= runnerNumber (exec m) ->
    length (Runners m) = Z.to_nat (runnerNumber (exec m)) ->
    end_ txRange + Z.of_nat n * runnerNumber (exec m) < 2 ^ 64 ->
    is_Some (cumulativeGasFee (exec m)) ->
    forall m' txRange' committable',
      rounds n m txRange committable = Ok (m', txRange', committable') ->
      0 <= start txRange' <= end_ txRange' /\
      end_ txRange' - start txRange' + Z.of_nat (length committable')
      <= end_ txRange - start txRange + Z.of_nat (length committable).
Proof.
  induction n as [|n IH]; intros m txRange committable trunk
                                 Htrunk Hq Hpar Hr Hlen Hov Hfee
                                 m' txRange' committable' Hrun.
  - cbn in Hrun. injection Hrun as <- <- <-. split; [apply Hq|lia].
  - cbn [rounds] in Hrun. destruct (start txRange =? end_ txRange).
    { injection Hrun as <- <- <-. split; [apply Hq|lia]. }
    destruct (executeOneRound_ok m txRange (currentBlock (exec m)) trunk)
      as (m1 & txRange1 & numTx & trunk1 & Hround & Htrunk1 & Hq1 & Hctl1 & Hend1
          & Hsetup1 & Hlen1 & Hnum & _); try assumption.
    { nia. }
    destruct (executeOneRound_count _ _ _ trunk _ _ _ Hround)
      as [Hstart1 Hcount1]; try assumption.
    { apply Hq. }
    { nia. }
    rewrite Hround in Hrun. cbn [bindR] in Hrun.
    rewrite harvest_result in Hrun by (simpl; lia). cbn [bindR] in Hrun.
    pose proof Hsetup1 as (_ & HR & HP & _ & _ & HF).
    match type of Hrun with
    | rounds n ?mm ?rr ?cc = _ =>
        pose proof (fun h1 h2 h3 h4 h5 =>
                      IH mm rr cc trunk1 Htrunk1 Hq1 h1 h2 h3 h4 h5 _ _ _ Hrun)
          as Hih
    end.
    destruct Hih as [Hse' Hcount'].
    { cbn [setRunners exec]. lia. }
    { cbn [setRunners exec]. lia. }
    { cbn [setRunners exec Runners]. rewrite take_0. cbn [app].
      rewrite length_app, length_replicate, length_drop. lia. }
    { cbn [setRunners exec]. rewrite HR. nia. }
    { cbn [setRunners exec]. auto. }
    split; [exact Hse'|]. rewrite length_app in Hcount'. lia.
Qed.

End Backlog.

Section BacklogClaim.
Context `{Collaborators}.

(** X11. Execute on a consistent queue (the control key reads (s, e),
    exactly the slots of [s, e) are populated, the end cannot overflow in
    roundNum rounds, and the queue is shorter than 2^63, so that its length
    fits the int StandbyQLen returns), with at least one worker and the
    slot array of runnerNumber slots: Execute returns, and the length StandbyQLen reads
    afterwards plus the number of committed transactions is at most the
    length it read before. Every committed transaction has left the queue,
    and Execute never makes the backlog longer. *)
Theorem Execute_shrinks_the_backlog :
  forall (m : Machine) (blk : BlockInfo.t) (trunk : Trunk) (s e : Z),
    cleanCtx (exec m) = Some trunk ->
    decodeRange (standbyCtl trunk) = Ok (s, e) ->
    queueIs (mkTxRange s e) trunk ->
    0 < parallelNum (exec m) ->
    0 <= runnerNumber (exec m) ->
    length (Runners m) = Z.to_nat (runnerNumber (exec m)) ->
    e + Z.max 0 (roundNum (exec m)) * runnerNumber (exec m) < 2 ^ 64 ->
    e - s < 2 ^ 63 ->
    exists m' q',
      Execute m (Some blk) = Ok m' /\
      StandbyQLen (exec m) = Ok (e - s) /\
      StandbyQLen (exec m') = Ok q' /\
      0 <= q' /\
      q' + Z.of_nat (length (committedTxs (exec m'))) <= e - s.
Proof.
  intros m blk trunk s e Htrunk Hdec Hq Hpar Hr Hlen Hov Hint.
  pose proof Hq as (Hse & Hend & _). cbn [start end_] in Hse, Hend.
  assert (StandbyQLen (exec m) = Ok (e - s)) as Hbefore.
  { unfold StandbyQLen, getStandbyQueueRange. rewrite Htrunk. cbn [deref bindR].
    rewrite Hdec. cbn [bindR]. rewrite toInt64_u64 by lia. reflexivity. }
  unfold Execute. unfold getStandbyQueueRange at 1.
  cbn [setExec exec setCurrentBlock setCumulative setCommittedTxs cleanCtx].
  rewrite Htrunk. cbn [deref bindR]. rewrite Hdec. cbn [bindR].
  destruct (s =? e) eqn:Ese.
  - apply Z.eqb_eq in Ese. eexists _, 0. split; [reflexivity|].
    split; [exact Hbefore|]. split.
    { unfold StandbyQLen, getStandbyQueueRange.
      cbn [setExec exec setCurrentBlock setCumulative setCommittedTxs cleanCtx].
      rewrite Htrunk. cbn [deref bindR]. rewrite Hdec. cbn [bindR].
      rewrite toInt64_u64 by lia. f_equal. lia. }
    cbn. lia.
  - cbn [roundNum setExec exec].
    match goal with
    | |- context [rounds ?n ?m0 ?r ?c] =>
        destruct (rounds_ok n m0 r c trunk)
          as (m1 & txRange1 & committable & trunk1 & Hrounds & Htrunk1 & Hq1 & _
              & Hsetup & _);
        [..|pose proof (fun h1 h2 h3 h4 h5 =>
                          rounds_count n m0 r c trunk Htrunk Hq h1 h2 h3 h4 h5
                                       _ _ _ Hrounds) as Hcount;
            pose proof (rounds_frame _ _ _ _ _ _ _ Hrounds) as Hkeep]
    end; try assumption.
    { cbn [end_ setExec exec runnerNumber roundNum setCurrentBlock setCumulative
           setCommittedTxs].
      replace (Z.of_nat (Z.to_nat (roundNum (exec m))))
        with (Z.max 0 (roundNum (exec m))) by lia.
      exact Hov. }
    { cbn. eauto. }
    destruct Hcount as [Hse1 Hcount]; try assumption.
    { cbn [end_ setExec exec runnerNumber roundNum setCurrentBlock setCumulative
           setCommittedTxs].
      replace (Z.of_nat (Z.to_nat (roundNum (exec m))))
        with (Z.max 0 (roundNum (exec m))) by lia.
      exact Hov. }
    { cbn. eauto. }
    cbn [start end_ length] in Hcount.
    rewrite Hrounds. cbn [bindR].
    unfold setStandbyQueueRange. rewrite Htrunk1. cbn [deref bindR].
    destruct Hsetup as (_ & _ & _ & Hblk & Hrf & Hfee).
    match goal with
    | |- context [collectCommittableTxs ?m2 committable] =>
        destruct (collectCommittableTxs_ok committable 0%nat m2)
          as (m' & Hcollect & Hc & _)
    end.
    { apply Hrf. cbn. eauto. }
    { apply Hfee. cbn. eauto. }
    { cbn [commitUpdate exec setTrunk currentBlock]. rewrite Hblk. cbn. eauto. }
    unfold collectCommittableTxs. rewrite Hcollect.
    destruct (collectOne_records _ _ _ _ Hcollect)
      as (_ & _ & _ & _ & _ & _ & _ & _ & _ & records & Hrec & Hlenrec & _).
    destruct Hkeep as (_ & _ & _ & _ & _ & _ & Hnone & _).
    cbn [commitUpdate exec setTrunk committedTxs setExec setCurrentBlock
         setCumulative setCommittedTxs] in Hrec, Hnone.
    rewrite Hnone in Hrec. cbn [app] in Hrec.
    destruct Hq1 as (_ & Hend1 & _).
    exists m', (end_ txRange1 - start txRange1).
    split; [reflexivity|]. split; [exact Hbefore|]. split.
    { unfold StandbyQLen, getStandbyQueueRange. rewrite Hc.
      cbn [commitUpdate exec setTrunk cleanCtx deref bindR setStandbyCtl standbyCtl].
      rewrite decodeRange_PutUint64 by lia. cbn [bindR].
      rewrite toInt64_u64 by lia. reflexivity. }
    split; [lia|]. rewrite Hrec, Hlenrec. lia.
Qed.

End BacklogClaim.

Lemma Execute_shrinks_the_backlog_witness :
  exists m' q',
    Execute demoMachine (Some demoBlock) = Ok m' /\
    StandbyQLen (exec demoMachine) = Ok 2 /\
    StandbyQLen (exec m') = Ok q' /\
    q' + Z.of_nat (length (committedTxs (exec m'))) <= 2.
Proof.
  destruct (Execute_shrinks_the_backlog demoMachine demoBlock demoTrunk 0 2)
    as (m' & q' & Hrun & Hbefore & Hafter & _ & Hle).
  - reflexivity.
  - vm_compute. reflexivity.
  - split; [cbn; lia|]. split; [cbn; lia|].
    intros j. cbn [demoTrunk standbySlots start end_].
    destruct (decide (j = 0)) as [->|H0].
    { split; [lia|]. intros _. eexists. reflexivity. }
    destruct (decide (j = 1)) as [->|H1].
    { split; [lia|]. intros _. eexists. reflexivity. }
    rewrite lookup_insert_ne by done. rewrite lookup_singleton_ne by done.
    split; [intros [? ?]; discriminate|lia].
  - reflexivity.
  - cbn. lia.
  - reflexivity.
  - vm_compute. reflexivity.
  - lia.
  - exists m', q'. split; [exact Hrun|]. split; [exact Hbefore|].
    split; [exact Hafter|exact Hle].
Defined.

(** ** The queue after Prepare *)

Lemma appendSlots_spec l :
  forall (slots : gmap Z Bytes) q,
    0 <= q -> q + Z.of_nat (length l) < 2 ^ 64 ->
    (appendSlots slots q l).2 = q + Z.of_nat (length l) /\
    forall j, (appendSlots slots q l).1 !! j =
              if decide (q <= j < q + Z.of_nat (length l))
              then l !! Z.to_nat (j - q)
              else slots !! j.
Proof.
  unfold appendSlots.
  induction l as [|b l IH]; intros slots q Hq Hov.
  - cbn. split; [lia|]. intros j. rewrite decide_False by lia. reflexivity.
  - cbn [fold_left fst snd length] in *.
    rewrite (u64_small (q + 1)) by lia.
    destruct (IH (<[q := b]> slots) (q + 1)) as [Hend Hlook]; [lia|lia|].
    split; [rewrite Hend; lia|]. intros j. rewrite Hlook.
    destruct (decide (q + 1 <= j < q + 1 + Z.of_nat (length l))) as [Hin|Hout].
    + rewrite decide_True by lia.
      replace (Z.to_nat (j - q)) with (S (Z.to_nat (j - (q + 1)))) by lia.
      reflexivity.
    + destruct (decide (j = q)) as [->|Hne].
      * rewrite lookup_insert_eq, decide_True by lia.
        rewrite Z.sub_diag. reflexivity.
      * rewrite lookup_insert_ne by congruence.
        rewrite decide_False by lia. reflexivity.
Qed.

Lemma decodeRange_readQueueEnd trunk s q :
  decodeRange (standbyCtl trunk) = Ok (s, q) ->
  0 <= q < 2 ^ 64 ->
  exists bz,
    readQueueEnd trunk = Ok (bz, q) /\
    forall q', 0 <= q' < 2 ^ 64 ->
      decodeRange (Some (take 8 bz ++ PutUint64 q' ++ drop 16 bz)) = Ok (s, q').
Proof.
  unfold decodeRange, readQueueEnd. intros Hdec Hq.
  destruct (standbyCtl trunk) as [bz|].
  - bind_inv Hdec as s0 Hs0. bind_inv Hdec as q0 Hq0. injection Hdec as -> ->.
    assert (8 <= length bz)%nat as Hlen.
    { unfold BigEndian_Uint64 in Hs0. rewrite length_take in Hs0.
      destruct (decide (_ < 8)%nat); [discriminate|lia]. }
    rewrite decide_True by exact Hlen. cbn [bindR].
    exists bz. split; [reflexivity|]. intros q' Hq'.
    rewrite take_app_length' by (rewrite length_take; lia).
    rewrite Hs0. cbn [bindR].
    rewrite drop_app_length' by (rewrite length_take; lia).
    destruct (BigEndian_PutUint64 q' (drop 16 bz) Hq') as [Hread _].
    assert (BigEndian_Uint64 (PutUint64 q' ++ drop 16 bz) = Ok q') as ->;
      [|reflexivity].
    unfold BigEndian_Uint64 in *.
    rewrite length_take in Hread. rewrite length_app in *. cbn [length PutUint64] in *.
    destruct (decide (8 + length (drop 16 bz) < 8)%nat); [lia|].
    destruct (decide (_ < 8)%nat) in Hread; [discriminate|].
    rewrite take_take in Hread. exact Hread.
  - injection Hdec as <- <-. exists (replicate 16 0). split; [reflexivity|].
    intros q' Hq'.
    change (take 8 (replicate 16 0)) with (PutUint64 0).
    change (drop 16 (replicate 16 0)) with (@nil Z). rewrite app_nil_r.
    apply decodeRange_PutUint64; lia.
Qed.

Section PrepareQueue.
Context `{Collaborators} `{RandSource}.

(** X12. Prepare on a consistent queue (the control key reads (s, q),
    exactly the slots of [s, q) are populated, q plus the number of
    collected transactions stays below 2^64, and the queue with the
    collected transactions is shorter than 2^63, so that its length fits
    the int StandbyQLen returns): Prepare returns and leaves
    the queue consistent, with the same start and the end advanced by the
    number of accepted transactions; the slots from q on hold the bytes of
    the accepted transactions in the reordered order, the older slots are
    untouched, and StandbyQLen reads the old length plus the number of
    accepted transactions. *)
Theorem Prepare_extends_a_consistent_queue :
  forall (claim : nat -> nat) (e : txEngine) (trunk : Trunk)
         (seed minGasPrice maxTxGasLimit s q : Z),
    cleanCtx e = Some trunk -> txList e <> [] -> 0 < parallelNum e ->
    decodeRange (standbyCtl trunk) = Ok (s, q) ->
    queueIs (mkTxRange s q) trunk ->
    q + Z.of_nat (length (txList e)) < 2 ^ 64 ->
    q - s + Z.of_nat (length (txList e)) < 2 ^ 63 ->
    let accepted :=
      filter (fun i => untagged i = true)
             (reorderedInfos claim e trunk seed minGasPrice maxTxGasLimit) in
    let q' := q + Z.of_nat (length accepted) in
    exists e' fr trunk',
      Prepare claim e seed minGasPrice maxTxGasLimit = Ok (e', fr) /\
      cleanCtx e' = Some trunk' /\
      (length accepted <= length (txList e))%nat /\
      decodeRange (standbyCtl trunk') = Ok (s, q') /\
      queueIs (mkTxRange s q') trunk' /\
      (forall k info, accepted !! k = Some info ->
                      standbySlots trunk' !! (q + Z.of_nat k) = Some (txBytes info)) /\
      (forall j, j < q -> standbySlots trunk' !! j = standbySlots trunk !! j) /\
      StandbyQLen e' = Ok (q - s + Z.of_nat (length accepted)).
Proof.
  intros claim e trunk seed minGasPrice maxTxGasLimit s q
         Hctx Htxs Hpar Hdec Hq Hov Hint accepted q'.
  pose proof Hq as (Hse & Hend & Hdom). cbn [start end_] in Hse, Hend, Hdom.
  destruct (decodeRange_readQueueEnd trunk s q Hdec) as (bz & Hread & Hwrite);
    [lia|].
  rewrite (Prepare_run claim e trunk seed minGasPrice maxTxGasLimit bz q
             Hctx Htxs Hpar Hread).
  destruct (insertToStandbyTxQ_spec e
              (settleFees trunk
                 (workerEntries claim e trunk seed minGasPrice maxTxGasLimit))
              (reorderedInfos claim e trunk seed minGasPrice maxTxGasLimit) bz q)
    as (Hclean & _).
  destruct (settleFees_accounts trunk
              (workerEntries claim e trunk seed minGasPrice maxTxGasLimit))
    as [_ [_ Hslots]].
  rewrite Hslots in Hclean. fold accepted in Hclean.
  assert (length accepted <= length (txList e))%nat as Hcount.
  { subst accepted. etrans; [apply length_filter|].
    rewrite (reorderedInfos_Permutation claim e trunk seed minGasPrice maxTxGasLimit).
    rewrite <- (length_fmap tx), (preparedInfos_txs claim e trunk seed
                                   minGasPrice maxTxGasLimit Hpar).
    rewrite length_fmap. reflexivity. }
  destruct (appendSlots_spec (map txBytes accepted) (standbySlots trunk) q)
    as [Hq' Hlook]; [lia|rewrite length_map; lia|].
  rewrite length_map in Hq', Hlook. fold q' in Hq'.
  eexists _, _, _. split; [reflexivity|].
  split; [cbn [cleanCtx setTxList]; exact Hclean|].
  cbn [standbyCtl standbySlots]. rewrite Hq'.
  assert (decodeRange (Some (take 8 bz ++ PutUint64 q' ++ drop 16 bz)) = Ok (s, q'))
    as Hdec' by (apply Hwrite; subst q'; lia).
  split; [exact Hcount|]. split; [exact Hdec'|]. split.
  { split; [cbn; subst q'; lia|]. split; [cbn; subst q'; lia|].
    intros j. cbn [standbySlots start end_]. rewrite Hlook.
    destruct (decide (q <= j < q + Z.of_nat (length accepted))) as [Hin|Hout].
    - split; [subst q'; lia|]. intros _.
      apply lookup_lt_is_Some_2. rewrite length_map. lia.
    - rewrite Hdom. subst q'. lia. }
  split.
  { intros k info Hk. rewrite Hlook.
    apply lookup_lt_Some in Hk as Hlt.
    rewrite decide_True by lia.
    replace (Z.to_nat (q + Z.of_nat k - q)) with k by lia.
    rewrite list_lookup_fmap, Hk. reflexivity. }
  split.
  { intros j Hj. rewrite Hlook, decide_False by lia. reflexivity. }
  unfold StandbyQLen, getStandbyQueueRange.
  cbn [cleanCtx setTxList]. rewrite Hclean. cbn [deref bindR standbyCtl].
  rewrite Hq', Hdec'. cbn [bindR]. rewrite toInt64_u64 by (subst q'; lia).
  f_equal. subst q'. lia.
Qed.

End PrepareQueue.

Lemma Prepare_extends_a_consistent_queue_witness :
  exists e' fr,
    Prepare (fun i => i) prepEngine 42 1 DefaultTxGasLimit = Ok (e', fr) /\
    StandbyQLen e' =
    Ok (0 - 0 + Z.of_nat
                  (length (filter (fun i => untagged i = true)
                             (reorderedInfos (fun i => i) prepEngine prepTrunk 42 1
                                             DefaultTxGasLimit)))).
Proof.
  destruct (Prepare_extends_a_consistent_queue
              (fun i => i) prepEngine prepTrunk 42 1 DefaultTxGasLimit 0 0)
    as (e' & fr & trunk' & Hrun & _ & _ & _ & _ & _ & _ & Hlen).
  - reflexivity.
  - vm_compute. discriminate.
  - vm_compute. reflexivity.
  - reflexivity.
  - split; [cbn; lia|]. split; [cbn; lia|]. intros j. cbn.
    rewrite lookup_empty. split; [intros [? ?]; discriminate|lia].
  - vm_compute. reflexivity.
  - vm_compute. reflexivity.
  - exists e', fr. split; [exact Hrun|exact Hlen].
Defined.

(** ** The preload and the race of its workers *)

Section PreloadRace.
Context `{Collaborators} `{RandSource}.

Lemma readAccount_info e trunk minGasPrice maxTxGasLimit gtx entry :
  ctx entry = WithRbtCopy ->
  (readAccount e trunk minGasPrice maxTxGasLimit gtx entry).1 =
    classify e trunk minGasPrice maxTxGasLimit gtx /\
  ctx (readAccount e trunk minGasPrice maxTxGasLimit gtx entry).2 = WithRbtCopy.
Proof.
  intros Hctx. unfold classify, readAccount.
  destruct (signer e gtx) as [sender err].
  destruct err; [split; [reflexivity|exact Hctx]|].
  destruct (negb (IsInt64 (gtx_gasPrice gtx))
            || (gtx_gasPrice gtx <? toInt64 minGasPrice));
    [split; [reflexivity|exact Hctx]|].
  destruct (maxTxGasLimit <? gtx_gas gtx); [split; [reflexivity|exact Hctx]|].
  rewrite Hctx. cbn [ctx newCtxAA].
  destruct (GetAccount trunk WithRbtCopy sender) as [acc|];
    [|split; [reflexivity|exact Hctx]].
  cbn [addr2nonce newCtxAA]. rewrite lookup_empty.
  destruct (addr2nonce entry !! sender); split; try reflexivity; exact Hctx.
Qed.

Lemma readAccounts_infos claim e trunk minGasPrice maxTxGasLimit txs :
  forall myIdx ctxAA,
    (0 < length ctxAA)%nat ->
    Forall (fun entry => ctx entry = WithRbtCopy) ctxAA ->
    (readAccounts claim e trunk minGasPrice maxTxGasLimit myIdx txs ctxAA).1 =
    map (classify e trunk minGasPrice maxTxGasLimit) txs.
Proof.
  induction txs as [|gtx txs IH]; intros myIdx ctxAA Hlen Hall; [reflexivity|].
  cbn [readAccounts map].
  set (w := (claim myIdx `mod` length ctxAA)%nat).
  assert (w < length ctxAA)%nat as Hw by (apply Nat.mod_upper_bound; lia).
  destruct (lookup_lt_is_Some_2 ctxAA w Hw) as [entry Hentry].
  rewrite Hentry. change (default newCtxAA (Some entry)) with entry.
  rewrite Forall_lookup in Hall. pose proof (Hall w entry Hentry) as Hctx.
  destruct (readAccount_info e trunk minGasPrice maxTxGasLimit gtx entry Hctx)
    as [Hinfo Hctx'].
  destruct (readAccount e trunk minGasPrice maxTxGasLimit gtx entry)
    as [info entry'].
  cbn [fst snd] in Hinfo, Hctx'.
  specialize (IH (S myIdx) (<[w := entry']> ctxAA)).
  destruct (readAccounts claim e trunk minGasPrice maxTxGasLimit (S myIdx) txs
                         (<[w := entry']> ctxAA)) as [infos ctxAA'].
  cbn [fst] in *. rewrite Hinfo, IH; [reflexivity| |].
  - rewrite length_insert. exact Hlen.
  - apply Forall_lookup. intros k x Hk.
    destruct (decide (k = w)) as [->|Hne].
    + rewrite list_lookup_insert_eq in Hk by exact Hw. congruence.
    + rewrite list_lookup_insert_ne in Hk by congruence. exact (Hall k x Hk).
Qed.

Lemma parallelReadAccounts_infos claim e trunk minGasPrice maxTxGasLimit :
  0 < parallelNum e ->
  (parallelReadAccounts claim e trunk minGasPrice maxTxGasLimit).1 =
  map (classify e trunk minGasPrice maxTxGasLimit) (txList e).
Proof.
  intros Hpar. unfold parallelReadAccounts. apply readAccounts_infos.
  - rewrite length_replicate. lia.
  - apply Forall_replicate. reflexivity.
Qed.

Lemma classify_engine e1 e2 trunk minGasPrice maxTxGasLimit gtx :
  signer e1 = signer e2 -> currentBlock e1 = currentBlock e2 ->
  classify e1 trunk minGasPrice maxTxGasLimit gtx =
  classify e2 trunk minGasPrice maxTxGasLimit gtx.
Proof.
  intros Hs Hb. unfold classify, readAccount, getCurrHeight.
  rewrite Hs, Hb. reflexivity.
Qed.

(** The tag of an info after the preload: none exactly when the static
    checks pass and the sender has an account in the trunk. *)
Lemma classify_untagged e trunk minGasPrice maxTxGasLimit gtx :
  untagged (classify e trunk minGasPrice maxTxGasLimit gtx) = true <->
  checksPassed e minGasPrice maxTxGasLimit gtx /\
  is_Some (worldAccounts trunk !! (signer e gtx).1).
Proof.
  unfold classify, readAccount, checksPassed.
  destruct (signer e gtx) as [sender err]. cbn [fst snd].
  destruct err.
  { cbn. split; [discriminate|]. intros [[? _] _]. discriminate. }
  unfold IsInt64.
  destruct (- 2 ^ 63 <=? gtx_gasPrice gtx) eqn:E1;
    destruct (gtx_gasPrice gtx <? 2 ^ 63) eqn:E2;
    destruct (gtx_gasPrice gtx <? toInt64 minGasPrice) eqn:E3;
    cbn [andb negb orb];
    try (cbn; split; [discriminate|]; intros [(_ & ? & ? & _) _]; lia).
  destruct (maxTxGasLimit <? gtx_gas gtx) eqn:E4.
  { cbn. split; [discriminate|]. intros [(_ & _ & _ & ?) _]. lia. }
  unfold GetAccount. cbn [ctx newCtxAA cache WithRbtCopy]. rewrite lookup_empty.
  destruct (worldAccounts trunk !! sender) as [acc|].
  - cbn [addr2nonce newCtxAA]. rewrite lookup_empty. cbn.
    split; [|reflexivity]. intros _. split; [|eauto].
    split; [reflexivity|]. split; [lia|]. split; lia.
  - cbn. split; [discriminate|]. intros [_ [? ?]]. discriminate.
Qed.

(** X13. The infos parallelReadAccounts returns do not depend on the race
    of its workers for the transactions, nor on the number of workers: for
    any two distributions of the transactions over any two positive numbers
    of workers the info lists are equal. An info bears no tag exactly when
    the signature is valid, the gas price fits an int64 and is at least
    minGasPrice, the gas limit is at most maxTxGasLimit, and the sender has
    an account in the trunk. *)
Theorem parallelReadAccounts_infos_ignore_the_race :
  forall (claim1 claim2 : nat -> nat) (e1 e2 : txEngine) (trunk : Trunk)
         (minGasPrice maxTxGasLimit : Z),
    txList e1 = txList e2 -> signer e1 = signer e2 ->
    currentBlock e1 = currentBlock e2 ->
    0 < parallelNum e1 -> 0 < parallelNum e2 ->
    (parallelReadAccounts claim1 e1 trunk minGasPrice maxTxGasLimit).1 =
    (parallelReadAccounts claim2 e2 trunk minGasPrice maxTxGasLimit).1 /\
    forall k gtx,
      txList e1 !! k = Some gtx ->
      exists info,
        (parallelReadAccounts claim1 e1 trunk minGasPrice maxTxGasLimit).1 !! k
          = Some info /\
        tx info = FromGethTx gtx (signer e1 gtx).1 (getCurrHeight e1) /\
        (untagged info = true <->
         checksPassed e1 minGasPrice maxTxGasLimit gtx /\
         is_Some (worldAccounts trunk !! (signer e1 gtx).1)).
Proof.
  intros claim1 claim2 e1 e2 trunk minGasPrice maxTxGasLimit
         Htxs Hsigner Hblock Hpar1 Hpar2.
  rewrite !parallelReadAccounts_infos by assumption.
  split.
  - rewrite Htxs. apply map_ext. intros gtx.
    apply classify_engine; assumption.
  - intros k gtx Hk. exists (classify e1 trunk minGasPrice maxTxGasLimit gtx).
    split.
    { change (map (classify e1 trunk minGasPrice maxTxGasLimit) (txList e1))
        with (classify e1 trunk minGasPrice maxTxGasLimit <$> txList e1).
      rewrite list_lookup_fmap, Hk. reflexivity. }
    split; [|apply classify_untagged].
    destruct (readAccount_spec e1 trunk minGasPrice maxTxGasLimit gtx newCtxAA
                (preloaded_new trunk)) as (_ & _ & Htx & _).
    exact Htx.
Qed.

End PreloadRace.

Lemma parallelReadAccounts_infos_ignore_the_race_witness :
  (parallelReadAccounts (fun i => i) prepEngine prepTrunk 1 DefaultTxGasLimit).1 =
  (parallelReadAccounts (fun _ => 0%nat) prepEngine prepTrunk 1 DefaultTxGasLimit).1.
Proof.
  destruct (parallelReadAccounts_infos_ignore_the_race
              (fun i => i) (fun _ => 0%nat) prepEngine prepEngine prepTrunk
              1 DefaultTxGasLimit) as [Heq _];
    [reflexivity|reflexivity|reflexivity|vm_compute; reflexivity
    |vm_compute; reflexivity|exact Heq].
Defined.

(** ** The reordered list *)

Section ReorderShape.
Context `{RandSource}.
Context {Info : Type} (from : Info -> Address).

Lemma flat_map_groupOf_sender (l : list Info) (addrs : list Address) x :
  x ∈ flat_map (groupOf from l) addrs -> from x ∈ addrs.
Proof.
  intros Hx. apply list_elem_of_In, in_flat_map in Hx as (b & Hb & Hx).
  apply list_elem_of_In in Hb, Hx.
  unfold groupOf in Hx. apply list_elem_of_filter in Hx as [<- _]. exact Hb.
Qed.

(** X14. reorderInfoList loses and duplicates nothing: its output is a
    permutation of the info list. The infos of one sender stand back to
    back in it, as runTxInParallel expects: the output is some infos of
    other senders, then all infos of that sender in their original order,
    then some infos of other senders. The map it returns holds, for each
    sender of the list, exactly that group, and nothing for any other
    address. *)
Theorem reorderInfoList_keeps_every_info_and_groups_senders :
  forall (infoList : list Info) (reorderSeed : Z),
    let out := (reorderInfoList from infoList reorderSeed).1 in
    let groups := (reorderInfoList from infoList reorderSeed).2 in
    out ≡ₚ infoList /\
    (forall a, a ∈ map from infoList ->
       exists pre post,
         out = pre ++ groupOf from infoList a ++ post /\
         forall x, x ∈ pre ++ post -> from x <> a) /\
    (forall a, groups !! a =
               if decide (a ∈ map from infoList)
               then Some (groupOf from infoList a) else None).
Proof.
  intros infoList seed. cbn zeta.
  split; [apply reorderInfoList_Permutation|]. split.
  - intros a Ha. rewrite reorderInfoList_out.
    set (addrs := shuffle _ _ _).
    assert (addrs ≡ₚ firstAppearance [] (map from infoList)) as Hperm
      by apply shuffle_Permutation.
    assert (NoDup addrs) as Hnd.
    { rewrite Hperm. apply NoDup_firstAppearance. }
    assert (a ∈ addrs) as Hin.
    { rewrite Hperm. apply elem_of_firstAppearance. split; [exact Ha|].
      apply not_elem_of_nil. }
    apply list_elem_of_split in Hin as (l1 & l2 & Hsplit).
    rewrite Hsplit in Hnd |- *.
    apply NoDup_app in Hnd as (_ & Hdisj & Hnd2).
    apply NoDup_cons in Hnd2 as [Hnot2 _].
    exists (flat_map (groupOf from infoList) l1),
           (flat_map (groupOf from infoList) l2).
    split.
    { rewrite flat_map_app. cbn [flat_map]. reflexivity. }
    intros x Hx Hfrom. apply elem_of_app in Hx as [Hx|Hx];
      apply flat_map_groupOf_sender in Hx; rewrite Hfrom in Hx.
    + apply (Hdisj a Hx). by left.
    + exact (Hnot2 Hx).
  - intros a. unfold reorderInfoList.
    pose proof (groupInfos_spec from infoList) as [Hgroups _].
    destruct (groupInfos from infoList ∅ []) as [addr2Infos addrList].
    cbn [fst snd] in *. rewrite Hgroups.
    destruct (decide (a ∈ map from infoList)) as [Hin|Hout].
    + destruct (groupOf from infoList a) eqn:Hg; [|reflexivity].
      exfalso. apply (groupOf_nil_iff from infoList a) in Hg. exact (Hg Hin).
    + apply (groupOf_nil_iff from infoList a) in Hout. rewrite Hout. reflexivity.
Qed.

End ReorderShape.

(** ** The world state after Prepare *)

Section PrepareAccounts.
Context `{Collaborators} `{RandSource}.

(** X15. Prepare on a non-empty block whose balances are 256-bit values:
    it returns, deletes no account and changes no nonce of the world
    state; every account other than the system account keeps a balance
    between zero and what it had (a sender is never debited more than it
    holds), no account other than the system account is created, the
    system account exists afterwards, and all balances are 256-bit values
    again. *)
Theorem Prepare_debits_without_overdraft :
  forall (claim : nat -> nat) (e : txEngine) (trunk : Trunk)
         (seed minGasPrice maxTxGasLimit : Z),
    cleanCtx e = Some trunk -> txList e <> [] -> 0 < parallelNum e ->
    controlReadable trunk ->
    balancesInRange (worldAccounts trunk) ->
    exists e' fr trunk',
      Prepare claim e seed minGasPrice maxTxGasLimit = Ok (e', fr) /\
      cleanCtx e' = Some trunk' /\
      (forall a acc, worldAccounts trunk !! a = Some acc ->
         exists acc', worldAccounts trunk' !! a = Some acc' /\
                      acc_nonce acc' = acc_nonce acc /\
                      (a <> systemContractAddress ->
                       0 <= acc_balance acc' <= acc_balance acc)) /\
      (forall a, a <> systemContractAddress ->
                 worldAccounts trunk !! a = None ->
                 worldAccounts trunk' !! a = None) /\
      is_Some (worldAccounts trunk' !! systemContractAddress) /\
      balancesInRange (worldAccounts trunk').
Proof.
  intros claim e trunk seed minGasPrice maxTxGasLimit
         Hctx Htxs Hpar Hctl Hrange.
  apply readQueueEnd_Ok in Hctl as [[bz q] Hq].
  rewrite (Prepare_run claim e trunk seed minGasPrice maxTxGasLimit bz q
             Hctx Htxs Hpar Hq).
  destruct (insertToStandbyTxQ_spec e
              (settleFees trunk
                 (workerEntries claim e trunk seed minGasPrice maxTxGasLimit))
              (reorderedInfos claim e trunk seed minGasPrice maxTxGasLimit) bz q)
    as [Hclean _].
  eexists _, _, _. split; [reflexivity|].
  split; [cbn [cleanCtx setTxList]; exact Hclean|].
  cbn [worldAccounts].
  destruct (settleFees_accounts trunk
              (workerEntries claim e trunk seed minGasPrice maxTxGasLimit))
    as [-> _].
  pose proof (stage_accounts claim e trunk seed minGasPrice maxTxGasLimit
                Hpar Hrange) as Hacc.
  pose proof (stage_bounds claim e trunk seed minGasPrice maxTxGasLimit
                Hpar Hrange) as Hbound.
  set (m1 := worldAccounts
               (closeAll trunk
                  (workerEntries claim e trunk seed minGasPrice maxTxGasLimit)))
    in *.
  set (d := paid (preparedInfos claim e trunk seed minGasPrice maxTxGasLimit)
                 (seq 0 (length (preparedInfos claim e trunk seed minGasPrice
                                               maxTxGasLimit)))) in *.
  set (new := mkAccount _ _).
  split; [|split; [|split]].
  - intros a acc Ha.
    pose proof (Hacc a) as Ha1. rewrite Ha in Ha1. cbn in Ha1.
    pose proof (Hbound a) as Hb. unfold balanceOf in Hb. rewrite Ha in Hb.
    cbn in Hb.
    destruct (decide (a = systemContractAddress)) as [->|Hne].
    + rewrite lookup_insert_eq. exists new. split; [reflexivity|].
      split; [|congruence]. subst new. cbn [acc_nonce]. rewrite Ha1.
      reflexivity.
    + rewrite lookup_insert_ne by congruence. rewrite Ha1.
      eexists. split; [reflexivity|]. split; [reflexivity|].
      intros _. cbn. lia.
  - intros a Hne Hnone. rewrite lookup_insert_ne by congruence.
    rewrite Hacc, Hnone. reflexivity.
  - rewrite lookup_insert_eq. eauto.
  - intros a acc Ha.
    destruct (decide (a = systemContractAddress)) as [->|Hne].
    + rewrite lookup_insert_eq in Ha. injection Ha as <-. subst new.
      cbn [acc_balance]. apply u256_range.
    + rewrite lookup_insert_ne in Ha by congruence.
      rewrite Hacc in Ha.
      destruct (worldAccounts trunk !! a) as [acc0|] eqn:Ha0; [|discriminate].
      cbn in Ha. injection Ha as <-. cbn.
      pose proof (Hbound a) as Hb. unfold balanceOf in Hb. rewrite Ha0 in Hb.
      cbn in Hb. pose proof (Hrange a acc0 Ha0). lia.
Qed.

End PrepareAccounts.

Lemma Prepare_debits_without_overdraft_witness :
  exists e' fr trunk',
    Prepare (fun i => i) prepEngine 42 1 DefaultTxGasLimit = Ok (e', fr) /\
    cleanCtx e' = Some trunk' /\
    balancesInRange (worldAccounts trunk').
Proof.
  destruct (Prepare_debits_without_overdraft
              (fun i => i) prepEngine prepTrunk 42 1 DefaultTxGasLimit)
    as (e' & fr & trunk' & Hrun & Hclean & _ & _ & _ & Hrange).
  - reflexivity.
  - vm_compute. discriminate.
  - vm_compute. reflexivity.
  - intros bz Hbz. discriminate.
  - apply (bool_decide_unpack
             (map_Forall (fun _ acc => 0 <= acc_balance acc < 2 ^ 256)
                         (worldAccounts prepTrunk))).
    vm_compute. exact I.
  - exists e', fr, trunk'. auto.
Defined.

(** ** The deductor, sender by sender *)

Section SenderLocal.
Context `{Collaborators}.

(** deductOne by its four outcomes. *)
Lemma deductOne_outcomes trunk info entry :
  let s := TxToRun.From (tx info) in
  let n := default 0 (addr2nonce entry !! s) in
  let live := liveAccount trunk (ctx entry) s in
  let fee := feeOf (tx info) in
  let c := SetAccount (ctx entry) s
             (mkAccount (acc_nonce live) (u256 (acc_balance live - fee))) in
  deductOne trunk info entry =
  if negb (untagged info) then (info, entry)
  else if negb (n =? TxToRun.Nonce (tx info))
  then (setErrorStr info "incorrect nonce", entry)
  else if acc_balance live <? fee
  then (setErrorStr info "not enough balance to pay gasfee",
        setBalance (setCtx (setNonce entry s (u64 (n + 1))) (ctx entry)) s 0)
  else (setTxBytes info (ToBytes (tx info)),
        setChanged
          (setTotalGasFee
             (setBalance (setCtx (setNonce entry s (u64 (n + 1))) c) s
                         (cachedAfter trunk c info (addr2Balance entry !! s)))
             (u256 (totalGasFee entry + fee)))
          true).
Proof.
  cbn zeta. unfold deductOne. fold (untagged info).
  destruct (untagged info); cbn [negb]; [|reflexivity].
  destruct (default 0 (addr2nonce entry !! TxToRun.From (tx info))
            =? TxToRun.Nonce (tx info)); cbn [negb]; [|reflexivity].
  unfold deductGasFeeAndUpdateFrontier, SubSenderAccBalance, updateBalance.
  cbn [ctx setNonce].
  fold (liveAccount trunk (ctx entry) (TxToRun.From (tx info))).
  fold (feeOf (tx info)).
  destruct (acc_balance (liveAccount trunk (ctx entry) (TxToRun.From (tx info)))
            <? feeOf (tx info)); [reflexivity|].
  unfold cachedAfter. cbn [setCtx setNonce addr2Balance ctx totalGasFee].
  destruct (bool_decide (TxToRun.To (tx info) = Sep206Address)); [reflexivity|].
  destruct (addr2Balance entry !! TxToRun.From (tx info)) as [balance|];
    [|reflexivity].
  destruct (balance <? feeOf (tx info)); [reflexivity|].
  destruct (u256 (balance - feeOf (tx info)) <? TxToRun.Value (tx info));
    reflexivity.
Qed.

Lemma liveAccount_view trunk (c1 c2 : Context) s :
  cache c1 !! s = cache c2 !! s ->
  liveAccount trunk c1 s = liveAccount trunk c2 s.
Proof. intros Hc. unfold liveAccount, GetAccount. rewrite Hc. reflexivity. Qed.

Lemma cachedAfter_SetAccount trunk c1 c2 acc info cached :
  cachedAfter trunk (SetAccount c1 (TxToRun.From (tx info)) acc) info cached =
  cachedAfter trunk (SetAccount c2 (TxToRun.From (tx info)) acc) info cached.
Proof.
  unfold cachedAfter, GetBalanceAfterBchTransfer.
  rewrite !GetAccount_SetAccount, !decide_True by reflexivity. reflexivity.
Qed.

(** The deductor reads and writes, of its entry, the sender's own cached
    nonce, cached balance and buffered account, and nothing of any other
    sender. *)
Lemma deductOne_local trunk info e1 e2 :
  senderView e1 (TxToRun.From (tx info)) = senderView e2 (TxToRun.From (tx info)) ->
  (deductOne trunk info e1).1 = (deductOne trunk info e2).1 /\
  senderView (deductOne trunk info e1).2 (TxToRun.From (tx info)) =
  senderView (deductOne trunk info e2).2 (TxToRun.From (tx info)).
Proof.
  intros Hview. pose proof Hview as Hview'.
  unfold senderView in Hview'. injection Hview' as Hn Hb Hc.
  rewrite !deductOne_outcomes. cbn zeta.
  rewrite Hn, Hb, (liveAccount_view trunk (ctx e1) (ctx e2) _ Hc).
  destruct (untagged info); cbn [negb]; [|split; [reflexivity|exact Hview]].
  destruct (default 0 (addr2nonce e2 !! TxToRun.From (tx info))
            =? TxToRun.Nonce (tx info)); cbn [negb];
    [|split; [reflexivity|exact Hview]].
  destruct (acc_balance (liveAccount trunk (ctx e2) (TxToRun.From (tx info)))
            <? feeOf (tx info)).
  - split; [reflexivity|]. unfold senderView.
    cbn [fst snd setBalance setCtx setNonce addr2nonce addr2Balance ctx].
    rewrite !lookup_insert_eq, Hc. reflexivity.
  - split; [reflexivity|]. unfold senderView.
    cbn [fst snd setBalance setCtx setNonce setChanged setTotalGasFee
         addr2nonce addr2Balance ctx].
    rewrite !lookup_insert_eq.
    rewrite (cachedAfter_SetAccount trunk (ctx e1) (ctx e2)).
    unfold SetAccount. cbn [cache]. rewrite !lookup_insert_eq. reflexivity.
Qed.

Lemma deductOne_frame trunk info entry a :
  a <> TxToRun.From (tx info) ->
  senderView (deductOne trunk info entry).2 a = senderView entry a.
Proof.
  intros Hne. rewrite deductOne_outcomes. cbn zeta.
  destruct (untagged info); cbn [negb]; [|reflexivity].
  destruct (_ =? _); cbn [negb]; [|reflexivity].
  destruct (_ <? _).
  - unfold senderView.
    cbn [fst snd setBalance setCtx setNonce addr2nonce addr2Balance ctx].
    rewrite !lookup_insert_ne by congruence. reflexivity.
  - unfold senderView.
    cbn [fst snd setBalance setCtx setNonce setChanged setTotalGasFee
         addr2nonce addr2Balance ctx].
    unfold SetAccount. cbn [cache].
    rewrite !lookup_insert_ne by congruence. reflexivity.
Qed.

(** The bookkeeping of one step: the list of senders is kept, the fee
    counter grows by the fee charged, and the context is written only when
    the entry is marked changed. *)
Lemma deductOne_books trunk info entry :
  let r := deductOne trunk info entry in
  tx r.1 = tx info /\
  (untagged r.1 = true -> untagged info = true) /\
  (untagged info = false -> r = (info, entry)) /\
  (untagged r.1 = true -> txBytes r.1 = ToBytes (tx r.1)) /\
  accounts r.2 = accounts entry /\
  totalGasFee r.2 =
    (if untagged r.1 then u256 (totalGasFee entry + chargedFee r.1)
     else totalGasFee entry) /\
  (changed r.2 = true \/
   (cache (ctx r.2) = cache (ctx entry) /\ changed r.2 = changed entry)).
Proof.
  cbn zeta. rewrite deductOne_outcomes. cbn zeta. unfold chargedFee.
  destruct (untagged info) eqn:Hu; cbn [negb].
  2:{ cbn [fst snd]. rewrite Hu. repeat split; auto; discriminate. }
  destruct (_ =? _); cbn [negb].
  2:{ cbn. repeat split; auto; discriminate. }
  destruct (_ <? _).
  - cbn. repeat split; auto; discriminate.
  - cbn [fst snd tx setTxBytes]. unfold untagged in *. cbn [errorStr setTxBytes].
    rewrite Hu. cbn. repeat split; auto; discriminate.
Qed.

Lemma runGroup_length trunk l :
  forall entry, length (runGroup trunk l entry).1 = length l.
Proof.
  induction l as [|info l IH]; intros entry; [reflexivity|].
  cbn [runGroup]. destruct (deductOne trunk info entry) as [info' entry'].
  specialize (IH entry'). destruct (runGroup trunk l entry') as [out entry''].
  cbn in *. lia.
Qed.

Lemma runGroup_app trunk l1 :
  forall l2 entry,
    runGroup trunk (l1 ++ l2) entry =
    ((runGroup trunk l1 entry).1
       ++ (runGroup trunk l2 (runGroup trunk l1 entry).2).1,
     (runGroup trunk l2 (runGroup trunk l1 entry).2).2).
Proof.
  induction l1 as [|info l1 IH]; intros l2 entry.
  - cbn. destruct (runGroup trunk l2 entry). reflexivity.
  - cbn [app runGroup]. destruct (deductOne trunk info entry) as [info' entry'].
    rewrite IH. destruct (runGroup trunk l1 entry') as [out1 e1].
    cbn [fst snd]. destruct (runGroup trunk l2 e1) as [out2 e2]. reflexivity.
Qed.

Lemma runGroup_local trunk s l :
  forall e1 e2,
    Forall (fun info => TxToRun.From (tx info) = s) l ->
    senderView e1 s = senderView e2 s ->
    (runGroup trunk l e1).1 = (runGroup trunk l e2).1 /\
    senderView (runGroup trunk l e1).2 s = senderView (runGroup trunk l e2).2 s.
Proof.
  induction l as [|info l IH]; intros e1 e2 Hall Hview; [split; [reflexivity|exact Hview]|].
  apply Forall_cons in Hall as [Hs Hall]. cbn [runGroup].
  rewrite <- Hs in Hview.
  destruct (deductOne_local trunk info e1 e2 Hview) as [Hinfo Hview'].
  rewrite Hs in Hview'.
  destruct (deductOne trunk info e1) as [i1 e1'].
  destruct (deductOne trunk info e2) as [i2 e2'].
  cbn [fst snd] in Hinfo, Hview'.
  destruct (IH e1' e2' Hall Hview') as [Hout Hfinal].
  destruct (runGroup trunk l e1') as [o1 f1].
  destruct (runGroup trunk l e2') as [o2 f2].
  cbn [fst snd] in *. split; [congruence|exact Hfinal].
Qed.

Lemma runGroup_frame trunk s l :
  forall entry a,
    Forall (fun info => TxToRun.From (tx info) = s) l ->
    a <> s ->
    senderView (runGroup trunk l entry).2 a = senderView entry a.
Proof.
  induction l as [|info l IH]; intros entry a Hall Hne; [reflexivity|].
  apply Forall_cons in Hall as [Hs Hall]. cbn [runGroup].
  pose proof (deductOne_frame trunk info entry a) as Hstep.
  destruct (deductOne trunk info entry) as [info' entry'].
  specialize (IH entry' a Hall Hne).
  destruct (runGroup trunk l entry') as [out entry''].
  cbn [fst snd] in *. rewrite IH. apply Hstep. congruence.
Qed.

(** Infos that are all tagged pass through unchanged. *)
Lemma runGroup_tagged trunk l :
  forall entry,
    Forall (fun info => untagged info = false) l ->
    runGroup trunk l entry = (l, entry).
Proof.
  induction l as [|info l IH]; intros entry Hall; [reflexivity|].
  apply Forall_cons in Hall as [Hu Hall]. cbn [runGroup].
  destruct (deductOne_books trunk info entry) as (_ & _ & Hsame & _).
  rewrite (Hsame Hu), (IH entry Hall). reflexivity.
Qed.

Lemma runGroup_books trunk l :
  forall entry,
    0 <= totalGasFee entry < 2 ^ 256 ->
    (changed entry = true \/ cache (ctx entry) = ∅) ->
    let r := runGroup trunk l entry in
    map tx r.1 = map tx l /\
    Forall2 (fun info' info => untagged info' = true -> untagged info = true) r.1 l /\
    Forall (fun info' => untagged info' = true ->
                         txBytes info' = ToBytes (tx info')) r.1 /\
    accounts r.2 = accounts entry /\
    totalGasFee r.2 = u256 (totalGasFee entry + sumZ (map chargedFee r.1)) /\
    (changed r.2 = true \/ cache (ctx r.2) = ∅).
Proof.
  induction l as [|info l IH]; intros entry Htot Hch; cbn zeta.
  - cbn. repeat split; auto. rewrite Z.add_0_r, u256_small by lia. reflexivity.
  - cbn [runGroup].
    pose proof (deductOne_books trunk info entry) as Hstep. cbn zeta in Hstep.
    destruct (deductOne trunk info entry) as [info' entry'].
    cbn [fst snd] in Hstep.
    destruct Hstep as (Htx & Hmono & _ & Hbytes & Hacc & Htotal & Hchanged).
    assert (0 <= totalGasFee entry' < 2 ^ 256) as Htot'.
    { rewrite Htotal. destruct (untagged info'); [apply u256_range|exact Htot]. }
    assert (changed entry' = true \/ cache (ctx entry') = ∅) as Hch'.
    { destruct Hchanged as [?|[Hc Hsame]]; [by left|].
      destruct Hch as [?|?]; [left; congruence|right; congruence]. }
    specialize (IH entry' Htot' Hch'). cbn zeta in IH.
    destruct (runGroup trunk l entry') as [out entry''].
    cbn [fst snd] in IH |- *.
    destruct IH as (IHtx & IHmono & IHbytes & IHacc & IHtotal & IHch).
    split; [cbn; congruence|]. split; [constructor; assumption|].
    split; [constructor; assumption|]. split; [congruence|].
    split; [|exact IHch].
    rewrite IHtotal, Htotal. unfold sumZ. cbn [map foldr].
    destruct (untagged info') eqn:Hu'.
    + rewrite u256_add_l. f_equal. lia.
    + assert (chargedFee info' = 0) as Hzero
        by (unfold chargedFee; rewrite Hu'; reflexivity).
      f_equal. lia.
Qed.

End SenderLocal.

(** ** The second parallel section, sender by sender *)

Section GroupCells.
Context `{Collaborators}.
Variable trunk : Trunk.

Lemma omap_lookup_ext {A} (l1 l2 : list A) (ps : list nat) :
  (forall p, p ∈ ps -> l1 !! p = l2 !! p) ->
  omap (fun p => l1 !! p) ps = omap (fun p => l2 !! p) ps.
Proof.
  induction ps as [|p ps IH]; intros Hext; [reflexivity|].
  cbn. rewrite (Hext p) by left. rewrite IH; [reflexivity|].
  intros q Hq. apply Hext. by right.
Qed.

Lemma cells_paidAll (F : list preparedInfo) ps l :
  (fun p => F !! p) <$> ps = Some <$> l ->
  paidAll F ps = sumZ (map chargedFee l).
Proof.
  unfold paidAll. revert l.
  induction ps as [|p ps IH]; intros [|info l] Hcells; try discriminate;
    [reflexivity|].
  cbn in Hcells. injection Hcells as Hp Hrest.
  cbn [map]. unfold sumZ in *. cbn [foldr]. rewrite (IH l Hrest).
  unfold feePaid, chargedFee. rewrite Hp. reflexivity.
Qed.

Lemma runGroup_senders s l :
  forall entry,
    Forall (fun info => TxToRun.From (tx info) = s) l ->
    Forall (fun info => TxToRun.From (tx info) = s) (runGroup trunk l entry).1.
Proof.
  induction l as [|info l IH]; intros entry Hall; [constructor|].
  apply Forall_cons in Hall as [Hs Hall]. cbn [runGroup].
  pose proof (deductOne_books trunk info entry) as Hstep. cbn zeta in Hstep.
  destruct (deductOne trunk info entry) as [info' entry'].
  specialize (IH entry' Hall).
  destruct (runGroup trunk l entry') as [out entry''].
  cbn [fst snd] in *. destruct Hstep as (Htx & _).
  constructor; [congruence|exact IH].
Qed.

(** A worker's pass over distinct pointers is the deductor run over the
    infos behind them, each result written back to its cell. *)
Lemma fold_deductAt_cells ps :
  NoDup ps ->
  forall infos entry,
    (forall p, p ∈ ps -> (p < length infos)%nat) ->
    let r := fold_left (deductAt trunk) ps (infos, entry) in
    let g := runGroup trunk (omap (fun p => infos !! p) ps) entry in
    r.2 = g.2 /\
    (fun p => r.1 !! p) <$> ps = Some <$> g.1 /\
    (forall q, q ∉ ps -> r.1 !! q = infos !! q) /\
    length r.1 = length infos.
Proof.
  induction 1 as [|p ps Hp Hnd IH]; intros infos entry Hb; cbn zeta.
  - cbn. auto.
  - destruct (lookup_lt_is_Some_2 infos p) as [info Hinfo]; [apply Hb; left|].
    cbn [fold_left]. rewrite (deductAt_Some _ _ _ _ _ Hinfo).
    cbn [omap list_omap]. rewrite Hinfo. cbn [runGroup].
    destruct (deductOne trunk info entry) as [i' e1]. cbn [fst snd].
    specialize (IH (<[p := i']> infos) e1).
    assert (omap (fun q => <[p := i']> infos !! q) ps =
            omap (fun q => infos !! q) ps) as Homap.
    { apply omap_lookup_ext. intros q Hq.
      apply list_lookup_insert_ne. intros ->. contradiction. }
    rewrite Homap in IH. cbn zeta in IH.
    destruct (runGroup trunk (omap (fun q => infos !! q) ps) e1) as [out e2].
    cbn [fst snd] in IH |- *.
    destruct IH as (IH1 & IH2 & IH3 & IH4).
    { intros q Hq. rewrite length_insert. apply Hb. by right. }
    rewrite length_insert in IH4.
    split; [exact IH1|]. split; [|split; [|exact IH4]].
    + cbn [fmap list_fmap]. f_equal; [|exact IH2].
      rewrite IH3 by exact Hp. apply list_lookup_insert_eq. apply Hb. left.
    + intros q Hq. apply not_elem_of_cons in Hq as [Hne Hq].
      rewrite IH3 by exact Hq. by apply list_lookup_insert_ne.
Qed.

End GroupCells.

Section SenderCells.
Context `{Collaborators}.
Variable trunk : Trunk.
Variable sender : nat -> Address.
Variable n : nat.

#[local] Abbreviation grp := (groupOf sender (seq 0 n)).

Lemma elem_of_grp a p : p ∈ grp a <-> (p < n)%nat /\ sender p = a.
Proof.
  unfold groupOf. rewrite list_elem_of_filter, elem_of_seq. intuition lia.
Qed.

Lemma NoDup_grp a : NoDup (grp a).
Proof. apply NoDup_filter, NoDup_seq. Qed.

Lemma group_senders infos a :
  sendersAre sender n infos ->
  Forall (fun info => TxToRun.From (tx info) = a)
         (omap (fun p => infos !! p) (grp a)).
Proof.
  intros [_ Hs]. apply Forall_forall. intros info Hin.
  apply list_elem_of_omap in Hin as (p & Hp & Hinfo).
  apply elem_of_grp in Hp as [_ <-]. eapply Hs; eassumption.
Qed.

Lemma soloRun_ext infos infos' a :
  (forall p, sender p = a -> infos !! p = infos' !! p) ->
  soloRun trunk sender n infos a = soloRun trunk sender n infos' a.
Proof.
  intros Hext. unfold soloRun. f_equal. apply omap_lookup_ext.
  intros p Hp. apply Hext. by apply elem_of_grp in Hp as [_ ?].
Qed.

Lemma cells_ext (F F' : list preparedInfo) (ps : list nat) :
  (forall p, p ∈ ps -> F !! p = F' !! p) ->
  (fun p => F !! p) <$> ps = (fun p => F' !! p) <$> ps.
Proof.
  intros Hext. apply list_fmap_ext. intros i p Hp. apply Hext.
  eapply list_elem_of_lookup_2; eassumption.
Qed.

(** A worker that runs the senders [senders], one after the other, leaves
    for each of them what the deductor leaves when it runs that sender
    alone. *)
Lemma fold_senders senders :
  NoDup senders ->
  forall infos entry,
    sendersAre sender n infos ->
    (forall a, a ∈ senders ->
               senderView entry a = senderView (soloEntry trunk a) a) ->
    0 <= totalGasFee entry < 2 ^ 256 ->
    (changed entry = true \/ cache (ctx entry) = ∅) ->
    let r := fold_left (deductAt trunk) (flat_map grp senders) (infos, entry) in
    sendersAre sender n r.1 /\
    (forall a, a ∈ senders ->
       (fun p => r.1 !! p) <$> grp a = Some <$> (soloRun trunk sender n infos a).1 /\
       senderView r.2 a = senderView (soloRun trunk sender n infos a).2 a) /\
    (forall q, sender q ∉ senders -> r.1 !! q = infos !! q) /\
    (forall b, b ∉ senders -> senderView r.2 b = senderView entry b) /\
    accounts r.2 = accounts entry /\
    totalGasFee r.2 =
      u256 (totalGasFee entry + paidAll r.1 (flat_map grp senders)) /\
    (changed r.2 = true \/ cache (ctx r.2) = ∅).
Proof.
  induction 1 as [|a senders Ha Hnd IH];
    intros infos entry Hwf Hviews Htot Hch; cbn zeta.
  - cbn [flat_map fold_left fst snd]. split; [exact Hwf|].
    split; [intros a Ha; by apply elem_of_nil in Ha|].
    split; [reflexivity|]. split; [reflexivity|]. split; [reflexivity|].
    split; [|exact Hch].
    unfold paidAll, sumZ. cbn. rewrite Z.add_0_r, u256_small by lia. reflexivity.
  - cbn [flat_map]. rewrite fold_left_app.
    pose proof (fold_deductAt_cells trunk (grp a) (NoDup_grp a) infos entry) as H1.
    cbn zeta in H1.
    pose proof (group_senders infos a Hwf) as Hgroup.
    pose proof (runGroup_local trunk a _ entry (soloEntry trunk a) Hgroup
                  (Hviews a ltac:(left))) as [Hout Hview].
    pose proof (runGroup_senders trunk a _ entry Hgroup) as Hsenders.
    pose proof (runGroup_books trunk (omap (fun p => infos !! p) (grp a))
                  entry Htot Hch) as Hbooks.
    cbn zeta in Hbooks. destruct Hbooks as (_ & _ & _ & Hacc & Htotal & Hch1).
    assert (forall b, b <> a ->
              senderView (runGroup trunk (omap (fun p => infos !! p) (grp a)) entry).2 b
              = senderView entry b) as Hframe.
    { intros b Hb. eapply runGroup_frame; eassumption. }
    fold (soloRun trunk sender n infos a) in Hout, Hview.
    destruct (runGroup trunk (omap (fun p => infos !! p) (grp a)) entry)
      as [out g2] eqn:Hrun.
    cbn [fst snd] in *.
    destruct (fold_left (deductAt trunk) (grp a) (infos, entry))
      as [infos1 entry1] eqn:Hfold1.
    cbn [fst snd] in H1. destruct H1 as (He1 & Hcells1 & Hother1 & Hlen1).
    { intros p Hp. apply elem_of_grp in Hp as [Hp _]. destruct Hwf as [-> _]. exact Hp. }
    subst g2.
    assert (sendersAre sender n infos1) as Hwf1.
    { split; [destruct Hwf; congruence|]. intros p info Hp.
      destruct (decide (p ∈ grp a)) as [Hin|Hout'].
      - apply list_elem_of_lookup_1 in Hin as [i Hi].
        pose proof (f_equal (fun l => l !! i) Hcells1) as Hcell. cbn in Hcell.
        rewrite !list_lookup_fmap, Hi in Hcell. cbn in Hcell. rewrite Hp in Hcell.
        destruct (out !! i) as [o|] eqn:Ho; [|discriminate].
        cbn in Hcell. injection Hcell as ->.
        rewrite Forall_forall in Hsenders.
        rewrite (Hsenders o) by (eapply list_elem_of_lookup_2; eassumption).
        apply list_elem_of_lookup_2 in Hi. by apply elem_of_grp in Hi as [_ ?].
      - rewrite Hother1 in Hp by exact Hout'. destruct Hwf as [_ Hs]. by apply Hs. }
    assert (forall b, b ∈ senders ->
              senderView entry1 b = senderView (soloEntry trunk b) b) as Hviews1.
    { intros b Hb. rewrite Hframe by (intros ->; contradiction).
      apply Hviews. by right. }
    assert (0 <= totalGasFee entry1 < 2 ^ 256) as Htot1
      by (rewrite Htotal; apply u256_range).
    specialize (IH infos1 entry1 Hwf1 Hviews1 Htot1 Hch1). cbn zeta in IH.
    destruct (fold_left (deductAt trunk) (flat_map grp senders) (infos1, entry1))
      as [infos2 entry2] eqn:Hfold2.
    cbn [fst snd] in IH |- *.
    destruct IH as (Hwf2 & Hown2 & Hother2 & Hframe2 & Hacc2 & Htotal2 & Hch2).
    assert (forall p, p ∈ grp a -> infos2 !! p = infos1 !! p) as Hkeep.
    { intros p Hp. apply Hother2. apply elem_of_grp in Hp as [_ ->]. exact Ha. }
    split; [exact Hwf2|]. split; [|split; [|split; [|split; [|split]]]].
    + intros b Hb. apply elem_of_cons in Hb as [->|Hb].
      * split.
        -- rewrite (cells_ext infos2 infos1 (grp a) Hkeep), Hcells1, Hout.
           reflexivity.
        -- rewrite (Hframe2 a Ha). exact Hview.
      * rewrite (soloRun_ext infos infos1 b); [by apply Hown2|].
        intros p Hp. symmetry. apply Hother1. rewrite elem_of_grp.
        intros [_ Heq]. apply Ha. rewrite <- Heq, Hp. exact Hb.
    + intros q Hq. apply not_elem_of_cons in Hq as [Hne Hq].
      rewrite Hother2 by exact Hq. apply Hother1. rewrite elem_of_grp.
      intros [_ ?]. contradiction.
    + intros b Hb. apply not_elem_of_cons in Hb as [Hne Hb].
      rewrite Hframe2 by exact Hb. by apply Hframe.
    + congruence.
    + rewrite Htotal2, Htotal, paidAll_app, u256_add_l.
      rewrite (paidAll_ext infos2 infos1 (grp a) Hkeep).
      rewrite (cells_paidAll infos1 (grp a) out Hcells1). f_equal. lia.
    + exact Hch2.
Qed.

End SenderCells.

Section WorkerCells.
Context `{Collaborators}.
Variable trunk : Trunk.
Variable sender : nat -> Address.
Variable n : nat.
Variable addr2idx : gmap Z nat.
Variable addr2Infos : gmap Z (list nat).
Hypothesis groups :
  forall a, default [] (addr2Infos !! a) = groupOf sender (seq 0 n) a.

#[local] Abbreviation owner a := (default 0%nat (addr2idx !! a)).
#[local] Abbreviation group := (groupOf sender (seq 0 n)).

(** The workers, one after the other: every sender is run by the worker
    that owns it, and comes out as when the deductor runs it alone. *)
Lemma deductWorkers_cells todo :
  forall idx infos,
    sendersAre sender n infos ->
    Forall (fun entry => NoDup (accounts entry) /\ loadedFrom trunk entry /\
                         totalGasFee entry = 0 /\ cache (ctx entry) = ∅) todo ->
    let r := deductWorkers trunk addr2idx addr2Infos idx todo infos in
    sendersAre sender n r.1 /\
    length r.2 = length todo /\
    (forall q,
       (forall k entry, todo !! k = Some entry -> sender q ∈ accounts entry ->
                        owner (sender q) <> (idx + k)%nat) ->
       r.1 !! q = infos !! q) /\
    (forall k entry, todo !! k = Some entry ->
       exists entry', r.2 !! k = Some entry' /\
         (forall a, a ∈ accounts entry -> owner a = (idx + k)%nat ->
            (fun p => r.1 !! p) <$> group a =
              Some <$> (soloRun trunk sender n infos a).1 /\
            senderView entry' a =
              senderView (soloRun trunk sender n infos a).2 a) /\
         (forall b, (b ∈ accounts entry -> owner b <> (idx + k)%nat) ->
                    senderView entry' b = senderView entry b) /\
         accounts entry' = accounts entry /\
         totalGasFee entry' =
           u256 (paidAll r.1 (pointersOf addr2idx addr2Infos (idx + k)
                                         (accounts entry))) /\
         (changed entry' = true \/ cache (ctx entry') = ∅)).
Proof.
  induction todo as [|entry rest IH]; intros idx infos Hwf Hall; cbn zeta.
  - cbn. split; [exact Hwf|]. split; [reflexivity|]. split; [reflexivity|].
    intros k entry Hk. discriminate.
  - apply Forall_cons in Hall as [(Hnd & Hloaded & Htot0 & Hcache) Hall].
    cbn [deductWorkers].
    rewrite deductWorker_eq, (pointersOf_groups sender n _ _ groups).
    set (own := filter (fun a => owner a = idx) (accounts entry)).
    assert (forall a, a ∈ own <-> owner a = idx /\ a ∈ accounts entry) as Hown
      by (intros a; apply (list_elem_of_filter (fun a => owner a = idx))).
    pose proof (fold_senders trunk sender n own (NoDup_filter _ _ Hnd) infos entry
                  Hwf) as H1.
    cbn zeta in H1.
    destruct (fold_left (deductAt trunk) (flat_map group own) (infos, entry))
      as [infos1 entry1].
    cbn [fst snd] in H1.
    destruct H1 as (Hwf1 & Hown1 & Hother1 & Hframe1 & Hacc1 & Htotal1 & Hch1).
    { intros a Ha. apply Hloaded. by apply Hown in Ha as [_ ?]. }
    { rewrite Htot0. lia. }
    { by right. }
    specialize (IH (S idx) infos1 Hwf1 Hall). cbn zeta in IH.
    destruct (deductWorkers trunk addr2idx addr2Infos (S idx) rest infos1)
      as [infos2 rest'].
    cbn [fst snd] in IH |- *.
    destruct IH as (Hwf2 & Hlen2 & Hother2 & Hrest).
    assert (forall q, owner (sender q) = idx -> infos2 !! q = infos1 !! q)
      as Hkeep.
    { intros q Hq. apply Hother2. intros k ek _ _. rewrite Hq. lia. }
    split; [exact Hwf2|]. split; [cbn; lia|]. split.
    { intros q Hq. rewrite Hother2.
      - apply Hother1. rewrite Hown. intros [Ho Hin].
        apply (Hq 0%nat entry eq_refl Hin). rewrite Nat.add_0_r. exact Ho.
      - intros k ek Hk Hin. specialize (Hq (S k) ek Hk Hin).
        rewrite Nat.add_succ_r in Hq. exact Hq. }
    intros [|k] ek Hk.
    + cbn in Hk. injection Hk as <-. exists entry1. split; [reflexivity|].
      rewrite Nat.add_0_r.
      split; [|split; [|split; [exact Hacc1|split; [|exact Hch1]]]].
      * intros a Ha Ho. destruct (Hown1 a) as [Hcells Hview];
          [by apply Hown|].
        split; [|exact Hview]. rewrite <- Hcells. apply cells_ext.
        intros p Hp. apply Hkeep. apply elem_of_grp in Hp as [_ ->]. exact Ho.
      * intros b Hb. apply Hframe1. rewrite Hown. intros [Ho Hin].
        by apply Hb.
      * rewrite Htotal1, Htot0, Z.add_0_l.
        rewrite (pointersOf_groups sender n _ _ groups). fold own.
        f_equal. symmetry. apply paidAll_ext. intros p Hp.
        apply Hkeep. apply list_elem_of_In, in_flat_map in Hp as (a & Ha & Hp).
        apply list_elem_of_In, elem_of_grp in Hp as [_ ->].
        apply list_elem_of_In in Ha. by apply Hown in Ha as [? _].
    + cbn in Hk. destruct (Hrest k ek Hk)
        as (entry' & Hk' & Hcells & Hframe & Hacc & Htotal & Hch).
      exists entry'. split; [exact Hk'|].
      replace (idx + S k)%nat with (S idx + k)%nat by lia.
      split; [|split; [exact Hframe|split; [exact Hacc|split; [exact Htotal|exact Hch]]]].
      intros a Ha Ho. destruct (Hcells a Ha Ho) as [Hc Hv].
      rewrite (soloRun_ext trunk sender n infos infos1 a); [split; assumption|].
      intros p Hp. symmetry. apply Hother1. rewrite Hown. intros [Hidx _].
      rewrite Hp in Hidx. lia.
Qed.

End WorkerCells.

(** ** The preload, exactly *)

Section PreloadExact.
Context `{Collaborators} `{RandSource}.

Lemma senderView_solo trunk a :
  senderView (soloEntry trunk a) a =
  (Some (acc_nonce (default ZeroAccountInfo (worldAccounts trunk !! a))),
   Some (acc_balance (default ZeroAccountInfo (worldAccounts trunk !! a))),
   None).
Proof.
  unfold senderView, soloEntry. cbn [addr2nonce addr2Balance ctx].
  rewrite !lookup_singleton_eq. reflexivity.
Qed.

Lemma loadedFrom_new trunk : loadedFrom trunk newCtxAA.
Proof. intros a Ha. by apply elem_of_nil in Ha. Qed.

(** A sender enters the list of a worker with the nonce and the balance of
    its account in the trunk, and only for an info that passes untagged. *)
Lemma readAccount_loaded e trunk minGasPrice maxTxGasLimit gtx entry :
  preloaded trunk entry -> loadedFrom trunk entry ->
  let r := readAccount e trunk minGasPrice maxTxGasLimit gtx entry in
  loadedFrom trunk r.2 /\
  (forall a, a ∈ accounts r.2 ->
             a ∈ accounts entry \/
             (untagged r.1 = true /\ TxToRun.From (tx r.1) = a)).
Proof.
  intros (Hctx & _) Hloaded. cbn zeta. unfold readAccount.
  destruct (signer e gtx) as [sender err].
  destruct err; [cbn; split; [exact Hloaded|auto]|].
  destruct (negb (IsInt64 (gtx_gasPrice gtx))
            || (gtx_gasPrice gtx <? toInt64 minGasPrice));
    [cbn; split; [exact Hloaded|auto]|].
  destruct (maxTxGasLimit <? gtx_gas gtx); [cbn; split; [exact Hloaded|auto]|].
  destruct (GetAccount trunk (ctx entry) sender) as [acc|] eqn:Eacc;
    [|cbn; split; [exact Hloaded|auto]].
  assert (worldAccounts trunk !! sender = Some acc) as Hworld.
  { unfold GetAccount in Eacc. rewrite Hctx in Eacc. cbn in Eacc.
    rewrite lookup_empty in Eacc. exact Eacc. }
  destruct (addr2nonce entry !! sender) as [n|] eqn:En;
    [cbn; split; [exact Hloaded|auto]|].
  cbn [fst snd]. split.
  - intros a Ha. cbn [accounts] in Ha. rewrite senderView_solo.
    destruct (decide (a = sender)) as [->|Hne].
    + unfold senderView. cbn [addr2nonce addr2Balance ctx].
      rewrite !lookup_insert_eq, Hworld, Hctx. cbn. rewrite lookup_empty.
      reflexivity.
    + apply elem_of_app in Ha as [Ha|Ha%list_elem_of_singleton]; [|contradiction].
      rewrite <- senderView_solo, <- (Hloaded a Ha).
      unfold senderView. cbn [addr2nonce addr2Balance ctx].
      rewrite !lookup_insert_ne by congruence. reflexivity.
  - intros a Ha. cbn [accounts] in Ha.
    apply elem_of_app in Ha as [Ha| ->%list_elem_of_singleton]; [by left|].
    right. split; reflexivity.
Qed.

Lemma readAccounts_loaded claim e trunk minGasPrice maxTxGasLimit txs :
  forall myIdx ctxAA,
    (0 < length ctxAA)%nat ->
    Forall (preloaded trunk) ctxAA ->
    Forall (loadedFrom trunk) ctxAA ->
    let r := readAccounts claim e trunk minGasPrice maxTxGasLimit myIdx txs ctxAA in
    Forall (loadedFrom trunk) r.2 /\
    (forall a, listed r.2 a ->
       listed ctxAA a \/
       exists k info, r.1 !! k = Some info /\ untagged info = true /\
                      TxToRun.From (tx info) = a).
Proof.
  induction txs as [|gtx txs IH]; intros myIdx ctxAA Hpos Hall Hld; cbn zeta.
  - cbn. auto.
  - cbn [readAccounts].
    set (w := (claim myIdx `mod` length ctxAA)%nat).
    assert (Hw : (w < length ctxAA)%nat) by (apply Nat.mod_upper_bound; lia).
    destruct (lookup_lt_is_Some_2 ctxAA w Hw) as [entry Hentry].
    rewrite Hentry. cbn [default from_option id].
    assert (Hpre : preloaded trunk entry)
      by (eapply Forall_lookup_1; eassumption).
    assert (Hle : loadedFrom trunk entry)
      by (eapply (Forall_lookup_1 (loadedFrom trunk)); eassumption).
    pose proof (readAccount_spec e trunk minGasPrice maxTxGasLimit gtx entry Hpre)
      as Hr.
    pose proof (readAccount_loaded e trunk minGasPrice maxTxGasLimit gtx entry
                  Hpre Hle) as Hr'.
    cbn zeta in Hr, Hr'.
    destruct (readAccount e trunk minGasPrice maxTxGasLimit gtx entry)
      as [info entry'].
    cbn [fst snd] in Hr, Hr'. destruct Hr as (Hpre' & _). destruct Hr' as [Hle' Hnew].
    pose proof (IH (S myIdx) (<[w := entry']> ctxAA)) as Hrest. cbn zeta in Hrest.
    destruct (readAccounts claim e trunk minGasPrice maxTxGasLimit (S myIdx) txs
                (<[w := entry']> ctxAA)) as [infos ctxAA'].
    cbn [fst snd] in Hrest |- *.
    destruct Hrest as (Hld' & Hlisted).
    { by rewrite length_insert. }
    { by apply Forall_insert. }
    { by apply Forall_insert. }
    split; [exact Hld'|].
    intros a Ha. destruct (Hlisted a Ha) as [(k & ek & Hk & Hin)|(k & i & Hk & Hu & Hs)].
    + destruct (decide (k = w)) as [->|Hne].
      * rewrite list_lookup_insert_eq in Hk by exact Hw. injection Hk as <-.
        destruct (Hnew a Hin) as [Hold|[Hu Hs]].
        -- left. exists w, entry. split; assumption.
        -- right. exists 0%nat, info. split; [reflexivity|]. split; assumption.
      * rewrite list_lookup_insert_ne in Hk by congruence.
        left. exists k, ek. split; assumption.
    + right. exists (S k), i. split; [exact Hk|]. split; assumption.
Qed.

End PreloadExact.

(** ** What the two parallel sections leave, whoever did the work *)

Lemma cells_omap {A} (l : list A) (ps : list nat) :
  (forall p, p ∈ ps -> is_Some (l !! p)) ->
  (fun p => l !! p) <$> ps = Some <$> omap (fun p => l !! p) ps.
Proof.
  induction ps as [|p ps IH]; intros Hin; [reflexivity|].
  destruct (Hin p ltac:(left)) as [x Hx]. cbn. rewrite Hx. cbn.
  f_equal. apply IH. intros q Hq. apply Hin. by right.
Qed.

Lemma u256_add_r x y : u256 (x + u256 y) = u256 (x + y).
Proof. rewrite Z.add_comm, u256_add_l. f_equal. lia. Qed.

(** The counters of the workers add up, modulo 2^256, to the fees behind
    all their pointers. *)
Lemma totals_mod F (m : gmap Z nat) (g : gmap Z (list nat)) todo :
  forall todo' idx acc,
    length todo' = length todo ->
    (forall k entry, todo !! k = Some entry ->
       exists entry', todo' !! k = Some entry' /\
         totalGasFee entry' =
         u256 (paidAll F (pointersOf m g (idx + k) (accounts entry)))) ->
    fold_left (fun acc entry => u256 (acc + totalGasFee entry)) todo' (u256 acc) =
    u256 (acc + paidAll F (workersPointers m g idx todo)).
Proof.
  induction todo as [|entry rest IH]; intros todo' idx acc Hlen Hk.
  - destruct todo'; [|discriminate]. cbn. unfold paidAll, sumZ. cbn.
    f_equal. lia.
  - destruct todo' as [|entry' rest']; [discriminate|].
    cbn [workersPointers fold_left]. rewrite paidAll_app.
    destruct (Hk 0%nat entry eq_refl) as (entry0 & Hentry0 & Htotal).
    cbn in Hentry0. injection Hentry0 as <-.
    rewrite Nat.add_0_r in Htotal.
    rewrite Htotal, u256_add_l, u256_add_r.
    rewrite (IH rest' (S idx)).
    + f_equal. lia.
    + cbn in Hlen. lia.
    + intros k x Hx. destruct (Hk (S k) x Hx) as (x' & Hx' & Ht).
      exists x'. split; [exact Hx'|].
      replace (S idx + k)%nat with (idx + S k)%nat by lia. exact Ht.
Qed.

Section PhaseCanonical.
Context `{Collaborators} `{RandSource}.
Variables (claim : nat -> nat) (e : txEngine) (trunk : Trunk).
Variables (seed minGasPrice maxTxGasLimit : Z).
Hypothesis workers : 0 < parallelNum e.

#[local] Abbreviation infos0 :=
  (parallelReadAccounts claim e trunk minGasPrice maxTxGasLimit).1.
#[local] Abbreviation ctxAA0 :=
  (parallelReadAccounts claim e trunk minGasPrice maxTxGasLimit).2.
#[local] Abbreviation a2i := (mapWorkers 0 ctxAA0 ∅).
#[local] Abbreviation a2p :=
  (reorderInfoList (senderOf infos0) (seq 0 (length infos0)) seed).2.
#[local] Abbreviation done :=
  (deductWorkers trunk a2i a2p 0 ctxAA0 infos0).
#[local] Abbreviation all := (seq 0 (length infos0)).
#[local] Abbreviation alone a :=
  (soloRun trunk (senderOf infos0) (length infos0) infos0 a).

Lemma canon_wf : sendersAre (senderOf infos0) (length infos0) infos0.
Proof.
  split; [reflexivity|]. intros p info Hp. unfold senderOf. rewrite Hp.
  reflexivity.
Qed.

Lemma canon_preload :
  Forall (loadedFrom trunk) ctxAA0 /\
  (forall a, listed ctxAA0 a ->
     exists k info, infos0 !! k = Some info /\ untagged info = true /\
                    TxToRun.From (tx info) = a).
Proof.
  unfold parallelReadAccounts.
  pose proof (readAccounts_loaded claim e trunk minGasPrice maxTxGasLimit
                (txList e) 0
                (replicate (Z.to_nat (parallelNum e)) newCtxAA)) as Hr.
  cbn zeta in Hr. destruct Hr as [Hld Hlisted].
  { rewrite length_replicate. lia. }
  { apply Forall_replicate, preloaded_new. }
  { apply Forall_replicate, loadedFrom_new. }
  split; [exact Hld|]. intros a Ha.
  destruct (Hlisted a Ha) as [(w & entry & Hw & Hin)|Hinfo]; [|exact Hinfo].
  apply lookup_replicate in Hw as [-> _]. by apply elem_of_nil in Hin.
Qed.

Lemma canon_ready :
  Forall (fun entry => NoDup (accounts entry) /\ loadedFrom trunk entry /\
                       totalGasFee entry = 0 /\ cache (ctx entry) = ∅) ctxAA0.
Proof.
  apply Forall_lookup. intros k entry Hk.
  destruct (phase_preloaded claim e trunk minGasPrice maxTxGasLimit workers
              k entry Hk) as (Hctx & _ & Htot & Hnd & _).
  destruct canon_preload as [Hld _].
  split; [exact Hnd|]. split; [eapply (Forall_lookup_1 (loadedFrom trunk)); eassumption|].
  split; [exact Htot|]. rewrite Hctx. reflexivity.
Qed.

(** An unlisted sender has tagged infos only. *)
Lemma canon_unlisted a p info :
  a2i !! a = None -> infos0 !! p = Some info -> TxToRun.From (tx info) = a ->
  untagged info = false.
Proof.
  intros Hnone Hp Hfrom. destruct (untagged info) eqn:Hu; [|reflexivity].
  destruct (phase_preload claim e trunk minGasPrice maxTxGasLimit workers)
    as (Hlen & _ & Hinfos).
  destruct (lookup_lt_is_Some_2 (txList e) p) as [gtx Hgtx].
  { rewrite <- Hlen. eapply lookup_lt_Some; eassumption. }
  destruct (Hinfos p gtx Hgtx) as (info' & Hp' & _ & Hl).
  assert (info' = info) as -> by congruence.
  destruct (Hl Hu) as [Hlisted _]. rewrite Hfrom in Hlisted.
  destruct (phase_map claim e trunk minGasPrice maxTxGasLimit) as [_ Hsome].
  destruct (Hsome a Hlisted) as [k Hk]. congruence.
Qed.

Lemma canon_alone_unlisted a :
  a2i !! a = None ->
  alone a = (omap (fun p => infos0 !! p)
                  (groupOf (senderOf infos0) all a), soloEntry trunk a).
Proof.
  intros Hnone. unfold soloRun. apply runGroup_tagged.
  apply Forall_forall. intros info Hin.
  apply list_elem_of_omap in Hin as (p & Hp & Hinfo).
  apply (canon_unlisted a p info Hnone Hinfo).
  apply elem_of_grp in Hp as [_ <-]. unfold senderOf. rewrite Hinfo. reflexivity.
Qed.

Lemma canon_workers :
  sendersAre (senderOf infos0) (length infos0) done.1 /\
  length done.2 = length ctxAA0 /\
  (forall q,
     (forall k entry, ctxAA0 !! k = Some entry ->
                      senderOf infos0 q ∈ accounts entry ->
                      default 0%nat (a2i !! senderOf infos0 q) <> k) ->
     done.1 !! q = infos0 !! q) /\
  (forall k entry, ctxAA0 !! k = Some entry ->
     exists entry', done.2 !! k = Some entry' /\
       (forall a, a ∈ accounts entry -> default 0%nat (a2i !! a) = k ->
          (fun p => done.1 !! p) <$> groupOf (senderOf infos0) all a =
            Some <$> (alone a).1 /\
          senderView entry' a = senderView (alone a).2 a) /\
       (forall b, (b ∈ accounts entry -> default 0%nat (a2i !! b) <> k) ->
                  senderView entry' b = senderView entry b) /\
       accounts entry' = accounts entry /\
       totalGasFee entry' =
         u256 (paidAll done.1 (pointersOf a2i a2p k (accounts entry))) /\
       (changed entry' = true \/ cache (ctx entry') = ∅)).
Proof.
  exact (deductWorkers_cells trunk (senderOf infos0) (length infos0) a2i a2p
           (phase_groups claim e trunk seed minGasPrice maxTxGasLimit)
           ctxAA0 0%nat infos0 canon_wf canon_ready).
Qed.

Lemma canon_unowned k entry a :
  ctxAA0 !! k = Some entry -> a2i !! a <> Some k ->
  a ∈ accounts entry -> default 0%nat (a2i !! a) <> k.
Proof.
  intros Hk Hne Hin.
  destruct (phase_map claim e trunk minGasPrice maxTxGasLimit) as [_ Hsome].
  destruct (Hsome a) as [j Hj]; [exists k, entry; split; assumption|].
  rewrite Hj. cbn. congruence.
Qed.

(** The infos of every sender come out as when the deductor runs that
    sender alone. *)
Lemma canon_cells a :
  (fun p => done.1 !! p) <$> groupOf (senderOf infos0) all a =
  Some <$> (alone a).1.
Proof.
  destruct canon_workers as (_ & _ & Hother & Hworkers).
  destruct (a2i !! a) as [k|] eqn:Hk.
  - destruct (phase_map claim e trunk minGasPrice maxTxGasLimit) as [Hmap _].
    destruct (Hmap a k Hk) as (entry & Hentry & Hin).
    destruct (Hworkers k entry Hentry) as (entry' & _ & Hcells & _).
    apply Hcells; [exact Hin|]. rewrite Hk. reflexivity.
  - rewrite (canon_alone_unlisted a Hk). cbn [fst].
    rewrite <- cells_omap.
    + apply cells_ext. intros p Hp. apply Hother. intros k entry Hentry.
      apply elem_of_grp in Hp as [_ ->].
      apply (canon_unowned k entry a Hentry). congruence.
    + intros p Hp. apply lookup_lt_is_Some_2.
      by apply elem_of_grp in Hp as [? _].
Qed.

Lemma canon_infos_length : length done.1 = length infos0.
Proof. destruct canon_workers as ([Hlen _] & _). exact Hlen. Qed.

(** The owner of a sender holds of it what the deductor leaves when it runs
    the sender alone. *)
Lemma canon_view a k :
  a2i !! a = Some k ->
  exists entry', done.2 !! k = Some entry' /\
                 senderView entry' a = senderView (alone a).2 a.
Proof.
  intros Hk. destruct canon_workers as (_ & _ & _ & Hworkers).
  destruct (phase_map claim e trunk minGasPrice maxTxGasLimit) as [Hmap _].
  destruct (Hmap a k Hk) as (entry & Hentry & Hin).
  destruct (Hworkers k entry Hentry) as (entry' & Hentry' & Hcells & _).
  exists entry'. split; [exact Hentry'|].
  apply Hcells; [exact Hin|]. rewrite Hk. reflexivity.
Qed.

Lemma canon_entry_after k entry' :
  done.2 !! k = Some entry' ->
  exists entry, ctxAA0 !! k = Some entry /\
    (forall b, (b ∈ accounts entry -> default 0%nat (a2i !! b) <> k) ->
               senderView entry' b = senderView entry b) /\
    totalGasFee entry' =
      u256 (paidAll done.1 (pointersOf a2i a2p k (accounts entry))) /\
    (changed entry' = true \/ cache (ctx entry') = ∅).
Proof.
  intros Hk'. destruct canon_workers as (_ & Hlen & _ & Hworkers).
  destruct (lookup_lt_is_Some_2 ctxAA0 k) as [entry Hk].
  { rewrite <- Hlen. eapply lookup_lt_Some; eauto. }
  destruct (Hworkers k entry Hk) as (entry'' & Hk'' & _ & Hframe & _ & Htot & Hch).
  assert (entry'' = entry') as -> by congruence.
  exists entry. auto.
Qed.

Lemma canon_cache_other k entry' a :
  done.2 !! k = Some entry' -> a2i !! a <> Some k ->
  cache (ctx entry') !! a = None.
Proof.
  intros Hk' Hne.
  destruct (canon_entry_after k entry' Hk') as (entry & Hk & Hframe & _).
  specialize (Hframe a (canon_unowned k entry a Hk Hne)).
  unfold senderView in Hframe. injection Hframe as _ _ ->.
  pose proof canon_ready as Hready. rewrite Forall_lookup in Hready.
  destruct (Hready k entry Hk) as (_ & _ & _ & ->). apply lookup_empty.
Qed.

(** The accounts after the contexts of the workers are written back. *)
Lemma canon_accounts a :
  worldAccounts (closeAll trunk done.2) !! a =
  match cache (ctx (alone a).2) !! a with
  | Some v => Some v
  | None => worldAccounts trunk !! a
  end.
Proof.
  rewrite closeAll_lookup.
  2:{ apply Forall_lookup. intros k entry' Hk'.
      by destruct (canon_entry_after k entry' Hk') as (_ & _ & _ & _ & ?). }
  destruct (a2i !! a) as [k|] eqn:Hk.
  - destruct (canon_view a k Hk) as (entry' & Hk' & Hview).
    rewrite (fold_pick_one _ _ _ k entry' Hk').
    2:{ intros j y Hj Hne. apply (canon_cache_other j y a Hj). congruence. }
    unfold senderView in Hview. injection Hview as _ _ ->. reflexivity.
  - rewrite fold_pick_none.
    2:{ intros y Hy. apply list_elem_of_lookup in Hy as [j Hj].
        apply (canon_cache_other j y a Hj). congruence. }
    rewrite (canon_alone_unlisted a Hk). cbn. rewrite lookup_empty. reflexivity.
Qed.

Lemma canon_all_pointers :
  paidAll done.1 (workersPointers a2i a2p 0 ctxAA0) = paidAll done.1 all.
Proof.
  pose proof (phase_NoDup_accounts claim e trunk minGasPrice maxTxGasLimit
                workers) as Hnd.
  pose proof (phase_groups claim e trunk seed minGasPrice maxTxGasLimit) as Hg.
  unfold paidAll. apply sumZ_map_subset.
  - apply (NoDup_workersPointers (senderOf infos0) (length infos0) a2i a2p
             Hg), Hnd.
  - apply NoDup_seq.
  - intros p Hp.
    apply (elem_of_workersPointers (senderOf infos0) (length infos0) a2i a2p
             Hg ctxAA0 Hnd) in Hp as [Hlt _].
    apply elem_of_seq. lia.
  - intros p Hp Hout. apply elem_of_seq in Hp.
    destruct canon_workers as (_ & _ & Hother & _).
    unfold feePaid. rewrite Hother.
    + destruct (infos0 !! p) as [info|] eqn:Hinfo; [|reflexivity].
      destruct (untagged info) eqn:Hu; [|reflexivity].
      destruct (a2i !! TxToRun.From (tx info)) as [k|] eqn:Hk.
      * destruct Hout.
        apply (elem_of_workersPointers (senderOf infos0) (length infos0) a2i a2p
                 Hg ctxAA0 Hnd).
        split; [lia|].
        destruct (phase_map claim e trunk minGasPrice maxTxGasLimit) as [Hmap _].
        destruct (Hmap _ k Hk) as (entry & Hentry & Hin).
        exists k, entry. unfold senderOf. rewrite Hinfo. cbn [default from_option id].
        rewrite Hk. auto.
      * rewrite (canon_unlisted _ p info Hk Hinfo eq_refl) in Hu. discriminate.
    + intros k entry Hentry Hin Howner. apply Hout.
      apply (elem_of_workersPointers (senderOf infos0) (length infos0) a2i a2p
               Hg ctxAA0 Hnd).
      split; [lia|]. exists k, entry. auto.
Qed.

(** The fees of all workers together. *)
Lemma canon_total :
  fold_left (fun acc entry => u256 (acc + totalGasFee entry)) done.2 0 =
  u256 (paidAll done.1 all).
Proof.
  destruct canon_workers as (_ & Hlen & _ & Hworkers).
  change 0 with (u256 0) at 1.
  rewrite (totals_mod done.1 a2i a2p ctxAA0 done.2 0%nat 0 Hlen).
  - rewrite canon_all_pointers. f_equal.
  - intros k entry Hk.
    destruct (Hworkers k entry Hk) as (entry' & Hk' & _ & _ & _ & Htot & _).
    exists entry'. auto.
Qed.

(** The senders the frontier knows are those with an untagged info. *)
Lemma canon_mapped a :
  is_Some (a2i !! a) <->
  Exists (fun info => untagged info = true /\ TxToRun.From (tx info) = a) infos0.
Proof.
  rewrite Exists_exists. split.
  - intros [k Hk].
    destruct (phase_map claim e trunk minGasPrice maxTxGasLimit) as [Hmap _].
    destruct (Hmap a k Hk) as (entry & Hentry & Hin).
    destruct canon_preload as [_ Hlisted].
    destruct (Hlisted a) as (p & info & Hp & Hu & Hfrom);
      [exists k, entry; split; assumption|].
    exists info. split; [|split; assumption].
    eapply list_elem_of_lookup_2; eassumption.
  - intros (info & Hin & Hu & Hfrom).
    apply list_elem_of_lookup_1 in Hin as [p Hp].
    destruct (a2i !! a) as [k|] eqn:Hk; [eauto|].
    rewrite (canon_unlisted a p info Hk Hp Hfrom) in Hu. discriminate.
Qed.

(** What the frontier is built from, for one sender. *)
Lemma canon_known a :
  (a2i !! a ≫= fun idx =>
     entry ← done.2 !! idx;
     nonce ← addr2nonce entry !! a;
     Some (nonce, default 0 (addr2Balance entry !! a))) =
  if bool_decide (Exists (fun info => untagged info = true /\
                                      TxToRun.From (tx info) = a) infos0)
  then nonce ← addr2nonce (alone a).2 !! a;
       Some (nonce, default 0 (addr2Balance (alone a).2 !! a))
  else None.
Proof.
  destruct (a2i !! a) as [k|] eqn:Hk; cbn [mbind option_bind].
  - rewrite bool_decide_eq_true_2 by (apply canon_mapped; rewrite Hk; eauto).
    destruct (canon_view a k Hk) as (entry' & -> & Hview).
    cbn [mbind option_bind]. unfold senderView in Hview.
    injection Hview as -> -> _. reflexivity.
  - rewrite bool_decide_eq_false_2; [reflexivity|].
    intros Hex. apply canon_mapped in Hex. rewrite Hk in Hex. by destruct Hex.
Qed.

(** The outcome of the two sections in terms of the infos of the preload
    alone. *)
Lemma canon_summary I :
  infos0 = I ->
  length done.1 = length I /\
  (forall a,
     (fun p => done.1 !! p) <$> groupOf (senderOf I) (seq 0 (length I)) a =
     Some <$> (soloRun trunk (senderOf I) (length I) I a).1) /\
  (forall a,
     worldAccounts (closeAll trunk done.2) !! a =
     match cache (ctx (soloRun trunk (senderOf I) (length I) I a).2) !! a with
     | Some v => Some v
     | None => worldAccounts trunk !! a
     end) /\
  fold_left (fun acc entry => u256 (acc + totalGasFee entry)) done.2 0 =
    u256 (paidAll done.1 (seq 0 (length I))) /\
  (forall a,
     (a2i !! a ≫= fun idx =>
        entry ← done.2 !! idx;
        nonce ← addr2nonce entry !! a;
        Some (nonce, default 0 (addr2Balance entry !! a))) =
     if bool_decide (Exists (fun info => untagged info = true /\
                                         TxToRun.From (tx info) = a) I)
     then nonce ← addr2nonce (soloRun trunk (senderOf I) (length I) I a).2 !! a;
          Some (nonce,
                default 0 (addr2Balance
                             (soloRun trunk (senderOf I) (length I) I a).2 !! a))
     else None).
Proof.
  intros <-. split; [exact canon_infos_length|]. split; [exact canon_cells|].
  split; [exact canon_accounts|]. split; [exact canon_total|exact canon_known].
Qed.

End PhaseCanonical.

(** ** Two runs of Prepare on the same transactions *)

Lemma cells_determine (sender : nat -> Address) (n : nat)
      (F1 F2 : list preparedInfo) :
  length F1 = n -> length F2 = n ->
  (forall a, (fun p => F1 !! p) <$> groupOf sender (seq 0 n) a =
             (fun p => F2 !! p) <$> groupOf sender (seq 0 n) a) ->
  F1 = F2.
Proof.
  intros H1 H2 Hcells. apply list_eq. intros p.
  destruct (decide (p < n)%nat) as [Hlt|Hge].
  - assert (p ∈ groupOf sender (seq 0 n) (sender p)) as Hin
      by (apply elem_of_grp; auto).
    apply list_elem_of_lookup_1 in Hin as [i Hi].
    pose proof (f_equal (fun l => l !! i) (Hcells (sender p))) as Hcell.
    cbn in Hcell. rewrite !list_lookup_fmap, Hi in Hcell. cbn in Hcell.
    congruence.
  - rewrite !lookup_ge_None_2 by lia. reflexivity.
Qed.

Lemma trunk_eq (t1 t2 : Trunk) :
  worldAccounts t1 = worldAccounts t2 -> standbyCtl t1 = standbyCtl t2 ->
  standbySlots t1 = standbySlots t2 -> t1 = t2.
Proof. destruct t1, t2. cbn. congruence. Qed.

Lemma bind_fmap_known {A B} (o : option nat) (known : nat -> option A)
      (f : A -> B) :
  (o ≫= fun idx => f <$> known idx) = f <$> (o ≫= known).
Proof. destruct o; reflexivity. Qed.

Section PrepareRace.
Context `{Collaborators} `{RandSource}.
Variables (claim1 claim2 : nat -> nat) (e1 e2 : txEngine) (trunk : Trunk).
Variables (seed minGasPrice maxTxGasLimit : Z).
Hypothesis workers1 : 0 < parallelNum e1.
Hypothesis workers2 : 0 < parallelNum e2.
Hypothesis sameList : txList e2 = txList e1.
Hypothesis sameSigner : signer e2 = signer e1.
Hypothesis sameBlock : currentBlock e2 = currentBlock e1.

#[local] Abbreviation I1 :=
  (parallelReadAccounts claim1 e1 trunk minGasPrice maxTxGasLimit).1.

Lemma race_preload :
  (parallelReadAccounts claim2 e2 trunk minGasPrice maxTxGasLimit).1 = I1.
Proof.
  rewrite !parallelReadAccounts_infos by assumption. rewrite sameList.
  apply map_ext. intros gtx. apply classify_engine; assumption.
Qed.

Lemma race_infos :
  preparedInfos claim2 e2 trunk seed minGasPrice maxTxGasLimit =
  preparedInfos claim1 e1 trunk seed minGasPrice maxTxGasLimit.
Proof.
  unfold preparedInfos. rewrite !deductPhase_eq. cbn [fst snd].
  destruct (canon_summary claim1 e1 trunk seed minGasPrice maxTxGasLimit
              workers1 I1 eq_refl) as (L1 & C1 & _).
  destruct (canon_summary claim2 e2 trunk seed minGasPrice maxTxGasLimit
              workers2 I1 race_preload) as (L2 & C2 & _).
  apply (cells_determine (senderOf I1) (length I1)); [exact L2|exact L1|].
  intros a. rewrite C1, C2. reflexivity.
Qed.

Lemma race_reordered :
  reorderedInfos claim2 e2 trunk seed minGasPrice maxTxGasLimit =
  reorderedInfos claim1 e1 trunk seed minGasPrice maxTxGasLimit.
Proof.
  unfold reorderedInfos. rewrite race_infos.
  rewrite !deductPhase_eq. cbn [fst snd]. rewrite race_preload. reflexivity.
Qed.

Lemma race_closed :
  closeAll trunk (workerEntries claim2 e2 trunk seed minGasPrice maxTxGasLimit) =
  closeAll trunk (workerEntries claim1 e1 trunk seed minGasPrice maxTxGasLimit).
Proof.
  destruct (closeAll_queue
              (workerEntries claim1 e1 trunk seed minGasPrice maxTxGasLimit) trunk)
    as [Q1 S1].
  destruct (closeAll_queue
              (workerEntries claim2 e2 trunk seed minGasPrice maxTxGasLimit) trunk)
    as [Q2 S2].
  apply trunk_eq; [|congruence|congruence].
  apply map_eq. intros a. unfold workerEntries. rewrite !deductPhase_eq.
  cbn [fst snd].
  destruct (canon_summary claim1 e1 trunk seed minGasPrice maxTxGasLimit
              workers1 I1 eq_refl) as (_ & _ & A1 & _).
  destruct (canon_summary claim2 e2 trunk seed minGasPrice maxTxGasLimit
              workers2 I1 race_preload) as (_ & _ & A2 & _).
  rewrite A1, A2. reflexivity.
Qed.

Lemma race_total :
  fold_left (fun acc entry => u256 (acc + totalGasFee entry))
    (workerEntries claim2 e2 trunk seed minGasPrice maxTxGasLimit) 0 =
  fold_left (fun acc entry => u256 (acc + totalGasFee entry))
    (workerEntries claim1 e1 trunk seed minGasPrice maxTxGasLimit) 0.
Proof.
  pose proof race_infos as Hinfos. unfold preparedInfos in Hinfos.
  unfold workerEntries. rewrite !deductPhase_eq in *. cbn [fst snd] in *.
  destruct (canon_summary claim1 e1 trunk seed minGasPrice maxTxGasLimit
              workers1 I1 eq_refl) as (_ & _ & _ & T1 & _).
  destruct (canon_summary claim2 e2 trunk seed minGasPrice maxTxGasLimit
              workers2 I1 race_preload) as (_ & _ & _ & T2 & _).
  rewrite T1, T2, Hinfos. reflexivity.
Qed.

Lemma race_settled :
  settleFees trunk (workerEntries claim2 e2 trunk seed minGasPrice maxTxGasLimit) =
  settleFees trunk (workerEntries claim1 e1 trunk seed minGasPrice maxTxGasLimit).
Proof.
  unfold settleFees. fold (closeAll trunk
    (workerEntries claim2 e2 trunk seed minGasPrice maxTxGasLimit)).
  fold (closeAll trunk
    (workerEntries claim1 e1 trunk seed minGasPrice maxTxGasLimit)).
  rewrite race_closed, race_total. reflexivity.
Qed.

Lemma race_frontier :
  NewFrontierWithCtxAA
    (workerEntries claim2 e2 trunk seed minGasPrice maxTxGasLimit)
    (deductPhase claim2 e2 trunk seed minGasPrice maxTxGasLimit).2 =
  NewFrontierWithCtxAA
    (workerEntries claim1 e1 trunk seed minGasPrice maxTxGasLimit)
    (deductPhase claim1 e1 trunk seed minGasPrice maxTxGasLimit).2.
Proof.
  unfold workerEntries. rewrite !deductPhase_eq. cbn [fst snd].
  destruct (canon_summary claim1 e1 trunk seed minGasPrice maxTxGasLimit
              workers1 I1 eq_refl) as (_ & _ & _ & _ & K1).
  destruct (canon_summary claim2 e2 trunk seed minGasPrice maxTxGasLimit
              workers2 I1 race_preload) as (_ & _ & _ & _ & K2).
  unfold NewFrontierWithCtxAA. cbn zeta.
  f_equal. f_equal; f_equal; apply map_eq; intros a; rewrite !map_lookup_imap;
    rewrite !bind_fmap_known, K1, K2; reflexivity.
Qed.

End PrepareRace.

Section PrepareRaceClaim.
Context `{Collaborators} `{RandSource}.

(** X16. The result of Prepare does not depend on how the race for the
    transactions of the first parallel section turns out: whichever worker
    claims which transaction, Prepare returns the same engine and the same
    frontier, or faults alike. *)
Theorem Prepare_ignores_the_race claim1 claim2 e seed minGasPrice maxTxGasLimit :
  Prepare claim1 e seed minGasPrice maxTxGasLimit =
  Prepare claim2 e seed minGasPrice maxTxGasLimit.
Proof.
  destruct (cleanCtx e) as [trunk|] eqn:Hctx.
  2:{ unfold Prepare. rewrite Hctx. reflexivity. }
  destruct (txList e) as [|gtx rest] eqn:Hlist.
  { unfold Prepare. rewrite Hctx, Hlist. reflexivity. }
  destruct (Z.ltb_spec 0 (parallelNum e)) as [Hpos|Hneg].
  2:{ unfold Prepare. rewrite Hctx, Hlist. cbn.
      destruct (parallelNum e =? 0) eqn:Hzero; [reflexivity|].
      apply Z.eqb_neq in Hzero.
      assert ((parallelNum e <? 0) = true) as -> by lia. reflexivity. }
  destruct (readQueueEnd trunk) as [[bz q]|msg] eqn:Hq.
  2:{ unfold Prepare. rewrite Hctx, Hlist. cbn.
      assert ((parallelNum e =? 0) = false) as -> by lia.
      assert ((parallelNum e <? 0) = false) as -> by lia.
      rewrite Hq. reflexivity. }
  assert (txList e <> []) as Hne by (rewrite Hlist; discriminate).
  rewrite (Prepare_run claim1 e trunk seed minGasPrice maxTxGasLimit bz q
             Hctx Hne Hpos Hq).
  rewrite (Prepare_run claim2 e trunk seed minGasPrice maxTxGasLimit bz q
             Hctx Hne Hpos Hq).
  rewrite (race_settled claim2 claim1 e e trunk seed minGasPrice maxTxGasLimit
             Hpos Hpos eq_refl eq_refl eq_refl).
  rewrite (race_reordered claim2 claim1 e e trunk seed minGasPrice maxTxGasLimit
             Hpos Hpos eq_refl eq_refl eq_refl).
  rewrite (race_frontier claim2 claim1 e e trunk seed minGasPrice maxTxGasLimit
             Hpos Hpos eq_refl eq_refl eq_refl).
  reflexivity.
Qed.

Lemma recordInvalidTx_fold_workers n l :
  forall e,
    fold_left recordInvalidTx l (setParallelNum e n) =
    setParallelNum (fold_left recordInvalidTx l e) n.
Proof.
  induction l as [|info l IH]; intros e; [reflexivity|].
  cbn [fold_left]. rewrite <- IH. reflexivity.
Qed.

Lemma insertToStandbyTxQ_workers n e trunk l bz q :
  insertToStandbyTxQ (setParallelNum e n) trunk l bz q =
  setParallelNum (insertToStandbyTxQ e trunk l bz q) n.
Proof.
  unfold insertToStandbyTxQ. rewrite !insertOne_fold.
  rewrite recordInvalidTx_fold_workers. reflexivity.
Qed.

(** X17. The result of Prepare does not depend on the number of workers it
    is configured with: with any positive number of workers, and however
    they share the transactions, Prepare returns the same frontier and the
    same engine, the configured number apart, or faults alike. *)
Theorem Prepare_ignores_the_number_of_workers
        claim1 claim2 e n seed minGasPrice maxTxGasLimit :
  0 < parallelNum e -> 0 < n ->
  Prepare claim2 (setParallelNum e n) seed minGasPrice maxTxGasLimit =
  match Prepare claim1 e seed minGasPrice maxTxGasLimit with
  | Ok (e', fr) => Ok (setParallelNum e' n, fr)
  | Panic msg => Panic msg
  end.
Proof.
  intros Hpos Hn.
  destruct (cleanCtx e) as [trunk|] eqn:Hctx.
  2:{ unfold Prepare. cbn [cleanCtx setParallelNum]. rewrite Hctx. reflexivity. }
  destruct (txList e) as [|gtx rest] eqn:Hlist.
  { unfold Prepare. cbn [cleanCtx txList setParallelNum].
    rewrite Hctx, Hlist. reflexivity. }
  destruct (readQueueEnd trunk) as [[bz q]|msg] eqn:Hq.
  2:{ unfold Prepare. cbn [cleanCtx txList parallelNum setParallelNum].
      rewrite Hctx, Hlist. cbn.
      assert ((parallelNum e =? 0) = false) as -> by lia.
      assert ((parallelNum e <? 0) = false) as -> by lia.
      assert ((n =? 0) = false) as -> by lia.
      assert ((n <? 0) = false) as -> by lia.
      rewrite Hq. reflexivity. }
  assert (txList e <> []) as Hne by (rewrite Hlist; discriminate).
  rewrite (Prepare_run claim1 e trunk seed minGasPrice maxTxGasLimit bz q
             Hctx Hne Hpos Hq).
  rewrite (Prepare_run claim2 (setParallelNum e n) trunk seed minGasPrice
             maxTxGasLimit bz q Hctx Hne Hn Hq).
  rewrite (race_settled claim1 claim2 e (setParallelNum e n) trunk seed
             minGasPrice maxTxGasLimit Hpos Hn eq_refl eq_refl eq_refl).
  rewrite (race_reordered claim1 claim2 e (setParallelNum e n) trunk seed
             minGasPrice maxTxGasLimit Hpos Hn eq_refl eq_refl eq_refl).
  rewrite (race_frontier claim1 claim2 e (setParallelNum e n) trunk seed
             minGasPrice maxTxGasLimit Hpos Hn eq_refl eq_refl eq_refl).
  rewrite insertToStandbyTxQ_workers. reflexivity.
Qed.

End PrepareRaceClaim.

Lemma Prepare_ignores_the_number_of_workers_witness :
  0 < parallelNum prepEngine /\ 0 < 7 /\
  Prepare (fun _ => 0%nat) (setParallelNum prepEngine 7) 42 1 DefaultTxGasLimit =
  match Prepare (fun i => i) prepEngine 42 1 DefaultTxGasLimit with
  | Ok (e', fr) => Ok (setParallelNum e' 7, fr)
  | Panic msg => Panic msg
  end.
Proof.
  assert (0 < parallelNum prepEngine) as Hpos by (cbn; lia).
  assert (0 < 7) as Hn by lia.
  split; [exact Hpos|]. split; [exact Hn|].
  exact (Prepare_ignores_the_number_of_workers
           (fun i => i) (fun _ => 0%nat) prepEngine 7 42 1 DefaultTxGasLimit
           Hpos Hn).
Defined.

(** ** The nonces Prepare lets through *)

Section NonceOrder.
Context `{Collaborators} `{RandSource}.

Lemma classify_passed e trunk minGasPrice maxTxGasLimit gtx :
  passedNonce (classify e trunk minGasPrice maxTxGasLimit gtx) =
  untagged (classify e trunk minGasPrice maxTxGasLimit gtx).
Proof.
  unfold classify, readAccount.
  destruct (signer e gtx) as [sender err].
  destruct err; [reflexivity|].
  destruct (negb (IsInt64 (gtx_gasPrice gtx))
            || (gtx_gasPrice gtx <? toInt64 minGasPrice)); [reflexivity|].
  destruct (maxTxGasLimit <? gtx_gas gtx); [reflexivity|].
  destruct (GetAccount trunk (ctx newCtxAA) sender); [|reflexivity].
  destruct (addr2nonce newCtxAA !! sender); reflexivity.
Qed.

Lemma bumped_succ k n : bumped (S k) n = bumped k (u64 (n + 1)).
Proof. unfold bumped. rewrite Nat.iter_succ_r. reflexivity. Qed.

Lemma bumped_small k n :
  0 <= n -> n + Z.of_nat k < 2 ^ 64 -> bumped k n = n + Z.of_nat k.
Proof.
  revert n. induction k as [|k IH]; intros n Hn Hk.
  - cbn. lia.
  - rewrite bumped_succ, u64_small by lia. rewrite IH by lia. lia.
Qed.

(** One sender's infos through the deductor: those that pass the nonce
    check carry the cached nonce and its successors, one after the other,
    and the cached nonce ends that many steps further. *)
Lemma runGroup_nonces trunk s l :
  forall entry n,
    Forall (fun info => TxToRun.From (tx info) = s) l ->
    Forall (fun info => passedNonce info = untagged info) l ->
    addr2nonce entry !! s = Some n ->
    let r := runGroup trunk l entry in
    let mine := filter (fun info => passedNonce info = true) r.1 in
    map (fun info => TxToRun.Nonce (tx info)) mine =
      map (fun j => bumped j n) (seq 0 (length mine)) /\
    addr2nonce r.2 !! s = Some (bumped (length mine) n).
Proof.
  induction l as [|info l IH]; intros entry n Hfrom Hpre Hn; cbn zeta.
  - cbn. split; [reflexivity|exact Hn].
  - apply Forall_cons in Hfrom as [Hs Hfrom].
    apply Forall_cons in Hpre as [Hp Hpre].
    cbn [runGroup]. rewrite deductOne_outcomes. cbn zeta.
    rewrite Hs, Hn. cbn [default from_option id].
    assert (forall entry1 info1,
              passedNonce info1 = false -> addr2nonce entry1 !! s = Some n ->
              let r := runGroup trunk l entry1 in
              let mine := filter (fun i => passedNonce i = true) (info1 :: r.1) in
              map (fun i => TxToRun.Nonce (tx i)) mine =
                map (fun j => bumped j n) (seq 0 (length mine)) /\
              addr2nonce r.2 !! s = Some (bumped (length mine) n)) as Hskip.
    { intros entry1 info1 Hno Hn1. cbn zeta.
      rewrite filter_cons_False by (rewrite Hno; discriminate).
      exact (IH entry1 n Hfrom Hpre Hn1). }
    assert (forall entry1 info1,
              passedNonce info1 = true -> TxToRun.Nonce (tx info1) = n ->
              addr2nonce entry1 !! s = Some (u64 (n + 1)) ->
              let r := runGroup trunk l entry1 in
              let mine := filter (fun i => passedNonce i = true) (info1 :: r.1) in
              map (fun i => TxToRun.Nonce (tx i)) mine =
                map (fun j => bumped j n) (seq 0 (length mine)) /\
              addr2nonce r.2 !! s = Some (bumped (length mine) n)) as Htake.
    { intros entry1 info1 Hyes Hnonce Hn1. cbn zeta.
      rewrite filter_cons_True by exact Hyes.
      destruct (IH entry1 (u64 (n + 1)) Hfrom Hpre Hn1) as [IHn IHe].
      cbn zeta in IHn, IHe. cbn [length seq map]. split.
      - f_equal; [exact Hnonce|]. rewrite IHn, <- seq_shift, map_map.
        apply map_ext. intros j. symmetry. apply bumped_succ.
      - rewrite IHe, bumped_succ. reflexivity. }
    destruct (untagged info) eqn:Hu; cbn [negb].
    2:{ specialize (Hskip entry info Hp Hn). cbn zeta in Hskip.
        destruct (runGroup trunk l entry) as [out entry']. exact Hskip. }
    destruct (n =? TxToRun.Nonce (tx info)) eqn:Heq; cbn [negb].
    2:{ specialize (Hskip entry (setErrorStr info "incorrect nonce")
                          eq_refl Hn).
        cbn zeta in Hskip.
        destruct (runGroup trunk l entry) as [out entry']. exact Hskip. }
    apply Z.eqb_eq in Heq.
    destruct (_ <? _).
    + match goal with
      | |- context [runGroup trunk l ?e1] =>
          specialize (Htake e1
                        (setErrorStr info "not enough balance to pay gasfee")
                        eq_refl (eq_sym Heq));
          destruct (runGroup trunk l e1) as [out entry']
      end.
      apply Htake. cbn [addr2nonce setBalance setCtx setNonce].
      apply lookup_insert_eq.
    + match goal with
      | |- context [runGroup trunk l ?e1] =>
          specialize (Htake e1 (setTxBytes info (ToBytes (tx info))));
          destruct (runGroup trunk l e1) as [out entry']
      end.
      apply Htake.
      * unfold passedNonce, untagged in *. cbn [errorStr setTxBytes].
        rewrite Hu. reflexivity.
      * cbn. congruence.
      * cbn [addr2nonce setBalance setCtx setNonce setChanged setTotalGasFee].
        apply lookup_insert_eq.
Qed.

Lemma cells_omap_eq {A} (F : list A) (ps : list nat) (l : list A) :
  (fun p => F !! p) <$> ps = Some <$> l ->
  omap (fun p => F !! p) ps = l.
Proof.
  revert l. induction ps as [|p ps IH]; intros [|x l] Hcells;
    try discriminate; [reflexivity|].
  cbn in Hcells. injection Hcells as Hp Hrest.
  cbn. rewrite Hp. f_equal. exact (IH l Hrest).
Qed.

(** The infos of a sender are those behind the pointers of its group. *)
Lemma infosOf_group (sender : nat -> Address) (F : list preparedInfo) a :
  sendersAre sender (length F) F ->
  infosOf a F =
  omap (fun p => F !! p) (groupOf sender (seq 0 (length F)) a).
Proof.
  intros [_ Hs].
  assert (forall G k, (forall i, G !! i = F !! (k + i)%nat) ->
            omap (fun p => F !! p) (groupOf sender (seq k (length G)) a) =
            infosOf a G) as Hgen.
  { unfold groupOf, infosOf.
    induction G as [|x G IH]; intros k HG; [reflexivity|].
    cbn [length seq].
    pose proof (HG 0%nat) as Hhead. rewrite Nat.add_0_r in Hhead. cbn in Hhead.
    assert (TxToRun.From (tx x) = sender k) as Hx by (apply Hs; auto).
    assert (omap (fun p => F !! p)
              (filter (fun p => sender p = a) (seq (S k) (length G))) =
            filter (fun info => TxToRun.From (tx info) = a) G) as Hrest.
    { apply IH. intros i. etrans; [exact (HG (S i))|]. f_equal. lia. }
    destruct (decide (sender k = a)) as [Heq|Hne].
    - rewrite (filter_cons_True (fun p => sender p = a)) by exact Heq.
      rewrite filter_cons_True by congruence.
      cbn [omap list_omap]. rewrite <- Hhead. f_equal. exact Hrest.
    - rewrite (filter_cons_False (fun p => sender p = a)) by exact Hne.
      rewrite filter_cons_False by congruence. exact Hrest. }
  symmetry. apply Hgen. reflexivity.
Qed.

End NonceOrder.

Lemma filter_none {A} (P : A -> Prop) `{!forall x, Decision (P x)} (l : list A) :
  Forall (fun x => ~ P x) l -> filter P l = [].
Proof.
  induction 1 as [|x l Hx _ IH]; [reflexivity|].
  rewrite filter_cons_False by exact Hx. exact IH.
Qed.

Section NoncePhase.
Context `{Collaborators} `{RandSource}.
Variables (claim : nat -> nat) (e : txEngine) (trunk : Trunk).
Variables (seed minGasPrice maxTxGasLimit : Z).
Hypothesis workers : 0 < parallelNum e.

#[local] Abbreviation infos0 :=
  (parallelReadAccounts claim e trunk minGasPrice maxTxGasLimit).1.
#[local] Abbreviation ctxAA0 :=
  (parallelReadAccounts claim e trunk minGasPrice maxTxGasLimit).2.
#[local] Abbreviation a2i := (mapWorkers 0 ctxAA0 ∅).
#[local] Abbreviation a2p :=
  (reorderInfoList (senderOf infos0) (seq 0 (length infos0)) seed).2.
#[local] Abbreviation done :=
  (deductWorkers trunk a2i a2p 0 ctxAA0 infos0).

Lemma phase_infosOf a :
  infosOf a done.1 =
  (soloRun trunk (senderOf infos0) (length infos0) infos0 a).1.
Proof.
  destruct (canon_workers claim e trunk seed minGasPrice maxTxGasLimit workers)
    as (Hwf & _).
  pose proof (canon_infos_length claim e trunk seed minGasPrice maxTxGasLimit
                workers) as Hlen.
  rewrite (infosOf_group (senderOf infos0)) by (rewrite Hlen; exact Hwf).
  rewrite Hlen. apply cells_omap_eq.
  exact (canon_cells claim e trunk seed minGasPrice maxTxGasLimit workers a).
Qed.

Lemma phase_preload_tags a :
  Forall (fun info => passedNonce info = untagged info)
    (omap (fun p => infos0 !! p)
          (groupOf (senderOf infos0) (seq 0 (length infos0)) a)).
Proof.
  apply Forall_forall. intros info Hin.
  apply list_elem_of_omap in Hin as (p & _ & Hp).
  rewrite parallelReadAccounts_infos in Hp by exact workers.
  rewrite list_lookup_fmap in Hp.
  destruct (txList e !! p) as [gtx|]; [|discriminate].
  cbn in Hp. injection Hp as <-. apply classify_passed.
Qed.

(** The nonces of one sender that Prepare lets through, and the nonce the
    frontier then holds for the sender. *)
Lemma phase_nonces a :
  let n0 := acc_nonce (default ZeroAccountInfo (worldAccounts trunk !! a)) in
  let mine := filter (fun info => passedNonce info = true) (infosOf a done.1) in
  map (fun info => TxToRun.Nonce (tx info)) mine =
    map (fun j => bumped j n0) (seq 0 (length mine)) /\
  (mine <> [] ->
   Frontier.GetLatestNonce (NewFrontierWithCtxAA done.2 a2i) a =
   Ok (bumped (length mine) n0, true)).
Proof.
  cbn zeta. rewrite phase_infosOf.
  pose proof (runGroup_nonces trunk a
                (omap (fun p => infos0 !! p)
                      (groupOf (senderOf infos0) (seq 0 (length infos0)) a))
                (soloEntry trunk a)
                (acc_nonce (default ZeroAccountInfo (worldAccounts trunk !! a)))
                (group_senders (senderOf infos0) (length infos0) infos0 a
                   (canon_wf claim e trunk minGasPrice maxTxGasLimit))
                (phase_preload_tags a)) as Hrun.
  cbn zeta in Hrun. fold (soloRun trunk (senderOf infos0) (length infos0) infos0 a) in Hrun.
  destruct Hrun as [Hnonces Hlast].
  { cbn [soloEntry addr2nonce]. apply lookup_singleton_eq. }
  split; [exact Hnonces|]. intros Hmine.
  destruct (a2i !! a) as [k|] eqn:Hk.
  - destruct (canon_view claim e trunk seed minGasPrice maxTxGasLimit workers
                a k Hk) as (entry' & Hentry' & Hview).
    unfold senderView in Hview. injection Hview as Hnonce _ _.
    unfold NewFrontierWithCtxAA.
    cbn [Frontier.GetLatestNonce deref bindR Frontier.addr2nonce mapGet].
    rewrite map_lookup_imap, Hk. cbn [mbind option_bind].
    rewrite Hentry'. cbn [mbind option_bind].
    rewrite Hnonce, Hlast. reflexivity.
  - destruct Hmine.
    rewrite (canon_alone_unlisted claim e trunk minGasPrice maxTxGasLimit
               workers a Hk).
    cbn [fst]. apply filter_none.
    pose proof (phase_preload_tags a) as Htags.
    rewrite Forall_forall in Htags |- *. intros info Hin.
    rewrite (Htags info Hin).
    apply list_elem_of_omap in Hin as (p & Hp & Hinfo).
    rewrite (canon_unlisted claim e trunk minGasPrice maxTxGasLimit workers
               a p info Hk Hinfo); [discriminate|].
    apply elem_of_grp in Hp as [_ <-]. unfold senderOf. rewrite Hinfo.
    reflexivity.
Qed.

End NoncePhase.

Section NonceClaim.
Context `{Collaborators} `{RandSource}.

Lemma preparedInfos_length claim e trunk seed minGasPrice maxTxGasLimit :
  0 < parallelNum e ->
  length (preparedInfos claim e trunk seed minGasPrice maxTxGasLimit) =
  length (txList e).
Proof.
  intros Hpos. unfold preparedInfos. rewrite deductPhase_eq. cbn [fst snd].
  rewrite (canon_infos_length claim e trunk seed minGasPrice maxTxGasLimit Hpos).
  rewrite parallelReadAccounts_infos by exact Hpos. apply length_map.
Qed.

(** X18. Prepare lets the nonces of a sender through in sequence. Among the
    collected transactions of one sender, in the order they were collected,
    those that pass the nonce check (they are accepted, or rejected only
    because the balance does not cover the fee) carry the nonce of the
    sender's account and its successors, one after the other: a
    transaction rejected for its balance uses up a nonce like an accepted
    one. If there is such a transaction, the frontier holds for the sender
    the account's nonce plus their number. *)
Theorem Prepare_lets_nonces_through_in_sequence
        claim e seed minGasPrice maxTxGasLimit e' fr trunk a :
  Prepare claim e seed minGasPrice maxTxGasLimit = Ok (e', fr) ->
  cleanCtx e = Some trunk ->
  let n0 := acc_nonce (default ZeroAccountInfo (worldAccounts trunk !! a)) in
  0 <= n0 -> n0 + Z.of_nat (length (txList e)) < 2 ^ 64 ->
  let mine :=
    filter (fun info => passedNonce info = true)
           (infosOf a (preparedInfos claim e trunk seed minGasPrice maxTxGasLimit)) in
  map (fun info => TxToRun.Nonce (tx info)) mine =
    map (fun j => n0 + Z.of_nat j) (seq 0 (length mine)) /\
  (mine <> [] ->
   Frontier.GetLatestNonce fr a = Ok (n0 + Z.of_nat (length mine), true)).
Proof.
  intros Hrun Hctx n0 Hn0 Hsmall mine.
  destruct (Prepare_Ok_inv _ _ _ _ _ _ _ Hrun)
    as (trunk' & Hctx' & [(Hnil & _ & _) | (_ & Hpos & bz & q & _ & _ & ->)]).
  - assert (mine = []) as ->; [|split; [reflexivity|congruence]].
    subst mine. unfold preparedInfos, deductPhase, parallelReadAccounts.
    rewrite Hnil. cbn [readAccounts].
    destruct (reorderInfoList _ _ _) as [reordered a2p].
    generalize (mapWorkers 0 (replicate (Z.to_nat (parallelNum e)) newCtxAA) ∅).
    intros a2i.
    assert (forall todo idx,
              Forall (fun entry => accounts entry = []) todo ->
              (deductWorkers trunk a2i a2p idx todo []).1 = []) as Hidle.
    { induction todo as [|entry todo IH]; intros idx Hall; [reflexivity|].
      apply Forall_cons in Hall as [Hacc Hall]. cbn [deductWorkers].
      unfold deductWorker. cbn [snd]. rewrite Hacc. cbn [fold_left].
      specialize (IH (S idx) Hall).
      destruct (deductWorkers trunk a2i a2p (S idx) todo []) as [infos2 rest'].
      exact IH. }
    specialize (Hidle (replicate (Z.to_nat (parallelNum e)) newCtxAA) 0%nat).
    assert (Forall (fun entry => accounts entry = [])
                   (replicate (Z.to_nat (parallelNum e)) newCtxAA)) as Hnew
      by (apply Forall_replicate; reflexivity).
    specialize (Hidle Hnew).
    destruct (deductWorkers trunk a2i a2p 0
                (replicate (Z.to_nat (parallelNum e)) newCtxAA) [])
      as [infos ctxAA].
    cbn [fst snd] in Hidle |- *. rewrite Hidle. reflexivity.
  - assert (trunk' = trunk) as -> by congruence.
    pose proof (phase_nonces claim e trunk seed minGasPrice maxTxGasLimit Hpos a)
      as Hphase.
    cbn zeta in Hphase.
    pose proof (preparedInfos_length claim e trunk seed minGasPrice
                  maxTxGasLimit Hpos) as Hlen.
    unfold workerEntries. subst mine. unfold preparedInfos in *.
    rewrite !deductPhase_eq in *. cbn [fst snd] in *.
    destruct Hphase as [Hnonces Hfr].
    match goal with
    | |- context [filter ?P (infosOf a ?F)] =>
        assert (length (filter P (infosOf a F)) <= length (txList e))%nat as Hle
    end.
    { rewrite <- Hlen. unfold infosOf.
      etrans; [apply length_filter|apply length_filter]. }
    split.
    + rewrite Hnonces. apply map_ext_in. intros j Hj.
      apply in_seq in Hj. apply bumped_small; [exact Hn0|]. fold n0. lia.
    + intros Hmine. rewrite (Hfr Hmine). rewrite bumped_small; [reflexivity|exact Hn0|].
      fold n0. lia.
Qed.

End NonceClaim.

Lemma Prepare_lets_nonces_through_in_sequence_witness :
  exists e' fr,
    Prepare (fun i => i) prepEngine 42 1 DefaultTxGasLimit = Ok (e', fr) /\
    Frontier.GetLatestNonce fr demoA = Ok (1, true).
Proof.
  destruct (Prepare (fun i => i) prepEngine 42 1 DefaultTxGasLimit)
    as [[e' fr]|msg] eqn:Hrun; [|vm_compute in Hrun; discriminate].
  destruct (Prepare_lets_nonces_through_in_sequence
              (fun i => i) prepEngine 42 1 DefaultTxGasLimit e' fr prepTrunk demoA
              Hrun eq_refl) as [_ Hfr].
  - vm_compute. discriminate.
  - vm_compute. reflexivity.
  - exists e', fr. split; [reflexivity|]. rewrite Hfr.
    + vm_compute. reflexivity.
    + vm_compute. discriminate.
Defined.
